(** * Deferred creation and eviction of OpenGL textures

    A shallow embedding of the texture-eviction subsystem of
    [Engine/Source/RunTime/OpenGLDrv/Private/OpenGLTexture.cpp]:
    the eligibility predicates ([CanCreateAsEvicted], [CanBeEvicted]),
    the CPU-side shadow mip store ([FTextureEvictionParams]), the
    least-recently-used registry ([FTextureEvictionLRU]) with its per-frame
    tick, and the restore / evict / lock / unlock paths of [TOpenGLTexture].

    Conventions.
    - [uint32] and [int32] values are integers in [Z]; wrap-around is written
      out with [wrap_uint32] and [wrap_int32] where the source computes.
    - The build has checks enabled: [check], [checkf], [checkNoEntry] and
      the range check of [TArray::operator[]] abort, and are the [Err]
      results of the [result] monad. [ensure] only reports and execution
      continues.
    - A byte of memory is a [MemByte]: either initialised with a value or
      left uninitialised by [SetNumUninitialized] or a fresh buffer.
    - Statistics counters ([GTotalEvictedMipMemStored] and the like), debug
      labels and logging do not influence control flow and are left out.
    - The textures of the model are single-sample 2D textures:
      [GetNumSamples()] and [GetNumSamplesTileMem()] are [1], as
      [CreateOpenGLRHITextureOnly] makes them for [NumSamples = 1]. *)

From Stdlib Require Import ZArith Lia Bool.
From Stdlib Require Import Init.Byte.
From Stdlib Require Strings.Byte.
From stdpp Require Import base option list gmap.

Local Open Scope Z_scope.

(* ===================================================================== *)
(** ** Machine integers                                                    *)
(* ===================================================================== *)

Definition wrap_uint32 (z : Z) : Z := z mod 2 ^ 32.

Definition wrap_int32 (z : Z) : Z := (z + 2 ^ 31) mod 2 ^ 32 - 2 ^ 31.

(* ===================================================================== *)
(** ** Faults and the result monad                                         *)
(* ===================================================================== *)

Inductive Fault : Type :=
  | CheckFailed      (* check / checkf whose condition is false *)
  | NoEntry          (* checkNoEntry reached *)
  | RangeCheck       (* TArray index out of range *)
  | NullDeref        (* dereference of an invalid TUniquePtr / TRefCountPtr *)
  | BadMemcpy        (* Memcpy reading or writing past the end of a buffer *)
  | BadRead          (* read through a raw pointer past the end of a buffer *)
  | FatalLog         (* UE_LOG with verbosity Fatal *)
  | OutOfFuel.       (* a loop of the model ran out of its iteration bound *)

Inductive result (A : Type) : Type :=
  | Ok (a : A)
  | Err (f : Fault).

Arguments Ok {A} a.
Arguments Err {A} f.

Definition rbind {A B : Type} (m : result A) (k : A -> result B) : result B :=
  match m with
  | Ok a => k a
  | Err f => Err f
  end.

Definition check (b : bool) : result unit :=
  if b then Ok tt else Err CheckFailed.

Definition deref {A : Type} (p : option A) : result A :=
  match p with
  | Some a => Ok a
  | None => Err NullDeref
  end.

Definition index {A : Type} (l : list A) (i : nat) : result A :=
  match l !! i with
  | Some a => Ok a
  | None => Err RangeCheck
  end.

(** [TArray::operator[]] with a signed index. *)
Definition indexZ {A : Type} (l : list A) (i : Z) : result A :=
  if i <? 0 then Err RangeCheck else index l (Z.to_nat i).

Declare Scope result_scope.
Delimit Scope result_scope with result.
Notation "x <- m ;; k" := (rbind m (fun x => k))
  (at level 100, m at next level, right associativity) : result_scope.
Notation "m ;;; k" := (rbind m (fun _ => k))
  (at level 100, right associativity) : result_scope.
Local Open Scope result_scope.

(* ===================================================================== *)
(** ** Memory bytes                                                        *)
(* ===================================================================== *)

Inductive MemByte : Type :=
  | Uninit
  | Init (b : byte).

Abbreviation Buffer := (list MemByte).

(** [FMemory::Memcpy(Dest, Src, Count)] where [Dest] and [Src] are the
    buffers the two pointers address from their first byte: the first [Count]
    bytes of the destination are replaced by those of the source. Reading or
    writing past the end of either buffer is a fault. *)
Definition Memcpy (Dest Src : Buffer) (Count : nat) : result Buffer :=
  if (Count <=? length Src)%nat && (Count <=? length Dest)%nat
  then Ok (take Count Src ++ drop Count Dest)
  else Err BadMemcpy.

(* ===================================================================== *)
(** ** Texture creation flags and configuration                            *)
(* ===================================================================== *)

(** The enumerators of [ETextureCreateFlags] this file names. Their values
    are declared in the RHI headers; the code only relies on them being bit
    masks. *)
Record ETextureCreateFlags : Type := {
  TexCreate_RenderTargetable : Z;
  TexCreate_ResolveTargetable : Z;
  TexCreate_DepthStencilTargetable : Z;
  TexCreate_ShaderResource : Z;
  TexCreate_SRGB : Z;
  TexCreate_CPUReadback : Z;
  TexCreate_OfflineProcessed : Z;
  TexCreate_Streamable : Z;
  TexCreate_Transient : Z
}.

(** The values of these enumerators in the engine's RHI header, which is not
    part of this source file. *)
Definition RHIFlags : ETextureCreateFlags := {|
  TexCreate_RenderTargetable := Z.shiftl 1 0;
  TexCreate_ResolveTargetable := Z.shiftl 1 1;
  TexCreate_DepthStencilTargetable := Z.shiftl 1 2;
  TexCreate_ShaderResource := Z.shiftl 1 3;
  TexCreate_SRGB := Z.shiftl 1 4;
  TexCreate_CPUReadback := Z.shiftl 1 18;
  TexCreate_OfflineProcessed := Z.shiftl 1 19;
  TexCreate_Streamable := Z.shiftl 1 27;
  TexCreate_Transient := Z.shiftl 1 31
|}.

(** The flags the default exclusion mask leaves out. *)
Definition DeferrableFlags (F : ETextureCreateFlags) : Z :=
  Z.lor (TexCreate_ShaderResource F)
    (Z.lor (TexCreate_SRGB F)
       (Z.lor (TexCreate_Transient F)
          (Z.lor (TexCreate_Streamable F) (TexCreate_OfflineProcessed F)))).

(** Default of [r.OpenGL.DeferTextureCreationExcludeFlags]:
    [~(ShaderResource | SRGB | Transient | Streamable | OfflineProcessed)]
    stored in an [int32] console variable. *)
Definition DefaultExcludeMask (F : ETextureCreateFlags) : Z :=
  wrap_int32 (Z.lnot (DeferrableFlags F)).

(** The enumerators of [EPixelFormat] this file names; their values are
    declared in the engine's pixel-format header, and the code only compares
    a format with them. *)
Record EPixelFormat : Type := {
  PF_FloatRGBA : Z;
  PF_DepthStencil : Z;
  PF_ShadowDepth : Z;
  PF_D24 : Z
}.

(** The values of these enumerators in the engine's header, which is not
    part of this source file. *)
Definition RHIPixelFormats : EPixelFormat := {|
  PF_FloatRGBA := 10;
  PF_DepthStencil := 11;
  PF_ShadowDepth := 12;
  PF_D24 := 20
|}.

Definition GL_NONE : Z := 0.
Definition GL_TEXTURE_2D : Z := 0x0DE1.
Definition GL_UNSIGNED_BYTE : Z := 0x1401.
Definition GL_COLOR_ATTACHMENT0 : Z := 0x8CE0.
Definition GL_DEPTH_ATTACHMENT : Z := 0x8D00.
Definition GL_DEPTH_STENCIL_ATTACHMENT : Z := 0x821A.

(** Console variables, platform capabilities, driver limits and engine
    constants read by the code. *)
Record FEnv : Type := {
  TexCreate : ETextureCreateFlags;
  PF : EPixelFormat;
  (* PLATFORM_ANDROID && !PLATFORM_LUMINGL4 *)
  bPlatformAndroid : bool;
  (* r.OpenGL.DeferTextureCreation *)
  CVarDeferTextureCreation : Z;
  (* Android only: the [DeferOpenGLTextureCreation] config rule, when set *)
  ConfigRulesCanDeferTextureCreation : option bool;
  (* r.OpenGL.DeferTextureCreationExcludeFlags *)
  CVarDeferTextureCreationExcludeMask : Z;
  (* r.OpenGL.DeferTextureCreationKeepLowerMipCount *)
  GOGLDeferTextureCreationKeepLowerMipCount : Z;
  (* r.OpenGL.TextureEvictionFrameCount *)
  GOGLTextureEvictFramesToLive : Z;
  (* r.OpenGL.TextureEvictsPerFrame *)
  GOGLTexturesToEvictPerFrame : Z;
  (* FOpenGL::SupportsCopyImage() *)
  SupportsCopyImage : bool;
  (* FOpenGL::SupportsTexture3D() *)
  SupportsTexture3D : bool;
  (* GMaxOpenGLColorSamples and GMaxOpenGLDepthSamples *)
  GMaxOpenGLColorSamples : Z;
  GMaxOpenGLDepthSamples : Z;
  (* The texture name that FOpenGL::GenTextures(1, &TextureID) stores. The
     driver state that makes successive names differ is not modelled: the
     code of this file never compares two names, it only tests a name
     against 0. *)
  GenTextures : Z;
  (* What the conversion of a float to int32 yields on this platform when
     the float is a NaN, an infinity or out of the range of int32, as a
     function of the float's bit pattern. *)
  InvalidFloatToInt32 : Z -> Z;
  (* UTexture::GetStaticMinTextureResidentMipCount() *)
  StaticMinTextureResidentMipCount : Z;
  (* TextureLRU.Max(): the fixed capacity of the LRU container *)
  LRUMax : nat
}.

(** The configuration with every console variable at its default, on a
    platform other than Android whose driver supports 3D textures, admits one
    sample per texel and hands out the texture name [1]. *)
Definition DefaultEnv (deferral : Z) (copyImage : bool) (residentMips : Z)
    (lruMax : nat) : FEnv := {|
  TexCreate := RHIFlags;
  PF := RHIPixelFormats;
  bPlatformAndroid := false;
  CVarDeferTextureCreation := deferral;
  ConfigRulesCanDeferTextureCreation := None;
  CVarDeferTextureCreationExcludeMask := DefaultExcludeMask RHIFlags;
  GOGLDeferTextureCreationKeepLowerMipCount := -1;
  GOGLTextureEvictFramesToLive := 500;
  GOGLTexturesToEvictPerFrame := 10;
  SupportsCopyImage := copyImage;
  SupportsTexture3D := true;
  GMaxOpenGLColorSamples := 1;
  GMaxOpenGLDepthSamples := 1;
  GenTextures := 1;
  InvalidFloatToInt32 := fun _ => - 2 ^ 31;
  StaticMinTextureResidentMipCount := residentMips;
  LRUMax := lruMax
|}.

(* ===================================================================== *)
(** ** The shadow mip store: FTextureEvictionParams                        *)
(* ===================================================================== *)

(** [FSetElementId]: the default-constructed id is invalid; a valid id names
    the registry entry of one texture, identified by the texture's address. *)
Abbreviation FSetElementId := (option positive).

Definition IsValidId (id : FSetElementId) : bool :=
  match id with Some _ => true | None => false end.

Record FTextureEvictionParams : Type := {
  MipImageData : list Buffer;
  bHasRestored : bool;
  FrameLastRendered : Z;
  LRUNode : FSetElementId
}.

Definition set_MipImageData (P : FTextureEvictionParams) (m : list Buffer) :=
  {| MipImageData := m; bHasRestored := bHasRestored P;
     FrameLastRendered := FrameLastRendered P; LRUNode := LRUNode P |}.

Definition set_bHasRestored (P : FTextureEvictionParams) (b : bool) :=
  {| MipImageData := MipImageData P; bHasRestored := b;
     FrameLastRendered := FrameLastRendered P; LRUNode := LRUNode P |}.

Definition set_FrameLastRendered (P : FTextureEvictionParams) (f : Z) :=
  {| MipImageData := MipImageData P; bHasRestored := bHasRestored P;
     FrameLastRendered := f; LRUNode := LRUNode P |}.

Definition set_LRUNode (P : FTextureEvictionParams) (n : FSetElementId) :=
  {| MipImageData := MipImageData P; bHasRestored := bHasRestored P;
     FrameLastRendered := FrameLastRendered P; LRUNode := n |}.

(** [FTextureEvictionParams::FTextureEvictionParams(NumMips)] *)
Definition NewEvictionParams (NumMips : nat) : FTextureEvictionParams :=
  {| MipImageData := replicate NumMips [];
     bHasRestored := false;
     FrameLastRendered := 0;
     LRUNode := None |}.

(** [FTextureEvictionParams::SetMipData(MipIndex, Data, Bytes)].
    [Data] is [None] for a null pointer, else the memory it points to. *)
Definition SetMipData (P : FTextureEvictionParams) (MipIndex : nat)
    (Data : option Buffer) (Bytes : nat) : result FTextureEvictionParams :=
  check (negb (Bytes =? 0)%nat) ;;;
  slot <- index (MipImageData P) MipIndex ;;
  (if negb (length slot =? 0)%nat then Err NoEntry else Ok tt) ;;;
  let fresh := replicate Bytes Uninit in
  filled <- match Data with
            | Some src => Memcpy fresh src Bytes
            | None => Ok fresh
            end ;;
  Ok (set_MipImageData P (<[MipIndex := filled]> (MipImageData P))).

(** The loop of [ReleaseMipData]: [i] runs from [n - 1] down to [0]. *)
Fixpoint ReleaseMipData_loop (n : nat) (mips : list Buffer)
    : result (list Buffer) :=
  match n with
  | O => Ok mips
  | S i =>
      index mips i ;;;
      ReleaseMipData_loop i (<[i := []]> mips)
  end.

(** [FTextureEvictionParams::ReleaseMipData(RetainMips)]. The loop variable
    is an [int] initialised with [MipImageData.Num() - 1 - RetainMips],
    computed in [uint32]. *)
Definition ReleaseMipData (P : FTextureEvictionParams) (RetainMips : Z)
    : result FTextureEvictionParams :=
  let i0 := wrap_int32 (wrap_uint32 (Z.of_nat (length (MipImageData P)) - 1 - RetainMips)) in
  mips <- ReleaseMipData_loop (Z.to_nat (i0 + 1)) (MipImageData P) ;;
  Ok (set_MipImageData P (if RetainMips =? 0 then [] else mips)).

(** Modelled from the spec: [FTextureEvictionParams::AreAllMipsPresent] is
    declared in a header that is not part of this source file. Section 4.2:
    "true iff every slot holds non-empty data". *)
Definition AreAllMipsPresent (P : FTextureEvictionParams) : bool :=
  forallb (fun mip => negb (length mip =? 0)%nat) (MipImageData P).

(** [FTextureEvictionParams::CloneMipData(Src, InNumMips, SrcOffset, DstOffset)].
    [MipIndex] counts up from [0] while [MipIndex < MaxMip]. *)
Fixpoint CloneMipData_loop (n : nat) (MipIndex : Z) (src dst : list Buffer)
    (SrcOffset DstOffset : Z) : result (list Buffer) :=
  match n with
  | O => Ok dst
  | S n' =>
      slot <- indexZ dst (MipIndex + DstOffset) ;;
      (if negb (length slot =? 0)%nat then Err NoEntry else Ok tt) ;;;
      from <- indexZ src (MipIndex + SrcOffset) ;;
      CloneMipData_loop n' (MipIndex + 1) src
        (<[Z.to_nat (MipIndex + DstOffset) := from]> dst) SrcOffset DstOffset
  end.

Definition CloneMipData (P Src : FTextureEvictionParams) (InNumMips : Z)
    (SrcOffset DstOffset : Z) : result FTextureEvictionParams :=
  let MaxMip := Z.min (wrap_int32 InNumMips)
                  (Z.of_nat (length (MipImageData Src)) - SrcOffset) in
  mips <- CloneMipData_loop (Z.to_nat MaxMip) 0 (MipImageData Src)
            (MipImageData P) SrcOffset DstOffset ;;
  Ok (set_MipImageData P mips).

(* ===================================================================== *)
(** ** Textures                                                            *)
(* ===================================================================== *)

(** The texture's pixel format: its [EPixelFormat] value ([GetFormat()]) and
    the entries of [GPixelFormats] and [GOpenGLTextureFormats] for it. *)
Record FPixelFormatInfo : Type := {
  PixelFormatEnum : Z;                (* GetFormat() *)
  BlockSizeX : Z;
  BlockSizeY : Z;
  BlockBytes : Z;
  bCompressed : bool;
  InternalFormat0 : Z;                (* GLFormat.InternalFormat[0] *)
  InternalFormat1 : Z;                (* GLFormat.InternalFormat[1] *)
  GLType : Z                          (* GLFormat.Type *)
}.

(** [GLFormat.InternalFormat[bSRGB]] *)
Definition InternalFormat (F : FPixelFormatInfo) (bSRGB : bool) : Z :=
  if bSRGB then InternalFormat1 F else InternalFormat0 F.

(** [FOpenGLPixelBuffer]: the staging buffer of one mip of one slice. *)
Record FOpenGLPixelBuffer : Type := {
  PBOSize : Z;
  PBOData : Buffer;
  bIsLocked : bool;
  bIsLockReadOnly : bool
}.

Inductive EResourceLockMode : Type :=
  | RLM_ReadOnly
  | RLM_WriteOnly.

Definition LockMode_eqb (a b : EResourceLockMode) : bool :=
  match a, b with
  | RLM_ReadOnly, RLM_ReadOnly | RLM_WriteOnly, RLM_WriteOnly => true
  | _, _ => false
  end.

(** What the pointer returned by [Lock] addresses. *)
Inductive LockedPtr : Type :=
  | ShadowMipPtr (MipIndex : nat)      (* MipImageData[MipIndex].GetData() *)
  | PixelBufferPtr (BufferIndex : nat). (* the mapped memory of a pixel buffer *)

(** [TOpenGLTexture]. [Resource] is the texture's GL name
    ([GetRawResourceName()]). [GLStorage] is the driver-side image storage
    behind [Resource]: [None] while the texture only has a name, otherwise
    the content of each image, indexed like [PixelBuffers]. *)
Record FOpenGLTexture : Type := {
  Resource : Z;
  Flags : Z;
  Target : Z;
  bIsTexture2D : bool;                (* GetTexture2D() != nullptr *)
  bCubemap : bool;
  SizeX : Z;
  SizeY : Z;
  SizeZ : Z;
  EffectiveSizeZ : Z;                 (* GetEffectiveSizeZ() *)
  NumMips : nat;
  PixelFormat : FPixelFormatInfo;
  bIsAliased : bool;                  (* IsAliased() *)
  EvictionParamsPtr : option FTextureEvictionParams;
  GLStorage : option (list Buffer);
  PixelBuffers : list (option FOpenGLPixelBuffer)
}.

Definition set_EvictionParamsPtr (t : FOpenGLTexture)
    (p : option FTextureEvictionParams) : FOpenGLTexture :=
  {| Resource := Resource t;
     Flags := Flags t; Target := Target t; bIsTexture2D := bIsTexture2D t;
     bCubemap := bCubemap t; SizeX := SizeX t; SizeY := SizeY t;
     SizeZ := SizeZ t; EffectiveSizeZ := EffectiveSizeZ t;
     NumMips := NumMips t; PixelFormat := PixelFormat t;
     bIsAliased := bIsAliased t; EvictionParamsPtr := p;
     GLStorage := GLStorage t; PixelBuffers := PixelBuffers t |}.

Definition set_GLStorage (t : FOpenGLTexture) (s : option (list Buffer))
    : FOpenGLTexture :=
  {| Resource := Resource t;
     Flags := Flags t; Target := Target t; bIsTexture2D := bIsTexture2D t;
     bCubemap := bCubemap t; SizeX := SizeX t; SizeY := SizeY t;
     SizeZ := SizeZ t; EffectiveSizeZ := EffectiveSizeZ t;
     NumMips := NumMips t; PixelFormat := PixelFormat t;
     bIsAliased := bIsAliased t; EvictionParamsPtr := EvictionParamsPtr t;
     GLStorage := s; PixelBuffers := PixelBuffers t |}.

Definition set_PixelBuffers (t : FOpenGLTexture)
    (b : list (option FOpenGLPixelBuffer)) : FOpenGLTexture :=
  {| Resource := Resource t;
     Flags := Flags t; Target := Target t; bIsTexture2D := bIsTexture2D t;
     bCubemap := bCubemap t; SizeX := SizeX t; SizeY := SizeY t;
     SizeZ := SizeZ t; EffectiveSizeZ := EffectiveSizeZ t;
     NumMips := NumMips t; PixelFormat := PixelFormat t;
     bIsAliased := bIsAliased t; EvictionParamsPtr := EvictionParamsPtr t;
     GLStorage := GLStorage t; PixelBuffers := b |}.

(** [SetResource(InResource)] *)
Definition set_Resource (t : FOpenGLTexture) (r : Z) : FOpenGLTexture :=
  {| Resource := r;
     Flags := Flags t; Target := Target t; bIsTexture2D := bIsTexture2D t;
     bCubemap := bCubemap t; SizeX := SizeX t; SizeY := SizeY t;
     SizeZ := SizeZ t; EffectiveSizeZ := EffectiveSizeZ t;
     NumMips := NumMips t; PixelFormat := PixelFormat t;
     bIsAliased := bIsAliased t; EvictionParamsPtr := EvictionParamsPtr t;
     GLStorage := GLStorage t; PixelBuffers := PixelBuffers t |}.

(** [SetAliased(bInAliased)] *)
Definition SetAliased (t : FOpenGLTexture) (bInAliased : bool) : FOpenGLTexture :=
  {| Resource := Resource t;
     Flags := Flags t; Target := Target t; bIsTexture2D := bIsTexture2D t;
     bCubemap := bCubemap t; SizeX := SizeX t; SizeY := SizeY t;
     SizeZ := SizeZ t; EffectiveSizeZ := EffectiveSizeZ t;
     NumMips := NumMips t; PixelFormat := PixelFormat t;
     bIsAliased := bInAliased; EvictionParamsPtr := EvictionParamsPtr t;
     GLStorage := GLStorage t; PixelBuffers := PixelBuffers t |}.

(** Modelled from the spec: [IsEvicted] is declared in a header that is not
    part of this source file. Section 3 and the glossary: the texture has an
    eviction state and no GPU storage currently exists for it
    ([hasMaterialized] is false). *)
Definition IsEvicted (t : FOpenGLTexture) : bool :=
  match EvictionParamsPtr t with
  | Some P => negb (bHasRestored P)
  | None => false
  end.

(* ===================================================================== *)
(** ** Eligibility                                                         *)
(* ===================================================================== *)

(** [CanDeferTextureCreation()] *)
Definition CanDeferTextureCreation (E : FEnv) : bool :=
  let bCanDeferTextureCreation := negb (CVarDeferTextureCreation E =? 0) in
  match ConfigRulesCanDeferTextureCreation E with
  | Some b => b
  | None => bCanDeferTextureCreation
  end.

(** [TOpenGLTexture::CanCreateAsEvicted()] *)
Definition CanCreateAsEvicted (E : FEnv) (t : FOpenGLTexture) : bool :=
  CanDeferTextureCreation E
  && SupportsCopyImage E
  && negb (Flags t =? 0)
  && (Z.land (CVarDeferTextureCreationExcludeMask E) (Flags t) =? 0)
  && (Target t =? GL_TEXTURE_2D)
  && bIsTexture2D t.

(** [TOpenGLTexture::CanBeEvicted()] *)
Definition CanBeEvicted (E : FEnv) (t : FOpenGLTexture) : result bool :=
  check (negb (CanCreateAsEvicted E t) || bool_decide (is_Some (EvictionParamsPtr t))) ;;;
  (if CanCreateAsEvicted E t && bIsAliased t
   then P <- deref (EvictionParamsPtr t) ;;
        check ((length (MipImageData P) =? 0)%nat
               && negb (length (MipImageData P) =? NumMips t)%nat)
   else Ok tt) ;;;
  if CanCreateAsEvicted E t
  then P <- deref (EvictionParamsPtr t) ;;
       Ok ((length (MipImageData P) =? NumMips t)%nat && AreAllMipsPresent P)
  else Ok false.


(* ===================================================================== *)
(** ** Half-float conversion                                               *)
(* ===================================================================== *)

(** The loop of [HalfFloatToFloatInteger] that renormalises a denormalised
    half, on [uint32] variables:
    [while ((Mantiss & 0x00000400) == 0) { Mantiss <<= 1; Exponent -= 1; }].
    [fuel] bounds the number of times the loop condition is tested. *)
Fixpoint Renormalize (fuel : nat) (Mantiss Exponent : Z) : option (Z * Z) :=
  match fuel with
  | O => None
  | S fuel' =>
      if Z.land Mantiss 0x00000400 =? 0
      then Renormalize fuel' (wrap_uint32 (Z.shiftl Mantiss 1))
             (wrap_uint32 (Exponent - 1))
      else Some (Mantiss, Exponent)
  end.

(** The tail of [HalfFloatToFloatInteger]: the exponent is re-biased and the
    three fields are packed. *)
Definition PackFloat (Sign Exponent Mantiss : Z) : Z :=
  let Exponent := wrap_uint32 (Exponent + (127 - 15)) in
  let Mantiss := wrap_uint32 (Z.shiftl Mantiss 13) in
  Z.lor (Z.lor (wrap_uint32 (Z.shiftl Sign 31)) (wrap_uint32 (Z.shiftl Exponent 23)))
        Mantiss.

(** [HalfFloatToFloatInteger(uint16 HalfFloat)]: the bit pattern of the
    [float] with the value of the half. *)
Definition HalfFloatToFloatInteger (fuel : nat) (HalfFloat : Z) : option Z :=
  let Sign := Z.land (Z.shiftr HalfFloat 15) 0x00000001 in
  let Exponent := Z.land (Z.shiftr HalfFloat 10) 0x0000001f in
  let Mantiss := Z.land HalfFloat 0x000003ff in
  if Exponent =? 0 then
    if Mantiss =? 0 then
      (* Plus or minus zero *)
      Some (wrap_uint32 (Z.shiftl Sign 31))
    else
      (* Denormalized number -- renormalize it *)
      match Renormalize fuel Mantiss Exponent with
      | Some (Mantiss, Exponent) =>
          let Exponent := wrap_uint32 (Exponent + 1) in
          let Mantiss := Z.land Mantiss (wrap_uint32 (Z.lnot 0x00000400)) in
          Some (PackFloat Sign Exponent Mantiss)
      | None => None
      end
  else if Exponent =? 31 then
    if Mantiss =? 0 then
      (* Inf *)
      Some (Z.lor (wrap_uint32 (Z.shiftl Sign 31)) 0x7f800000)
    else
      (* NaN *)
      Some (Z.lor (Z.lor (wrap_uint32 (Z.shiftl Sign 31)) 0x7f800000)
                  (wrap_uint32 (Z.shiftl Mantiss 13)))
  else Some (PackFloat Sign Exponent Mantiss).

(* ===================================================================== *)
(** ** Single-precision arithmetic                                         *)
(* ===================================================================== *)

(** A [float] is its IEEE 754 binary32 bit pattern: sign bit, eight
    exponent bits, twenty-three mantissa bits. *)
Definition FloatSignBit (f : Z) : Z := Z.land (Z.shiftr f 31) 1.
Definition FloatExponent (f : Z) : Z := Z.land (Z.shiftr f 23) 0xff.
Definition FloatMantissa (f : Z) : Z := Z.land f 0x7fffff.

(** A finite [float] denotes [FloatSignificand * 2 ^ FloatScale], negated
    when the sign bit is set. *)
Definition FloatSignificand (f : Z) : Z :=
  if FloatExponent f =? 0 then FloatMantissa f else 2 ^ 23 + FloatMantissa f.

Definition FloatScale (f : Z) : Z :=
  (if FloatExponent f =? 0 then 1 else FloatExponent f) - 150.

(** [N / 2 ^ k] rounded to the nearest integer, ties to even; exact when
    [k <= 0]. *)
Definition RoundShift (N k : Z) : Z :=
  if k <=? 0 then N * 2 ^ (- k)
  else
    let q := N / 2 ^ k in
    let r := N mod 2 ^ k in
    let half := 2 ^ (k - 1) in
    if r <? half then q
    else if half <? r then q + 1
    else if Z.even q then q else q + 1.

(** The [float] nearest to [N * 2 ^ s] (ties to even) with sign bit [Sign],
    for [0 <= N]: the last place of the result has exponent [q], which is
    [-149] for a denormalised result; a result past the largest finite
    [float] is an infinity. *)
Definition RoundToFloat (Sign N s : Z) : Z :=
  if N =? 0 then Z.shiftl Sign 31
  else
    let q := Z.max (Z.log2 N + s - 23) (-149) in
    let R := RoundShift N (q - s) in
    let q := if R =? 2 ^ 24 then q + 1 else q in
    let R := if R =? 2 ^ 24 then 2 ^ 23 else R in
    if R <? 2 ^ 23 then Z.lor (Z.shiftl Sign 31) R
    else if 104 <? q then Z.lor (Z.shiftl Sign 31) 0x7f800000
    else Z.lor (Z.shiftl Sign 31) (Z.lor (Z.shiftl (q + 150) 23) (R - 2 ^ 23)).

(** The product of two [float]s under the default rounding mode. A NaN
    operand gives that NaN, quieted; an infinity times zero gives the default
    NaN. *)
Definition FloatMul (a b : Z) : Z :=
  let Sign := Z.lxor (FloatSignBit a) (FloatSignBit b) in
  let IsNaN f := (FloatExponent f =? 255) && negb (FloatMantissa f =? 0) in
  let IsInf f := (FloatExponent f =? 255) && (FloatMantissa f =? 0) in
  let IsZero f := (FloatExponent f =? 0) && (FloatMantissa f =? 0) in
  if IsNaN a then Z.lor a 0x00400000
  else if IsNaN b then Z.lor b 0x00400000
  else if IsInf a || IsInf b then
    if IsZero a || IsZero b then 0x7fc00000
    else Z.lor (Z.shiftl Sign 31) 0x7f800000
  else RoundToFloat Sign (FloatSignificand a * FloatSignificand b)
         (FloatScale a + FloatScale b).

(** [255.0f] *)
Definition Float255 : Z := 0x437f0000.

(** [(int32)f] for a [float] [f]: the value truncated towards zero. The
    conversion of a NaN, an infinity or a value outside [int32] is left to
    the platform. *)
Definition FloatToInt32 (E : FEnv) (f : Z) : Z :=
  let Truncated :=
    if 0 <=? FloatScale f
    then FloatSignificand f * 2 ^ FloatScale f
    else FloatSignificand f / 2 ^ (- FloatScale f) in
  let Value := if FloatSignBit f =? 1 then - Truncated else Truncated in
  if (FloatExponent f =? 255) || (Value <? - 2 ^ 31) || (2 ^ 31 <=? Value)
  then wrap_int32 (InvalidFloatToInt32 E f)
  else Value.

(** [HalfFloatToFloat(uint16 HalfFloat)]: the [float] with the bit pattern
    that [HalfFloatToFloatInteger] returns. Its loop tests its condition at
    most eleven times for a [uint16] value; the model allows sixteen. *)
Definition HalfFloatToFloat (HalfFloat : Z) : option Z :=
  HalfFloatToFloatInteger 16 HalfFloat.

(** The body of the conversion loop of [Unlock]:
    [int32 pixelValue = (int32)(HalfFloatToFloat( *floatData++ ) * 255.0f);]
    [*outPtr++ = (uint8)(pixelValue < 0 ? 0 : (pixelValue < 256 ? pixelValue : 255));] *)
Definition ConvertHalfToByte (E : FEnv) (HalfFloat : Z) : result Z :=
  match HalfFloatToFloat HalfFloat with
  | Some f =>
      let pixelValue := FloatToInt32 E (FloatMul f Float255) in
      Ok (if pixelValue <? 0 then 0
          else if pixelValue <? 256 then pixelValue else 255)
  | None => Err OutOfFuel
  end.

Definition ByteValue (b : byte) : Z := Z.of_N (Strings.Byte.to_N b).

Definition ByteOf (z : Z) : byte := default x00 (Strings.Byte.of_N (Z.to_N z)).

(** The conversion loop of [Unlock], [while (nValues--)]: every iteration
    reads one [uint16] (two bytes, the low byte first) through [floatData]
    and appends one byte to [rgbaData]. A value read from uninitialised
    memory gives a byte that is as undetermined; reading past the end of the
    staging buffer is a fault. *)
Fixpoint ConvertFloatRGBA_loop (E : FEnv) (nValues : nat) (floatData : Buffer)
    : result Buffer :=
  match nValues with
  | O => Ok []
  | S nValues' =>
      match floatData with
      | lo :: hi :: floatData' =>
          out <- match lo, hi with
                 | Init l, Init h =>
                     v <- ConvertHalfToByte E (ByteValue l + 256 * ByteValue h) ;;
                     Ok (Init (ByteOf v))
                 | _, _ => Ok Uninit
                 end ;;
          rgbaData <- ConvertFloatRGBA_loop E nValues' floatData' ;;
          Ok (out :: rgbaData)
      | _ => Err BadRead
      end
  end.

(* ===================================================================== *)
(** ** Lock, Unlock and the staging buffers                                *)
(* ===================================================================== *)

Definition HasFlag (t : FOpenGLTexture) (flag : Z) : bool :=
  negb (Z.land (Flags t) flag =? 0).

(** [TOpenGLTexture::GetLockSize]: the byte size of a mip and its stride. *)
Definition GetLockSize (t : FOpenGLTexture) (InMipIndex : nat) : Z * Z :=
  let F := PixelFormat t in
  let MipSizeX := Z.max (Z.shiftr (SizeX t) (Z.of_nat InMipIndex)) (BlockSizeX F) in
  let MipSizeY := Z.max (Z.shiftr (SizeY t) (Z.of_nat InMipIndex)) (BlockSizeY F) in
  let NumBlocksX := wrap_uint32 (MipSizeX + BlockSizeX F - 1) / BlockSizeX F in
  let NumBlocksY := wrap_uint32 (MipSizeY + BlockSizeY F - 1) / BlockSizeY F in
  let MipBytes := wrap_uint32 (NumBlocksX * NumBlocksY * BlockBytes F) in
  let DestStride := wrap_uint32 (NumBlocksX * BlockBytes F) in
  (MipBytes, DestStride).

(** [InMipIndex * (bCubemap ? 6 : 1) * GetEffectiveSizeZ() + ArrayIndex],
    computed in [uint32] and stored in an [int32]. *)
Definition BufferIndexOf (t : FOpenGLTexture) (MipIndex ArrayIndex : nat) : Z :=
  wrap_int32 (wrap_uint32 (Z.of_nat MipIndex * (if bCubemap t then 6 else 1)
                           * EffectiveSizeZ t + Z.of_nat ArrayIndex)).

(** Modelled from the spec: the class [FOpenGLPixelBuffer] is not part of
    this source file. Section 4.5: while in real storage, lock and unlock
    "operate through a staging buffer uploaded to GPU storage".
    [new FOpenGLPixelBuffer(0, Size, BUF_Dynamic)] is a staging buffer whose
    content is not initialised. *)
Definition NewPixelBuffer (Size : Z) : FOpenGLPixelBuffer :=
  {| PBOSize := Size; PBOData := replicate (Z.to_nat Size) Uninit;
     bIsLocked := false; bIsLockReadOnly := false |}.

(** Modelled from the spec: [FOpenGLPixelBuffer::Lock(0, Size, bReadOnly,
    bDiscard)] of the same class maps the whole staging buffer; a discarding
    map leaves its content undefined. *)
Definition PixelBuffer_Lock (pb : FOpenGLPixelBuffer) (bReadOnly bDiscard : bool)
    : FOpenGLPixelBuffer :=
  {| PBOSize := PBOSize pb;
     PBOData := if bDiscard then replicate (Z.to_nat (PBOSize pb)) Uninit
                else PBOData pb;
     bIsLocked := true; bIsLockReadOnly := bReadOnly |}.

(** Modelled from the spec: [FOpenGLPixelBuffer::Unlock()] of the same
    class ends the mapping. *)
Definition PixelBuffer_Unlock (pb : FOpenGLPixelBuffer) : FOpenGLPixelBuffer :=
  {| PBOSize := PBOSize pb; PBOData := PBOData pb;
     bIsLocked := false; bIsLockReadOnly := bIsLockReadOnly pb |}.

(** The bytes [src] written over the start of [dest], as the driver does when
    it transfers an image into a pixel pack buffer at offset [0]. *)
Definition OverwritePrefix (dest src : Buffer) : Buffer :=
  take (length dest) (src ++ drop (length src) dest).

(** [TOpenGLTexture::Resolve]: transfers the image from the driver's storage
    into the staging buffer of that mip. *)
Definition Resolve (t : FOpenGLTexture) (MipIndex ArrayIndex : nat)
    : result FOpenGLTexture :=
  let MipBytes := fst (GetLockSize t MipIndex) in
  let BufferIndex := BufferIndexOf t MipIndex ArrayIndex in
  slot <- indexZ (PixelBuffers t) BufferIndex ;;
  let PixelBuffer := match slot with
                     | Some pb => pb
                     | None => NewPixelBuffer MipBytes
                     end in
  check (PBOSize PixelBuffer =? MipBytes) ;;;
  check (negb (bIsLocked PixelBuffer)) ;;;
  check (SizeZ t =? 0) ;;;
  let image := match GLStorage t with
               | Some images => default [] (images !! Z.to_nat BufferIndex)
               | None => []
               end in
  let filled := {| PBOSize := PBOSize PixelBuffer;
                   PBOData := OverwritePrefix (PBOData PixelBuffer) image;
                   bIsLocked := bIsLocked PixelBuffer;
                   bIsLockReadOnly := bIsLockReadOnly PixelBuffer |} in
  Ok (set_PixelBuffers t (<[Z.to_nat BufferIndex := Some filled]> (PixelBuffers t))).

(** [TOpenGLTexture::Lock]. Returns the texture after the call, what the
    returned pointer addresses, and [DestStride]. *)
Definition Lock (E : FEnv) (t : FOpenGLTexture) (InMipIndex ArrayIndex : nat)
    (LockMode : EResourceLockMode)
    : result (FOpenGLTexture * LockedPtr * Z) :=
  let '(MipBytes, DestStride) := GetLockSize t InMipIndex in
  check (negb (IsEvicted t) || (ArrayIndex =? 0)%nat) ;;;
  let BufferIndex := BufferIndexOf t InMipIndex ArrayIndex in
  if IsEvicted t then
    check (ArrayIndex =? 0)%nat ;;;
    P <- deref (EvictionParamsPtr t) ;;
    (* ensure(InMipIndex >= Num() || MipImageData[InMipIndex].Num() == 0)
       reports and continues *)
    P' <- SetMipData P InMipIndex None (Z.to_nat MipBytes) ;;
    index (MipImageData P') InMipIndex ;;;
    Ok (set_EvictionParamsPtr t (Some P'), ShadowMipPtr InMipIndex, DestStride)
  else
    slot <- indexZ (PixelBuffers t) BufferIndex ;;
    let bBufferExists := bool_decide (is_Some slot) in
    let PixelBuffer := match slot with
                       | Some pb => pb
                       | None => NewPixelBuffer MipBytes
                       end in
    let t1 := set_PixelBuffers t
                (<[Z.to_nat BufferIndex := Some PixelBuffer]> (PixelBuffers t)) in
    check (PBOSize PixelBuffer =? MipBytes) ;;;
    check (negb (bIsLocked PixelBuffer)) ;;;
    let bCPUTexResolved :=
      bBufferExists
      && HasFlag t (TexCreate_CPUReadback (TexCreate E))
      && negb (HasFlag t (Z.lor (TexCreate_RenderTargetable (TexCreate E))
                                (TexCreate_DepthStencilTargetable (TexCreate E)))) in
    t2 <- (if negb (LockMode_eqb LockMode RLM_WriteOnly) && negb bCPUTexResolved
           then Resolve t1 InMipIndex ArrayIndex
           else Ok t1) ;;
    slot2 <- indexZ (PixelBuffers t2) BufferIndex ;;
    pb <- deref slot2 ;;
    let locked := PixelBuffer_Lock pb (LockMode_eqb LockMode RLM_ReadOnly)
                    (negb (LockMode_eqb LockMode RLM_ReadOnly)) in
    Ok (set_PixelBuffers t2 (<[Z.to_nat BufferIndex := Some locked]> (PixelBuffers t2)),
        PixelBufferPtr (Z.to_nat BufferIndex), DestStride).

(** The bytes a locked pointer addresses. *)
Definition ReadLocked (t : FOpenGLTexture) (p : LockedPtr) : option Buffer :=
  match p with
  | ShadowMipPtr i => P ← EvictionParamsPtr t; MipImageData P !! i
  | PixelBufferPtr i => pb ← mjoin (PixelBuffers t !! i); Some (PBOData pb)
  end.

(** [FMemory::Memcpy(p, Src, Count)] through a locked pointer. *)
Definition WriteLocked (t : FOpenGLTexture) (p : LockedPtr) (Src : Buffer)
    (Count : nat) : result FOpenGLTexture :=
  match p with
  | ShadowMipPtr i =>
      P <- deref (EvictionParamsPtr t) ;;
      dest <- index (MipImageData P) i ;;
      written <- Memcpy dest Src Count ;;
      Ok (set_EvictionParamsPtr t
            (Some (set_MipImageData P (<[i := written]> (MipImageData P)))))
  | PixelBufferPtr i =>
      slot <- index (PixelBuffers t) i ;;
      pb <- deref slot ;;
      written <- Memcpy (PBOData pb) Src Count ;;
      Ok (set_PixelBuffers t
            (<[i := Some {| PBOSize := PBOSize pb; PBOData := written;
                            bIsLocked := bIsLocked pb;
                            bIsLockReadOnly := bIsLockReadOnly pb |}]>
               (PixelBuffers t)))
  end.

(** The upload of [Unlock] when the lock was not read-only (the driver's
    [uploadMip] of section 6 of the spec): the staging buffer becomes the
    content of the image. A slice of an uncompressed array texture needs
    [FOpenGL::SupportsTexture3D()]; an uncompressed 2D image asserts that
    storage was allocated ([GetAllocatedStorageForMip]); a compressed 2D
    image is defined with [glCompressedTexImage2D] when it was not. *)
Definition UploadImage (E : FEnv) (t : FOpenGLTexture) (BufferIndex : nat)
    (data : Buffer) : result FOpenGLTexture :=
  let Uploaded images :=
    set_GLStorage t (Some (<[BufferIndex := data]> images)) in
  if negb (SizeZ t =? 0) then
    (* texture 2D array *)
    (if bCompressed (PixelFormat t) then Ok tt
     else check (SupportsTexture3D E)) ;;;
    Ok match GLStorage t with
       | Some images => Uploaded images
       | None => t
       end
  else if bCompressed (PixelFormat t) then
    Ok match GLStorage t with
       | Some images => Uploaded images
       | None => Uploaded (replicate (length (PixelBuffers t)) [])
       end
  else
    match GLStorage t with
    | Some images => Ok (Uploaded images)
    | None => Err CheckFailed
    end.

(** The condition of the Android-only branch of [Unlock]:
    [GetFormat() == PF_FloatRGBA && GLFormat.Type == GL_UNSIGNED_BYTE] under
    [#if PLATFORM_ANDROID && !PLATFORM_LUMINGL4]. *)
Definition NeedsFloatRGBAConversion (E : FEnv) (t : FOpenGLTexture) : bool :=
  bPlatformAndroid E
  && (PixelFormatEnum (PixelFormat t) =? PF_FloatRGBA (PF E))
  && (GLType (PixelFormat t) =? GL_UNSIGNED_BYTE).

(** [TOpenGLTexture::Unlock]. [PixelBuffer->GetLockedBuffer()] is the memory
    of the staging buffer (the class is modelled from the spec, see
    [NewPixelBuffer]). *)
Definition Unlock (E : FEnv) (t : FOpenGLTexture) (MipIndex ArrayIndex : nat)
    : result FOpenGLTexture :=
  if IsEvicted t then
    check (ArrayIndex =? 0)%nat ;;;
    (* ensure(MipIndex < Num() && MipImageData[MipIndex].Num()) reports and
       continues *)
    Ok t
  else
    let BufferIndex := BufferIndexOf t MipIndex ArrayIndex in
    slot <- indexZ (PixelBuffers t) BufferIndex ;;
    check (bool_decide (is_Some slot)) ;;;
    pb <- deref slot ;;
    if NeedsFloatRGBAConversion E t then
      (* check for FloatRGBA to RGBA8 conversion needed *)
      check (SizeZ t =? 0) ;;;
      let texWidth := wrap_int32 (Z.max 1 (Z.shiftr (SizeX t) (Z.of_nat MipIndex))) in
      let texHeight := wrap_int32 (Z.max 1 (Z.shiftr (SizeY t) (Z.of_nat MipIndex))) in
      (* always RGBA8 so 4 bytes / pixel *)
      let nValues := wrap_int32 (texWidth * texHeight * 4) in
      rgbaData <- (if nValues <? 0 then Err BadRead
                   else ConvertFloatRGBA_loop E (Z.to_nat nValues) (PBOData pb)) ;;
      (* check(GetAllocatedStorageForMip(MipIndex, ArrayIndex) == true) *)
      images <- match GLStorage t with
                | Some images => Ok images
                | None => Err CheckFailed
                end ;;
      let t1 := set_GLStorage t (Some (<[Z.to_nat BufferIndex := rgbaData]> images)) in
      (* the staging buffer is unlocked and stays in PixelBuffers *)
      Ok (set_PixelBuffers t1
            (<[Z.to_nat BufferIndex := Some (PixelBuffer_Unlock pb)]> (PixelBuffers t1)))
    else
      (* Code path for PBO per slice *)
      let unlocked := PixelBuffer_Unlock pb in
      t1 <- (if negb (bIsLockReadOnly unlocked)
             then UploadImage E t (Z.to_nat BufferIndex) (PBOData unlocked)
             else Ok t) ;;
      (* need to free PBO if we aren't keeping shadow copies *)
      Ok (set_PixelBuffers t1 (<[Z.to_nat BufferIndex := None]> (PixelBuffers t1))).

(* ===================================================================== *)
(** ** Creating, restoring and evicting the GL resource                    *)
(* ===================================================================== *)

(** [AlignArbitrary(Val, Alignment)] of the engine's alignment templates (a
    header that is not part of this source file): [Val] rounded up to a
    multiple of [Alignment], in [uint32]. *)
Definition AlignArbitrary (Val Alignment : Z) : Z :=
  wrap_uint32 (wrap_uint32 (Val + Alignment - 1) / Alignment * Alignment).

(** [MipDataSize] of the bulk-data loops of [InitializeGLTexture] and
    [InitializeGLTextureInternal]. *)
Definition BulkMipDataSize (t : FOpenGLTexture) (ArraySize : Z) (MipIndex : nat) : Z :=
  let F := PixelFormat t in
  let NumBlocksX :=
    AlignArbitrary (Z.max 1 (Z.shiftr (SizeX t) (Z.of_nat MipIndex))) (BlockSizeX F)
    / BlockSizeX F in
  let NumBlocksY :=
    AlignArbitrary (Z.max 1 (Z.shiftr (SizeY t) (Z.of_nat MipIndex))) (BlockSizeY F)
    / BlockSizeY F in
  let NumLayers := Z.max 1 ArraySize in
  wrap_uint32 (NumBlocksX * NumBlocksY * NumLayers * BlockBytes F).

(** The bulk-data loop of [InitializeGLTextureInternal] for a texture that is
    neither an array nor a cube map: one [glTexSubImage2D] per mip. *)
Fixpoint BulkToStorage_loop (n MipIndex : nat) (t : FOpenGLTexture) (ArraySize : Z)
    (Data : Buffer) (MipOffset : Z) (images : list Buffer) : list Buffer :=
  match n with
  | O => images
  | S n' =>
      let MipDataSize := BulkMipDataSize t ArraySize MipIndex in
      BulkToStorage_loop n' (S MipIndex) t ArraySize Data
        (wrap_uint32 (MipOffset + MipDataSize))
        (<[MipIndex := take (Z.to_nat MipDataSize) (drop (Z.to_nat MipOffset) Data)]> images)
  end.

(** The attachment point that [InitializeGLTextureInternal] determines for
    the texture. *)
Definition AttachmentOf (E : FEnv) (t : FOpenGLTexture) : Z :=
  let Format := PixelFormatEnum (PixelFormat t) in
  if HasFlag t (TexCreate_RenderTargetable (TexCreate E))
     || HasFlag t (TexCreate_CPUReadback (TexCreate E))
  then GL_COLOR_ATTACHMENT0
  else if HasFlag t (TexCreate_DepthStencilTargetable (TexCreate E))
  then (if Format =? PF_DepthStencil (PF E)
        then GL_DEPTH_STENCIL_ATTACHMENT else GL_DEPTH_ATTACHMENT)
  else if HasFlag t (TexCreate_ResolveTargetable (TexCreate E))
  then (if Format =? PF_DepthStencil (PF E) then GL_DEPTH_STENCIL_ATTACHMENT
        else if (Format =? PF_ShadowDepth (PF E)) || (Format =? PF_D24 (PF E))
             then GL_DEPTH_ATTACHMENT
             else GL_COLOR_ATTACHMENT0)
  else GL_NONE.

(** [FOpenGLDynamicRHI::InitializeGLTextureInternal] with
    [bArrayTexture = false], as every call on the eviction paths passes it,
    for a single-sample texture ([NumSamples] and [NumSamplesTileMem] are
    [1]); [Flags] is the texture's own flag set at every call. The texture
    needs a name and a format the driver knows. Storage is allocated for
    every image ([TexStorage2D], or [glTexImage2D] per mip), its content
    undefined until uploaded, and the bulk data, when there is some, is
    uploaded mip by mip. The sample count is checked against the limit of
    the attachment point, and the texture takes the name [TextureID]. *)
Definition InitializeGLTextureInternal (E : FEnv) (TextureID : Z)
    (t : FOpenGLTexture) (ArraySize : Z) (BulkData : option Buffer)
    : result FOpenGLTexture :=
  let NumSamples := 1 in
  let NumSamplesTileMem := 1 in
  let TileMemDepth :=
    (1 <? NumSamplesTileMem)
    && HasFlag t (TexCreate_DepthStencilTargetable (TexCreate E)) in
  check (negb (TextureID =? 0) || TileMemDepth) ;;;
  let bSRGB := HasFlag t (TexCreate_SRGB (TexCreate E)) in
  (if InternalFormat (PixelFormat t) bSRGB =? GL_NONE
   then Err FatalLog   (* Texture format not supported *)
   else Ok tt) ;;;
  let images := replicate (length (PixelBuffers t)) [] in
  let storage :=
    match BulkData with
    | Some Data => BulkToStorage_loop (NumMips t) 0 t ArraySize Data 0 images
    | None => images
    end in
  (* Determine the attachment point for the texture. *)
  let Attachment := AttachmentOf E t in
  (if Attachment =? GL_COLOR_ATTACHMENT0
   then check (NumSamples <=? GMaxOpenGLColorSamples E)
   else if (Attachment =? GL_DEPTH_ATTACHMENT)
           || (Attachment =? GL_DEPTH_STENCIL_ATTACHMENT)
   then check (NumSamples <=? GMaxOpenGLDepthSamples E)
   else Ok tt) ;;;
  Ok (set_Resource (set_GLStorage t (Some storage)) TextureID).

(** The loop of [InitializeGLTexture] that copies bulk data to the evicted
    mip store. *)
Fixpoint BulkToShadow_loop (n MipIndex : nat) (t : FOpenGLTexture) (ArraySize : Z)
    (Data : Buffer) (MipOffset : Z) (P : FTextureEvictionParams)
    : result FTextureEvictionParams :=
  match n with
  | O => Ok P
  | S n' =>
      let MipDataSize := BulkMipDataSize t ArraySize MipIndex in
      P' <- SetMipData P MipIndex (Some (drop (Z.to_nat MipOffset) Data))
              (Z.to_nat MipDataSize) ;;
      BulkToShadow_loop n' (S MipIndex) t ArraySize Data
        (wrap_uint32 (MipOffset + MipDataSize)) P'
  end.

(** [FOpenGLDynamicRHI::InitializeGLTexture] for a single-sample texture:
    [TileMemDepth] is false, so a texture name is generated. *)
Definition InitializeGLTexture (E : FEnv) (t : FOpenGLTexture) (ArraySize : Z)
    (BulkData : option Buffer) : result FOpenGLTexture :=
  let TextureID := GenTextures E in
  if negb (IsEvicted t) then
    InitializeGLTextureInternal E TextureID t ArraySize BulkData
  else
    (* creating this as 'evicted' *)
    t1 <- match BulkData with
          | Some Data =>
              check (negb (bCompressed (PixelFormat t))) ;;;
              P <- deref (EvictionParamsPtr t) ;;
              P' <- BulkToShadow_loop (NumMips t) 0 t ArraySize Data 0 P ;;
              Ok (set_EvictionParamsPtr t (Some P'))
          | None => Ok t
          end ;;
    Ok (set_Resource t1 TextureID).

(** [FindMaxMipmapLevel(SizeX, SizeY)] of the engine's render utilities (a
    header that is not part of this source file): the number of levels of
    the full mip chain, which is at least one. *)
Definition FindMaxMipmapLevel (InSizeX InSizeY : Z) : nat :=
  Z.to_nat (Z.log2 (Z.max InSizeX InSizeY) + 1).

(** The [FOpenGLTexture2D] object that [CreateOpenGLRHITextureOnly]
    allocates: the name [0], [Target = GL_TEXTURE_2D], no eviction
    parameters, no GPU storage yet, one pixel-buffer slot per mip. *)
Definition NewTexture2D (InSizeX InSizeY : Z) (Format : FPixelFormatInfo)
    (InNumMips : nat) (InFlags : Z) : FOpenGLTexture :=
  {| Resource := 0;
     Flags := InFlags; Target := GL_TEXTURE_2D; bIsTexture2D := true;
     bCubemap := false; SizeX := InSizeX; SizeY := InSizeY; SizeZ := 0;
     EffectiveSizeZ := 1; NumMips := InNumMips; PixelFormat := Format;
     bIsAliased := false; EvictionParamsPtr := None; GLStorage := None;
     PixelBuffers := replicate InNumMips None |}.

(** [RHICreateTexture2D] for a single-sample texture:
    [CreateOpenGLRHITextureOnly] replaces a zero mip count by the length of
    the full mip chain, allocates the texture object and gives it eviction
    parameters when [CanCreateAsEvicted] holds; then [InitializeGLTexture]
    runs. *)
Definition RHICreateTexture2D (E : FEnv) (InSizeX InSizeY : Z)
    (Format : FPixelFormatInfo) (InNumMips : nat) (InFlags : Z)
    (BulkData : option Buffer) : result FOpenGLTexture :=
  let NumMips := if (InNumMips =? 0)%nat
                 then FindMaxMipmapLevel InSizeX InSizeY
                 else InNumMips in
  let Result := NewTexture2D InSizeX InSizeY Format NumMips InFlags in
  check (negb (bool_decide (is_Some (EvictionParamsPtr Result)))) ;;;
  let Result' :=
    if CanCreateAsEvicted E Result
    then set_EvictionParamsPtr Result (Some (NewEvictionParams NumMips))
    else Result in
  InitializeGLTexture E Result' 1 BulkData.

(** [RHICreateTexture2DFromResource] for a single-sample texture: a texture
    object around the GL name [InResource], which something else created.
    The constructor is the one [CreateOpenGLRHITextureOnly] calls, here with
    the given name (and the attachment [GL_NONE], which the texture record
    does not keep); the object gets no eviction parameters, and
    [SetAliased(true)] marks it. [Storage] is what the driver holds behind
    [InResource] when the object is made. [OpenGLTextureAllocated] keeps
    memory statistics only. *)
Definition RHICreateTexture2DFromResource (Format : FPixelFormatInfo)
    (InSizeX InSizeY : Z) (InNumMips : nat) (Storage : option (list Buffer))
    (InResource : Z) (TexCreateFlags : Z) : FOpenGLTexture :=
  let Texture2D :=
    set_GLStorage
      (set_Resource (NewTexture2D InSizeX InSizeY Format InNumMips TexCreateFlags)
                    InResource)
      Storage in
  SetAliased Texture2D true.

(** Modelled from the spec: [DeleteGLResource] is not defined in this source
    file. Section 4.5, Evict: "destroy GPU storage". *)
Definition DeleteGLResource (t : FOpenGLTexture) : FOpenGLTexture :=
  set_GLStorage t None.

(** [TOpenGLTexture::TryEvictGLResource] *)
Definition TryEvictGLResource (E : FEnv) (t : FOpenGLTexture) : result FOpenGLTexture :=
  if CanCreateAsEvicted E t then
    P <- deref (EvictionParamsPtr t) ;;
    if bHasRestored P then
      bCan <- CanBeEvicted E t ;;
      if bCan : bool then
        let t1 := DeleteGLResource t in
        (* create a new texture id *)
        let t2 := set_EvictionParamsPtr t1 (Some (set_bHasRestored P false)) in
        (* recreate the GL tex resource name (but not allocate the memory) *)
        InitializeGLTexture E t2 0 None
      else Ok t
    else Ok t
  else Ok t.

(** The upload loop of [RestoreEvictedGLResource]: [i] runs from [n - 1]
    down to [0]. *)
Fixpoint RestoreMips_loop (E : FEnv) (n : nat) (t : FOpenGLTexture)
    : result FOpenGLTexture :=
  match n with
  | O => Ok t
  | S i =>
      P <- deref (EvictionParamsPtr t) ;;
      MipMem <- index (MipImageData P) i ;;
      t' <- (if negb (length MipMem =? 0)%nat then
               check (Z.of_nat (length MipMem) =? fst (GetLockSize t i)) ;;;
               locked <- Lock E t i 0 RLM_WriteOnly ;;
               let '(t1, pDest, DestStride) := locked in
               check (negb (DestStride =? 0)) ;;;
               t2 <- WriteLocked t1 pDest MipMem (length MipMem) ;;
               Unlock E t2 i 0
             else Ok t) ;;
      RestoreMips_loop E i t'
  end.

(* ===================================================================== *)
(** ** The LRU registry and the render-thread state                        *)
(* ===================================================================== *)

(** The textures alive (keyed by address), the LRU container (least recent
    first) and the render-thread frame counter. *)
Record FWorld : Type := {
  Textures : gmap positive FOpenGLTexture;
  TextureLRU : list positive;
  GFrameNumberRenderThread : Z
}.

Definition set_Textures (w : FWorld) (m : gmap positive FOpenGLTexture) : FWorld :=
  {| Textures := m; TextureLRU := TextureLRU w;
     GFrameNumberRenderThread := GFrameNumberRenderThread w |}.

Definition InitialWorld : FWorld :=
  {| Textures := ∅; TextureLRU := []; GFrameNumberRenderThread := 0 |}.

(** Modelled from the spec: the LRU container class is declared in a header
    that is not part of this source file. Section 4.3: [Add] inserts as
    most-recently-used, [MarkAsRecent] marks as most-recently-used, [Remove]
    removes if present, [GetLeastRecent] peeks and [RemoveLeastRecent] pops
    the least-recently-used member. The list keeps the least recent member at
    its head. *)
Definition LRU_Contains (lru : list positive) (k : positive) : bool :=
  bool_decide (k ∈ lru).

Definition LRU_ContainerAdd (lru : list positive) (k : positive) : list positive :=
  lru ++ [k].

Definition LRU_ContainerRemove (lru : list positive) (k : positive) : list positive :=
  filter (λ j, j ≠ k) lru.

Definition LRU_MarkAsRecent (lru : list positive) (k : positive) : list positive :=
  filter (λ j, j ≠ k) lru ++ [k].

(** [FTextureEvictionLRU::Add] *)
Definition LRU_Add (E : FEnv) (w : FWorld) (TextureBase : positive)
    : result (bool * FWorld) :=
  t <- deref (Textures w !! TextureBase) ;;
  check (bool_decide (is_Some (EvictionParamsPtr t))) ;;;
  P <- deref (EvictionParamsPtr t) ;;
  check (negb (IsValidId (LRUNode P))) ;;;
  check (negb (LRU_Contains (TextureLRU w) TextureBase)) ;;;
  if negb (length (TextureLRU w) =? LRUMax E)%nat then
    let P' := set_FrameLastRendered (set_LRUNode P (Some TextureBase))
                (GFrameNumberRenderThread w) in
    Ok (true,
        {| Textures := <[TextureBase := set_EvictionParamsPtr t (Some P')]> (Textures w);
           TextureLRU := LRU_ContainerAdd (TextureLRU w) TextureBase;
           GFrameNumberRenderThread := GFrameNumberRenderThread w |})
  else Ok (false, w).

(** [FTextureEvictionLRU::Remove] *)
Definition LRU_Remove (w : FWorld) (TextureBase : positive) : result FWorld :=
  t <- deref (Textures w !! TextureBase) ;;
  match EvictionParamsPtr t with
  | Some P =>
      check (negb (IsValidId (LRUNode P)) || LRU_Contains (TextureLRU w) TextureBase) ;;;
      check (IsValidId (LRUNode P) || negb (LRU_Contains (TextureLRU w) TextureBase)) ;;;
      if IsValidId (LRUNode P) then
        Ok {| Textures := <[TextureBase := set_EvictionParamsPtr t (Some (set_LRUNode P None))]>
                            (Textures w);
              TextureLRU := LRU_ContainerRemove (TextureLRU w) TextureBase;
              GFrameNumberRenderThread := GFrameNumberRenderThread w |}
      else Ok w
  | None => Ok w
  end.

(** [FTextureEvictionLRU::Touch] *)
Definition LRU_Touch (w : FWorld) (TextureBase : positive) : result FWorld :=
  t <- deref (Textures w !! TextureBase) ;;
  check (bool_decide (is_Some (EvictionParamsPtr t))) ;;;
  P <- deref (EvictionParamsPtr t) ;;
  check (IsValidId (LRUNode P)) ;;;
  check (LRU_Contains (TextureLRU w) TextureBase) ;;;
  node <- deref (LRUNode P) ;;
  Ok {| Textures := <[TextureBase := set_EvictionParamsPtr t
                        (Some (set_FrameLastRendered P (GFrameNumberRenderThread w)))]>
                      (Textures w);
        TextureLRU := LRU_MarkAsRecent (TextureLRU w) node;
        GFrameNumberRenderThread := GFrameNumberRenderThread w |}.

(** The loop condition of [TickEviction] for the least recent member:
    [(FrameLastRendered + GOGLTextureEvictFramesToLive) < GFrameNumberRenderThread],
    the sum computed in [uint32]. *)
Definition EvictionDue (E : FEnv) (frame : Z) (P : FTextureEvictionParams) : bool :=
  wrap_uint32 (FrameLastRendered P + GOGLTextureEvictFramesToLive E) <? frame.

(** The body of the loop of [TickEviction] for the member [RemovedFromLRU]
    that [RemoveLeastRecent] returned. *)
Definition EvictRemoved (E : FEnv) (textures : gmap positive FOpenGLTexture)
    (RemovedFromLRU : positive) : result (gmap positive FOpenGLTexture) :=
  t <- deref (textures !! RemovedFromLRU) ;;
  P <- deref (EvictionParamsPtr t) ;;
  let t1 := set_EvictionParamsPtr t (Some (set_LRUNode P None)) in
  t2 <- TryEvictGLResource E t1 ;;
  Ok (<[RemovedFromLRU := t2]> textures).

(** The loop of [FTextureEvictionLRU::TickEviction]; every iteration pops the
    head of the container. *)
Fixpoint TickEviction_loop (E : FEnv) (frame : Z) (lru : list positive)
    (textures : gmap positive FOpenGLTexture) (EvictCount : Z)
    : result (list positive * gmap positive FOpenGLTexture) :=
  match lru with
  | [] => Ok ([], textures)
  | LeastRecent :: rest =>
      t <- deref (textures !! LeastRecent) ;;
      P <- deref (EvictionParamsPtr t) ;;
      if EvictionDue E frame P && (EvictCount <? GOGLTexturesToEvictPerFrame E) then
        textures' <- EvictRemoved E textures LeastRecent ;;
        TickEviction_loop E frame rest textures' (EvictCount + 1)
      else Ok (lru, textures)
  end.

(** [FTextureEvictionLRU::TickEviction] *)
Definition TickEviction (E : FEnv) (w : FWorld) : result FWorld :=
  r <- TickEviction_loop E (GFrameNumberRenderThread w) (TextureLRU w) (Textures w) 0 ;;
  Ok {| Textures := snd r; TextureLRU := fst r;
        GFrameNumberRenderThread := GFrameNumberRenderThread w |}.

(** The local [DeferTextureCreationKeepLowerMipCount] of
    [RestoreEvictedGLResource]: the console variable, or the streamer's
    resident mip count when the variable is negative, converted to [uint32]. *)
Definition DeferTextureCreationKeepLowerMipCount (E : FEnv) : Z :=
  (* Use the resident streaming mips if our cvar is -1. *)
  wrap_uint32 (if 0 <=? GOGLDeferTextureCreationKeepLowerMipCount E
               then GOGLDeferTextureCreationKeepLowerMipCount E
               else StaticMinTextureResidentMipCount E).

(** The initial value of the local [RetainMips] of
    [RestoreEvictedGLResource]. *)
Definition RetainMipsOf (E : FEnv) (t : FOpenGLTexture)
    (bAttemptToRetainMips : bool) : Z :=
  if bAttemptToRetainMips
     && HasFlag t (TexCreate_Streamable (TexCreate E))
     && (1 <? NumMips t)%nat
     && negb (bIsAliased t)
  then DeferTextureCreationKeepLowerMipCount E else 0.

(** [TOpenGLTexture::RestoreEvictedGLResource] on the texture at [This]. *)
Definition RestoreEvictedGLResource (E : FEnv) (w : FWorld) (This : positive)
    (bAttemptToRetainMips : bool) : result FWorld :=
  t <- deref (Textures w !! This) ;;
  P <- deref (EvictionParamsPtr t) ;;
  check (negb (bHasRestored P)) ;;;
  let t1 := set_EvictionParamsPtr t (Some (set_bHasRestored P true)) in
  t2 <- InitializeGLTextureInternal E (Resource t1) t1 0 None ;;
  check (length (MipImageData P) =? NumMips t)%nat ;;;
  t3 <- RestoreMips_loop E (length (MipImageData P)) t2 ;;
  let RetainMips := RetainMipsOf E t3 bAttemptToRetainMips in
  let w3 := set_Textures w (<[This := t3]> (Textures w)) in
  bCan <- CanBeEvicted E t3 ;;
  added <- (if bCan : bool then LRU_Add E w3 This else Ok (true, w3)) ;;
  let '(bAdded, w4) := added in
  (* could not store this in the LRU: deleting all backup mips *)
  let RetainMips' := if bAdded : bool then RetainMips else 0 in
  (* keep the mips for streamable textures *)
  t4 <- deref (Textures w4 !! This) ;;
  P4 <- deref (EvictionParamsPtr t4) ;;
  P5 <- ReleaseMipData P4 RetainMips' ;;
  Ok (set_Textures w4 (<[This := set_EvictionParamsPtr t4 (Some P5)]> (Textures w4))).

(* ===================================================================== *)
(** ** Vocabulary of the statements                                        *)
(* ===================================================================== *)

(** The frame a registered texture was last touched in. *)
Definition LastTouched (textures : gmap positive FOpenGLTexture) (k : positive)
    : option Z :=
  t ← textures !! k; P ← EvictionParamsPtr t; Some (FrameLastRendered P).

(** The LRU handle of a texture. *)
Definition HandleOf (textures : gmap positive FOpenGLTexture) (k : positive)
    : option FSetElementId :=
  t ← textures !! k; P ← EvictionParamsPtr t; Some (LRUNode P).

(** What [TickEviction] needs of a registry member: the texture is alive, has
    eviction parameters and is not aliased. *)
Definition MemberOk (textures : gmap positive FOpenGLTexture) (k : positive) : Prop :=
  exists t P, textures !! k = Some t /\ EvictionParamsPtr t = Some P
              /\ bIsAliased t = false.

(** Whether the member [k] is due, as the loop condition computes it. *)
Definition DueNow (E : FEnv) (frame : Z) (textures : gmap positive FOpenGLTexture)
    (k : positive) : Prop :=
  exists last, LastTouched textures k = Some last
    /\ wrap_uint32 (last + GOGLTextureEvictFramesToLive E) < frame.


(** A texture without its driver-side storage and staging buffers: what
    [Lock], [Unlock] and the upload loop leave untouched on a restored
    texture. *)
Definition Core (t : FOpenGLTexture) : FOpenGLTexture :=
  set_PixelBuffers (set_GLStorage t None) [].

(** What the registry cares about in a texture: its restored flag and its
    LRU handle. *)
Definition RegView (t : FOpenGLTexture) : option (bool * FSetElementId) :=
  P ← EvictionParamsPtr t; Some (bHasRestored P, LRUNode P).

(** One operation of the subsystem, as the render thread performs them:
    creating a 2D texture, wrapping an existing GL name in an aliased 2D
    texture, locking, writing through a locked pointer, unlocking,
    restoring, the per-frame eviction tick, touching, removing from the
    registry, and the frame counter advancing; all on single-sample 2D
    textures. Not steps: the asynchronous reallocation
    ([RHIAsyncReallocateTexture2D], which creates a texture and clones
    shadow mips into it), the operations on array, cube and 3D textures,
    [AliasResources], which [RHIAliasTextureResources] calls to alias an
    existing texture, and the destructors; the last two are defined in
    headers that are not part of this source file. *)
Inductive Step (E : FEnv) (w : FWorld) : FWorld -> Prop :=
  | Step_Create (k : positive) (InSizeX InSizeY : Z) (Format : FPixelFormatInfo)
      (InNumMips : nat) (InFlags : Z) (BulkData : option Buffer)
      (t : FOpenGLTexture) :
      Textures w !! k = None ->
      RHICreateTexture2D E InSizeX InSizeY Format InNumMips InFlags BulkData = Ok t ->
      Step E w (set_Textures w (<[k := t]> (Textures w)))
  | Step_CreateFromResource (k : positive) (Format : FPixelFormatInfo)
      (InSizeX InSizeY : Z) (InNumMips : nat) (Storage : option (list Buffer))
      (InResource : Z) (TexCreateFlags : Z) :
      Textures w !! k = None ->
      Step E w (set_Textures w
                  (<[k := RHICreateTexture2DFromResource Format InSizeX InSizeY
                            InNumMips Storage InResource TexCreateFlags]>
                     (Textures w)))
  | Step_Lock (k : positive) (t t' : FOpenGLTexture) (MipIndex ArrayIndex : nat)
      (LockMode : EResourceLockMode) (p : LockedPtr) (DestStride : Z) :
      Textures w !! k = Some t ->
      Lock E t MipIndex ArrayIndex LockMode = Ok (t', p, DestStride) ->
      Step E w (set_Textures w (<[k := t']> (Textures w)))
  | Step_Write (k : positive) (t t' : FOpenGLTexture) (p : LockedPtr)
      (Src : Buffer) (Count : nat) :
      Textures w !! k = Some t ->
      WriteLocked t p Src Count = Ok t' ->
      Step E w (set_Textures w (<[k := t']> (Textures w)))
  | Step_Unlock (k : positive) (t t' : FOpenGLTexture) (MipIndex ArrayIndex : nat) :
      Textures w !! k = Some t ->
      Unlock E t MipIndex ArrayIndex = Ok t' ->
      Step E w (set_Textures w (<[k := t']> (Textures w)))
  | Step_Restore (k : positive) (bAttemptToRetainMips : bool) (w' : FWorld) :
      RestoreEvictedGLResource E w k bAttemptToRetainMips = Ok w' ->
      Step E w w'
  | Step_Tick (w' : FWorld) :
      TickEviction E w = Ok w' ->
      Step E w w'
  | Step_Touch (k : positive) (w' : FWorld) :
      LRU_Touch w k = Ok w' ->
      Step E w w'
  | Step_Remove (k : positive) (w' : FWorld) :
      LRU_Remove w k = Ok w' ->
      Step E w w'
  | Step_Frame :
      Step E w {| Textures := Textures w; TextureLRU := TextureLRU w;
                  GFrameNumberRenderThread :=
                    wrap_uint32 (GFrameNumberRenderThread w + 1) |}.

(** The states the subsystem can be in. *)
Inductive Reachable (E : FEnv) : FWorld -> Prop :=
  | Reachable_init : Reachable E InitialWorld
  | Reachable_step (w w' : FWorld) :
      Reachable E w -> Step E w w' -> Reachable E w'.

(** Every texture with a valid LRU handle is restored and is a member of the
    registry. *)
Definition RegisteredAreRestored (lru : list positive)
    (textures : gmap positive FOpenGLTexture) : Prop :=
  forall k t P,
    textures !! k = Some t -> EvictionParamsPtr t = Some P ->
    IsValidId (LRUNode P) = true ->
    bHasRestored P = true /\ k ∈ lru.

(** Operations on one texture that can follow a restore: locking, writing
    through a locked pointer, unlocking, the three operations of the shadow
    store, and an eviction attempt. *)
Inductive TextureOp : Type :=
  | Op_Lock (MipIndex ArrayIndex : nat) (LockMode : EResourceLockMode)
  | Op_Write (p : LockedPtr) (Src : Buffer) (Count : nat)
  | Op_Unlock (MipIndex ArrayIndex : nat)
  | Op_SetMipData (MipIndex : nat) (Data : option Buffer) (Bytes : nat)
  | Op_CloneMipData (Src : FTextureEvictionParams) (InNumMips SrcOffset DstOffset : Z)
  | Op_ReleaseMipData (RetainMips : Z)
  | Op_TryEvict.

Definition RunOp (E : FEnv) (t : FOpenGLTexture) (op : TextureOp)
    : result FOpenGLTexture :=
  match op with
  | Op_Lock MipIndex ArrayIndex LockMode =>
      r <- Lock E t MipIndex ArrayIndex LockMode ;; Ok (fst (fst r))
  | Op_Write p Src Count => WriteLocked t p Src Count
  | Op_Unlock MipIndex ArrayIndex => Unlock E t MipIndex ArrayIndex
  | Op_SetMipData MipIndex Data Bytes =>
      P <- deref (EvictionParamsPtr t) ;;
      P' <- SetMipData P MipIndex Data Bytes ;;
      Ok (set_EvictionParamsPtr t (Some P'))
  | Op_CloneMipData Src InNumMips SrcOffset DstOffset =>
      P <- deref (EvictionParamsPtr t) ;;
      P' <- CloneMipData P Src InNumMips SrcOffset DstOffset ;;
      Ok (set_EvictionParamsPtr t (Some P'))
  | Op_ReleaseMipData RetainMips =>
      P <- deref (EvictionParamsPtr t) ;;
      P' <- ReleaseMipData P RetainMips ;;
      Ok (set_EvictionParamsPtr t (Some P'))
  | Op_TryEvict => TryEvictGLResource E t
  end.

Fixpoint RunOps (E : FEnv) (t : FOpenGLTexture) (ops : list TextureOp)
    : result FOpenGLTexture :=
  match ops with
  | [] => Ok t
  | op :: ops' => t' <- RunOp E t op ;; RunOps E t' ops'
  end.

(** A restored texture whose shadow store has been dropped altogether. *)
Definition ShadowDropped (t : FOpenGLTexture) : Prop :=
  (exists P, EvictionParamsPtr t = Some P
             /\ MipImageData P = [] /\ bHasRestored P = true
             /\ LRUNode P = None)
  /\ is_Some (GLStorage t)
  /\ NumMips t <> 0%nat.

(** The driver can create the storage of the texture: the texture's format
    has an internal format for the texture's colour space, and the sample
    limits admit one sample. *)
Definition FormatSupported (E : FEnv) (t : FOpenGLTexture) : Prop :=
  InternalFormat (PixelFormat t) (HasFlag t (TexCreate_SRGB (TexCreate E)))
  <> GL_NONE
  /\ 1 <= GMaxOpenGLColorSamples E
  /\ 1 <= GMaxOpenGLDepthSamples E.

(** A 2D texture in the evicted state whose shadow store holds [data]: one
    non-empty buffer per mip, each of the mip's lock size. The layout fields
    are those the [FOpenGLTexture2D] constructor sets, no staging buffer
    is outstanding, and the texture has a name. *)
Definition EvictedWithAllMips (E : FEnv) (t : FOpenGLTexture) (data : list Buffer)
    : Prop :=
  CanCreateAsEvicted E t = true
  /\ bIsAliased t = false
  /\ bCubemap t = false /\ SizeZ t = 0 /\ EffectiveSizeZ t = 1
  /\ PixelBuffers t = replicate (NumMips t) None
  /\ Z.of_nat (NumMips t) < 2 ^ 31
  /\ length data = NumMips t
  /\ (exists P, EvictionParamsPtr t = Some P
                /\ MipImageData P = data
                /\ bHasRestored P = false
                /\ LRUNode P = None)
  /\ (forall i mip, data !! i = Some mip ->
        mip <> []
        /\ Z.of_nat (length mip) = fst (GetLockSize t i)
        /\ snd (GetLockSize t i) <> 0)
  /\ Resource t <> 0.

(** The texture that [TryEvictGLResource] leaves when it evicts a texture with
    the eviction parameters [P]: the GPU storage is destroyed, the restored
    flag is cleared, and the texture has a new name. *)
Definition EvictedTexture (E : FEnv) (t : FOpenGLTexture)
    (P : FTextureEvictionParams) : FOpenGLTexture :=
  set_Resource
    (set_EvictionParamsPtr (set_GLStorage t None) (Some (set_bHasRestored P false)))
    (GenTextures E).

(** The restore retains every shadow mip: the texture is streamable, has
    more than one mip, and the keep-lower-mip count covers all its mips. *)
Definition FullRetention (E : FEnv) (t : FOpenGLTexture) : Prop :=
  HasFlag t (TexCreate_Streamable (TexCreate E)) = true
  /\ (1 < NumMips t)%nat
  /\ Z.of_nat (NumMips t) <= DeferTextureCreationKeepLowerMipCount E < 2 ^ 31.

(** The texture of [EvictedWithAllMips] after a restore that registered it
    at [k] in frame [frame] and retained every shadow mip. *)
Definition RestoredWithAllMips (t : FOpenGLTexture) (data : list Buffer)
    (k : positive) (frame : Z) : FOpenGLTexture :=
  set_EvictionParamsPtr (set_GLStorage t (Some data))
    (Some {| MipImageData := data; bHasRestored := true;
             FrameLastRendered := frame; LRUNode := Some k |}).

(** The same texture after the scheduler evicted it. *)
Definition EvictedAgain (E : FEnv) (t : FOpenGLTexture) (data : list Buffer)
    (frame : Z) : FOpenGLTexture :=
  set_Resource
    (set_EvictionParamsPtr (set_GLStorage t None)
       (Some {| MipImageData := data; bHasRestored := false;
                FrameLastRendered := frame; LRUNode := None |}))
    (GenTextures E).

(** The world [w] when the frame counter has reached [frame]. *)
Definition AtFrame (w : FWorld) (frame : Z) : FWorld :=
  {| Textures := Textures w; TextureLRU := TextureLRU w;
     GFrameNumberRenderThread := frame |}.

(** Every texture with eviction parameters has at least one mip. *)
Definition DeferrableHaveMips (textures : gmap positive FOpenGLTexture) : Prop :=
  forall k t, textures !! k = Some t -> is_Some (EvictionParamsPtr t) ->
              NumMips t <> 0%nat.

(* ===================================================================== *)
(** ** Concrete configurations and textures                                *)
(* ===================================================================== *)

(** [PF_G8]: one byte per texel, [GL_R8] storage. *)
Definition G8 : FPixelFormatInfo :=
  {| PixelFormatEnum := 3;
     BlockSizeX := 1; BlockSizeY := 1; BlockBytes := 1; bCompressed := false;
     InternalFormat0 := 0x8229; InternalFormat1 := 0x8229;
     GLType := GL_UNSIGNED_BYTE |}.

(** Deferral enabled, copy-image supported, every other variable at its
    default. *)
Definition DeferringEnv : FEnv := DefaultEnv 1 true 7 8.

Definition SRGBStreamableTexture : FOpenGLTexture :=
  NewTexture2D 4 4 G8 3
    (Z.lor (TexCreate_SRGB RHIFlags) (TexCreate_Streamable RHIFlags)).


Definition ShaderResourceStreamable : Z :=
  Z.lor (TexCreate_ShaderResource RHIFlags) (TexCreate_Streamable RHIFlags).

(** A 2x2 single-byte-per-pixel texture with two mips, created as evicted
    from bulk data: mip 0 holds four bytes and mip 1 one byte; its name
    is [1]. *)
Definition PopulatedTexture : FOpenGLTexture :=
  set_Resource
    (set_EvictionParamsPtr (NewTexture2D 2 2 G8 2 ShaderResourceStreamable)
       (Some {| MipImageData := [[Init x01; Init x02; Init x03; Init x04]; [Init x05]];
                bHasRestored := false; FrameLastRendered := 0; LRUNode := None |}))
    1.

Definition FourMipParams : FTextureEvictionParams :=
  {| MipImageData := [[Init x01]; [Init x02]; [Init x03]; [Init x04]];
     bHasRestored := true; FrameLastRendered := 0; LRUNode := None |}.

(** The same texture right after creation without bulk data: every shadow
    slot is empty. *)
Definition FreshEvictedTexture : FOpenGLTexture :=
  set_Resource
    (set_EvictionParamsPtr (NewTexture2D 2 2 G8 2 ShaderResourceStreamable)
       (Some (NewEvictionParams 2)))
    1.

(** [PopulatedTexture] after a restore that registered it in frame [0] and
    kept both shadow mips. *)
Definition RegisteredTexture : FOpenGLTexture :=
  {| Resource := 1;
     Flags := ShaderResourceStreamable; Target := GL_TEXTURE_2D;
     bIsTexture2D := true; bCubemap := false; SizeX := 2; SizeY := 2;
     SizeZ := 0; EffectiveSizeZ := 1; NumMips := 2; PixelFormat := G8;
     bIsAliased := false;
     EvictionParamsPtr :=
       Some {| MipImageData := [[Init x01; Init x02; Init x03; Init x04]; [Init x05]];
               bHasRestored := true; FrameLastRendered := 0;
               LRUNode := Some 1%positive |};
     GLStorage := Some [[Init x01; Init x02; Init x03; Init x04]; [Init x05]];
     PixelBuffers := [None; None] |}.

(** The registry holds that texture alone; the frame counter is [500], so the
    texture's age equals the default threshold. *)
Definition AtThresholdWorld : FWorld :=
  {| Textures := {[ 1%positive := RegisteredTexture ]};
     TextureLRU := [1%positive];
     GFrameNumberRenderThread := 500 |}.

(** One frame later. *)
Definition PastThresholdWorld : FWorld :=
  {| Textures := {[ 1%positive := RegisteredTexture ]};
     TextureLRU := [1%positive];
     GFrameNumberRenderThread := 501 |}.

(** As [DeferringEnv], but one low-resolution mip is kept after a restore. *)
Definition KeepOneEnv : FEnv :=
  {| TexCreate := RHIFlags;
     PF := RHIPixelFormats;
     bPlatformAndroid := false;
     CVarDeferTextureCreation := 1;
     ConfigRulesCanDeferTextureCreation := None;
     CVarDeferTextureCreationExcludeMask := DefaultExcludeMask RHIFlags;
     GOGLDeferTextureCreationKeepLowerMipCount := 1;
     GOGLTextureEvictFramesToLive := 500;
     GOGLTexturesToEvictPerFrame := 10;
     SupportsCopyImage := true;
     SupportsTexture3D := true;
     GMaxOpenGLColorSamples := 1;
     GMaxOpenGLDepthSamples := 1;
     GenTextures := 1;
     InvalidFloatToInt32 := fun _ => - 2 ^ 31;
     StaticMinTextureResidentMipCount := 7;
     LRUMax := 8 |}.

Definition BulkFiveBytes : Buffer :=
  [Init x01; Init x02; Init x03; Init x04; Init x05].

(** The world after [PopulatedTexture] was created at address [1]. *)
Definition CreatedWorld : FWorld :=
  {| Textures := <[1%positive := PopulatedTexture]> ∅;
     TextureLRU := [];
     GFrameNumberRenderThread := 0 |}.

(** [PopulatedTexture] after a restore under [KeepOneEnv]: registered, with
    storage on the GPU, mip 0 of the shadow store freed and mip 1 kept. *)
Definition RestoredKeepOneTexture : FOpenGLTexture :=
  {| Resource := 1;
     Flags := ShaderResourceStreamable; Target := GL_TEXTURE_2D;
     bIsTexture2D := true; bCubemap := false; SizeX := 2; SizeY := 2;
     SizeZ := 0; EffectiveSizeZ := 1; NumMips := 2; PixelFormat := G8;
     bIsAliased := false;
     EvictionParamsPtr :=
       Some {| MipImageData := [[]; [Init x05]];
               bHasRestored := true; FrameLastRendered := 0;
               LRUNode := Some 1%positive |};
     GLStorage := Some [[Init x01; Init x02; Init x03; Init x04]; [Init x05]];
     PixelBuffers := [None; None] |}.

Definition RestoredKeepOneWorld : FWorld :=
  {| Textures := <[1%positive := RestoredKeepOneTexture]>
                   (<[1%positive := PopulatedTexture]> ∅);
     TextureLRU := [1%positive];
     GFrameNumberRenderThread := 0 |}.

(** A registry of capacity zero: no texture can be registered. *)
Definition NoRoomEnv : FEnv := DefaultEnv 1 true 7 0.

(** The console variable for the keep-lower-mip count is negative and the
    streamer reports a resident mip count of [-1]: converted to [uint32] the
    keep-lower-mip count is [2^32 - 1]. *)
Definition NegativeResidentEnv : FEnv := DefaultEnv 1 true (-1) 8.

Definition TwoMips : list Buffer :=
  [[Init x01; Init x02; Init x03; Init x04]; [Init x05]].

(** As [PopulatedTexture], but created with the ShaderResource flag only: the
    texture is deferrable and not streamable. *)
Definition ShaderOnlyTexture : FOpenGLTexture :=
  set_Resource
    (set_EvictionParamsPtr
       (NewTexture2D 2 2 G8 2 (TexCreate_ShaderResource RHIFlags))
       (Some {| MipImageData := TwoMips;
                bHasRestored := false; FrameLastRendered := 0; LRUNode := None |}))
    1.

Definition ShaderOnlyWorld : FWorld :=
  {| Textures := <[1%positive := ShaderOnlyTexture]> ∅;
     TextureLRU := [];
     GFrameNumberRenderThread := 0 |}.

(** Android with deferral enabled; an out-of-range conversion of a [float]
    to [int32] saturates and a NaN converts to zero, as on ARM. *)
Definition AndroidEnv : FEnv :=
  {| TexCreate := RHIFlags;
     PF := RHIPixelFormats;
     bPlatformAndroid := true;
     CVarDeferTextureCreation := 1;
     ConfigRulesCanDeferTextureCreation := None;
     CVarDeferTextureCreationExcludeMask := DefaultExcludeMask RHIFlags;
     GOGLDeferTextureCreationKeepLowerMipCount := -1;
     GOGLTextureEvictFramesToLive := 500;
     GOGLTexturesToEvictPerFrame := 10;
     SupportsCopyImage := true;
     SupportsTexture3D := true;
     GMaxOpenGLColorSamples := 1;
     GMaxOpenGLDepthSamples := 1;
     GenTextures := 1;
     InvalidFloatToInt32 :=
       fun f => if (FloatExponent f =? 255) && negb (FloatMantissa f =? 0) then 0
                else if FloatSignBit f =? 1 then - 2 ^ 31 else 2 ^ 31 - 1;
     StaticMinTextureResidentMipCount := 7;
     LRUMax := 8 |}.

(** [PF_FloatRGBA] on a device without half-float textures: four halves per
    texel in memory, uploaded as [GL_RGBA8] with [GL_UNSIGNED_BYTE]
    components. *)
Definition FloatRGBA : FPixelFormatInfo :=
  {| PixelFormatEnum := 10;
     BlockSizeX := 1; BlockSizeY := 1; BlockBytes := 8; bCompressed := false;
     InternalFormat0 := 0x8058; InternalFormat1 := 0x8C43;
     GLType := GL_UNSIGNED_BYTE |}.

(** The texel (1.0, 0.5, 0.0, 1.0) and the texel (1.0, 1.0, 1.0, 1.0) as
    halves, the low byte first. *)
Definition HalfTexelA : Buffer :=
  [Init x00; Init x3c; Init x00; Init x38; Init x00; Init x00; Init x00; Init x3c].

Definition HalfTexelB : Buffer :=
  [Init x00; Init x3c; Init x00; Init x3c; Init x00; Init x3c; Init x00; Init x3c].

Definition HalfFloatMips : list Buffer :=
  [HalfTexelA ++ HalfTexelA; HalfTexelB].

(** A streamable 2x1 [PF_FloatRGBA] texture with two mips, created as
    evicted with both mips in its shadow store. *)
Definition HalfFloatTexture : FOpenGLTexture :=
  set_Resource
    (set_EvictionParamsPtr (NewTexture2D 2 1 FloatRGBA 2 ShaderResourceStreamable)
       (Some {| MipImageData := HalfFloatMips;
                bHasRestored := false; FrameLastRendered := 0; LRUNode := None |}))
    1.

Definition HalfFloatWorld : FWorld :=
  {| Textures := <[1%positive := HalfFloatTexture]> ∅;
     TextureLRU := [];
     GFrameNumberRenderThread := 0 |}.

(** The registered texture was last touched in frame [2^32 - 100] and the
    frame counter is [2^32 - 1]: the texture's age is [99]. *)
Definition WrappedStampWorld : FWorld :=
  {| Textures :=
       {[ 1%positive :=
            set_EvictionParamsPtr RegisteredTexture
              (Some {| MipImageData :=
                         [[Init x01; Init x02; Init x03; Init x04]; [Init x05]];
                       bHasRestored := true; FrameLastRendered := 4294967196;
                       LRUNode := Some 1%positive |}) ]};
     TextureLRU := [1%positive];
     GFrameNumberRenderThread := 4294967295 |}.
(* ===================================================================== *)
(** ** The values of half and single precision patterns                    *)
(* ===================================================================== *)

(** The number that a binary16 bit pattern with a finite exponent field
    denotes under IEEE 754, as a multiple of [2^-24], the smallest positive
    half: [m] for a denormalised half and [(1024 + m) * 2^(e - 1)] for a
    normalised one, negated when the sign bit is set. *)
Definition HalfValue (h : Z) : Z :=
  let e := Z.land (Z.shiftr h 10) 0x1f in
  let m := Z.land h 0x3ff in
  (if Z.testbit h 15 then -1 else 1)
  * (if e =? 0 then m else (1024 + m) * 2 ^ (e - 1)).

(** The number that a binary32 bit pattern with a finite exponent field
    denotes under IEEE 754, as a multiple of [2^-149], the smallest positive
    [float]. *)
Definition FloatValue (f : Z) : Z :=
  let e := Z.land (Z.shiftr f 23) 0xff in
  let m := Z.land f 0x7fffff in
  (if Z.testbit f 31 then -1 else 1)
  * (if e =? 0 then m else (2 ^ 23 + m) * 2 ^ (e - 1)).

(** [p] holds of every value of [n] bits; the values are enumerated bit by
    bit, the lowest bit first. *)
Fixpoint ForallBits (n : nat) (p : Z -> bool) : bool :=
  match n with
  | O => p 0
  | S n' =>
      ForallBits n' (fun z => p (2 * z)) && ForallBits n' (fun z => p (2 * z + 1))
  end.

(** [p] holds of every [uint16] value. *)
Definition ForallHalf (p : Z -> bool) : bool := ForallBits 16 p.

(* ===================================================================== *)
(** ** Sizes for which the mip arithmetic does not wrap                    *)
(* ===================================================================== *)

(** The number of blocks that cover [Size] texels with blocks of [Block]
    texels, clamped to one block. *)
Definition BlocksAcross (Size Block : Z) : Z :=
  (Z.max Size Block + Block - 1) / Block.

(** The texture's dimensions and pixel format are such that no [uint32]
    computation of [GetLockSize] wraps around: the dimensions and block
    dimensions fit 31 bits, blocks are not empty, and the byte size of mip 0
    fits 32 bits. *)
Definition LockSizeFits (t : FOpenGLTexture) : Prop :=
  let F := PixelFormat t in
  0 <= SizeX t < 2 ^ 31 /\ 0 <= SizeY t < 2 ^ 31
  /\ 0 < BlockSizeX F < 2 ^ 31 /\ 0 < BlockSizeY F < 2 ^ 31
  /\ 0 < BlockBytes F
  /\ BlocksAcross (SizeX t) (BlockSizeX F) * BlocksAcross (SizeY t) (BlockSizeY F)
     * BlockBytes F < 2 ^ 32.

(** A 16x8 texture of 4x4 blocks of eight bytes, with five mips. *)
Definition BlockCompressed : FPixelFormatInfo :=
  {| PixelFormatEnum := 5;
     BlockSizeX := 4; BlockSizeY := 4; BlockBytes := 8; bCompressed := true;
     InternalFormat0 := 0x83F1; InternalFormat1 := 0x8C4D;
     GLType := GL_UNSIGNED_BYTE |}.

Definition BlockTexture : FOpenGLTexture :=
  NewTexture2D 16 8 BlockCompressed 5 0.

(** A texture as wide as [uint32] allows, of 4x4 blocks of one byte. *)
Definition OneByteBlocks : FPixelFormatInfo :=
  {| PixelFormatEnum := 6;
     BlockSizeX := 4; BlockSizeY := 4; BlockBytes := 1; bCompressed := true;
     InternalFormat0 := 0x8DBB; InternalFormat1 := 0x8DBB;
     GLType := GL_UNSIGNED_BYTE |}.

Definition WidestTexture : FOpenGLTexture :=
  NewTexture2D 4294967295 1 OneByteBlocks 1 0.

(* ===================================================================== *)
(** ** Well-formed registries                                              *)
(* ===================================================================== *)

(** The registry holds no texture twice and no more than [LRUMax] textures;
    each member is a texture that has eviction parameters, holds its own
    handle and is restored; and no texture is aliased. *)
Definition RegistryWellFormed (E : FEnv) (w : FWorld) : Prop :=
  NoDup (TextureLRU w)
  /\ (length (TextureLRU w) <= LRUMax E)%nat
  /\ (forall k, k ∈ TextureLRU w ->
        exists t P, Textures w !! k = Some t
                    /\ EvictionParamsPtr t = Some P
                    /\ LRUNode P = Some k
                    /\ bHasRestored P = true)
  /\ (forall k t, Textures w !! k = Some t -> bIsAliased t = false).

(** What every operation keeps: as [RegistryWellFormed], but only the
    textures that have eviction parameters are known not to be aliased. *)
Definition RegistrySound (E : FEnv) (w : FWorld) : Prop :=
  NoDup (TextureLRU w)
  /\ (length (TextureLRU w) <= LRUMax E)%nat
  /\ (forall k, k ∈ TextureLRU w ->
        exists t P, Textures w !! k = Some t
                    /\ EvictionParamsPtr t = Some P
                    /\ LRUNode P = Some k
                    /\ bHasRestored P = true)
  /\ (forall k t, Textures w !! k = Some t -> is_Some (EvictionParamsPtr t) ->
                  bIsAliased t = false).

(* ===================================================================== *)
(** ** The layout of bulk data                                             *)
(* ===================================================================== *)

(** The offset of mip [m] in the bulk data of a texture that is not an
    array: the mips lie one after the other, each of its lock size. *)
Fixpoint BulkOffset (t : FOpenGLTexture) (m : nat) : Z :=
  match m with
  | O => 0
  | S m' => BulkOffset t m' + fst (GetLockSize t m')
  end.

(** The bytes of mip [m] in the bulk data. *)
Definition BulkSlice (t : FOpenGLTexture) (Data : Buffer) (m : nat) : Buffer :=
  take (Z.to_nat (fst (GetLockSize t m))) (drop (Z.to_nat (BulkOffset t m)) Data).

(** The mips of the bulk data, mip 0 first. *)
Definition BulkSlices (t : FOpenGLTexture) (Data : Buffer) : list Buffer :=
  map (BulkSlice t Data) (seq 0 (NumMips t)).

(** Deferral switched off, everything else at its default. *)
Definition ImmediateEnv : FEnv := DefaultEnv 0 true 7 8.

(* ===================================================================== *)
(** ** The cached GL state                                                 *)
(* ===================================================================== *)

(** The state caches that [InvalidateTextureResourceInCache] and
    [InvalidateUAVResourceInCache] clean. The types are declared in headers
    that are not part of this source file; the records hold the fields these
    two functions read and write. *)
Module Cache.

(** A texture stage: what is bound to one sampler. *)
Record FTextureStage : Type := {
  Target : Z;
  Resource : Z
}.

(** A UAV stage: what is bound to one image unit. *)
Record FUAVStage : Type := {
  Format : Z;
  UAVResource : Z     (* the field [Resource] of the UAV stage *)
}.

(** [Textures] is a pointer to an array of stages and may be null; [UAVs]
    is an array. *)
Record FOpenGLContextState : Type := {
  Textures : option (list FTextureStage);
  UAVs : list FUAVStage
}.

End Cache.

(** The part of [FOpenGLDynamicRHI] the two functions work on.
    [DepthStencil] is [PendingState.DepthStencil]: [None] for a null pointer,
    else the resource name of the texture it points to. The two limits are
    [FOpenGL::GetMaxCombinedTextureImageUnits()] and
    [FOpenGL::GetMaxCombinedUAVUnits()]. *)
Record FOpenGLDynamicRHI : Type := {
  SharedContextState : Cache.FOpenGLContextState;
  RenderingContextState : Cache.FOpenGLContextState;
  PendingState : Cache.FOpenGLContextState;
  DepthStencil : option Z;
  TextureMipLimits : gmap Z (Z * Z);
  MaxCombinedTextureImageUnits : Z;
  MaxCombinedUAVUnits : Z
}.

(** One of the three [if] statements of the loop body of
    [InvalidateTextureResourceInCache]:
    [if (State.Textures && State.Textures[SamplerIndex].Resource == Resource)]
    resets the stage. Indexing past the end of the array is a fault. *)
Definition InvalidateTextureStage (Resource : Z) (SamplerIndex : nat)
    (State : Cache.FOpenGLContextState) : result Cache.FOpenGLContextState :=
  match Cache.Textures State with
  | None => Ok State
  | Some stages =>
      stage <- index stages SamplerIndex ;;
      if Cache.Resource stage =? Resource
      then Ok {| Cache.Textures :=
                   Some (<[SamplerIndex := {| Cache.Target := GL_NONE;
                                              Cache.Resource := 0 |}]> stages);
                 Cache.UAVs := Cache.UAVs State |}
      else Ok State
  end.

(** The loop of [InvalidateTextureResourceInCache]; [SamplerIndex] counts
    up through [n] iterations. *)
Fixpoint InvalidateTextures_loop (n SamplerIndex : nat) (Resource : Z)
    (Shared Rendering Pending : Cache.FOpenGLContextState)
    : result (Cache.FOpenGLContextState * Cache.FOpenGLContextState
              * Cache.FOpenGLContextState) :=
  match n with
  | O => Ok (Shared, Rendering, Pending)
  | S n' =>
      Shared' <- InvalidateTextureStage Resource SamplerIndex Shared ;;
      Rendering' <- InvalidateTextureStage Resource SamplerIndex Rendering ;;
      Pending' <- InvalidateTextureStage Resource SamplerIndex Pending ;;
      InvalidateTextures_loop n' (S SamplerIndex) Resource Shared' Rendering' Pending'
  end.

(** [FOpenGLDynamicRHI::InvalidateTextureResourceInCache(GLuint Resource)] *)
Definition InvalidateTextureResourceInCache (RHI : FOpenGLDynamicRHI) (Resource : Z)
    : result FOpenGLDynamicRHI :=
  states <-
    (if bool_decide (is_Some (Cache.Textures (SharedContextState RHI)))
        || bool_decide (is_Some (Cache.Textures (RenderingContextState RHI)))
        || bool_decide (is_Some (Cache.Textures (PendingState RHI)))
     then InvalidateTextures_loop (Z.to_nat (MaxCombinedTextureImageUnits RHI)) 0
            Resource (SharedContextState RHI) (RenderingContextState RHI)
            (PendingState RHI)
     else Ok (SharedContextState RHI, RenderingContextState RHI, PendingState RHI)) ;;
  let '(Shared, Rendering, Pending) := states in
  Ok {| SharedContextState := Shared;
        RenderingContextState := Rendering;
        PendingState := Pending;
        DepthStencil :=
          match DepthStencil RHI with
          | Some r => if r =? Resource then None else Some r
          | None => None
          end;
        TextureMipLimits := delete Resource (TextureMipLimits RHI);
        MaxCombinedTextureImageUnits := MaxCombinedTextureImageUnits RHI;
        MaxCombinedUAVUnits := MaxCombinedUAVUnits RHI |}.

(** One of the three [if] statements of the loop body of
    [InvalidateUAVResourceInCache]. *)
Definition InvalidateUAVStage (Resource : Z) (UAVIndex : nat)
    (State : Cache.FOpenGLContextState) : result Cache.FOpenGLContextState :=
  stage <- index (Cache.UAVs State) UAVIndex ;;
  if Cache.UAVResource stage =? Resource
  then Ok {| Cache.Textures := Cache.Textures State;
             Cache.UAVs := <[UAVIndex := {| Cache.Format := GL_NONE;
                                            Cache.UAVResource := 0 |}]>
                             (Cache.UAVs State) |}
  else Ok State.

Fixpoint InvalidateUAVs_loop (n UAVIndex : nat) (Resource : Z)
    (Shared Rendering Pending : Cache.FOpenGLContextState)
    : result (Cache.FOpenGLContextState * Cache.FOpenGLContextState
              * Cache.FOpenGLContextState) :=
  match n with
  | O => Ok (Shared, Rendering, Pending)
  | S n' =>
      Shared' <- InvalidateUAVStage Resource UAVIndex Shared ;;
      Rendering' <- InvalidateUAVStage Resource UAVIndex Rendering ;;
      Pending' <- InvalidateUAVStage Resource UAVIndex Pending ;;
      InvalidateUAVs_loop n' (S UAVIndex) Resource Shared' Rendering' Pending'
  end.

(** [FOpenGLDynamicRHI::InvalidateUAVResourceInCache(GLuint Resource)] *)
Definition InvalidateUAVResourceInCache (RHI : FOpenGLDynamicRHI) (Resource : Z)
    : result FOpenGLDynamicRHI :=
  states <- InvalidateUAVs_loop (Z.to_nat (MaxCombinedUAVUnits RHI)) 0 Resource
              (SharedContextState RHI) (RenderingContextState RHI)
              (PendingState RHI) ;;
  let '(Shared, Rendering, Pending) := states in
  Ok {| SharedContextState := Shared;
        RenderingContextState := Rendering;
        PendingState := Pending;
        DepthStencil := DepthStencil RHI;
        TextureMipLimits := TextureMipLimits RHI;
        MaxCombinedTextureImageUnits := MaxCombinedTextureImageUnits RHI;
        MaxCombinedUAVUnits := MaxCombinedUAVUnits RHI |}.

(** What is left of a stage array after the resource was invalidated in its
    first [n] stages. *)
Definition StagesWithout (Resource : Z) (n : nat) (stages : list Cache.FTextureStage)
    : list Cache.FTextureStage :=
  imap (fun i stage =>
          if bool_decide (i < n)%nat && (Cache.Resource stage =? Resource)
          then {| Cache.Target := GL_NONE; Cache.Resource := 0 |}
          else stage) stages.

Definition UAVsWithout (Resource : Z) (n : nat) (stages : list Cache.FUAVStage)
    : list Cache.FUAVStage :=
  imap (fun i stage =>
          if bool_decide (i < n)%nat && (Cache.UAVResource stage =? Resource)
          then {| Cache.Format := GL_NONE; Cache.UAVResource := 0 |}
          else stage) stages.

(** The context has a stage for every sampler below [n], when it has stages
    at all. *)
Definition HasStages (n : nat) (State : Cache.FOpenGLContextState) : Prop :=
  forall stages, Cache.Textures State = Some stages -> (n <= length stages)%nat.

(** Two samplers, the first bound to texture 7. *)
Definition TwoStages : Cache.FOpenGLContextState :=
  {| Cache.Textures := Some [ {| Cache.Target := GL_TEXTURE_2D; Cache.Resource := 7 |};
                              {| Cache.Target := GL_TEXTURE_2D; Cache.Resource := 9 |} ];
     Cache.UAVs := [ {| Cache.Format := 0x8058; Cache.UAVResource := 7 |} ] |}.

Definition NoStages : Cache.FOpenGLContextState :=
  {| Cache.Textures := None;
     Cache.UAVs := [ {| Cache.Format := 0x8058; Cache.UAVResource := 3 |} ] |}.

Definition SmallRHI : FOpenGLDynamicRHI :=
  {| SharedContextState := TwoStages;
     RenderingContextState := NoStages;
     PendingState := TwoStages;
     DepthStencil := Some 7;
     TextureMipLimits := {[ 7 := (0, 3) ]};
     MaxCombinedTextureImageUnits := 2;
     MaxCombinedUAVUnits := 1 |}.

(* ===================================================================== *)
(** ** The outcome of the eviction tick for one member                     *)
(* ===================================================================== *)

(** What [TickEviction] leaves of a member it removed from the registry:
    the handle is reset, and [TryEvictGLResource] evicted the texture when it
    was restored and could be evicted. *)
Definition AfterEviction (E : FEnv) (t : FOpenGLTexture)
    (P : FTextureEvictionParams) : FOpenGLTexture :=
  if CanCreateAsEvicted E t && bHasRestored P
     && (length (MipImageData P) =? NumMips t)%nat && AreAllMipsPresent P
  then EvictedTexture E t (set_LRUNode P None)
  else set_EvictionParamsPtr t (Some (set_LRUNode P None)).

(* ===================================================================== *)
(** * Properties                                                           *)
(* ===================================================================== *)

(** ** The result monad *)

Lemma rbind_Ok {A B : Type} (m : result A) (k : A -> result B) (b : B) :
  rbind m k = Ok b -> exists a, m = Ok a /\ k a = Ok b.
Proof. destruct m as [a|f]; simpl; [eauto | discriminate]. Qed.

Lemma check_Ok (b : bool) (u : unit) : check b = Ok u -> b = true.
Proof. destruct b; simpl; [reflexivity | discriminate]. Qed.

Lemma check_true : check true = Ok tt.
Proof. reflexivity. Qed.

Lemma deref_Ok {A : Type} (p : option A) (a : A) : deref p = Ok a -> p = Some a.
Proof. destruct p; simpl; congruence. Qed.

Lemma index_Ok {A : Type} (l : list A) (i : nat) (a : A) :
  index l i = Ok a -> l !! i = Some a.
Proof. unfold index. destruct (l !! i); congruence. Qed.

Lemma index_Some {A : Type} (l : list A) (i : nat) (a : A) :
  l !! i = Some a -> index l i = Ok a.
Proof. unfold index. intros ->. reflexivity. Qed.

Lemma indexZ_Ok {A : Type} (l : list A) (i : Z) (a : A) :
  indexZ l i = Ok a -> 0 <= i /\ l !! Z.to_nat i = Some a.
Proof.
  unfold indexZ. destruct (Z.ltb_spec i 0); [intros ?; discriminate|].
  intros H1%index_Ok. auto.
Qed.

(** Splits a hypothesis [H : (x <- m ;; k) = Ok r] into the result of [m]
    and the rest of the computation, as often as it applies. *)
Ltac inv_ok H :=
  repeat match type of H with
         | rbind _ _ = Ok _ =>
             let a := fresh "a" in
             let Ha := fresh "Hstep" in
             apply rbind_Ok in H; destruct H as (a & Ha & H);
             first [ apply check_Ok in Ha
                   | apply deref_Ok in Ha
                   | apply index_Ok in Ha
                   | idtac ]
         end.

(** ** Machine integers *)

Lemma wrap_int32_small (z : Z) : - 2 ^ 31 <= z < 2 ^ 31 -> wrap_int32 z = z.
Proof. intros H. unfold wrap_int32. rewrite Z.mod_small; lia. Qed.

Lemma wrap_uint32_small (z : Z) : 0 <= z < 2 ^ 32 -> wrap_uint32 z = z.
Proof. intros H. unfold wrap_uint32. apply Z.mod_small; lia. Qed.

Lemma wrap_int32_uint32 (z : Z) : wrap_int32 (wrap_uint32 z) = wrap_int32 z.
Proof.
  unfold wrap_int32, wrap_uint32.
  rewrite Zplus_mod_idemp_l. reflexivity.
Qed.

Lemma wrap_int32_testbit (z n : Z) :
  0 <= n < 32 -> Z.testbit (wrap_int32 z) n = Z.testbit z n.
Proof.
  intros Hn.
  rewrite <- (Z.mod_pow2_bits_low (wrap_int32 z) 32 n) by lia.
  rewrite <- (Z.mod_pow2_bits_low z 32 n) by lia.
  f_equal. unfold wrap_int32.
  rewrite Zminus_mod_idemp_l. f_equal. lia.
Qed.

Lemma land_zero_testbit (m f n : Z) :
  Z.land m f = 0 -> Z.testbit m n = true -> Z.testbit f n = false.
Proof.
  intros H Hm.
  assert (Hb : Z.testbit (Z.land m f) n = false) by (rewrite H; apply Z.bits_0).
  rewrite Z.land_spec, Hm in Hb. exact Hb.
Qed.

(** ** Eligibility: CanCreateAsEvicted *)

(** C4, as stated, fails: with the default exclusion mask a 2D texture whose
    creation flags are SRGB and Streamable can be created as evicted, although
    the claim lists both flags as excluding a texture from deferral. *)
Lemma CanCreateAsEvicted_accepts_SRGB_Streamable :
  CanCreateAsEvicted DeferringEnv SRGBStreamableTexture = true
  /\ CVarDeferTextureCreationExcludeMask DeferringEnv = DefaultExcludeMask RHIFlags
  /\ HasFlag SRGBStreamableTexture (TexCreate_SRGB RHIFlags) = true
  /\ HasFlag SRGBStreamableTexture (TexCreate_Streamable RHIFlags) = true.
Proof. repeat split; vm_compute; reflexivity. Qed.

(** C4, amended: [CanCreateAsEvicted] returns true only if deferred creation
    is enabled, the context supports the copy-image operation, the flag set
    is non-empty and disjoint from the configured exclusion mask, the target
    is [GL_TEXTURE_2D] and the texture is a 2D texture. With the default
    mask, which is the complement of ShaderResource, SRGB, Transient,
    Streamable and OfflineProcessed, every flag bit the texture has set is
    one of these five: they are the flags that permit deferral, and any other
    flag excludes the texture. *)
Theorem CanCreateAsEvicted_only_if (E : FEnv) (t : FOpenGLTexture) :
  CanCreateAsEvicted E t = true ->
  CanDeferTextureCreation E = true
  /\ SupportsCopyImage E = true
  /\ Flags t <> 0
  /\ Z.land (CVarDeferTextureCreationExcludeMask E) (Flags t) = 0
  /\ Target t = GL_TEXTURE_2D
  /\ bIsTexture2D t = true
  /\ (CVarDeferTextureCreationExcludeMask E = DefaultExcludeMask (TexCreate E) ->
      forall n, 0 <= n < 32 -> Z.testbit (Flags t) n = true ->
                Z.testbit (DeferrableFlags (TexCreate E)) n = true).
Proof.
  unfold CanCreateAsEvicted. intros H.
  repeat (apply andb_prop in H; destruct H as [H ?]).
  assert (Hmask : Z.land (CVarDeferTextureCreationExcludeMask E) (Flags t) = 0) by lia.
  repeat split; try assumption; try lia.
  intros Hdef n Hn Hbit.
  destruct (Z.testbit (DeferrableFlags (TexCreate E)) n) eqn:HD; [reflexivity|].
  rewrite Hdef in Hmask.
  assert (Hm : Z.testbit (DefaultExcludeMask (TexCreate E)) n = true).
  { unfold DefaultExcludeMask. rewrite wrap_int32_testbit by assumption.
    rewrite Z.lnot_spec by lia. rewrite HD. reflexivity. }
  pose proof (land_zero_testbit _ _ _ Hmask Hm). congruence.
Qed.

Lemma CanCreateAsEvicted_only_if_witness :
  CanCreateAsEvicted DeferringEnv SRGBStreamableTexture = true
  /\ Flags SRGBStreamableTexture <> 0
  /\ Target SRGBStreamableTexture = GL_TEXTURE_2D.
Proof.
  assert (H : CanCreateAsEvicted DeferringEnv SRGBStreamableTexture = true)
    by (vm_compute; reflexivity).
  split; [exact H|].
  pose proof (CanCreateAsEvicted_only_if DeferringEnv SRGBStreamableTexture H)
    as (_ & _ & Hf & _ & Ht & _).
  split; assumption.
Defined.

(** ** Eligibility: CanBeEvicted *)

Lemma AreAllMipsPresent_Forall (P : FTextureEvictionParams) :
  AreAllMipsPresent P = true -> Forall (fun mip => mip <> []) (MipImageData P).
Proof.
  unfold AreAllMipsPresent. intros H.
  apply Forall_forall. intros mip Hin%list_elem_of_In.
  rewrite forallb_forall in H. specialize (H mip Hin).
  intros ->. discriminate.
Qed.

Lemma CanBeEvicted_true_inv (E : FEnv) (t : FOpenGLTexture) :
  CanBeEvicted E t = Ok true ->
  CanCreateAsEvicted E t = true
  /\ (exists P, EvictionParamsPtr t = Some P
        /\ length (MipImageData P) = NumMips t
        /\ Forall (fun mip => mip <> []) (MipImageData P))
  /\ bIsAliased t = false.
Proof.
  unfold CanBeEvicted. intros H. inv_ok H.
  destruct (CanCreateAsEvicted E t) eqn:Hcreate; [|discriminate].
  inv_ok H. injection H as H.
  apply andb_prop in H as [Hlen Hall].
  apply Nat.eqb_eq in Hlen.
  split; [reflexivity|]. split.
  - exists a1. auto using AreAllMipsPresent_Forall.
  - destruct (bIsAliased t); [|reflexivity].
    simpl in Hstep0. inv_ok Hstep0. apply check_Ok in Hstep0.
    rewrite Hstep1 in Hstep2. injection Hstep2 as ->.
    rewrite Hlen in Hstep0.
    apply andb_prop in Hstep0 as [_ Hne].
    rewrite Nat.eqb_refl in Hne. discriminate.
Qed.

(** C3: [CanBeEvicted] reports true only if [CanCreateAsEvicted] holds, the
    shadow store has exactly [NumMips] slots, all of them non-empty, and the
    texture is not aliased; an aliased texture is never reported evictable. *)
Theorem CanBeEvicted_true_only_if (E : FEnv) (t : FOpenGLTexture) :
  CanBeEvicted E t = Ok true ->
  CanCreateAsEvicted E t = true
  /\ (exists P, EvictionParamsPtr t = Some P
        /\ length (MipImageData P) = NumMips t
        /\ Forall (fun mip => mip <> []) (MipImageData P))
  /\ bIsAliased t = false
  /\ (forall t', bIsAliased t' = true -> CanBeEvicted E t' <> Ok true).
Proof.
  intros H. destruct (CanBeEvicted_true_inv E t H) as (H1 & H2 & H3).
  split_and!; try assumption.
  intros t' Hal Hc. apply CanBeEvicted_true_inv in Hc as (_ & _ & Hc). congruence.
Qed.

Lemma CanBeEvicted_true_only_if_witness :
  bIsAliased PopulatedTexture = false
  /\ CanCreateAsEvicted DeferringEnv PopulatedTexture = true.
Proof.
  assert (H : CanBeEvicted DeferringEnv PopulatedTexture = Ok true)
    by (vm_compute; reflexivity).
  pose proof (CanBeEvicted_true_only_if DeferringEnv PopulatedTexture H)
    as (Hc & _ & Ha & _).
  split; assumption.
Defined.

(** ** The shadow store: ReleaseMipData *)

Lemma replicate_app_cons {A : Type} (n : nat) (x : A) (l : list A) :
  replicate n x ++ x :: l = x :: replicate n x ++ l.
Proof. induction n as [|n IH]; simpl; [reflexivity | rewrite IH; reflexivity]. Qed.

Lemma ReleaseMipData_loop_spec (n : nat) (mips : list Buffer) :
  (n <= length mips)%nat ->
  ReleaseMipData_loop n mips = Ok (replicate n [] ++ drop n mips).
Proof.
  revert mips. induction n as [|i IH]; intros mips Hn; simpl.
  - reflexivity.
  - destruct (lookup_lt_is_Some_2 mips i) as [slot Hslot]; [lia|].
    rewrite (index_Some _ _ _ Hslot). simpl.
    rewrite IH by (rewrite length_insert; lia).
    f_equal.
    rewrite drop_insert_ge by lia. rewrite Nat.sub_diag.
    rewrite (drop_S _ _ _ Hslot). simpl.
    apply replicate_app_cons.
Qed.

(** C7, as stated, fails: with four slots and [RetainMips = 1] the slot at
    index [2 = mipCount - 1 - retainCount] is freed as well, although it lies
    outside the half-open range [[0, mipCount - 1 - retainCount)]. *)
Lemma ReleaseMipData_frees_slot_outside_claimed_range :
  exists P', ReleaseMipData FourMipParams 1 = Ok P'
    /\ MipImageData FourMipParams !! 2%nat = Some [Init x03]
    /\ MipImageData P' !! 2%nat = Some []
    /\ ~ (2 < 4 - 1 - 1).
Proof. eexists. repeat split; try (vm_compute; reflexivity). lia. Qed.

(** C7, amended: for a retain count that fits an [int32], [ReleaseMipData]
    frees exactly the slots with index in [[0, mipCount - retainCount)], that
    is up to and including index [mipCount - 1 - retainCount], and leaves the
    [retainCount] lowest-resolution mips intact; when the retain count is
    zero the whole store is cleared and no slot remains. *)
Theorem ReleaseMipData_frees_all_but_retained (P : FTextureEvictionParams)
    (RetainMips : Z) :
  0 <= RetainMips < 2 ^ 31 ->
  Z.of_nat (length (MipImageData P)) < 2 ^ 31 ->
  exists P',
    ReleaseMipData P RetainMips = Ok P'
    /\ bHasRestored P' = bHasRestored P
    /\ LRUNode P' = LRUNode P
    /\ (RetainMips = 0 -> MipImageData P' = [])
    /\ (RetainMips <> 0 ->
        length (MipImageData P') = length (MipImageData P)
        /\ forall i : nat,
             (Z.of_nat i < Z.of_nat (length (MipImageData P)) - RetainMips ->
              MipImageData P' !! i = Some [])
             /\ (Z.of_nat (length (MipImageData P)) - RetainMips <= Z.of_nat i ->
                 MipImageData P' !! i = MipImageData P !! i)).
Proof.
  intros HR Hlen. unfold ReleaseMipData.
  rewrite wrap_int32_uint32, wrap_int32_small by lia.
  set (n := Z.to_nat (Z.of_nat (length (MipImageData P)) - 1 - RetainMips + 1)).
  assert (Hn : n = (length (MipImageData P) - Z.to_nat RetainMips)%nat)
    by (subst n; lia).
  clearbody n. subst n.
  rewrite ReleaseMipData_loop_spec by lia. simpl.
  eexists. split; [reflexivity|]. simpl.
  split; [reflexivity|]. split; [reflexivity|].
  destruct (Z.eqb_spec RetainMips 0) as [->|Hne].
  - split; [reflexivity | congruence].
  - split; [congruence|]. intros _. split.
    + rewrite length_app, length_replicate, length_drop. lia.
    + intros i. split; intros Hi.
      * rewrite lookup_app_l by (rewrite length_replicate; lia).
        apply lookup_replicate_2. lia.
      * rewrite lookup_app_r by (rewrite length_replicate; lia).
        rewrite length_replicate, lookup_drop. f_equal. lia.
Qed.

Lemma ReleaseMipData_frees_all_but_retained_witness :
  exists P', ReleaseMipData FourMipParams 1 = Ok P'
    /\ MipImageData P' !! 3%nat = Some [Init x04].
Proof.
  destruct (ReleaseMipData_frees_all_but_retained FourMipParams 1)
    as (P' & HP' & _ & _ & _ & Hkeep); [lia | simpl; lia |].
  exists P'. split; [exact HP'|].
  destruct Hkeep as [_ Hslots]; [lia|].
  destruct (Hslots 3%nat) as [_ Hsame]. rewrite Hsame; [reflexivity | simpl; lia].
Defined.

(** ** The shadow store: SetMipData *)

Lemma SetMipData_occupied (P : FTextureEvictionParams) (MipIndex : nat)
    (Data : option Buffer) (Bytes : nat) (slot : Buffer) :
  MipImageData P !! MipIndex = Some slot -> slot <> [] ->
  exists f, SetMipData P MipIndex Data Bytes = Err f.
Proof.
  intros Hslot Hne. unfold SetMipData.
  destruct Bytes as [|b]; simpl; [eauto|].
  rewrite (index_Some _ _ _ Hslot). simpl.
  destruct slot; [congruence|]. simpl. eauto.
Qed.

Lemma SetMipData_empty_null (P : FTextureEvictionParams) (MipIndex Bytes : nat) :
  MipImageData P !! MipIndex = Some [] -> Bytes <> 0%nat ->
  SetMipData P MipIndex None Bytes
  = Ok (set_MipImageData P (<[MipIndex := replicate Bytes Uninit]> (MipImageData P))).
Proof.
  intros Hslot HB. unfold SetMipData.
  destruct Bytes as [|b]; [congruence|]. cbn [Nat.eqb negb check rbind].
  rewrite (index_Some _ _ _ Hslot). reflexivity.
Qed.

Lemma SetMipData_empty_copy (P : FTextureEvictionParams) (MipIndex Bytes : nat)
    (src : Buffer) :
  MipImageData P !! MipIndex = Some [] -> Bytes <> 0%nat ->
  (Bytes <= length src)%nat ->
  SetMipData P MipIndex (Some src) Bytes
  = Ok (set_MipImageData P (<[MipIndex := take Bytes src]> (MipImageData P))).
Proof.
  intros Hslot HB Hsrc. unfold SetMipData.
  destruct Bytes as [|b]; [congruence|]. cbn [Nat.eqb negb check rbind].
  rewrite (index_Some _ _ _ Hslot). cbn [rbind length Nat.eqb negb].
  unfold Memcpy. rewrite length_replicate, Nat.leb_refl, andb_true_r.
  destruct (Nat.leb_spec (S b) (length src)); [|lia].
  cbn [rbind]. rewrite drop_ge by (rewrite length_replicate; lia).
  rewrite app_nil_r. reflexivity.
Qed.

(** C8, as stated, fails: a first call on an empty slot with a byte count of
    zero does not allocate a buffer of that size; it faults on
    [checkf(Bytes)]. *)
Lemma SetMipData_zero_bytes_faults :
  MipImageData (NewEvictionParams 2) !! 0%nat = Some []
  /\ SetMipData (NewEvictionParams 2) 0 (Some [Init x07]) 0 = Err CheckFailed
  /\ SetMipData (NewEvictionParams 2) 0 None 0 = Err CheckFailed.
Proof. split_and!; reflexivity. Qed.

(** C8, amended: a [SetMipData] on a slot that already holds data faults,
    whatever the arguments, and so never overwrites; a call with a byte count
    of zero faults as well; a first call on an empty slot with a non-zero
    byte count installs a buffer of exactly [Bytes] bytes, holding the first
    [Bytes] bytes of the source when the source pointer is non-null and
    uninitialised bytes otherwise, and leaves every other slot as it was. *)
Theorem SetMipData_write_once (P : FTextureEvictionParams) (MipIndex : nat)
    (Data : option Buffer) (Bytes : nat) :
  (forall slot, MipImageData P !! MipIndex = Some slot -> slot <> [] ->
     exists f, SetMipData P MipIndex Data Bytes = Err f)
  /\ (Bytes = 0%nat -> SetMipData P MipIndex Data Bytes = Err CheckFailed)
  /\ (MipImageData P !! MipIndex = Some [] -> Bytes <> 0%nat ->
      (forall src, Data = Some src -> (Bytes <= length src)%nat ->
         exists P', SetMipData P MipIndex Data Bytes = Ok P'
           /\ MipImageData P' = <[MipIndex := take Bytes src]> (MipImageData P)
           /\ (MipImageData P' !! MipIndex = Some (take Bytes src))
           /\ length (take Bytes src) = Bytes)
      /\ (Data = None ->
         exists P', SetMipData P MipIndex Data Bytes = Ok P'
           /\ MipImageData P' = <[MipIndex := replicate Bytes Uninit]> (MipImageData P)
           /\ MipImageData P' !! MipIndex = Some (replicate Bytes Uninit)
           /\ length (replicate Bytes Uninit) = Bytes)).
Proof.
  split_and!.
  - intros slot Hslot Hne. apply (SetMipData_occupied P MipIndex Data Bytes slot Hslot Hne).
  - intros ->. reflexivity.
  - intros Hslot HB. pose proof (lookup_lt_Some _ _ _ Hslot) as Hlt. split.
    + intros src -> Hsrc. rewrite SetMipData_empty_copy by assumption.
      eexists. split; [reflexivity|]. cbn [MipImageData set_MipImageData].
      split_and!; [reflexivity | apply list_lookup_insert_eq, Hlt |].
      rewrite length_take. lia.
    + intros ->. rewrite SetMipData_empty_null by assumption.
      eexists. split; [reflexivity|]. cbn [MipImageData set_MipImageData].
      split_and!; [reflexivity | apply list_lookup_insert_eq, Hlt |].
      apply length_replicate.
Qed.

Lemma SetMipData_write_once_witness :
  exists P', SetMipData (NewEvictionParams 2) 1 (Some [Init x07; Init x08]) 2 = Ok P'
    /\ MipImageData P' !! 1%nat = Some [Init x07; Init x08].
Proof.
  destruct (SetMipData_write_once (NewEvictionParams 2) 1 (Some [Init x07; Init x08]) 2)
    as (_ & _ & Hfirst).
  destruct Hfirst as [Hcopy _]; [reflexivity | lia |].
  destruct (Hcopy [Init x07; Init x08]) as (P' & HP' & _ & Hslot & _);
    [reflexivity | simpl; lia |].
  exists P'. split; assumption.
Defined.

(** ** Lock and Unlock on an evicted texture *)

Lemma IsEvicted_params (t : FOpenGLTexture) :
  IsEvicted t = true ->
  exists P, EvictionParamsPtr t = Some P /\ bHasRestored P = false.
Proof.
  unfold IsEvicted. destruct (EvictionParamsPtr t) as [P|]; [|discriminate].
  intros H. exists P. split; [reflexivity|].
  destruct (bHasRestored P); [discriminate | reflexivity].
Qed.

(** On an evicted texture [Lock] is [SetMipData] with a null source. *)
Lemma Lock_evicted (E : FEnv) (t : FOpenGLTexture) (P : FTextureEvictionParams)
    (InMipIndex ArrayIndex : nat) (LockMode : EResourceLockMode) :
  IsEvicted t = true ->
  EvictionParamsPtr t = Some P ->
  Lock E t InMipIndex ArrayIndex LockMode =
    (check (ArrayIndex =? 0)%nat ;;;
     P' <- SetMipData P InMipIndex None (Z.to_nat (fst (GetLockSize t InMipIndex))) ;;
     index (MipImageData P') InMipIndex ;;;
     Ok (set_EvictionParamsPtr t (Some P'), ShadowMipPtr InMipIndex,
         snd (GetLockSize t InMipIndex)))%result.
Proof.
  intros Hev HP. unfold Lock.
  destruct (GetLockSize t InMipIndex) as [MipBytes DestStride]. simpl fst; simpl snd.
  rewrite Hev, HP. simpl negb. rewrite orb_false_l.
  destruct (ArrayIndex =? 0)%nat; reflexivity.
Qed.

Lemma SetMipData_null_Ok (P P' : FTextureEvictionParams) (MipIndex Bytes : nat) :
  SetMipData P MipIndex None Bytes = Ok P' ->
  Bytes <> 0%nat
  /\ MipImageData P !! MipIndex = Some []
  /\ P' = set_MipImageData P (<[MipIndex := replicate Bytes Uninit]> (MipImageData P)).
Proof.
  unfold SetMipData, index. intros H.
  destruct Bytes as [|b]; [discriminate|].
  destruct (MipImageData P !! MipIndex) as [[|b0 slot]|]; simplify_eq/=.
  split; [lia | split; reflexivity].
Qed.

(** C9: [Lock] on an evicted texture does not restore it and creates no GPU
    storage: the texture stays evicted, its restored flag, GPU storage and
    staging buffers are unchanged, every other shadow slot is unchanged, the
    returned pointer addresses the shadow slot of the locked mip, and the
    matching [Unlock] changes nothing. *)
Theorem Lock_evicted_never_restores (E : FEnv) (t t' : FOpenGLTexture)
    (InMipIndex ArrayIndex : nat) (LockMode : EResourceLockMode)
    (p : LockedPtr) (DestStride : Z) :
  IsEvicted t = true ->
  Lock E t InMipIndex ArrayIndex LockMode = Ok (t', p, DestStride) ->
  IsEvicted t' = true
  /\ (bHasRestored <$> EvictionParamsPtr t') = (bHasRestored <$> EvictionParamsPtr t)
  /\ GLStorage t' = GLStorage t
  /\ PixelBuffers t' = PixelBuffers t
  /\ p = ShadowMipPtr InMipIndex
  /\ is_Some (ReadLocked t' p)
  /\ (forall j, j <> InMipIndex ->
        ReadLocked t' (ShadowMipPtr j) = ReadLocked t (ShadowMipPtr j))
  /\ Unlock E t' InMipIndex ArrayIndex = Ok t'.
Proof.
  intros Hev HL.
  destruct (IsEvicted_params t Hev) as (P & HP & Hres).
  rewrite (Lock_evicted E t P _ _ _ Hev HP) in HL.
  inv_ok HL. injection HL as <- <- <-.
  apply SetMipData_null_Ok in Hstep0 as (HB & Hslot & ->).
  assert (Hev' : IsEvicted
            (set_EvictionParamsPtr t
               (Some (set_MipImageData P
                        (<[InMipIndex := replicate
                              (Z.to_nat (fst (GetLockSize t InMipIndex))) Uninit]>
                           (MipImageData P))))) = true).
  { unfold IsEvicted. simpl. rewrite Hres. reflexivity. }
  split_and!.
  - exact Hev'.
  - simpl. rewrite HP. simpl. reflexivity.
  - reflexivity.
  - reflexivity.
  - reflexivity.
  - simpl. rewrite list_lookup_insert_eq by (eapply lookup_lt_Some, Hslot). eauto.
  - intros j Hj. simpl. rewrite HP. simpl.
    apply list_lookup_insert_ne. congruence.
  - unfold Unlock. rewrite Hev', Hstep. reflexivity.
Qed.

Lemma Lock_evicted_never_restores_witness :
  exists t', Lock DeferringEnv FreshEvictedTexture 1 0 RLM_ReadOnly
             = Ok (t', ShadowMipPtr 1, 1)
    /\ IsEvicted t' = true /\ GLStorage t' = None.
Proof.
  eexists. split; [vm_compute; reflexivity|].
  assert (Hev : IsEvicted FreshEvictedTexture = true) by reflexivity.
  pose proof (Lock_evicted_never_restores DeferringEnv FreshEvictedTexture _ 1 0
                RLM_ReadOnly _ _ Hev eq_refl) as (H1 & _ & H2 & _).
  split; [exact H1 | exact H2].
Defined.

(** C10: on an evicted texture and for every lock mode, a successful [Lock]
    found the mip's shadow slot empty, installed in it a buffer of the
    computed mip byte size whose bytes are all uninitialised, and returned a
    pointer to that buffer; when the slot already holds data the call
    faults; and when the slot is empty (with array index zero and a non-zero
    mip size) the call succeeds. The lock mode has no influence. *)
Theorem Lock_evicted_allocates_fresh (E : FEnv) (t : FOpenGLTexture)
    (InMipIndex ArrayIndex : nat) (LockMode : EResourceLockMode) :
  IsEvicted t = true ->
  let MipBytes := Z.to_nat (fst (GetLockSize t InMipIndex)) in
  (forall t' p DestStride,
     Lock E t InMipIndex ArrayIndex LockMode = Ok (t', p, DestStride) ->
     ReadLocked t (ShadowMipPtr InMipIndex) = Some []
     /\ p = ShadowMipPtr InMipIndex
     /\ ReadLocked t' p = Some (replicate MipBytes Uninit)
     /\ DestStride = snd (GetLockSize t InMipIndex))
  /\ (forall slot, ReadLocked t (ShadowMipPtr InMipIndex) = Some slot -> slot <> [] ->
        exists f, Lock E t InMipIndex ArrayIndex LockMode = Err f)
  /\ (ReadLocked t (ShadowMipPtr InMipIndex) = Some [] ->
      ArrayIndex = 0%nat -> MipBytes <> 0%nat ->
      exists t', Lock E t InMipIndex ArrayIndex LockMode
                 = Ok (t', ShadowMipPtr InMipIndex, snd (GetLockSize t InMipIndex))
        /\ ReadLocked t' (ShadowMipPtr InMipIndex) = Some (replicate MipBytes Uninit))
  /\ (forall LockMode', Lock E t InMipIndex ArrayIndex LockMode'
                        = Lock E t InMipIndex ArrayIndex LockMode).
Proof.
  intros Hev MipBytes. subst MipBytes.
  destruct (IsEvicted_params t Hev) as (P & HP & Hres).
  assert (Hread : ReadLocked t (ShadowMipPtr InMipIndex) = MipImageData P !! InMipIndex).
  { simpl. rewrite HP. reflexivity. }
  rewrite Hread.
  split_and!.
  - intros t' p DestStride H.
    rewrite (Lock_evicted E t P _ _ _ Hev HP) in H.
    inv_ok H. injection H as <- <- <-.
    apply SetMipData_null_Ok in Hstep0 as (_ & Hslot & ->).
    split_and!; try reflexivity; [exact Hslot|].
    simpl. apply list_lookup_insert_eq. eapply lookup_lt_Some, Hslot.
  - intros slot Hslot Hne.
    rewrite (Lock_evicted E t P _ _ _ Hev HP).
    destruct (ArrayIndex =? 0)%nat; cbn [check rbind]; [|eauto].
    destruct (SetMipData_occupied P InMipIndex None
                (Z.to_nat (fst (GetLockSize t InMipIndex))) slot Hslot Hne) as [f Hf].
    rewrite Hf. cbn [rbind]. eauto.
  - intros Hslot -> HB.
    rewrite (Lock_evicted E t P _ _ _ Hev HP). cbn [Nat.eqb check rbind].
    rewrite (SetMipData_empty_null P InMipIndex _ Hslot HB). cbn [rbind].
    assert (Hnew : <[InMipIndex := replicate (Z.to_nat (fst (GetLockSize t InMipIndex)))
                                     Uninit]> (MipImageData P) !! InMipIndex
                   = Some (replicate (Z.to_nat (fst (GetLockSize t InMipIndex))) Uninit)).
    { apply list_lookup_insert_eq. eapply lookup_lt_Some, Hslot. }
    cbn [MipImageData set_MipImageData].
    rewrite (index_Some _ _ _ Hnew). cbn [rbind].
    eexists. split; [reflexivity|]. simpl. exact Hnew.
  - intros LockMode'.
    rewrite !(Lock_evicted E t P _ _ _ Hev HP). reflexivity.
Qed.

Lemma Lock_evicted_allocates_fresh_witness :
  exists t', Lock DeferringEnv FreshEvictedTexture 0 0 RLM_ReadOnly
             = Ok (t', ShadowMipPtr 0, 2)
    /\ ReadLocked t' (ShadowMipPtr 0) = Some [Uninit; Uninit; Uninit; Uninit].
Proof.
  assert (Hev : IsEvicted FreshEvictedTexture = true) by reflexivity.
  destruct (Lock_evicted_allocates_fresh DeferringEnv FreshEvictedTexture 0 0
              RLM_ReadOnly Hev) as (_ & _ & Hok & _).
  destruct Hok as (t' & Ht' & Hread); [reflexivity | reflexivity | vm_compute; lia |].
  exists t'. split; [exact Ht' | exact Hread].
Defined.

(** ** The eviction scheduler: TickEviction *)

Lemma CanBeEvicted_not_aliased (E : FEnv) (t : FOpenGLTexture)
    (P : FTextureEvictionParams) :
  EvictionParamsPtr t = Some P -> bIsAliased t = false ->
  CanBeEvicted E t =
    Ok (CanCreateAsEvicted E t
        && (length (MipImageData P) =? NumMips t)%nat && AreAllMipsPresent P).
Proof.
  intros HP Hal. unfold CanBeEvicted. rewrite HP, Hal, andb_false_r.
  destruct (CanCreateAsEvicted E t); reflexivity.
Qed.

(** [TryEvictGLResource] on a texture that is not aliased never faults; it
    either leaves the texture as it is or destroys the GPU storage, clears
    the restored flag and takes a new name, and it keeps the shadow store,
    the LRU handle and the frame stamp. *)
Lemma TryEvictGLResource_not_aliased (E : FEnv) (t : FOpenGLTexture)
    (P : FTextureEvictionParams) :
  EvictionParamsPtr t = Some P -> bIsAliased t = false ->
  TryEvictGLResource E t =
    Ok (if CanCreateAsEvicted E t && bHasRestored P
           && (length (MipImageData P) =? NumMips t)%nat && AreAllMipsPresent P
        then EvictedTexture E t P
        else t).
Proof.
  intros HP Hal. unfold TryEvictGLResource.
  rewrite (CanBeEvicted_not_aliased E t P HP Hal), HP.
  destruct (CanCreateAsEvicted E t); [|reflexivity]. simpl.
  destruct (bHasRestored P); [|reflexivity]. simpl.
  destruct ((length (MipImageData P) =? NumMips t)%nat && AreAllMipsPresent P);
    reflexivity.
Qed.

Lemma EvictRemoved_spec (E : FEnv) (textures : gmap positive FOpenGLTexture)
    (k : positive) :
  MemberOk textures k ->
  exists textures',
    EvictRemoved E textures k = Ok textures'
    /\ (forall j, j <> k -> textures' !! j = textures !! j)
    /\ (forall j, LastTouched textures' j = LastTouched textures j)
    /\ (forall j, MemberOk textures j -> MemberOk textures' j)
    /\ HandleOf textures' k = Some None.
Proof.
  intros (t & P & Ht & HP & Hal). unfold EvictRemoved.
  rewrite Ht. cbn [deref rbind]. rewrite HP. cbn [deref rbind].
  rewrite (TryEvictGLResource_not_aliased E _ (set_LRUNode P None))
    by (simpl; auto).
  cbn [rbind]. eexists. split; [reflexivity|].
  match goal with |- context [<[k := ?x]> textures] => set (t' := x) end.
  assert (Ht' : exists P', EvictionParamsPtr t' = Some P'
                  /\ FrameLastRendered P' = FrameLastRendered P
                  /\ LRUNode P' = None /\ bIsAliased t' = false).
  { subst t'. match goal with |- context [if ?c then _ else _] => destruct c end;
      simpl; eauto. }
  destruct Ht' as (P' & HP' & HF & HN & Hal').
  split_and!.
  - intros j Hj. apply lookup_insert_ne. congruence.
  - intros j. unfold LastTouched. destruct (decide (j = k)) as [->|Hj].
    + rewrite lookup_insert_eq, Ht. simpl. rewrite HP', HP. simpl. congruence.
    + rewrite lookup_insert_ne by congruence. reflexivity.
  - intros j (tj & Pj & Htj & HPj & Halj). unfold MemberOk.
    destruct (decide (j = k)) as [->|Hj].
    + rewrite lookup_insert_eq. eauto 6.
    + rewrite lookup_insert_ne by congruence. eauto 6.
  - unfold HandleOf. rewrite lookup_insert_eq. simpl. rewrite HP'. simpl.
    rewrite HN. reflexivity.
Qed.

(** Closes a goal that assumes membership in the empty list. *)
Ltac by_nil :=
  let x := fresh in let H := fresh in
  intros x H; apply elem_of_nil in H; contradiction.

Lemma EvictRemoved_eq (E : FEnv) (textures : gmap positive FOpenGLTexture)
    (k : positive) (t : FOpenGLTexture) (P : FTextureEvictionParams) :
  textures !! k = Some t -> EvictionParamsPtr t = Some P ->
  bIsAliased t = false ->
  EvictRemoved E textures k = Ok (<[k := AfterEviction E t P]> textures).
Proof.
  intros Ht HP Hal. unfold EvictRemoved. rewrite Ht. cbn [deref rbind].
  rewrite HP. cbn [deref rbind].
  rewrite (TryEvictGLResource_not_aliased E _ (set_LRUNode P None))
    by (simpl; auto).
  cbn [rbind]. unfold AfterEviction.
  match goal with
  | |- context [CanCreateAsEvicted E ?x] =>
      change (CanCreateAsEvicted E x) with (CanCreateAsEvicted E t)
  end.
  cbn [bHasRestored MipImageData set_LRUNode NumMips set_EvictionParamsPtr].
  unfold AreAllMipsPresent. cbn [MipImageData set_LRUNode].
  destruct (CanCreateAsEvicted E t && bHasRestored P
            && (length (MipImageData P) =? NumMips t)%nat
            && forallb (fun mip => negb (length mip =? 0)%nat) (MipImageData P));
    reflexivity.
Qed.

Lemma TickEviction_loop_spec (E : FEnv) (frame : Z) (lru : list positive) :
  forall (textures : gmap positive FOpenGLTexture) (EvictCount : Z),
  (forall k, k ∈ lru -> MemberOk textures k) ->
  exists evicted rest textures',
    TickEviction_loop E frame lru textures EvictCount = Ok (rest, textures')
    /\ lru = evicted ++ rest
    /\ (evicted = [] \/ EvictCount + Z.of_nat (length evicted)
                         <= GOGLTexturesToEvictPerFrame E)
    /\ (forall k, k ∈ evicted -> DueNow E frame textures k)
    /\ (rest = []
        \/ GOGLTexturesToEvictPerFrame E <= EvictCount + Z.of_nat (length evicted)
        \/ exists k rest', rest = k :: rest' /\ ~ DueNow E frame textures k)
    /\ (forall k, k ∉ evicted -> textures' !! k = textures !! k)
    /\ (forall k, k ∈ evicted -> HandleOf textures' k = Some None)
    /\ (forall k, LastTouched textures' k = LastTouched textures k)
    /\ (NoDup lru ->
        forall k, k ∈ evicted ->
          exists t P, textures !! k = Some t /\ EvictionParamsPtr t = Some P
                      /\ textures' !! k = Some (AfterEviction E t P)).
Proof.
  induction lru as [|k rest IH]; intros textures EvictCount Hok.
  - exists [], [], textures. simpl. split_and!; auto; try by_nil.
    intros _. by_nil.
  - destruct (Hok k) as (t & P & Ht & HP & Hal); [apply elem_of_cons; auto|].
    cbn [TickEviction_loop]. rewrite Ht. cbn [deref rbind].
    rewrite HP. cbn [deref rbind].
    assert (Hlast : LastTouched textures k = Some (FrameLastRendered P)).
    { unfold LastTouched. rewrite Ht. simpl. rewrite HP. reflexivity. }
    unfold EvictionDue.
    destruct (Z.ltb_spec (wrap_uint32 (FrameLastRendered P + GOGLTextureEvictFramesToLive E))
                frame) as [Hdue|Hnot]; cbn [andb].
    + destruct (Z.ltb_spec EvictCount (GOGLTexturesToEvictPerFrame E)) as [Hcnt|Hcnt].
      * destruct (EvictRemoved_spec E textures k) as (tx1 & Hev & Hother & Hlt & Hmem & Hh);
          [exists t, P; auto|].
        pose proof (EvictRemoved_eq E textures k t P Ht HP Hal) as Heq.
        rewrite Hev in Heq. injection Heq as Htx1.
        rewrite Hev. cbn [rbind].
        destruct (IH tx1 (EvictCount + 1)) as
          (ev & rs & tx2 & Hloop & Happ & Hbound & Hdues & Hstop & Hsame & Hhandle
           & Hlt2 & Hres).
        { intros j Hj. apply Hmem, Hok. apply elem_of_cons. auto. }
        exists (k :: ev), rs, tx2. rewrite Hloop. split_and!.
        -- reflexivity.
        -- rewrite Happ. reflexivity.
        -- right. destruct Hbound as [-> | Hb]; simpl length; lia.
        -- intros j Hj. apply elem_of_cons in Hj as [->|Hj].
           ++ exists (FrameLastRendered P). auto.
           ++ destruct (Hdues j Hj) as (last & Hl & Hd). exists last.
              rewrite <- Hlt. auto.
        -- destruct Hstop as [-> | [Hfull | (j & rs' & -> & Hnd)]].
           ++ left. reflexivity.
           ++ right. left. simpl length. lia.
           ++ right. right. exists j, rs'. split; [reflexivity|].
              intros (last & Hl & Hd). apply Hnd. exists last.
              rewrite Hlt. auto.
        -- intros j Hj. apply not_elem_of_cons in Hj as [Hjk Hjev].
           rewrite Hsame by assumption. apply Hother, Hjk.
        -- intros j Hj. destruct (decide (j ∈ ev)) as [Hin|Hnin].
           ++ apply Hhandle, Hin.
           ++ apply elem_of_cons in Hj as [->|Hj]; [|contradiction].
              unfold HandleOf. rewrite Hsame by assumption. exact Hh.
        -- intros j. rewrite Hlt2. apply Hlt.
        -- intros Hnd j Hj. apply NoDup_cons in Hnd as [Hk Hnd].
           assert (Hkev : k ∉ ev).
           { intros Hin. apply Hk. rewrite Happ. apply elem_of_app. auto. }
           apply elem_of_cons in Hj as [->|Hj].
           ++ exists t, P. split_and!; [exact Ht | exact HP |].
              rewrite (Hsame k Hkev), Htx1. apply lookup_insert_eq.
           ++ destruct (Hres Hnd j Hj) as (tj & Pj & Htj & HPj & Hfin).
              assert (Hjk : j <> k) by (intros ->; contradiction).
              exists tj, Pj. rewrite <- (Hother j Hjk). auto.
      * exists [], (k :: rest), textures. split_and!; auto; try by_nil.
        -- right. left. simpl. lia.
        -- intros _. by_nil.
    + exists [], (k :: rest), textures. split_and!; auto; try by_nil.
      * right. right. exists k, rest. split; [reflexivity|].
        intros (last & Hl & Hd). rewrite Hlast in Hl. injection Hl as <-. lia.
      * intros _. by_nil.
Qed.

(** Without wrap-around the loop condition compares the member's age with
    the threshold strictly. *)
Lemma EvictionDue_age (E : FEnv) (frame last : Z) :
  0 <= last -> 0 <= GOGLTextureEvictFramesToLive E ->
  last + GOGLTextureEvictFramesToLive E < 2 ^ 32 ->
  wrap_uint32 (last + GOGLTextureEvictFramesToLive E) < frame
  <-> frame - last > GOGLTextureEvictFramesToLive E.
Proof. intros H1 H2 H3. rewrite wrap_uint32_small by lia. lia. Qed.

(** A member whose age equals the threshold is not evicted: the tick leaves
    the registry and the texture as they are. *)
Lemma TickEviction_keeps_member_at_threshold :
  TickEviction DeferringEnv AtThresholdWorld = Ok AtThresholdWorld
  /\ TextureLRU AtThresholdWorld = [1%positive]
  /\ LastTouched (Textures AtThresholdWorld) 1 = Some 0
  /\ GFrameNumberRenderThread AtThresholdWorld - 0
     >= GOGLTextureEvictFramesToLive DeferringEnv.
Proof. split_and!; try (vm_compute; reflexivity). vm_compute. discriminate. Qed.

(** C2, as stated, fails in three ways. A member whose age equals the
    threshold ([currentFrame - lastTouchedFrame = 500 >= 500]) is not
    evicted: the comparison is strict. A member of age 99, below the
    threshold of 500, is evicted when [lastTouchedFrame + 500] wraps around
    in [uint32]. And a member that is due is removed from the registry
    without being evicted when one of its shadow mips has been released: it
    keeps its GPU storage and stays restored. *)
Lemma TickEviction_departs_from_policy :
  (TickEviction DeferringEnv AtThresholdWorld = Ok AtThresholdWorld
   /\ TextureLRU AtThresholdWorld = [1%positive]
   /\ LastTouched (Textures AtThresholdWorld) 1 = Some 0
   /\ GFrameNumberRenderThread AtThresholdWorld - 0
      >= GOGLTextureEvictFramesToLive DeferringEnv)
  /\ (exists w' t',
        TickEviction DeferringEnv WrappedStampWorld = Ok w'
        /\ TextureLRU WrappedStampWorld = [1%positive]
        /\ LastTouched (Textures WrappedStampWorld) 1 = Some 4294967196
        /\ GFrameNumberRenderThread WrappedStampWorld - 4294967196 = 99
        /\ 99 < GOGLTextureEvictFramesToLive DeferringEnv
        /\ TextureLRU w' = []
        /\ Textures w' !! 1%positive = Some t'
        /\ IsEvicted t' = true
        /\ GLStorage t' = None)
  /\ (exists w' t' P',
        TickEviction KeepOneEnv (AtFrame RestoredKeepOneWorld 501) = Ok w'
        /\ TextureLRU RestoredKeepOneWorld = [1%positive]
        /\ LastTouched (Textures RestoredKeepOneWorld) 1 = Some 0
        /\ 501 - 0 >= GOGLTextureEvictFramesToLive KeepOneEnv
        /\ TextureLRU w' = []
        /\ Textures w' !! 1%positive = Some t'
        /\ IsEvicted t' = false
        /\ is_Some (GLStorage t')
        /\ EvictionParamsPtr t' = Some P'
        /\ bHasRestored P' = true).
Proof.
  split_and!.
  - vm_compute. reflexivity.
  - reflexivity.
  - vm_compute. reflexivity.
  - vm_compute. discriminate.
  - eexists _, _. split_and!.
    + vm_compute. reflexivity.
    + reflexivity.
    + vm_compute. reflexivity.
    + reflexivity.
    + vm_compute. reflexivity.
    + reflexivity.
    + vm_compute. reflexivity.
    + reflexivity.
    + reflexivity.
  - eexists _, _, _. split_and!.
    + vm_compute. reflexivity.
    + reflexivity.
    + vm_compute. reflexivity.
    + vm_compute. discriminate.
    + reflexivity.
    + vm_compute. reflexivity.
    + reflexivity.
    + eexists. reflexivity.
    + reflexivity.
    + reflexivity.
Qed.

(** C2, amended: on a registry that holds every member once, each a live
    texture with eviction parameters that is not aliased, one tick of
    [TickEviction] succeeds and works from the least-recent end: it removes
    a prefix of the registry, of at most [maxEvictionsPerFrame] members
    (none when that number is not positive), and no other texture changes.
    Every member it removes was due, that is
    [(lastTouchedFrame + evictionAgeThresholdFrames) mod 2^32 < currentFrame],
    which means an age strictly greater than the threshold whenever the sum
    does not wrap; its handle is reset and [TryEvictGLResource] has run on
    it, which evicts it (no GPU storage, restored flag cleared, a new name)
    when it was restored, deferrable and had all its mips in the shadow
    store, and leaves it as it was otherwise. The tick stops as soon as the
    registry is empty, the budget is used up, or the least-recent member is
    not due (an age of at most the threshold when the sum does not wrap). *)
Theorem TickEviction_policy (E : FEnv) (w : FWorld) :
  NoDup (TextureLRU w) ->
  (forall k, k ∈ TextureLRU w -> MemberOk (Textures w) k) ->
  let frame := GFrameNumberRenderThread w in
  let live := GOGLTextureEvictFramesToLive E in
  exists evicted w',
    TickEviction E w = Ok w'
    /\ TextureLRU w = evicted ++ TextureLRU w'
    /\ GFrameNumberRenderThread w' = frame
    /\ Z.of_nat (length evicted) <= Z.max 0 (GOGLTexturesToEvictPerFrame E)
    /\ (forall k, k ∈ evicted ->
          exists t P,
            Textures w !! k = Some t /\ EvictionParamsPtr t = Some P
            /\ wrap_uint32 (FrameLastRendered P + live) < frame
            /\ (0 <= FrameLastRendered P -> 0 <= live ->
                FrameLastRendered P + live < 2 ^ 32 ->
                frame - FrameLastRendered P > live)
            /\ Textures w' !! k = Some (AfterEviction E t P))
    /\ (forall k, k ∉ evicted -> Textures w' !! k = Textures w !! k)
    /\ (TextureLRU w' = []
        \/ GOGLTexturesToEvictPerFrame E <= Z.of_nat (length evicted)
        \/ exists k rest last,
             TextureLRU w' = k :: rest
             /\ LastTouched (Textures w) k = Some last
             /\ frame <= wrap_uint32 (last + live)
             /\ (0 <= last -> 0 <= live -> last + live < 2 ^ 32 ->
                 frame - last <= live)).
Proof.
  intros Hnd Hwf frame live.
  destruct (TickEviction_loop_spec E (GFrameNumberRenderThread w) (TextureLRU w)
              (Textures w) 0 Hwf) as
    (ev & rs & tx & Hloop & Happ & Hbound & Hdues & Hstop & Hsame & _ & _ & Hres).
  exists ev, {| Textures := tx; TextureLRU := rs;
                GFrameNumberRenderThread := GFrameNumberRenderThread w |}.
  unfold TickEviction. rewrite Hloop. cbn [rbind fst snd].
  cbn [Textures TextureLRU GFrameNumberRenderThread].
  split_and!; try assumption; try reflexivity.
  - destruct Hbound as [-> | Hb]; simpl; lia.
  - intros k Hk. destruct (Hres Hnd k Hk) as (t & P & Ht & HP & Hfin).
    destruct (Hdues k Hk) as (last & Hl & Hd).
    unfold LastTouched in Hl. rewrite Ht in Hl. simpl in Hl. rewrite HP in Hl.
    simpl in Hl. injection Hl as <-.
    exists t, P. split_and!; try assumption.
    intros H1 H2 H3. apply EvictionDue_age; assumption.
  - destruct Hstop as [-> | [Hfull | (k & rs' & -> & Hndue)]].
    + left. reflexivity.
    + right. left. lia.
    + right. right.
      destruct (Hwf k) as (t & P & Ht & HP & _);
        [rewrite Happ; apply elem_of_app; right; apply elem_of_cons; auto|].
      assert (Hl : LastTouched (Textures w) k = Some (FrameLastRendered P)).
      { unfold LastTouched. rewrite Ht. simpl. rewrite HP. reflexivity. }
      assert (Hge : frame <= wrap_uint32 (FrameLastRendered P + live)).
      { destruct (Z.le_gt_cases frame (wrap_uint32 (FrameLastRendered P + live)))
          as [Hle|Hgt]; [exact Hle|].
        exfalso. apply Hndue. exists (FrameLastRendered P). split; [exact Hl|].
        unfold frame, live in Hgt. lia. }
      exists k, rs', (FrameLastRendered P).
      split_and!; [reflexivity | exact Hl | exact Hge |].
      intros H1 H2 H3. unfold live in *.
      rewrite wrap_uint32_small in Hge by lia. lia.
Qed.

Lemma TickEviction_policy_witness :
  exists w', TickEviction DeferringEnv PastThresholdWorld = Ok w'
    /\ TextureLRU w' = []
    /\ exists t', Textures w' !! 1%positive = Some t' /\ IsEvicted t' = true.
Proof.
  destruct (TickEviction_policy DeferringEnv PastThresholdWorld) as
    (ev & w' & Htick & Happ & _ & _ & Hev & _ & _).
  - apply NoDup_singleton.
  - intros k Hk. apply list_elem_of_singleton in Hk as ->.
    eexists _, _. split_and!; reflexivity.
  - exists w'. split; [exact Htick|].
    assert (Hw' : TextureLRU w' = [] /\ ev = [1%positive]).
    { clear Hev. pose proof Htick as Hc.
      vm_compute in Hc. injection Hc as <-.
      simpl in Happ. rewrite app_nil_r in Happ. auto. }
    destruct Hw' as [Hnil ->]. split; [exact Hnil|].
    destruct (Hev 1%positive) as (t & P & Ht & HP & _ & _ & Hfin);
      [apply list_elem_of_singleton; reflexivity|].
    eexists. split; [exact Hfin|].
    vm_compute in Ht. injection Ht as <-. vm_compute in HP. injection HP as <-.
    reflexivity.
Defined.

(** ** Frame properties of Lock, Unlock and the upload loop *)

Lemma Core_set_PixelBuffers (t : FOpenGLTexture) b :
  Core (set_PixelBuffers t b) = Core t.
Proof. reflexivity. Qed.

Lemma Core_set_GLStorage (t : FOpenGLTexture) s :
  Core (set_GLStorage t s) = Core t.
Proof. reflexivity. Qed.

Lemma Core_EvictionParamsPtr (t t' : FOpenGLTexture) :
  Core t = Core t' -> EvictionParamsPtr t = EvictionParamsPtr t'.
Proof. intros H. apply (f_equal EvictionParamsPtr) in H. exact H. Qed.

Lemma Core_IsEvicted (t t' : FOpenGLTexture) :
  Core t = Core t' -> IsEvicted t = IsEvicted t'.
Proof. intros H. apply (f_equal IsEvicted) in H. exact H. Qed.

Lemma Core_CanCreateAsEvicted (E : FEnv) (t t' : FOpenGLTexture) :
  Core t = Core t' -> CanCreateAsEvicted E t = CanCreateAsEvicted E t'.
Proof. intros H. apply (f_equal (CanCreateAsEvicted E)) in H. exact H. Qed.

Lemma Core_CanBeEvicted (E : FEnv) (t t' : FOpenGLTexture) :
  Core t = Core t' -> CanBeEvicted E t = CanBeEvicted E t'.
Proof. intros H. apply (f_equal (CanBeEvicted E)) in H. exact H. Qed.

Lemma Core_NumMips (t t' : FOpenGLTexture) :
  Core t = Core t' -> NumMips t = NumMips t'.
Proof. intros H. apply (f_equal NumMips) in H. exact H. Qed.

Lemma Core_bIsAliased (t t' : FOpenGLTexture) :
  Core t = Core t' -> bIsAliased t = bIsAliased t'.
Proof. intros H. apply (f_equal bIsAliased) in H. exact H. Qed.

Lemma Core_HasFlag (t t' : FOpenGLTexture) (f : Z) :
  Core t = Core t' -> HasFlag t f = HasFlag t' f.
Proof. intros H. apply (f_equal (fun x => HasFlag x f)) in H. exact H. Qed.

Lemma Resolve_frame (t t' : FOpenGLTexture) (MipIndex ArrayIndex : nat) :
  Resolve t MipIndex ArrayIndex = Ok t' ->
  Core t' = Core t /\ GLStorage t' = GLStorage t.
Proof.
  unfold Resolve. intros H. inv_ok H. injection H as <-. split; reflexivity.
Qed.

Lemma Lock_restored_frame (E : FEnv) (t t' : FOpenGLTexture)
    (InMipIndex ArrayIndex : nat) (LockMode : EResourceLockMode)
    (p : LockedPtr) (DestStride : Z) :
  IsEvicted t = false ->
  Lock E t InMipIndex ArrayIndex LockMode = Ok (t', p, DestStride) ->
  Core t' = Core t /\ GLStorage t' = GLStorage t
  /\ exists i, p = PixelBufferPtr i.
Proof.
  intros Hev. unfold Lock.
  destruct (GetLockSize t InMipIndex) as [MipBytes Stride].
  rewrite Hev. intros H. inv_ok H.
  match goal with
  | Hr : (if ?c then Resolve ?x _ _ else Ok ?x) = Ok ?y |- _ =>
      assert (Hfr : Core y = Core t /\ GLStorage y = GLStorage t)
        by (destruct c; [apply Resolve_frame in Hr as [-> ->]; split; reflexivity
                        | injection Hr as <-; split; reflexivity])
  end.
  destruct Hfr as [Hc Hg]. injection H as <- <- <-.
  rewrite Core_set_PixelBuffers. eauto.
Qed.

Lemma WriteLocked_pbo_frame (t t' : FOpenGLTexture) (i : nat) (Src : Buffer)
    (Count : nat) :
  WriteLocked t (PixelBufferPtr i) Src Count = Ok t' ->
  Core t' = Core t /\ GLStorage t' = GLStorage t.
Proof.
  unfold WriteLocked. intros H. inv_ok H. injection H as <-. split; reflexivity.
Qed.

Lemma UploadImage_frame (E : FEnv) (t t' : FOpenGLTexture) (i : nat)
    (data : Buffer) :
  UploadImage E t i data = Ok t' ->
  Core t' = Core t /\ PixelBuffers t' = PixelBuffers t
  /\ (is_Some (GLStorage t) -> is_Some (GLStorage t')).
Proof.
  unfold UploadImage. intros H.
  destruct (negb (SizeZ t =? 0)).
  - inv_ok H. injection H as <-.
    destruct (GLStorage t) as [images|] eqn:Hs; simpl; [eauto|].
    rewrite Hs. auto.
  - destruct (bCompressed (PixelFormat t)).
    + injection H as <-. destruct (GLStorage t); simpl; eauto.
    + destruct (GLStorage t) as [images|] eqn:Hs; [|discriminate].
      injection H as <-. simpl. eauto.
Qed.

Lemma Unlock_restored_frame (E : FEnv) (t t' : FOpenGLTexture)
    (MipIndex ArrayIndex : nat) :
  IsEvicted t = false ->
  Unlock E t MipIndex ArrayIndex = Ok t' ->
  Core t' = Core t /\ (is_Some (GLStorage t) -> is_Some (GLStorage t')).
Proof.
  intros Hev. unfold Unlock. rewrite Hev. intros H. inv_ok H.
  destruct (NeedsFloatRGBAConversion E t).
  - inv_ok H. injection H as <-. rewrite Core_set_PixelBuffers. simpl. eauto.
  - inv_ok H. injection H as <-. rewrite Core_set_PixelBuffers. simpl.
    match goal with
    | Hu : (if ?c then UploadImage E t _ _ else Ok t) = Ok ?y |- _ =>
        destruct c; [apply UploadImage_frame in Hu as (-> & _ & Hs); auto
                    | injection Hu as <-; auto]
    end.
Qed.

(** On a restored texture the upload loop changes nothing but the driver-side
    storage and the staging buffers, and storage that exists stays. *)
Lemma RestoreMips_loop_frame (E : FEnv) (n : nat) :
  forall t t' : FOpenGLTexture,
  IsEvicted t = false ->
  RestoreMips_loop E n t = Ok t' ->
  Core t' = Core t /\ (is_Some (GLStorage t) -> is_Some (GLStorage t')).
Proof.
  induction n as [|i IH]; intros t t' Hev H.
  - injection H as <-. auto.
  - cbn [RestoreMips_loop] in H. inv_ok H.
    match goal with
    | Hb : (if ?c then _ else Ok t) = Ok ?y |- _ =>
        assert (Hfr : Core y = Core t /\ (is_Some (GLStorage t) -> is_Some (GLStorage y)))
    end.
    { match goal with
      | Hb : (if ?c then _ else Ok t) = Ok ?y |- _ => destruct c
      end; [|simplify_eq; auto].
      inv_ok Hstep1.
      match goal with
      | x : (FOpenGLTexture * LockedPtr * Z)%type |- _ => destruct x as [[t1 p] s]
      end.
      inv_ok Hstep1.
      match goal with
      | HL : Lock _ _ _ _ _ = Ok _ |- _ =>
          apply Lock_restored_frame in HL as (Hc1 & Hg1 & j & ->); [|exact Hev]
      end.
      match goal with
      | HW : WriteLocked _ _ _ _ = Ok _ |- _ =>
          apply WriteLocked_pbo_frame in HW as (Hc2 & Hg2)
      end.
      apply Unlock_restored_frame in Hstep1 as (Hc3 & Hg3).
      - split; [congruence|]. intros Hs. apply Hg3. rewrite Hg2, Hg1. exact Hs.
      - rewrite (Core_IsEvicted _ t); [exact Hev | congruence]. }
    destruct Hfr as [Hc Hg].
    apply IH in H as [Hc' Hg'].
    + split; [congruence | auto].
    + rewrite (Core_IsEvicted _ t); [exact Hev | exact Hc].
Qed.

(** ** RestoreEvictedGLResource, step by step *)

Lemma ReleaseMipData_frame (P P' : FTextureEvictionParams) (R : Z) :
  ReleaseMipData P R = Ok P' ->
  bHasRestored P' = bHasRestored P /\ LRUNode P' = LRUNode P
  /\ FrameLastRendered P' = FrameLastRendered P.
Proof.
  unfold ReleaseMipData. intros H. inv_ok H. injection H as <-.
  split_and!; reflexivity.
Qed.

Lemma RetainMipsOf_Core (E : FEnv) (t t' : FOpenGLTexture) (b : bool) :
  Core t = Core t' -> RetainMipsOf E t b = RetainMipsOf E t' b.
Proof. intros H. apply (f_equal (fun x => RetainMipsOf E x b)) in H. exact H. Qed.

(** A successful [InitializeGLTextureInternal] gave the texture the name
    [TextureID] and GPU storage, and changed nothing else. *)
Lemma InitializeGLTextureInternal_inv (E : FEnv) (TextureID : Z)
    (t t' : FOpenGLTexture) (ArraySize : Z) (BulkData : option Buffer) :
  InitializeGLTextureInternal E TextureID t ArraySize BulkData = Ok t' ->
  Core t' = Core (set_Resource t TextureID)
  /\ PixelBuffers t' = PixelBuffers t
  /\ GLStorage t'
     = Some match BulkData with
            | Some Data =>
                BulkToStorage_loop (NumMips t) 0 t ArraySize Data 0
                  (replicate (length (PixelBuffers t)) [])
            | None => replicate (length (PixelBuffers t)) []
            end
  /\ TextureID <> 0
  /\ InternalFormat (PixelFormat t) (HasFlag t (TexCreate_SRGB (TexCreate E)))
     <> GL_NONE.
Proof.
  unfold InitializeGLTextureInternal. intros H.
  apply rbind_Ok in H as (u1 & Hid & H). apply check_Ok in Hid.
  apply rbind_Ok in H as (u2 & Hfmt & H).
  apply rbind_Ok in H as (u3 & Hatt & H).
  injection H as <-.
  split_and!; try reflexivity.
  - cbn [andb Z.ltb Z.compare orb] in Hid. rewrite orb_false_r in Hid.
    apply negb_true_iff, Z.eqb_neq in Hid. exact Hid.
  - destruct (Z.eqb_spec (InternalFormat (PixelFormat t)
                            (HasFlag t (TexCreate_SRGB (TexCreate E)))) GL_NONE)
      as [Heq|Hne]; [discriminate | exact Hne].
Qed.

(** [InitializeGLTextureInternal] succeeds for a name other than [0] on a
    texture the driver supports. *)
Lemma InitializeGLTextureInternal_Ok (E : FEnv) (TextureID : Z)
    (t : FOpenGLTexture) (ArraySize : Z) (BulkData : option Buffer) :
  TextureID <> 0 -> FormatSupported E t ->
  InitializeGLTextureInternal E TextureID t ArraySize BulkData
  = Ok (set_Resource
          (set_GLStorage t
             (Some match BulkData with
                   | Some Data =>
                       BulkToStorage_loop (NumMips t) 0 t ArraySize Data 0
                         (replicate (length (PixelBuffers t)) [])
                   | None => replicate (length (PixelBuffers t)) []
                   end))
          TextureID).
Proof.
  intros Hid (Hfmt & Hcol & Hdep). unfold InitializeGLTextureInternal.
  destruct (Z.eqb_spec TextureID 0) as [|_]; [contradiction|].
  cbn [negb orb check rbind].
  destruct (Z.eqb_spec (InternalFormat (PixelFormat t)
                          (HasFlag t (TexCreate_SRGB (TexCreate E)))) GL_NONE)
    as [|_]; [contradiction|].
  cbn [rbind].
  assert (Hc : (1 <=? GMaxOpenGLColorSamples E) = true) by (apply Z.leb_le; lia).
  assert (Hd : (1 <=? GMaxOpenGLDepthSamples E) = true) by (apply Z.leb_le; lia).
  rewrite Hc, Hd. cbn [check].
  destruct (AttachmentOf E t =? GL_COLOR_ATTACHMENT0); [reflexivity|].
  destruct ((AttachmentOf E t =? GL_DEPTH_ATTACHMENT)
            || (AttachmentOf E t =? GL_DEPTH_STENCIL_ATTACHMENT)); reflexivity.
Qed.

(** What a successful [RestoreEvictedGLResource] did: the texture was
    evicted; it now has GPU storage and its restored flag set; it was
    registered exactly when [CanBeEvicted] held and the registry had room;
    and the shadow store went through [ReleaseMipData] with the retain count
    of the streaming policy, or with zero when the registry was full. *)
Lemma RestoreEvictedGLResource_inv (E : FEnv) (w w' : FWorld) (k : positive)
    (b : bool) :
  RestoreEvictedGLResource E w k b = Ok w' ->
  exists t P t3 Px P5 bCan,
    Textures w !! k = Some t
    /\ EvictionParamsPtr t = Some P
    /\ bHasRestored P = false
    /\ length (MipImageData P) = NumMips t
    /\ (exists t2,
          InitializeGLTextureInternal E (Resource t)
            (set_EvictionParamsPtr t (Some (set_bHasRestored P true))) 0 None
          = Ok t2
          /\ RestoreMips_loop E (length (MipImageData P)) t2 = Ok t3)
    /\ Core t3 = Core (set_EvictionParamsPtr t (Some (set_bHasRestored P true)))
    /\ is_Some (GLStorage t3)
    /\ CanBeEvicted E t3 = Ok bCan
    /\ GFrameNumberRenderThread w' = GFrameNumberRenderThread w
    /\ Textures w' = <[k := set_EvictionParamsPtr t3 (Some P5)]> (Textures w)
    /\ bHasRestored P5 = true
    /\ LRUNode P5 = LRUNode Px
    /\ FrameLastRendered P5 = FrameLastRendered Px
    /\ ((bCan = true
         /\ length (TextureLRU w) <> LRUMax E
         /\ LRUNode P = None
         /\ (k ∉ TextureLRU w)
         /\ TextureLRU w' = TextureLRU w ++ [k]
         /\ Px = set_FrameLastRendered
                   (set_LRUNode (set_bHasRestored P true) (Some k))
                   (GFrameNumberRenderThread w)
         /\ ReleaseMipData Px (RetainMipsOf E t b) = Ok P5)
        \/ (bCan = true
            /\ length (TextureLRU w) = LRUMax E
            /\ LRUNode P = None
            /\ TextureLRU w' = TextureLRU w
            /\ Px = set_bHasRestored P true
            /\ ReleaseMipData Px 0 = Ok P5)
        \/ (bCan = false
            /\ TextureLRU w' = TextureLRU w
            /\ Px = set_bHasRestored P true
            /\ ReleaseMipData Px (RetainMipsOf E t b) = Ok P5)).
Proof.
  unfold RestoreEvictedGLResource. intros H.
  apply rbind_Ok in H as (t & Ht & H). apply deref_Ok in Ht.
  apply rbind_Ok in H as (P & HP & H). apply deref_Ok in HP.
  apply rbind_Ok in H as (u1 & Hres & H). apply check_Ok in Hres.
  apply rbind_Ok in H as (t2 & Hinit & H).
  cbn [Resource set_EvictionParamsPtr] in Hinit.
  apply rbind_Ok in H as (u2 & Hlen & H). apply check_Ok in Hlen.
  apply rbind_Ok in H as (t3 & Hloop & H).
  apply rbind_Ok in H as (bCan & Hcan & H).
  apply rbind_Ok in H as ([bAdded w4] & Hadd & H).
  apply rbind_Ok in H as (t4 & Ht4 & H). apply deref_Ok in Ht4.
  apply rbind_Ok in H as (P4 & HP4 & H). apply deref_Ok in HP4.
  apply rbind_Ok in H as (P5 & Hrel & H).
  injection H as <-.
  apply Nat.eqb_eq in Hlen.
  assert (Hres' : bHasRestored P = false) by (destruct (bHasRestored P); [discriminate | reflexivity]).
  pose proof (InitializeGLTextureInternal_inv _ _ _ _ _ _ Hinit)
    as (Hcore2 & _ & Hsto2 & _).
  change (Core t2 = Core (set_EvictionParamsPtr t (Some (set_bHasRestored P true))))
    in Hcore2.
  pose proof Hloop as Hframe.
  apply RestoreMips_loop_frame in Hframe as [Hcore Hsto];
    [|rewrite (Core_IsEvicted _ _ Hcore2); unfold IsEvicted; reflexivity].
  rewrite Hcore2 in Hcore.
  specialize (Hsto (ltac:(rewrite Hsto2; eauto))).
  pose proof (Core_EvictionParamsPtr _ _ Hcore) as HP3. simpl in HP3.
  pose proof (RetainMipsOf_Core E _ _ b Hcore) as HR. 
  change (RetainMipsOf E (set_EvictionParamsPtr t (Some (set_bHasRestored P true))) b)
    with (RetainMipsOf E t b) in HR.
  pose proof (ReleaseMipData_frame _ _ _ Hrel) as (Hb5 & Hn5 & Hf5).
  exists t, P, t3, P4, P5, bCan.
  assert (Hsteps : exists t2,
            InitializeGLTextureInternal E (Resource t)
              (set_EvictionParamsPtr t (Some (set_bHasRestored P true))) 0 None
            = Ok t2
            /\ RestoreMips_loop E (length (MipImageData P)) t2 = Ok t3)
    by eauto.
  clear Hinit Hloop.
  destruct bCan.
  - (* CanBeEvicted: the texture is offered to the registry *)
    unfold LRU_Add in Hadd. cbn [Textures set_Textures TextureLRU] in Hadd.
    rewrite lookup_insert_eq in Hadd. cbn [deref rbind] in Hadd.
    rewrite HP3 in Hadd.
    rewrite bool_decide_true in Hadd by eauto. cbn [check deref rbind] in Hadd.
    apply rbind_Ok in Hadd as (u3 & Hnode & Hadd). apply check_Ok in Hnode.
    apply rbind_Ok in Hadd as (u4 & Hnot & Hadd). apply check_Ok in Hnot.
    cbn [LRUNode set_bHasRestored] in Hnode.
    assert (HnodeN : LRUNode P = None) by (destruct (LRUNode P); [discriminate | reflexivity]).
    assert (Hk : k ∉ TextureLRU w).
    { unfold LRU_Contains in Hnot. apply negb_true_iff in Hnot.
      apply bool_decide_eq_false in Hnot. exact Hnot. }
    destruct (Nat.eqb_spec (length (TextureLRU w)) (LRUMax E)) as [Hfull|Hroom];
      cbn [negb] in Hadd; injection Hadd as <- <-.
    + (* the registry is full *)
      cbn [Textures set_Textures TextureLRU GFrameNumberRenderThread] in *.
      rewrite lookup_insert_eq in Ht4. injection Ht4 as <-.
      rewrite HP3 in HP4. injection HP4 as <-.
      rewrite insert_insert_eq.
      split_and!; try assumption; try reflexivity.
      right. left. split_and!; try assumption; reflexivity.
    + (* registered *)
      cbn [Textures set_Textures TextureLRU GFrameNumberRenderThread] in *.
      rewrite lookup_insert_eq in Ht4. injection Ht4 as <-.
      cbn [EvictionParamsPtr set_EvictionParamsPtr] in HP4. injection HP4 as <-.
      rewrite !insert_insert_eq.
      split_and!; try assumption; try reflexivity.
      left. rewrite <- HR. split_and!; try assumption; reflexivity.
  - injection Hadd as <- <-.
    cbn [Textures set_Textures TextureLRU GFrameNumberRenderThread] in *.
    rewrite lookup_insert_eq in Ht4. injection Ht4 as <-.
    rewrite HP3 in HP4. injection HP4 as <-.
    rewrite insert_insert_eq.
    split_and!; try assumption; try reflexivity.
    right. right. rewrite <- HR. split_and!; try assumption; reflexivity.
Qed.

(** ** The registry invariant *)

Lemma SetMipData_frame (P P' : FTextureEvictionParams) (MipIndex : nat)
    (Data : option Buffer) (Bytes : nat) :
  SetMipData P MipIndex Data Bytes = Ok P' ->
  bHasRestored P' = bHasRestored P /\ LRUNode P' = LRUNode P
  /\ FrameLastRendered P' = FrameLastRendered P.
Proof.
  unfold SetMipData. intros H. inv_ok H. injection H as <-.
  split_and!; reflexivity.
Qed.

Lemma BulkToShadow_loop_frame (n : nat) :
  forall (MipIndex : nat) (t : FOpenGLTexture) (ArraySize : Z) (Data : Buffer)
         (MipOffset : Z) (P P' : FTextureEvictionParams),
  BulkToShadow_loop n MipIndex t ArraySize Data MipOffset P = Ok P' ->
  bHasRestored P' = bHasRestored P /\ LRUNode P' = LRUNode P.
Proof.
  induction n as [|n IH]; intros MipIndex t ArraySize Data MipOffset P P' H.
  - injection H as <-. auto.
  - cbn [BulkToShadow_loop] in H.
    apply rbind_Ok in H as (P1 & H1 & H).
    apply SetMipData_frame in H1 as (Hb & Hn & _).
    apply IH in H as [Hb' Hn']. split; congruence.
Qed.

(** [InitializeGLTexture] keeps the mip count of the texture, its aliasing
    flag, and the restored flag and the LRU handle of its eviction
    parameters. *)
Lemma InitializeGLTexture_frame (E : FEnv) (t t' : FOpenGLTexture)
    (ArraySize : Z) (BulkData : option Buffer) :
  InitializeGLTexture E t ArraySize BulkData = Ok t' ->
  NumMips t' = NumMips t
  /\ bIsAliased t' = bIsAliased t
  /\ RegView t' = RegView t.
Proof.
  unfold InitializeGLTexture. intros H.
  destruct (negb (IsEvicted t)).
  - apply InitializeGLTextureInternal_inv in H as (Hc & _).
    split_and!.
    + apply (f_equal NumMips) in Hc. exact Hc.
    + apply (f_equal bIsAliased) in Hc. exact Hc.
    + unfold RegView. apply (f_equal EvictionParamsPtr) in Hc. simpl in Hc.
      rewrite Hc. reflexivity.
  - apply rbind_Ok in H as (t1 & H1 & H). injection H as <-.
    destruct BulkData as [Data|].
    + apply rbind_Ok in H1 as (u1 & _ & H1).
      apply rbind_Ok in H1 as (P & HP & H1). apply deref_Ok in HP.
      apply rbind_Ok in H1 as (P' & Hloop & H1). injection H1 as <-.
      apply BulkToShadow_loop_frame in Hloop as [Hb Hn].
      unfold RegView. simpl. rewrite HP. simpl.
      split_and!; try reflexivity. congruence.
    + injection H1 as <-. split_and!; reflexivity.
Qed.

Lemma RHICreateTexture2D_RegView (E : FEnv) (InSizeX InSizeY : Z)
    (Format : FPixelFormatInfo) (InNumMips : nat) (InFlags : Z)
    (BulkData : option Buffer) (t : FOpenGLTexture) :
  RHICreateTexture2D E InSizeX InSizeY Format InNumMips InFlags BulkData = Ok t ->
  forall P, EvictionParamsPtr t = Some P -> LRUNode P = None.
Proof.
  unfold RHICreateTexture2D. cbn [check rbind negb bool_decide].
  intros H. apply rbind_Ok in H as (u & _ & H).
  apply InitializeGLTexture_frame in H as (_ & _ & HR).
  intros P HP. unfold RegView in HR. rewrite HP in HR. simpl in HR.
  destruct (CanCreateAsEvicted E _); simpl in HR; [|discriminate].
  injection HR as _ ->. reflexivity.
Qed.

Lemma Lock_RegView (E : FEnv) (t t' : FOpenGLTexture) (InMipIndex ArrayIndex : nat)
    (LockMode : EResourceLockMode) (p : LockedPtr) (DestStride : Z) :
  Lock E t InMipIndex ArrayIndex LockMode = Ok (t', p, DestStride) ->
  RegView t' = RegView t.
Proof.
  intros H. destruct (IsEvicted t) eqn:Hev.
  - destruct (IsEvicted_params t Hev) as (P & HP & _).
    rewrite (Lock_evicted E t P _ _ _ Hev HP) in H.
    apply rbind_Ok in H as (u & _ & H).
    apply rbind_Ok in H as (P' & HS & H).
    apply rbind_Ok in H as (x & _ & H). injection H as <- _ _.
    apply SetMipData_frame in HS as (Hb & Hn & _).
    unfold RegView. simpl. rewrite HP. simpl. congruence.
  - apply Lock_restored_frame in H as (Hc & _); [|exact Hev].
    unfold RegView. rewrite (Core_EvictionParamsPtr _ _ Hc). reflexivity.
Qed.

Lemma WriteLocked_RegView (t t' : FOpenGLTexture) (p : LockedPtr) (Src : Buffer)
    (Count : nat) :
  WriteLocked t p Src Count = Ok t' -> RegView t' = RegView t.
Proof.
  destruct p as [i|i]; intros H.
  - unfold WriteLocked in H.
    apply rbind_Ok in H as (P & HP & H). apply deref_Ok in HP.
    apply rbind_Ok in H as (d & _ & H).
    apply rbind_Ok in H as (wr & _ & H). injection H as <-.
    unfold RegView. simpl. rewrite HP. reflexivity.
  - apply WriteLocked_pbo_frame in H as [Hc _].
    unfold RegView. rewrite (Core_EvictionParamsPtr _ _ Hc). reflexivity.
Qed.

Lemma Unlock_RegView (E : FEnv) (t t' : FOpenGLTexture) (MipIndex ArrayIndex : nat) :
  Unlock E t MipIndex ArrayIndex = Ok t' -> RegView t' = RegView t.
Proof.
  intros H. destruct (IsEvicted t) eqn:Hev.
  - unfold Unlock in H. rewrite Hev in H.
    apply rbind_Ok in H as (u & _ & H). injection H as <-. reflexivity.
  - apply Unlock_restored_frame in H as [Hc _]; [|exact Hev].
    unfold RegView. rewrite (Core_EvictionParamsPtr _ _ Hc). reflexivity.
Qed.

Lemma RegView_Some (t : FOpenGLTexture) (P : FTextureEvictionParams) :
  EvictionParamsPtr t = Some P -> RegView t = Some (bHasRestored P, LRUNode P).
Proof. unfold RegView. intros ->. reflexivity. Qed.

Lemma RegView_is_Some (t t' : FOpenGLTexture) :
  RegView t' = RegView t -> is_Some (EvictionParamsPtr t') ->
  is_Some (EvictionParamsPtr t).
Proof.
  unfold RegView. intros Hv [P' HP']. rewrite HP' in Hv.
  destruct (EvictionParamsPtr t) as [P|]; [eauto | discriminate].
Qed.

(** Replacing a texture by one with the same restored flag and handle keeps
    the invariant. *)
Lemma RegisteredAreRestored_update (lru : list positive)
    (textures : gmap positive FOpenGLTexture) (k : positive)
    (t t' : FOpenGLTexture) :
  textures !! k = Some t -> RegView t' = RegView t ->
  RegisteredAreRestored lru textures ->
  RegisteredAreRestored lru (<[k := t']> textures).
Proof.
  intros Ht Hv Hinv j tj Pj Hj HPj Hvalid.
  destruct (decide (j = k)) as [->|Hne].
  - rewrite lookup_insert_eq in Hj. injection Hj as <-.
    rewrite (RegView_Some _ _ HPj) in Hv. unfold RegView in Hv.
    destruct (EvictionParamsPtr t) as [P|] eqn:HP; [|discriminate].
    simpl in Hv. injection Hv as Hb Hn.
    destruct (Hinv k t P Ht HP) as [Hr Hin]; [congruence|].
    split; [congruence | exact Hin].
  - rewrite lookup_insert_ne in Hj by congruence. eauto.
Qed.

(** A texture without a valid handle can replace any texture, and members can
    be added to the registry. *)
Lemma RegisteredAreRestored_unregistered (lru lru' : list positive)
    (textures : gmap positive FOpenGLTexture) (k : positive) (t' : FOpenGLTexture) :
  (forall P, EvictionParamsPtr t' = Some P -> LRUNode P = None) ->
  (forall j, j <> k -> j ∈ lru -> j ∈ lru') ->
  RegisteredAreRestored lru textures ->
  RegisteredAreRestored lru' (<[k := t']> textures).
Proof.
  intros Hnone Hsub Hinv j tj Pj Hj HPj Hvalid.
  destruct (decide (j = k)) as [->|Hne].
  - rewrite lookup_insert_eq in Hj. injection Hj as <-.
    rewrite (Hnone _ HPj) in Hvalid. discriminate.
  - rewrite lookup_insert_ne in Hj by congruence.
    destruct (Hinv j tj Pj Hj HPj Hvalid) as [Hr Hin]. auto.
Qed.

Lemma TryEvictGLResource_handle (E : FEnv) (t t' : FOpenGLTexture) :
  TryEvictGLResource E t = Ok t' ->
  (forall P, EvictionParamsPtr t = Some P -> LRUNode P = None) ->
  forall P', EvictionParamsPtr t' = Some P' -> LRUNode P' = None.
Proof.
  unfold TryEvictGLResource. intros H Hnone.
  destruct (CanCreateAsEvicted E t); [|injection H as <-; exact Hnone].
  apply rbind_Ok in H as (P & HP & H). apply deref_Ok in HP.
  destruct (bHasRestored P); [|injection H as <-; exact Hnone].
  apply rbind_Ok in H as (bCan & _ & H).
  destruct bCan; [|injection H as <-; exact Hnone].
  unfold InitializeGLTexture in H. simpl in H. injection H as <-.
  intros P' HP'. simpl in HP'. injection HP' as <-. simpl. eauto.
Qed.

Lemma EvictRemoved_inv (E : FEnv) (textures textures' : gmap positive FOpenGLTexture)
    (k : positive) :
  EvictRemoved E textures k = Ok textures' ->
  exists t', textures' = <[k := t']> textures
    /\ forall P', EvictionParamsPtr t' = Some P' -> LRUNode P' = None.
Proof.
  unfold EvictRemoved. intros H.
  apply rbind_Ok in H as (t & Ht & H).
  apply rbind_Ok in H as (P & HP & H).
  apply rbind_Ok in H as (t2 & Hev & H). injection H as <-.
  exists t2. split; [reflexivity|].
  apply (TryEvictGLResource_handle _ _ _ Hev).
  intros P0 HP0. simpl in HP0. injection HP0 as <-. reflexivity.
Qed.

Lemma TickEviction_loop_invariant (E : FEnv) (frame : Z) (lru : list positive) :
  forall (textures : gmap positive FOpenGLTexture) (EvictCount : Z)
         (rest : list positive) (textures' : gmap positive FOpenGLTexture),
  TickEviction_loop E frame lru textures EvictCount = Ok (rest, textures') ->
  RegisteredAreRestored lru textures ->
  RegisteredAreRestored rest textures'.
Proof.
  induction lru as [|k lru IH]; intros textures EvictCount rest textures' H Hinv.
  - injection H as <- <-. exact Hinv.
  - cbn [TickEviction_loop] in H.
    apply rbind_Ok in H as (t & Ht & H).
    apply rbind_Ok in H as (P & HP & H).
    destruct (EvictionDue E frame P && (EvictCount <? GOGLTexturesToEvictPerFrame E)).
    + apply rbind_Ok in H as (tx1 & Hev & H).
      apply EvictRemoved_inv in Hev as (t' & -> & Hnone).
      apply IH in H; [exact H|].
      apply (RegisteredAreRestored_unregistered (k :: lru)); [exact Hnone | | exact Hinv].
      intros j Hj Hin. apply elem_of_cons in Hin as [->|Hin]; [contradiction | exact Hin].
    + injection H as <- <-. exact Hinv.
Qed.

Lemma Step_invariant (E : FEnv) (w w' : FWorld) :
  Step E w w' ->
  RegisteredAreRestored (TextureLRU w) (Textures w) ->
  RegisteredAreRestored (TextureLRU w') (Textures w').
Proof.
  intros HS Hinv. destruct HS as
    [k sx sy fmt n fl bulk t Hfresh Hcreate
    |k fmt sx sy n sto res fl Hfresh
    |k t t' mip arr mode p s Ht HL
    |k t t' p src cnt Ht HW
    |k t t' mip arr Ht HU
    |k b w' HR
    |w' HT
    |k w' HT
    |k w' HRm
    |]; cbn [Textures TextureLRU set_Textures].
  - apply (RegisteredAreRestored_unregistered (TextureLRU w)); auto.
    apply (RHICreateTexture2D_RegView _ _ _ _ _ _ _ _ Hcreate).
  - apply (RegisteredAreRestored_unregistered (TextureLRU w)); auto.
    intros P HP. discriminate HP.
  - apply (RegisteredAreRestored_update _ _ _ t); auto.
    apply (Lock_RegView _ _ _ _ _ _ _ _ HL).
  - apply (RegisteredAreRestored_update _ _ _ t); auto.
    apply (WriteLocked_RegView _ _ _ _ _ HW).
  - apply (RegisteredAreRestored_update _ _ _ t); auto.
    apply (Unlock_RegView _ _ _ _ _ HU).
  - apply RestoreEvictedGLResource_inv in HR as
      (t & P & t3 & Px & P5 & bCan & Ht & HP & Hres & _ & _ & _ & _ & _ & _ & -> & Hb5 & Hn5 & _ & Hcase).
    assert (Hold : IsValidId (LRUNode P) = false).
    { destruct (IsValidId (LRUNode P)) eqn:Hv; [|reflexivity].
      destruct (Hinv k t P Ht HP Hv) as [Hr _]. congruence. }
    destruct Hcase as [(_ & _ & _ & _ & -> & -> & _) | [(_ & _ & _ & -> & -> & _) | (_ & -> & -> & _)]].
    + intros j tj Pj Hj HPj Hvalid.
      destruct (decide (j = k)) as [->|Hne].
      * rewrite lookup_insert_eq in Hj. injection Hj as <-.
        simpl in HPj. injection HPj as <-.
        split; [exact Hb5|]. apply elem_of_app. right.
        apply list_elem_of_singleton. reflexivity.
      * rewrite lookup_insert_ne in Hj by congruence.
        destruct (Hinv j tj Pj Hj HPj Hvalid) as [Hr Hin].
        split; [exact Hr|]. apply elem_of_app. auto.
    + apply (RegisteredAreRestored_unregistered (TextureLRU w)); auto.
      intros P' HP'. simpl in HP'. injection HP' as <-.
      rewrite Hn5. simpl. destruct (LRUNode P); [discriminate | reflexivity].
    + apply (RegisteredAreRestored_unregistered (TextureLRU w)); auto.
      intros P' HP'. simpl in HP'. injection HP' as <-.
      rewrite Hn5. simpl. destruct (LRUNode P); [discriminate | reflexivity].
  - unfold TickEviction in HT.
    apply rbind_Ok in HT as ([rest tx] & Hloop & HT). injection HT as <-.
    cbn [Textures TextureLRU fst snd].
    apply (TickEviction_loop_invariant _ _ _ _ _ _ _ Hloop Hinv).
  - unfold LRU_Touch in HT.
    apply rbind_Ok in HT as (t & Ht & HT). apply deref_Ok in Ht.
    apply rbind_Ok in HT as (u1 & _ & HT).
    apply rbind_Ok in HT as (P & HP & HT). apply deref_Ok in HP.
    apply rbind_Ok in HT as (u2 & Hvalid & HT). apply check_Ok in Hvalid.
    apply rbind_Ok in HT as (u3 & _ & HT).
    apply rbind_Ok in HT as (node & Hnode & HT). injection HT as <-.
    cbn [Textures TextureLRU].
    intros j tj Pj Hj HPj Hv.
    assert (Hmem : forall i, i ∈ TextureLRU w -> i ∈ LRU_MarkAsRecent (TextureLRU w) node).
    { intros i Hi. unfold LRU_MarkAsRecent. apply elem_of_app.
      destruct (decide (i = node)) as [->|Hne].
      - right. apply list_elem_of_singleton. reflexivity.
      - left. apply list_elem_of_filter. auto. }
    destruct (decide (j = k)) as [->|Hne].
    + rewrite lookup_insert_eq in Hj. injection Hj as <-.
      simpl in HPj. injection HPj as <-. simpl in *.
      destruct (Hinv k t P Ht HP Hv) as [Hr Hin]. auto.
    + rewrite lookup_insert_ne in Hj by congruence.
      destruct (Hinv j tj Pj Hj HPj Hv) as [Hr Hin]. auto.
  - unfold LRU_Remove in HRm.
    apply rbind_Ok in HRm as (t & Ht & HRm). apply deref_Ok in Ht.
    destruct (EvictionParamsPtr t) as [P|] eqn:HP; [|injection HRm as <-; exact Hinv].
    apply rbind_Ok in HRm as (u1 & _ & HRm).
    apply rbind_Ok in HRm as (u2 & _ & HRm).
    destruct (IsValidId (LRUNode P)); [|injection HRm as <-; exact Hinv].
    injection HRm as <-. cbn [Textures TextureLRU].
    apply (RegisteredAreRestored_unregistered (TextureLRU w)); [| |exact Hinv].
    + intros P' HP'. simpl in HP'. injection HP' as <-. reflexivity.
    + intros j Hj Hin. unfold LRU_ContainerRemove. apply list_elem_of_filter. auto.
  - exact Hinv.
Qed.

Lemma Reachable_invariant (E : FEnv) (w : FWorld) :
  Reachable E w -> RegisteredAreRestored (TextureLRU w) (Textures w).
Proof.
  induction 1 as [|w w' _ IH HS].
  - intros k t P Hk. unfold InitialWorld in Hk. cbn [Textures] in Hk.
    rewrite lookup_empty in Hk. discriminate.
  - apply (Step_invariant E w w' HS IH).
Qed.

(** Creating [PopulatedTexture] from bulk data and restoring it under
    [KeepOneEnv] leads to [RestoredKeepOneWorld]. *)
Lemma RestoredKeepOneWorld_reachable : Reachable KeepOneEnv RestoredKeepOneWorld.
Proof.
  apply (Reachable_step _ CreatedWorld).
  - apply (Reachable_step _ InitialWorld); [constructor|].
    apply (Step_Create KeepOneEnv InitialWorld 1 2 2 G8 2 ShaderResourceStreamable
             (Some BulkFiveBytes) PopulatedTexture).
    + reflexivity.
    + vm_compute. reflexivity.
  - apply (Step_Restore KeepOneEnv CreatedWorld 1 true).
    vm_compute. reflexivity.
Qed.

(** C5, as stated, fails: after a restore that keeps one low-resolution mip
    the texture is registered (its handle is valid) while slot 0 of its
    shadow store has been freed. *)
Lemma registered_texture_with_freed_shadow_mip :
  Reachable KeepOneEnv RestoredKeepOneWorld
  /\ exists t P,
       Textures RestoredKeepOneWorld !! 1%positive = Some t
       /\ EvictionParamsPtr t = Some P
       /\ IsValidId (LRUNode P) = true
       /\ NumMips t = 2%nat
       /\ MipImageData P !! 0%nat = Some [].
Proof.
  split; [exact RestoredKeepOneWorld_reachable|].
  eexists _, _. split_and!; reflexivity.
Qed.

(** C5, amended: in every reachable state a texture whose LRU handle is valid
    is a member of the registry and has its restored flag set; and whenever a
    restore registers a texture, the shadow store it restored from had all
    [NumMips] slots populated, which is the state [Add] is called in. The
    slots are not kept populated afterwards: the same restore releases all
    but the retained low-resolution mips right after registering. *)
Theorem registered_textures_are_restored (E : FEnv) (w : FWorld) :
  Reachable E w ->
  (forall k t P,
     Textures w !! k = Some t -> EvictionParamsPtr t = Some P ->
     IsValidId (LRUNode P) = true ->
     bHasRestored P = true /\ k ∈ TextureLRU w)
  /\ (forall k b w',
        RestoreEvictedGLResource E w k b = Ok w' ->
        forall t' P',
          Textures w' !! k = Some t' -> EvictionParamsPtr t' = Some P' ->
          IsValidId (LRUNode P') = true ->
          exists t P,
            Textures w !! k = Some t /\ EvictionParamsPtr t = Some P
            /\ length (MipImageData P) = NumMips t
            /\ Forall (fun mip => mip <> []) (MipImageData P)).
Proof.
  intros HR. pose proof (Reachable_invariant E w HR) as Hinv.
  split; [exact Hinv|].
  intros k b w' Hres t' P' Ht' HP' Hvalid.
  apply RestoreEvictedGLResource_inv in Hres as
    (t & P & t3 & Px & P5 & bCan & Ht & HP & Hfalse & Hlen & _ & Hcore & _ & Hcan & _
       & Htx & _ & Hn5 & _ & Hcase).
  rewrite Htx, lookup_insert_eq in Ht'. injection Ht' as <-.
  simpl in HP'. injection HP' as <-.
  exists t, P. split_and!; try assumption.
  destruct Hcase as [(-> & _) | [(_ & _ & _ & _ & -> & _) | (_ & _ & -> & _)]].
  - apply CanBeEvicted_true_inv in Hcan as (_ & (P3 & HP3 & _ & Hall) & _).
    rewrite (Core_EvictionParamsPtr _ _ Hcore) in HP3. simpl in HP3.
    injection HP3 as <-. exact Hall.
  - rewrite Hn5 in Hvalid. simpl in Hvalid.
    destruct (Hinv k t P Ht HP Hvalid) as [Hr _]. congruence.
  - rewrite Hn5 in Hvalid. simpl in Hvalid.
    destruct (Hinv k t P Ht HP Hvalid) as [Hr _]. congruence.
Qed.

Lemma registered_textures_are_restored_witness :
  exists t P,
    Textures RestoredKeepOneWorld !! 1%positive = Some t
    /\ EvictionParamsPtr t = Some P
    /\ bHasRestored P = true
    /\ 1%positive ∈ TextureLRU RestoredKeepOneWorld.
Proof.
  destruct (registered_textures_are_restored KeepOneEnv RestoredKeepOneWorld
              RestoredKeepOneWorld_reachable) as [Hinv _].
  eexists _, _.
  destruct (Hinv 1%positive RestoredKeepOneTexture _ eq_refl eq_refl eq_refl)
    as [Hr Hin].
  split_and!; [reflexivity | reflexivity | exact Hr | exact Hin].
Defined.

(** ** A restore while the registry is full *)

Lemma ReleaseMipData_loop_nil (n : nat) (mips : list Buffer) :
  ReleaseMipData_loop n [] = Ok mips -> mips = [].
Proof. destruct n; simpl; intros H; [congruence | discriminate]. Qed.

Lemma CloneMipData_loop_nil (n : nat) (MipIndex : Z) (src mips : list Buffer)
    (SrcOffset DstOffset : Z) :
  CloneMipData_loop n MipIndex src [] SrcOffset DstOffset = Ok mips -> mips = [].
Proof.
  destruct n; simpl; intros H; [congruence|].
  unfold indexZ in H. destruct (MipIndex + DstOffset <? 0); discriminate.
Qed.

Lemma ShadowDropped_not_evicted (t : FOpenGLTexture) :
  ShadowDropped t -> IsEvicted t = false.
Proof.
  intros ((P & HP & _ & Hr & _) & _). unfold IsEvicted. rewrite HP, Hr. reflexivity.
Qed.

(** An eviction attempt on such a texture does nothing. *)
Lemma ShadowDropped_TryEvict (E : FEnv) (t : FOpenGLTexture) :
  ShadowDropped t -> TryEvictGLResource E t = Ok t.
Proof.
  intros ((P & HP & HM & Hr & _) & _ & HN).
  unfold TryEvictGLResource, CanBeEvicted. rewrite HP.
  destruct (CanCreateAsEvicted E t); [|reflexivity].
  cbn [deref rbind]. rewrite HM, Hr.
  destruct (NumMips t) as [|n] eqn:Hn; [congruence|].
  destruct (bIsAliased t); reflexivity.
Qed.

Lemma ShadowDropped_Core (t t' : FOpenGLTexture) :
  Core t' = Core t -> (is_Some (GLStorage t) -> is_Some (GLStorage t')) ->
  ShadowDropped t -> ShadowDropped t'.
Proof.
  intros Hc Hs (HP & Hg & HN). unfold ShadowDropped.
  rewrite (Core_EvictionParamsPtr _ _ Hc), (Core_NumMips _ _ Hc). auto.
Qed.

Lemma RunOp_ShadowDropped (E : FEnv) (t t' : FOpenGLTexture) (op : TextureOp) :
  ShadowDropped t -> RunOp E t op = Ok t' -> ShadowDropped t'.
Proof.
  intros HD H. pose proof (ShadowDropped_not_evicted t HD) as Hev.
  pose proof HD as ((P & HP & HM & Hr & Hn) & Hg & HN).
  destruct op as [mip arr mode|p src cnt|mip arr|mip data bytes|Src n so do|R|];
    cbn [RunOp] in H.
  - apply rbind_Ok in H as ([[t1 p] s] & HL & H). injection H as <-.
    apply Lock_restored_frame in HL as (Hc & Hs & _); [|exact Hev].
    apply (ShadowDropped_Core t); [exact Hc | rewrite Hs; auto | exact HD].
  - destruct p as [i|i].
    + unfold WriteLocked in H. rewrite HP in H. cbn [deref rbind] in H.
      rewrite HM in H. discriminate.
    + apply WriteLocked_pbo_frame in H as (Hc & Hs).
      apply (ShadowDropped_Core t); [exact Hc | rewrite Hs; auto | exact HD].
  - apply Unlock_restored_frame in H as (Hc & Hs); [|exact Hev].
    apply (ShadowDropped_Core t); [exact Hc | exact Hs | exact HD].
  - rewrite HP in H. cbn [deref rbind] in H.
    unfold SetMipData in H. rewrite HM in H.
    destruct bytes; discriminate.
  - rewrite HP in H. cbn [deref rbind] in H.
    apply rbind_Ok in H as (P' & HC & H). injection H as <-.
    unfold CloneMipData in HC. rewrite HM in HC.
    apply rbind_Ok in HC as (mips & HC & HC'). injection HC' as <-.
    apply CloneMipData_loop_nil in HC as ->.
    unfold ShadowDropped. simpl. split_and!; try assumption.
    eexists. split_and!; try reflexivity; assumption.
  - rewrite HP in H. cbn [deref rbind] in H.
    apply rbind_Ok in H as (P' & HC & H). injection H as <-.
    unfold ReleaseMipData in HC. rewrite HM in HC.
    apply rbind_Ok in HC as (mips & HC & HC'). injection HC' as <-.
    apply ReleaseMipData_loop_nil in HC as ->.
    unfold ShadowDropped. simpl. split_and!; try assumption.
    eexists. split_and!; try reflexivity; try assumption.
    destruct (R =? 0); reflexivity.
  - rewrite (ShadowDropped_TryEvict E t HD) in H. injection H as <-. exact HD.
Qed.

Lemma RunOps_ShadowDropped (E : FEnv) (ops : list TextureOp) :
  forall t t' : FOpenGLTexture,
  ShadowDropped t -> RunOps E t ops = Ok t' -> ShadowDropped t'.
Proof.
  induction ops as [|op ops IH]; intros t t' HD H.
  - injection H as <-. exact HD.
  - cbn [RunOps] in H. apply rbind_Ok in H as (t1 & H1 & H).
    apply (IH t1); [|exact H]. apply (RunOp_ShadowDropped E t t1 op HD H1).
Qed.

(** *** Every texture with eviction parameters has at least one mip *)

Lemma DeferrableHaveMips_insert (textures : gmap positive FOpenGLTexture) (k : positive)
    (t' : FOpenGLTexture) :
  (is_Some (EvictionParamsPtr t') -> NumMips t' <> 0%nat) ->
  DeferrableHaveMips textures -> DeferrableHaveMips (<[k := t']> textures).
Proof.
  intros Ht' Hall j tj Hj HP. destruct (decide (j = k)) as [->|Hne].
  - rewrite lookup_insert_eq in Hj. injection Hj as <-. exact (Ht' HP).
  - rewrite lookup_insert_ne in Hj by congruence. apply (Hall j tj Hj HP).
Qed.

Lemma DeferrableHaveMips_update (textures : gmap positive FOpenGLTexture) (k : positive)
    (t t' : FOpenGLTexture) :
  textures !! k = Some t -> RegView t' = RegView t -> NumMips t' = NumMips t ->
  DeferrableHaveMips textures -> DeferrableHaveMips (<[k := t']> textures).
Proof.
  intros Ht Hv HN Hall. apply DeferrableHaveMips_insert; [|exact Hall].
  intros HP. rewrite HN. apply (Hall k t Ht). apply (RegView_is_Some t t' Hv HP).
Qed.

Lemma InitializeGLTexture_NumMips (E : FEnv) (t t' : FOpenGLTexture)
    (ArraySize : Z) (BulkData : option Buffer) :
  InitializeGLTexture E t ArraySize BulkData = Ok t' -> NumMips t' = NumMips t.
Proof. intros H. apply InitializeGLTexture_frame in H as (H & _). exact H. Qed.

Lemma FindMaxMipmapLevel_pos (InSizeX InSizeY : Z) :
  FindMaxMipmapLevel InSizeX InSizeY <> 0%nat.
Proof.
  unfold FindMaxMipmapLevel.
  pose proof (Z.log2_nonneg (Z.max InSizeX InSizeY)). lia.
Qed.

Lemma RHICreateTexture2D_NumMips (E : FEnv) (InSizeX InSizeY : Z)
    (Format : FPixelFormatInfo) (InNumMips : nat) (InFlags : Z)
    (BulkData : option Buffer) (t : FOpenGLTexture) :
  RHICreateTexture2D E InSizeX InSizeY Format InNumMips InFlags BulkData = Ok t ->
  NumMips t <> 0%nat.
Proof.
  unfold RHICreateTexture2D. intros H.
  apply rbind_Ok in H as (u & _ & H).
  apply InitializeGLTexture_NumMips in H. rewrite H.
  destruct (CanCreateAsEvicted E _); cbn [NumMips set_EvictionParamsPtr NewTexture2D];
    (destruct (Nat.eqb_spec InNumMips 0) as [_|Hne];
      [apply FindMaxMipmapLevel_pos|exact Hne]).
Qed.

Lemma Lock_NumMips (E : FEnv) (t t' : FOpenGLTexture) (InMipIndex ArrayIndex : nat)
    (LockMode : EResourceLockMode) (p : LockedPtr) (DestStride : Z) :
  Lock E t InMipIndex ArrayIndex LockMode = Ok (t', p, DestStride) ->
  NumMips t' = NumMips t.
Proof.
  intros H. destruct (IsEvicted t) eqn:Hev.
  - destruct (IsEvicted_params t Hev) as (P & HP & _).
    rewrite (Lock_evicted E t P _ _ _ Hev HP) in H.
    apply rbind_Ok in H as (u & _ & H).
    apply rbind_Ok in H as (P' & _ & H).
    apply rbind_Ok in H as (x & _ & H). injection H as <- _ _. reflexivity.
  - apply Lock_restored_frame in H as (Hc & _); [|exact Hev].
    apply (Core_NumMips _ _ Hc).
Qed.

Lemma WriteLocked_NumMips (t t' : FOpenGLTexture) (p : LockedPtr) (Src : Buffer)
    (Count : nat) :
  WriteLocked t p Src Count = Ok t' -> NumMips t' = NumMips t.
Proof.
  destruct p as [i|i]; intros H.
  - unfold WriteLocked in H.
    apply rbind_Ok in H as (P & _ & H).
    apply rbind_Ok in H as (d & _ & H).
    apply rbind_Ok in H as (wr & _ & H). injection H as <-. reflexivity.
  - apply WriteLocked_pbo_frame in H as [Hc _]. apply (Core_NumMips _ _ Hc).
Qed.

Lemma Unlock_NumMips (E : FEnv) (t t' : FOpenGLTexture) (MipIndex ArrayIndex : nat) :
  Unlock E t MipIndex ArrayIndex = Ok t' -> NumMips t' = NumMips t.
Proof.
  intros H. destruct (IsEvicted t) eqn:Hev.
  - unfold Unlock in H. rewrite Hev in H.
    apply rbind_Ok in H as (u & _ & H). injection H as <-. reflexivity.
  - apply Unlock_restored_frame in H as [Hc _]; [|exact Hev].
    apply (Core_NumMips _ _ Hc).
Qed.

Lemma TryEvictGLResource_NumMips (E : FEnv) (t t' : FOpenGLTexture) :
  TryEvictGLResource E t = Ok t' -> NumMips t' = NumMips t.
Proof.
  unfold TryEvictGLResource. intros H.
  destruct (CanCreateAsEvicted E t); [|injection H as <-; reflexivity].
  apply rbind_Ok in H as (P & HP & H).
  destruct (bHasRestored P); [|injection H as <-; reflexivity].
  apply rbind_Ok in H as (bCan & _ & H).
  destruct bCan; [|injection H as <-; reflexivity].
  unfold InitializeGLTexture in H. simpl in H. injection H as <-. reflexivity.
Qed.

Lemma TickEviction_loop_DeferrableHaveMips (E : FEnv) (frame : Z) (lru : list positive) :
  forall (textures : gmap positive FOpenGLTexture) (EvictCount : Z)
         (rest : list positive) (textures' : gmap positive FOpenGLTexture),
  TickEviction_loop E frame lru textures EvictCount = Ok (rest, textures') ->
  DeferrableHaveMips textures -> DeferrableHaveMips textures'.
Proof.
  induction lru as [|k lru IH]; intros textures EvictCount rest textures' H Hall.
  - injection H as <- <-. exact Hall.
  - cbn [TickEviction_loop] in H.
    apply rbind_Ok in H as (t & Ht & H). apply deref_Ok in Ht.
    apply rbind_Ok in H as (P & HP & H). apply deref_Ok in HP.
    destruct (EvictionDue E frame P && (EvictCount <? GOGLTexturesToEvictPerFrame E)).
    + apply rbind_Ok in H as (tx1 & Hev & H).
      apply IH in H; [exact H|].
      unfold EvictRemoved in Hev. rewrite Ht in Hev. cbn [deref rbind] in Hev.
      apply rbind_Ok in Hev as (P0 & _ & Hev).
      apply rbind_Ok in Hev as (t2 & Htry & Hev). injection Hev as <-.
      apply DeferrableHaveMips_insert; [|exact Hall]. intros _.
      rewrite (TryEvictGLResource_NumMips _ _ _ Htry). apply (Hall k t Ht). eauto.
    + injection H as <- <-. exact Hall.
Qed.

Lemma Step_DeferrableHaveMips (E : FEnv) (w w' : FWorld) :
  Step E w w' -> DeferrableHaveMips (Textures w) -> DeferrableHaveMips (Textures w').
Proof.
  intros HS Hall. destruct HS as
    [k sx sy fmt n fl bulk t Hfresh Hcreate
    |k fmt sx sy n sto res fl Hfresh
    |k t t' mip arr mode p s Ht HL
    |k t t' p src cnt Ht HW
    |k t t' mip arr Ht HU
    |k b w' HR
    |w' HT
    |k w' HT
    |k w' HRm
    |]; cbn [Textures set_Textures].
  - apply DeferrableHaveMips_insert; [|exact Hall]. intros _.
    apply (RHICreateTexture2D_NumMips _ _ _ _ _ _ _ _ Hcreate).
  - apply DeferrableHaveMips_insert; [|exact Hall].
    intros [P HP]. discriminate HP.
  - apply (DeferrableHaveMips_update _ _ t); [exact Ht | | | exact Hall].
    + apply (Lock_RegView _ _ _ _ _ _ _ _ HL).
    + apply (Lock_NumMips _ _ _ _ _ _ _ _ HL).
  - apply (DeferrableHaveMips_update _ _ t); [exact Ht | | | exact Hall].
    + apply (WriteLocked_RegView _ _ _ _ _ HW).
    + apply (WriteLocked_NumMips _ _ _ _ _ HW).
  - apply (DeferrableHaveMips_update _ _ t); [exact Ht | | | exact Hall].
    + apply (Unlock_RegView _ _ _ _ _ HU).
    + apply (Unlock_NumMips _ _ _ _ _ HU).
  - apply RestoreEvictedGLResource_inv in HR as
      (t & P & t3 & Px & P5 & bCan & Ht & HP & _ & _ & _ & Hcore & _ & _ & _ & -> & _).
    apply DeferrableHaveMips_insert; [|exact Hall]. intros _.
    cbn [NumMips set_EvictionParamsPtr]. rewrite (Core_NumMips _ _ Hcore).
    apply (Hall k t Ht). eauto.
  - unfold TickEviction in HT.
    apply rbind_Ok in HT as ([rest tx] & Hloop & HT). injection HT as <-.
    cbn [Textures snd].
    apply (TickEviction_loop_DeferrableHaveMips _ _ _ _ _ _ _ Hloop Hall).
  - unfold LRU_Touch in HT.
    apply rbind_Ok in HT as (t & Ht & HT). apply deref_Ok in Ht.
    apply rbind_Ok in HT as (u1 & _ & HT).
    apply rbind_Ok in HT as (P & HP & HT). apply deref_Ok in HP.
    apply rbind_Ok in HT as (u2 & _ & HT).
    apply rbind_Ok in HT as (u3 & _ & HT).
    apply rbind_Ok in HT as (node & _ & HT). injection HT as <-.
    cbn [Textures]. apply DeferrableHaveMips_insert; [|exact Hall]. intros _.
    apply (Hall k t Ht). eauto.
  - unfold LRU_Remove in HRm.
    apply rbind_Ok in HRm as (t & Ht & HRm). apply deref_Ok in Ht.
    destruct (EvictionParamsPtr t) as [P|] eqn:HP; [|injection HRm as <-; exact Hall].
    apply rbind_Ok in HRm as (u1 & _ & HRm).
    apply rbind_Ok in HRm as (u2 & _ & HRm).
    destruct (IsValidId (LRUNode P)); [|injection HRm as <-; exact Hall].
    injection HRm as <-. cbn [Textures].
    apply DeferrableHaveMips_insert; [|exact Hall]. intros _.
    apply (Hall k t Ht). eauto.
  - exact Hall.
Qed.

(** In every reachable state every texture with eviction parameters has at
    least one mip. *)
Lemma Reachable_DeferrableHaveMips (E : FEnv) (w : FWorld) :
  Reachable E w -> DeferrableHaveMips (Textures w).
Proof.
  induction 1 as [|w w' _ IH HS].
  - intros k t Hk. unfold InitialWorld in Hk. cbn [Textures] in Hk.
    rewrite lookup_empty in Hk. discriminate.
  - apply (Step_DeferrableHaveMips E w w' HS IH).
Qed.

(** C6: in every reachable state, when a restore offers a texture to the
    registry ([CanBeEvicted] holds) while the registry is at capacity, the
    texture is not registered and its whole shadow store is dropped; it
    keeps its GPU storage, and after any later operations on the texture an
    eviction attempt changes nothing: the texture keeps its GPU storage and
    stays restored. *)
Theorem full_registry_restore_drops_shadow (E : FEnv) (w w' : FWorld)
    (k : positive) (b : bool) (t : FOpenGLTexture) :
  Reachable E w ->
  Textures w !! k = Some t ->
  CanBeEvicted E t = Ok true ->
  length (TextureLRU w) = LRUMax E ->
  RestoreEvictedGLResource E w k b = Ok w' ->
  exists t' P',
    Textures w' !! k = Some t'
    /\ EvictionParamsPtr t' = Some P'
    /\ MipImageData P' = []
    /\ LRUNode P' = None
    /\ TextureLRU w' = TextureLRU w
    /\ bHasRestored P' = true
    /\ is_Some (GLStorage t')
    /\ forall ops t'',
         RunOps E t' ops = Ok t'' ->
         TryEvictGLResource E t'' = Ok t''
         /\ IsEvicted t'' = false
         /\ is_Some (GLStorage t'').
Proof.
  intros Hreach Ht Hcan Hfull Hres.
  apply RestoreEvictedGLResource_inv in Hres as
    (t0 & P & t3 & Px & P5 & bCan & Ht0 & HP & Hfalse & Hlen & _ & Hcore & Hsto & Hcan3 & _
       & Htx & Hb5 & Hn5 & _ & Hcase).
  rewrite Ht in Ht0. injection Ht0 as <-.
  assert (HN : NumMips t <> 0%nat).
  { apply (Reachable_DeferrableHaveMips E w Hreach k t Ht). eauto. }
  assert (Hcan' : CanBeEvicted E t3 = Ok true).
  { rewrite (Core_CanBeEvicted E _ _ Hcore).
    rewrite <- Hcan. unfold CanBeEvicted, CanCreateAsEvicted. simpl.
    rewrite HP. reflexivity. }
  rewrite Hcan' in Hcan3. injection Hcan3 as <-.
  destruct Hcase as [(_ & Hroom & _) | [(_ & _ & HnodeN & Hlru & -> & Hrel) | (Hf & _)]];
    [congruence | | discriminate].
  assert (HM5 : MipImageData P5 = []).
  { unfold ReleaseMipData in Hrel.
    apply rbind_Ok in Hrel as (mips & _ & Hrel). injection Hrel as <-. reflexivity. }
  assert (HD : ShadowDropped (set_EvictionParamsPtr t3 (Some P5))).
  { unfold ShadowDropped. simpl. split_and!.
    - exists P5. split_and!; try assumption; try reflexivity.
      rewrite Hn5. exact HnodeN.
    - exact Hsto.
    - rewrite (Core_NumMips _ _ Hcore). exact HN. }
  exists (set_EvictionParamsPtr t3 (Some P5)), P5.
  rewrite Htx, lookup_insert_eq.
  split_and!; try assumption; try reflexivity.
  - rewrite Hn5. exact HnodeN.
  - intros ops t'' Hops.
    pose proof (RunOps_ShadowDropped E ops _ _ HD Hops) as HD'.
    split_and!.
    + apply ShadowDropped_TryEvict, HD'.
    + apply ShadowDropped_not_evicted, HD'.
    + apply HD'.
Qed.

Lemma full_registry_restore_drops_shadow_witness :
  exists w' t',
    RestoreEvictedGLResource NoRoomEnv CreatedWorld 1 true = Ok w'
    /\ Textures w' !! 1%positive = Some t'
    /\ TryEvictGLResource NoRoomEnv t' = Ok t'
    /\ is_Some (GLStorage t').
Proof.
  destruct (RestoreEvictedGLResource NoRoomEnv CreatedWorld 1 true) as [w'|f] eqn:Hres;
    [|vm_compute in Hres; discriminate].
  destruct (full_registry_restore_drops_shadow NoRoomEnv CreatedWorld w' 1 true
              PopulatedTexture) as (t' & P' & Ht' & _ & _ & _ & _ & _ & Hsto & Hlater).
  - apply (Reachable_step _ InitialWorld); [constructor|].
    apply (Step_Create NoRoomEnv InitialWorld 1 2 2 G8 2 ShaderResourceStreamable
             (Some BulkFiveBytes) PopulatedTexture).
    + reflexivity.
    + vm_compute. reflexivity.
  - reflexivity.
  - vm_compute. reflexivity.
  - reflexivity.
  - exact Hres.
  - exists w', t'. destruct (Hlater [] t' eq_refl) as (Hev & _ & _).
    split_and!; [reflexivity | exact Ht' | exact Hev | exact Hsto].
Defined.

(** ** The restore / evict / restore round trip *)

Lemma set_PixelBuffers_same (t : FOpenGLTexture) :
  set_PixelBuffers t (PixelBuffers t) = t.
Proof. destruct t; reflexivity. Qed.

Lemma BufferIndexOf_2D (t : FOpenGLTexture) (i : nat) :
  bCubemap t = false -> EffectiveSizeZ t = 1 -> Z.of_nat i < 2 ^ 31 ->
  BufferIndexOf t i 0 = Z.of_nat i.
Proof.
  intros Hc Hz Hi. unfold BufferIndexOf. rewrite Hc, Hz, wrap_int32_uint32.
  rewrite wrap_int32_small; lia.
Qed.

Lemma Memcpy_whole (mip : Buffer) (n : nat) :
  n = length mip -> Memcpy (replicate n Uninit) mip (length mip) = Ok mip.
Proof.
  intros ->. unfold Memcpy. rewrite length_replicate, Nat.leb_refl. simpl.
  rewrite firstn_all, drop_ge by (rewrite length_replicate; lia).
  rewrite app_nil_r. reflexivity.
Qed.

(** One iteration of the upload loop on a restored 2D texture whose data
    needs no conversion: the mip goes through a fresh staging buffer into the
    image of that mip, and the staging buffer is released. *)
Lemma upload_mip (E : FEnv) (t : FOpenGLTexture) (images : list Buffer)
    (i : nat) (mip : Buffer) :
  IsEvicted t = false ->
  NeedsFloatRGBAConversion E t = false ->
  SizeZ t = 0 ->
  bCubemap t = false -> EffectiveSizeZ t = 1 -> Z.of_nat i < 2 ^ 31 ->
  PixelBuffers t !! i = Some None ->
  GLStorage t = Some images ->
  Z.of_nat (length mip) = fst (GetLockSize t i) ->
  snd (GetLockSize t i) <> 0 ->
  (locked <- Lock E t i 0 RLM_WriteOnly ;;
   let '(t1, pDest, DestStride) := locked in
   check (negb (DestStride =? 0)) ;;;
   t2 <- WriteLocked t1 pDest mip (length mip) ;;
   Unlock E t2 i 0)%result
  = Ok (set_GLStorage t (Some (<[i := mip]> images))).
Proof.
  intros Hev Hconv HsizeZ Hc Hz Hi Hpb Hsto Hsize Hstride.
  pose proof (lookup_lt_Some _ _ _ Hpb) as Hlt.
  unfold Lock. rewrite (BufferIndexOf_2D t i Hc Hz Hi).
  destruct (GetLockSize t i) as [MipBytes DestStride] eqn:HG.
  cbn [fst snd] in Hsize, Hstride. rewrite Hev. cbn [negb orb check rbind].
  unfold indexZ. destruct (Z.ltb_spec (Z.of_nat i) 0) as [Hneg|_]; [lia|].
  rewrite Nat2Z.id. rewrite (index_Some _ _ _ Hpb). cbn [rbind].
  cbn [NewPixelBuffer PBOSize bIsLocked]. rewrite Z.eqb_refl.
  cbn [check rbind negb LockMode_eqb andb].
  cbn [PixelBuffers set_PixelBuffers].
  unfold index. rewrite list_lookup_insert_eq by exact Hlt. cbn [rbind deref].
  rewrite list_insert_insert_eq.
  destruct (Z.eqb_spec DestStride 0) as [Hs0|_]; [contradiction|].
  cbn [negb check rbind].
  unfold WriteLocked. cbn [PixelBuffers set_PixelBuffers].
  unfold index. rewrite list_lookup_insert_eq by exact Hlt. cbn [rbind deref].
  cbn [NewPixelBuffer PixelBuffer_Lock PBOData PBOSize bIsLocked bIsLockReadOnly
       negb LockMode_eqb].
  rewrite Memcpy_whole by lia. cbn [rbind].
  rewrite list_insert_insert_eq.
  unfold Unlock.
  match goal with
  | |- context [IsEvicted ?x] => change (IsEvicted x) with (IsEvicted t)
  end.
  rewrite Hev.
  match goal with
  | |- context [BufferIndexOf ?x i 0] =>
      change (BufferIndexOf x i 0) with (BufferIndexOf t i 0)
  end.
  rewrite (BufferIndexOf_2D t i Hc Hz Hi). unfold indexZ.
  destruct (Z.ltb_spec (Z.of_nat i) 0) as [Hneg|_]; [lia|].
  rewrite Nat2Z.id. cbn [PixelBuffers set_PixelBuffers].
  unfold index. rewrite list_lookup_insert_eq by exact Hlt. cbn [rbind deref].
  rewrite bool_decide_true by eauto. cbn [check rbind deref].
  match goal with
  | |- context [NeedsFloatRGBAConversion E ?x] =>
      change (NeedsFloatRGBAConversion E x) with (NeedsFloatRGBAConversion E t)
  end.
  rewrite Hconv.
  cbn [PixelBuffer_Unlock bIsLockReadOnly PBOData negb].
  unfold UploadImage. cbn [GLStorage SizeZ PixelFormat set_PixelBuffers].
  rewrite Hsto, HsizeZ. cbn [Z.eqb negb].
  assert (Hup : forall c : bool,
            (if c
             then Ok (set_GLStorage
                        (set_PixelBuffers t
                           (<[i := Some {| PBOSize := MipBytes; PBOData := mip;
                                           bIsLocked := true;
                                           bIsLockReadOnly := false |}]>
                              (PixelBuffers t)))
                        (Some (<[i := mip]> images)))
             else Ok (set_GLStorage
                        (set_PixelBuffers t
                           (<[i := Some {| PBOSize := MipBytes; PBOData := mip;
                                           bIsLocked := true;
                                           bIsLockReadOnly := false |}]>
                              (PixelBuffers t)))
                        (Some (<[i := mip]> images))))
            = Ok (set_GLStorage
                        (set_PixelBuffers t
                           (<[i := Some {| PBOSize := MipBytes; PBOData := mip;
                                           bIsLocked := true;
                                           bIsLockReadOnly := false |}]>
                              (PixelBuffers t)))
                        (Some (<[i := mip]> images))))
    by (intros []; reflexivity).
  rewrite Hup. cbn [rbind].
  cbn [PixelBuffers set_GLStorage set_PixelBuffers].
  rewrite list_insert_insert_eq, (list_insert_id _ _ _ Hpb).
  clear. destruct t; reflexivity.
Qed.

Lemma RestoreMips_loop_upload (E : FEnv) (t : FOpenGLTexture)
    (P : FTextureEvictionParams) (data : list Buffer) :
  EvictionParamsPtr t = Some P -> bHasRestored P = true ->
  MipImageData P = data ->
  NeedsFloatRGBAConversion E t = false ->
  SizeZ t = 0 ->
  bCubemap t = false -> EffectiveSizeZ t = 1 ->
  PixelBuffers t = replicate (NumMips t) None ->
  Z.of_nat (NumMips t) < 2 ^ 31 ->
  length data = NumMips t ->
  (forall i mip, data !! i = Some mip ->
     mip <> [] /\ Z.of_nat (length mip) = fst (GetLockSize t i)
     /\ snd (GetLockSize t i) <> 0) ->
  forall (n : nat) (images : list Buffer),
  (n <= length data)%nat -> length images = length data ->
  RestoreMips_loop E n (set_GLStorage t (Some images))
  = Ok (set_GLStorage t (Some (take n data ++ drop n images))).
Proof.
  intros HP Hres HM Hconv HsizeZ Hc Hz Hpbs HN Hlen Hsizes.
  induction n as [|i IH]; intros images Hn Himgs.
  - simpl. rewrite drop_0. reflexivity.
  - cbn [RestoreMips_loop]. cbn [EvictionParamsPtr set_GLStorage].
    rewrite HP. cbn [deref rbind]. rewrite HM.
    destruct (lookup_lt_is_Some_2 data i) as [mip Hmip]; [lia|].
    rewrite (index_Some _ _ _ Hmip). cbn [rbind].
    destruct (Hsizes i mip Hmip) as (Hne & Hsize & Hstride).
    destruct mip as [|b0 mip0] eqn:Hmipeq; [congruence|]. rewrite <- Hmipeq in *.
    assert (Hl : (length mip =? 0)%nat = false)
      by (rewrite Hmipeq; reflexivity).
    rewrite Hl. cbn [negb].
    change (GetLockSize (set_GLStorage t (Some images)) i) with (GetLockSize t i).
    rewrite Hsize, Z.eqb_refl. cbn [check rbind].
    rewrite (upload_mip E (set_GLStorage t (Some images)) images i mip).
    + cbn [rbind].
      change (set_GLStorage (set_GLStorage t (Some images)) (Some (<[i:=mip]> images)))
        with (set_GLStorage t (Some (<[i:=mip]> images))).
      rewrite IH by (rewrite ?length_insert; lia). do 2 f_equal.
      rewrite (take_S_r _ _ _ Hmip), <- app_assoc. f_equal.
      rewrite drop_insert_ge by lia. rewrite Nat.sub_diag.
      destruct (lookup_lt_is_Some_2 images i) as [img Himg]; [lia|].
      rewrite (drop_S _ _ _ Himg). reflexivity.
    + unfold IsEvicted. cbn [EvictionParamsPtr set_GLStorage]. rewrite HP, Hres. reflexivity.
    + exact Hconv.
    + exact HsizeZ.
    + exact Hc.
    + exact Hz.
    + lia.
    + cbn [PixelBuffers set_GLStorage]. rewrite Hpbs. apply lookup_replicate_2. lia.
    + reflexivity.
    + exact Hsize.
    + exact Hstride.
Qed.

Lemma AreAllMipsPresent_populated (P : FTextureEvictionParams) :
  (forall i mip, MipImageData P !! i = Some mip -> mip <> []) ->
  AreAllMipsPresent P = true.
Proof.
  intros H. unfold AreAllMipsPresent. apply forallb_forall.
  intros mip Hin%list_elem_of_In. apply list_elem_of_lookup in Hin as [i Hi].
  destruct mip; [destruct (H i [] Hi); reflexivity | reflexivity].
Qed.

Lemma ReleaseMipData_retain_all (P : FTextureEvictionParams) (R : Z) :
  Z.of_nat (length (MipImageData P)) <= R < 2 ^ 31 -> R <> 0 ->
  ReleaseMipData P R = Ok P.
Proof.
  intros HR Hne. unfold ReleaseMipData.
  rewrite wrap_int32_uint32, wrap_int32_small by lia.
  replace (Z.to_nat (Z.of_nat (length (MipImageData P)) - 1 - R + 1)) with 0%nat by lia.
  cbn [ReleaseMipData_loop rbind].
  destruct (Z.eqb_spec R 0) as [|_]; [contradiction|].
  destruct P; reflexivity.
Qed.

(** A restore of an evicted, fully populated texture under full retention,
    while the registry has room: the texture gets GPU storage holding the
    shadow data, is registered as most recent and keeps every shadow mip. *)
Lemma Restore_with_full_retention (E : FEnv) (w : FWorld) (k : positive)
    (t : FOpenGLTexture) (data : list Buffer) :
  Textures w !! k = Some t ->
  EvictedWithAllMips E t data ->
  FormatSupported E t ->
  NeedsFloatRGBAConversion E t = false ->
  FullRetention E t ->
  k ∉ TextureLRU w ->
  length (TextureLRU w) <> LRUMax E ->
  RestoreEvictedGLResource E w k true
  = Ok {| Textures := <[k := RestoredWithAllMips t data k (GFrameNumberRenderThread w)]>
                        (Textures w);
          TextureLRU := TextureLRU w ++ [k];
          GFrameNumberRenderThread := GFrameNumberRenderThread w |}.
Proof.
  intros Ht (Hcreate & Hal & Hc & Hsz & Hz & Hpbs & HN & Hlen
             & (P & HP & HM & Hres & Hnode) & Hsizes & Hname)
         Hfmt Hconv (Hstream & Hmany & Hkeep) Hk Hroom.
  unfold RestoreEvictedGLResource.
  rewrite Ht. cbn [deref rbind]. rewrite HP. cbn [deref rbind].
  rewrite Hres. cbn [negb check rbind].
  set (t1 := set_EvictionParamsPtr t (Some (set_bHasRestored P true))).
  rewrite (InitializeGLTextureInternal_Ok E (Resource t1) t1 0 None)
    by (assumption || exact Hfmt).
  cbn [rbind].
  rewrite HM, Hlen, Nat.eqb_refl. cbn [check rbind].
  change (set_Resource (set_GLStorage t1 ?s) (Resource t1))
    with (set_GLStorage (set_Resource t1 (Resource t)) s).
  assert (Ht1 : set_Resource t1 (Resource t) = t1)
    by (subst t1; clear; destruct t; reflexivity).
  rewrite Ht1.
  rewrite (RestoreMips_loop_upload E t1 (set_bHasRestored P true) data);
    try assumption; try reflexivity; try lia.
  2: { rewrite length_replicate. subst t1. cbn [PixelBuffers set_EvictionParamsPtr].
       rewrite Hpbs, length_replicate. lia. }
  cbn [rbind].
  rewrite (take_ge data) by lia.
  rewrite drop_ge
    by (rewrite length_replicate; subst t1; cbn [PixelBuffers set_EvictionParamsPtr];
        rewrite Hpbs, length_replicate; lia).
  rewrite app_nil_r.
  set (t3 := set_GLStorage t1 (Some data)).
  assert (Hcan : CanBeEvicted E t3 = Ok true).
  { rewrite (CanBeEvicted_not_aliased E t3 (set_bHasRestored P true));
      [|reflexivity|exact Hal].
    change (CanCreateAsEvicted E t3) with (CanCreateAsEvicted E t).
    rewrite Hcreate. cbn [MipImageData set_bHasRestored]. rewrite HM.
    change (NumMips t3) with (NumMips t). rewrite Hlen, Nat.eqb_refl.
    rewrite AreAllMipsPresent_populated; [reflexivity|].
    cbn [MipImageData set_bHasRestored]. rewrite HM.
    intros i mip Hi. apply (Hsizes i mip Hi). }
  rewrite Hcan. cbn [rbind].
  unfold LRU_Add. cbn [Textures set_Textures TextureLRU GFrameNumberRenderThread].
  rewrite lookup_insert_eq. cbn [deref rbind].
  change (EvictionParamsPtr t3) with (Some (set_bHasRestored P true)).
  rewrite bool_decide_true by eauto. cbn [check deref rbind].
  cbn [LRUNode set_bHasRestored]. rewrite Hnode. cbn [IsValidId negb check rbind].
  unfold LRU_Contains. rewrite bool_decide_false by exact Hk.
  cbn [negb check rbind].
  destruct (Nat.eqb_spec (length (TextureLRU w)) (LRUMax E)) as [|_]; [contradiction|].
  cbn [negb rbind Textures set_Textures TextureLRU GFrameNumberRenderThread].
  rewrite lookup_insert_eq. cbn [deref rbind EvictionParamsPtr set_EvictionParamsPtr].
  assert (HR : RetainMipsOf E t3 true = DeferTextureCreationKeepLowerMipCount E).
  { unfold RetainMipsOf. change (HasFlag t3) with (HasFlag t).
    change (NumMips t3) with (NumMips t). change (bIsAliased t3) with (bIsAliased t).
    rewrite Hstream, Hal. destruct (Nat.ltb_spec 1 (NumMips t)); [reflexivity | lia]. }
  rewrite HR.
  rewrite ReleaseMipData_retain_all.
  - cbn [rbind]. unfold LRU_ContainerAdd. rewrite !insert_insert_eq.
    do 3 f_equal. unfold RestoredWithAllMips. subst t3 t1.
    rewrite <- HM. clear. destruct t, P; reflexivity.
  - cbn [MipImageData set_FrameLastRendered set_LRUNode set_bHasRestored].
    rewrite HM. lia.
  - lia.
Qed.

(** The scheduler's eviction of a texture restored with every shadow mip
    retained: the GPU storage is destroyed, the shadow store is kept. *)
Lemma EvictRemoved_restored (E : FEnv) (textures : gmap positive FOpenGLTexture)
    (k : positive) (t : FOpenGLTexture) (data : list Buffer) (frame : Z) :
  EvictedWithAllMips E t data ->
  textures !! k = Some (RestoredWithAllMips t data k frame) ->
  EvictRemoved E textures k = Ok (<[k := EvictedAgain E t data frame]> textures).
Proof.
  intros (Hcreate & Hal & _ & _ & _ & _ & _ & Hlen & _ & Hsizes & _) Hk.
  unfold EvictRemoved. rewrite Hk. cbn [deref rbind].
  cbn [RestoredWithAllMips EvictionParamsPtr set_EvictionParamsPtr deref rbind].
  set (P1 := {| MipImageData := data; bHasRestored := true;
                FrameLastRendered := frame; LRUNode := None |}).
  match goal with
  | |- context [TryEvictGLResource E ?y] => set (x := y)
  end.
  assert (Hx : TryEvictGLResource E x
               = Ok (if CanCreateAsEvicted E x && bHasRestored P1
                        && (length (MipImageData P1) =? NumMips x)%nat
                        && AreAllMipsPresent P1
                     then EvictedTexture E x P1
                     else x)).
  { apply TryEvictGLResource_not_aliased; [reflexivity | exact Hal]. }
  rewrite Hx. clear Hx.
  change (CanCreateAsEvicted E x) with (CanCreateAsEvicted E t).
  change (NumMips x) with (NumMips t).
  rewrite Hcreate. subst P1. cbn [bHasRestored MipImageData andb].
  rewrite Hlen, Nat.eqb_refl.
  rewrite AreAllMipsPresent_populated
    by (intros i mip Hi; apply (Hsizes i mip Hi)).
  cbn [andb rbind]. do 2 f_equal.
Qed.

Lemma EvictedAgain_EvictedWithAllMips (E : FEnv) (t : FOpenGLTexture)
    (data : list Buffer) (frame : Z) :
  GenTextures E <> 0 ->
  EvictedWithAllMips E t data ->
  EvictedWithAllMips E (EvictedAgain E t data frame) data.
Proof.
  intros Hgen (Hcreate & Hal & Hc & Hsz & Hz & Hpbs & HN & Hlen & _ & Hsizes & _).
  unfold EvictedWithAllMips. split_and!; try assumption.
  eexists. split_and!; reflexivity.
Qed.

Lemma EvictedAgain_FullRetention (E : FEnv) (t : FOpenGLTexture)
    (data : list Buffer) (frame : Z) :
  FullRetention E t -> FullRetention E (EvictedAgain E t data frame).
Proof. intros H. exact H. Qed.

Lemma OverwritePrefix_whole (mip : Buffer) (n : nat) :
  n = length mip -> OverwritePrefix (replicate n Uninit) mip = mip.
Proof.
  intros ->. unfold OverwritePrefix. rewrite length_replicate.
  rewrite drop_ge by (rewrite length_replicate; lia).
  rewrite app_nil_r. apply firstn_all.
Qed.

(** Reading a mip back from a restored texture: a read-only [Lock] resolves
    the image into a fresh staging buffer and returns a pointer to it. *)
Lemma Lock_ReadOnly_reads_image (E : FEnv) (t : FOpenGLTexture)
    (data : list Buffer) (k : positive) (frame : Z) (i : nat) (mip : Buffer) :
  EvictedWithAllMips E t data ->
  data !! i = Some mip ->
  exists t4,
    Lock E (RestoredWithAllMips t data k frame) i 0 RLM_ReadOnly
    = Ok (t4, PixelBufferPtr i, snd (GetLockSize t i))
    /\ ReadLocked t4 (PixelBufferPtr i) = Some mip.
Proof.
  intros (Hcreate & Hal & Hc & Hsz & Hz & Hpbs & HN & Hlen & _ & Hsizes & _) Hmip.
  destruct (Hsizes i mip Hmip) as (Hne & Hsize & Hstride).
  pose proof (lookup_lt_Some _ _ _ Hmip) as Hi.
  set (t3 := RestoredWithAllMips t data k frame).
  assert (Hpb : PixelBuffers t3 !! i = Some None).
  { change (PixelBuffers t3) with (PixelBuffers t). rewrite Hpbs.
    apply lookup_replicate_2. lia. }
  pose proof (lookup_lt_Some _ _ _ Hpb) as Hlt.
  assert (HB : forall pbs, BufferIndexOf (set_PixelBuffers t3 pbs) i 0 = Z.of_nat i).
  { intros pbs. apply BufferIndexOf_2D; [exact Hc | exact Hz | lia]. }
  unfold Lock.
  change (GetLockSize t3 i) with (GetLockSize t i).
  destruct (GetLockSize t i) as [MipBytes DestStride] eqn:HG.
  cbn [fst snd] in *.
  change (IsEvicted t3) with false. cbn [negb orb check rbind].
  rewrite (BufferIndexOf_2D t3 i Hc Hz) by lia.
  unfold indexZ. destruct (Z.ltb_spec (Z.of_nat i) 0) as [Hneg|_]; [lia|].
  rewrite Nat2Z.id, (index_Some _ _ _ Hpb). cbn [rbind].
  cbn [NewPixelBuffer PBOSize bIsLocked]. rewrite Z.eqb_refl.
  cbn [check rbind negb LockMode_eqb].
  rewrite bool_decide_false by (apply is_Some_None). cbn [andb negb].
  unfold Resolve. rewrite HB. unfold indexZ.
  destruct (Z.ltb_spec (Z.of_nat i) 0) as [Hneg|_]; [lia|].
  rewrite Nat2Z.id. cbn [PixelBuffers set_PixelBuffers].
  unfold index. rewrite list_lookup_insert_eq by exact Hlt. cbn [rbind].
  change (GetLockSize (set_PixelBuffers t3 ?x) i) with (GetLockSize t i).
  rewrite HG. cbn [fst PBOSize bIsLocked]. rewrite Z.eqb_refl.
  cbn [check rbind negb].
  change (SizeZ (set_PixelBuffers t3 ?x)) with (SizeZ t). rewrite Hsz.
  cbn [Z.eqb check rbind].
  cbn [GLStorage set_PixelBuffers]. change (GLStorage t3) with (Some data).
  cbn [NewPixelBuffer PBOSize bIsLocked bIsLockReadOnly PBOData negb check rbind].
  cbn beta iota. rewrite Hmip. cbn [default].
  rewrite list_insert_insert_eq.
  cbn [PixelBuffers set_PixelBuffers]. unfold index.
  rewrite list_lookup_insert_eq by exact Hlt. cbn [rbind deref].
  rewrite list_insert_insert_eq.
  eexists. split; [reflexivity|].
  cbn [ReadLocked PixelBuffers set_PixelBuffers].
  rewrite list_lookup_insert_eq by exact Hlt.
  cbn [mjoin option_join mbind option_bind PixelBuffer_Lock PBOData].
  unfold id. rewrite OverwritePrefix_whole by lia. reflexivity.
Qed.

Lemma PopulatedTexture_EvictedWithAllMips :
  EvictedWithAllMips DeferringEnv PopulatedTexture TwoMips.
Proof.
  unfold EvictedWithAllMips. split_and!; try reflexivity.
  - eexists. split_and!; reflexivity.
  - intros i mip Hi. destruct i as [|[|i]]; simpl in Hi; simplify_eq;
      split_and!; try discriminate; reflexivity.
  - discriminate.
Qed.

Lemma ShaderOnlyTexture_EvictedWithAllMips :
  EvictedWithAllMips DeferringEnv ShaderOnlyTexture TwoMips.
Proof.
  unfold EvictedWithAllMips. split_and!; try reflexivity.
  - eexists. split_and!; reflexivity.
  - intros i mip Hi. destruct i as [|[|i]]; simpl in Hi; simplify_eq;
      split_and!; try discriminate; reflexivity.
  - discriminate.
Qed.

(** Without the Streamable flag no round trip takes place: for a texture
    created as evicted with both mips populated, under a keep-lower-mip count
    of 7 for its 2 mips, the first restore drops the whole shadow store, the
    scheduler's eviction leaves the texture restored, and the second restore
    faults on its [check(!bHasRestored)]. *)
Lemma round_trip_fails_without_Streamable :
  EvictedWithAllMips DeferringEnv ShaderOnlyTexture TwoMips
  /\ Z.of_nat (NumMips ShaderOnlyTexture)
     <= DeferTextureCreationKeepLowerMipCount DeferringEnv
  /\ exists w1 w2,
       RestoreEvictedGLResource DeferringEnv ShaderOnlyWorld 1 true = Ok w1
       /\ (exists t1 P1, Textures w1 !! 1%positive = Some t1
                         /\ EvictionParamsPtr t1 = Some P1
                         /\ MipImageData P1 = [])
       /\ TickEviction DeferringEnv (AtFrame w1 501) = Ok w2
       /\ TextureLRU w2 = []
       /\ RestoreEvictedGLResource DeferringEnv w2 1 true = Err CheckFailed.
Proof.
  split; [exact ShaderOnlyTexture_EvictedWithAllMips|].
  split; [vm_compute; discriminate|].
  eexists _, _. split_and!.
  - vm_compute. reflexivity.
  - eexists _, _. split_and!; reflexivity.
  - vm_compute. reflexivity.
  - reflexivity.
  - vm_compute. reflexivity.
Qed.

Lemma HalfFloatTexture_EvictedWithAllMips :
  EvictedWithAllMips AndroidEnv HalfFloatTexture HalfFloatMips.
Proof.
  unfold EvictedWithAllMips. split_and!; try reflexivity.
  - eexists. split_and!; reflexivity.
  - intros i mip Hi. destruct i as [|[|i]]; simpl in Hi; simplify_eq;
      split_and!; try discriminate; reflexivity.
  - discriminate.
Qed.

(** C1, as stated, fails. A streamable [PF_FloatRGBA] texture on Android,
    created as evicted with both mips populated under a keep-lower-mip count
    of 7 for its 2 mips, goes through restore, eviction by the scheduler and
    a second restore, all of which succeed with the shadow store intact; but
    [Unlock] uploads the halves converted to bytes, so the GPU images are not
    the bytes written, and mip 1 read back after the second restore differs
    from the shadow data. Without the Streamable flag no round trip takes
    place at all: the first restore drops the shadow store, the eviction
    does nothing and the second restore faults. And under a keep-lower-mip
    count of [2^32 - 1], which is at least the mip count, the first restore
    of a streamable texture stops at the array range check of
    [MipImageData[i]] in [ReleaseMipData], whose loop starts at
    [i = 2 - 1 - (2^32 - 1) = 2] in [uint32]. *)
Lemma round_trip_changes_converted_bytes :
  (EvictedWithAllMips AndroidEnv HalfFloatTexture HalfFloatMips
   /\ Z.of_nat (NumMips HalfFloatTexture)
      <= DeferTextureCreationKeepLowerMipCount AndroidEnv
   /\ exists w1 w2 t2 P2 w3 t3 t4 p DestStride,
        RestoreEvictedGLResource AndroidEnv HalfFloatWorld 1 true = Ok w1
        /\ TickEviction AndroidEnv (AtFrame w1 501) = Ok w2
        /\ Textures w2 !! 1%positive = Some t2
        /\ IsEvicted t2 = true
        /\ EvictionParamsPtr t2 = Some P2
        /\ MipImageData P2 = HalfFloatMips
        /\ RestoreEvictedGLResource AndroidEnv w2 1 true = Ok w3
        /\ Textures w3 !! 1%positive = Some t3
        /\ GLStorage t3
           = Some [[Init xff; Init x7f; Init x00; Init xff;
                    Init xff; Init x7f; Init x00; Init xff];
                   [Init xff; Init xff; Init xff; Init xff]]
        /\ Lock AndroidEnv t3 1 0 RLM_ReadOnly = Ok (t4, p, DestStride)
        /\ HalfFloatMips !! 1%nat = Some HalfTexelB
        /\ ReadLocked t4 p
           = Some [Init xff; Init xff; Init xff; Init xff;
                   Init x00; Init x3c; Init x00; Init x3c]
        /\ ReadLocked t4 p <> Some HalfTexelB)
  /\ (EvictedWithAllMips DeferringEnv ShaderOnlyTexture TwoMips
      /\ Z.of_nat (NumMips ShaderOnlyTexture)
         <= DeferTextureCreationKeepLowerMipCount DeferringEnv
      /\ exists w1 w2,
           RestoreEvictedGLResource DeferringEnv ShaderOnlyWorld 1 true = Ok w1
           /\ TickEviction DeferringEnv (AtFrame w1 501) = Ok w2
           /\ RestoreEvictedGLResource DeferringEnv w2 1 true = Err CheckFailed)
  /\ (EvictedWithAllMips NegativeResidentEnv PopulatedTexture TwoMips
      /\ HasFlag PopulatedTexture (TexCreate_Streamable (TexCreate NegativeResidentEnv))
         = true
      /\ DeferTextureCreationKeepLowerMipCount NegativeResidentEnv = 2 ^ 32 - 1
      /\ Z.of_nat (NumMips PopulatedTexture)
         <= DeferTextureCreationKeepLowerMipCount NegativeResidentEnv
      /\ Textures CreatedWorld !! 1%positive = Some PopulatedTexture
      /\ RestoreEvictedGLResource NegativeResidentEnv CreatedWorld 1 true
         = Err RangeCheck).
Proof.
  refine (conj _ (conj _ _)).
  - split; [exact HalfFloatTexture_EvictedWithAllMips|].
    split; [vm_compute; discriminate|].
    eexists _, _, _, _, _, _, _, _, _. split_and!.
    + vm_compute. reflexivity.
    + vm_compute. reflexivity.
    + vm_compute. reflexivity.
    + reflexivity.
    + reflexivity.
    + reflexivity.
    + vm_compute. reflexivity.
    + vm_compute. reflexivity.
    + reflexivity.
    + vm_compute. reflexivity.
    + reflexivity.
    + reflexivity.
    + discriminate.
  - destruct round_trip_fails_without_Streamable
      as (H1 & H2 & w1 & w2 & Hr & _ & Ht & _ & Hr2).
    split; [exact H1|]. split; [exact H2|]. exists w1, w2. auto.
  - refine (conj _ (conj _ (conj _ (conj _ (conj _ _))))).
    + unfold EvictedWithAllMips. split_and!; try reflexivity.
      * eexists. split_and!; reflexivity.
      * intros i mip Hi. destruct i as [|[|i]]; simpl in Hi; simplify_eq;
          split_and!; try discriminate; reflexivity.
      * discriminate.
    + reflexivity.
    + reflexivity.
    + vm_compute. discriminate.
    + reflexivity.
    + vm_compute. reflexivity.
Qed.

(** C1, amended: take a 2D texture created as evicted with all mips
    populated ([EvictedWithAllMips]: deferrable, not aliased, named, fewer
    than [2^31] mips, no staging buffer outstanding, not restored and not
    registered, each shadow slot holding exactly the mip's lock size, which
    is not zero) that is streamable and has more than one mip, whose format
    the driver supports ([FormatSupported]: an internal format other than
    [GL_NONE], sample limits of at least one) and whose data needs no
    conversion at unlock (it is not [PF_FloatRGBA] uploaded as unsigned
    bytes on Android), with a keep-lower-mip count of at least its mip count
    and below [2^31], on a driver that hands out names other than [0]. A
    restore that attempts to retain mips while the texture is outside the
    registry and the registry has room, followed by the scheduler's eviction
    of the texture (registry removal, handle reset, [TryEvictGLResource])
    and a second such restore, succeeds, and every mip read back afterwards
    (a read-only lock) holds exactly the bytes the shadow store held before
    the first restore; the GPU storage as a whole equals that data. *)
Theorem restore_evict_restore_round_trip (E : FEnv) (w : FWorld) (k : positive)
    (t : FOpenGLTexture) (data : list Buffer) :
  Textures w !! k = Some t ->
  EvictedWithAllMips E t data ->
  FullRetention E t ->
  FormatSupported E t ->
  NeedsFloatRGBAConversion E t = false ->
  GenTextures E <> 0 ->
  k ∉ TextureLRU w ->
  length (TextureLRU w) <> LRUMax E ->
  exists w1 textures2,
    RestoreEvictedGLResource E w k true = Ok w1
    /\ EvictRemoved E (Textures w1) k = Ok textures2
    /\ forall lru2 frame2,
         k ∉ lru2 -> length lru2 <> LRUMax E ->
         exists w3 t3,
           RestoreEvictedGLResource E
             {| Textures := textures2; TextureLRU := lru2;
                GFrameNumberRenderThread := frame2 |} k true = Ok w3
           /\ Textures w3 !! k = Some t3
           /\ GLStorage t3 = Some data
           /\ forall i mip,
                data !! i = Some mip ->
                exists t4 p DestStride,
                  Lock E t3 i 0 RLM_ReadOnly = Ok (t4, p, DestStride)
                  /\ ReadLocked t4 p = Some mip.
Proof.
  intros Ht Hpop Hfull Hfmt Hconv Hgen Hk Hroom.
  eexists _, _. split; [apply (Restore_with_full_retention E w k t data); assumption|].
  cbn [Textures]. split.
  - apply (EvictRemoved_restored E _ k t data (GFrameNumberRenderThread w) Hpop).
    apply lookup_insert_eq.
  - intros lru2 frame2 Hk2 Hroom2.
    pose proof (EvictedAgain_EvictedWithAllMips E t data (GFrameNumberRenderThread w)
                  Hgen Hpop) as Hpop2.
    eexists _, _. split.
    + apply (Restore_with_full_retention E _ k
               (EvictedAgain E t data (GFrameNumberRenderThread w)) data);
        cbn [Textures TextureLRU]; try assumption.
      apply lookup_insert_eq.
    + cbn [Textures]. split; [apply lookup_insert_eq|]. split; [reflexivity|].
      intros i mip Hmip.
      destruct (Lock_ReadOnly_reads_image E _ data k frame2 i mip Hpop2 Hmip)
        as (t4 & HL & Hread).
      eauto.
Qed.

Lemma restore_evict_restore_round_trip_witness :
  exists w1, RestoreEvictedGLResource DeferringEnv CreatedWorld 1 true = Ok w1
    /\ exists textures2, EvictRemoved DeferringEnv (Textures w1) 1 = Ok textures2.
Proof.
  destruct (restore_evict_restore_round_trip DeferringEnv CreatedWorld 1
              PopulatedTexture TwoMips) as (w1 & tx2 & H1 & H2 & _).
  - reflexivity.
  - exact PopulatedTexture_EvictedWithAllMips.
  - unfold FullRetention. split_and!; [reflexivity | simpl; lia | | ];
      vm_compute; [discriminate | reflexivity].
  - unfold FormatSupported. split_and!; vm_compute; discriminate.
  - reflexivity.
  - vm_compute. discriminate.
  - apply not_elem_of_nil.
  - simpl. lia.
  - exists w1. split; [exact H1|]. exists tx2. exact H2.
Defined.

(** The same round trip on the concrete texture, with the scheduler's tick
    itself doing the eviction once the texture's age exceeds the threshold. *)
Example round_trip_through_TickEviction :
  exists w1 w2 w3 t3,
    RestoreEvictedGLResource DeferringEnv CreatedWorld 1 true = Ok w1
    /\ TickEviction DeferringEnv (AtFrame w1 501) = Ok w2
    /\ TextureLRU w2 = []
    /\ RestoreEvictedGLResource DeferringEnv w2 1 true = Ok w3
    /\ Textures w3 !! 1%positive = Some t3
    /\ GLStorage t3 = Some TwoMips.
Proof.
  eexists _, _, _, _. split_and!.
  - vm_compute. reflexivity.
  - vm_compute. reflexivity.
  - reflexivity.
  - vm_compute. reflexivity.
  - vm_compute. reflexivity.
  - reflexivity.
Qed.

(* ===================================================================== *)
(** ** Half-float conversion                                               *)
(* ===================================================================== *)

Lemma ForallBits_spec (n : nat) :
  forall p : Z -> bool,
  ForallBits n p = true -> forall h, 0 <= h < 2 ^ Z.of_nat n -> p h = true.
Proof.
  induction n as [|n IH]; intros p Hall h Hh.
  - cbn [ForallBits] in Hall. change (2 ^ Z.of_nat 0) with 1 in Hh.
    replace h with 0 by lia. exact Hall.
  - cbn [ForallBits] in Hall. apply andb_true_iff in Hall as [Heven Hodd].
    rewrite Nat2Z.inj_succ, Z.pow_succ_r in Hh by lia.
    pose proof (Z.div_mod h 2 ltac:(lia)) as Hdm.
    pose proof (Z.mod_pos_bound h 2 ltac:(lia)) as Hm.
    assert (Hq : 0 <= h / 2 < 2 ^ Z.of_nat n)
      by (split; [apply Z.div_pos; lia | apply Z.div_lt_upper_bound; lia]).
    destruct (Z.eq_dec (h mod 2) 0) as [H0|H1].
    + pose proof (IH _ Heven (h / 2) Hq) as H. cbn beta in H.
      replace (2 * (h / 2)) with h in H by lia. exact H.
    + pose proof (IH _ Hodd (h / 2) Hq) as H. cbn beta in H.
      replace (2 * (h / 2) + 1) with h in H by lia. exact H.
Qed.

Lemma ForallHalf_spec (p : Z -> bool) :
  ForallHalf p = true -> forall h, 0 <= h < 2 ^ 16 -> p h = true.
Proof.
  unfold ForallHalf. intros Hall h Hh.
  pose proof (ForallBits_spec 16 p Hall) as H. apply H. exact Hh.
Qed.

(** The renormalisation loop gives the same result with more fuel. *)
Lemma Renormalize_more_fuel (fuel : nat) :
  forall (fuel' : nat) (Mantiss Exponent : Z) (r : Z * Z),
  (fuel <= fuel')%nat ->
  Renormalize fuel Mantiss Exponent = Some r ->
  Renormalize fuel' Mantiss Exponent = Some r.
Proof.
  induction fuel as [|fuel IH]; intros fuel' Mantiss Exponent r Hle H;
    [discriminate|].
  destruct fuel' as [|fuel']; [lia|]. cbn [Renormalize] in *.
  destruct (Z.land Mantiss 1024 =? 0); [|exact H].
  apply (IH fuel'); [lia | exact H].
Qed.

Lemma HalfFloatToFloatInteger_more_fuel (fuel fuel' : nat) (h f : Z) :
  (fuel <= fuel')%nat ->
  HalfFloatToFloatInteger fuel h = Some f ->
  HalfFloatToFloatInteger fuel' h = Some f.
Proof.
  intros Hle. unfold HalfFloatToFloatInteger.
  destruct (Z.land (Z.shiftr h 10) 31 =? 0); [|exact id].
  destruct (Z.land h 1023 =? 0); [exact id|].
  destruct (Renormalize fuel _ _) as [r|] eqn:Hr; [|discriminate].
  rewrite (Renormalize_more_fuel fuel fuel' _ _ r Hle Hr). exact id.
Qed.

(** When the exponent field is not zero the loop is not entered, and the
    fuel plays no part. *)
Lemma HalfFloatToFloatInteger_no_loop (fuel fuel' : nat) (h : Z) :
  Z.land (Z.shiftr h 10) 0x1f <> 0 ->
  HalfFloatToFloatInteger fuel h = HalfFloatToFloatInteger fuel' h.
Proof.
  intros He. unfold HalfFloatToFloatInteger.
  destruct (Z.eqb_spec (Z.land (Z.shiftr h 10) 31) 0) as [H0|_];
    [contradiction | reflexivity].
Qed.

(** The conversion evaluated on each of the 65536 halves, with fuel for
    eleven loop tests: it returns a 32-bit pattern [f] with the sign bit of
    the half; the exponent field of [f] is all ones exactly when that of the
    half is, and then the mantissa is the half's, moved up; otherwise [f]
    denotes the number the half denotes; [f] is the conversion of the half
    without its sign plus the sign bit; and the next half without sign
    converts to a larger pattern. *)
Lemma HalfFloatToFloatInteger_table :
  ForallHalf (fun h =>
    match HalfFloatToFloatInteger 11 h with
    | Some f =>
        (0 <=? f) && (f <? 2 ^ 32)
        && Bool.eqb (Z.testbit f 31) (Z.testbit h 15)
        && (if Z.land (Z.shiftr h 10) 0x1f =? 31
            then (Z.land (Z.shiftr f 23) 0xff =? 255)
                 && (Z.land f 0x7fffff =? Z.land h 0x3ff * 2 ^ 13)
            else negb (Z.land (Z.shiftr f 23) 0xff =? 255)
                 && (FloatValue f =? HalfValue h * 2 ^ 125))
        && match HalfFloatToFloatInteger 11 (h mod 2 ^ 15) with
           | Some g => (f =? g + h / 2 ^ 15 * 2 ^ 31) && (0 <=? g) && (g <? 2 ^ 31)
           | None => false
           end
        && ((2 ^ 15 - 1 <=? h)
            || match HalfFloatToFloatInteger 11 (h + 1) with
               | Some f2 => f <? f2
               | None => false
               end)
    | None => false
    end) = true.
Proof. vm_compute. reflexivity. Qed.

(** The same facts for one half, as propositions. *)
Lemma HalfFloatToFloatInteger_facts (h : Z) :
  0 <= h < 2 ^ 16 ->
  exists f, HalfFloatToFloatInteger 11 h = Some f
    /\ 0 <= f < 2 ^ 32
    /\ Z.testbit f 31 = Z.testbit h 15
    /\ (Z.land (Z.shiftr h 10) 0x1f = 31 ->
        Z.land (Z.shiftr f 23) 0xff = 255
        /\ Z.land f 0x7fffff = Z.land h 0x3ff * 2 ^ 13)
    /\ (Z.land (Z.shiftr h 10) 0x1f <> 31 ->
        Z.land (Z.shiftr f 23) 0xff <> 255
        /\ FloatValue f = HalfValue h * 2 ^ 125)
    /\ (exists g, HalfFloatToFloatInteger 11 (h mod 2 ^ 15) = Some g
                  /\ f = g + h / 2 ^ 15 * 2 ^ 31 /\ 0 <= g < 2 ^ 31)
    /\ (h < 2 ^ 15 - 1 ->
        exists f2, HalfFloatToFloatInteger 11 (h + 1) = Some f2 /\ f < f2).
Proof.
  intros Hh.
  pose proof (ForallHalf_spec _ HalfFloatToFloatInteger_table h Hh) as H.
  cbn beta in H.
  destruct (HalfFloatToFloatInteger 11 h) as [f|]; [|discriminate].
  exists f.
  apply andb_true_iff in H as [H Hnext]. apply andb_true_iff in H as [H Hsplit].
  apply andb_true_iff in H as [H Hcase]. apply andb_true_iff in H as [H Hsign].
  apply andb_true_iff in H as [Hlo Hhi].
  split_and!.
  - reflexivity.
  - lia.
  - lia.
  - apply eqb_prop, Hsign.
  - intros He. rewrite He in Hcase. cbn [Z.eqb Pos.eqb] in Hcase.
    apply andb_true_iff in Hcase as [H1 H2]. split; apply Z.eqb_eq; assumption.
  - intros He.
    destruct (Z.eqb_spec (Z.land (Z.shiftr h 10) 31) 31) as [E|_]; [contradiction|].
    apply andb_true_iff in Hcase as [H1 H2]. split; [|apply Z.eqb_eq, H2].
    intros E. rewrite E in H1. discriminate.
  - destruct (HalfFloatToFloatInteger 11 (h mod 2 ^ 15)) as [g|]; [|discriminate].
    exists g. apply andb_true_iff in Hsplit as [H1 H3].
    apply andb_true_iff in H1 as [H1 H2]. split; [reflexivity|]. lia.
  - intros Hlt. destruct (Z.leb_spec (2 ^ 15 - 1) h) as [Hge|_]; [lia|].
    cbn [orb] in Hnext.
    destruct (HalfFloatToFloatInteger 11 (h + 1)) as [f2|]; [|discriminate].
    exists f2. split; [reflexivity | lia].
Qed.

(** X1: for every half whose exponent field is not all ones (a zero, a
    denormalised or a normalised number), [HalfFloatToFloatInteger] returns,
    given fuel for eleven loop tests, a 32-bit pattern with the same sign bit
    that denotes exactly the same number as a [float]. *)
Theorem HalfFloatToFloatInteger_exact (fuel : nat) (h : Z) :
  0 <= h < 2 ^ 16 ->
  Z.land (Z.shiftr h 10) 0x1f <> 31 ->
  (11 <= fuel)%nat ->
  exists f, HalfFloatToFloatInteger fuel h = Some f
    /\ 0 <= f < 2 ^ 32
    /\ Z.testbit f 31 = Z.testbit h 15
    /\ Z.land (Z.shiftr f 23) 0xff <> 255
    /\ FloatValue f = HalfValue h * 2 ^ 125.
Proof.
  intros Hh Hfin Hfuel.
  destruct (HalfFloatToFloatInteger_facts h Hh)
    as (f & Hf & Hrange & Hsign & _ & Hval & _).
  destruct (Hval Hfin) as [He Hv]. exists f. split_and!.
  - apply (HalfFloatToFloatInteger_more_fuel 11 fuel h f Hfuel Hf).
  - lia.
  - lia.
  - exact Hsign.
  - exact He.
  - exact Hv.
Qed.

Lemma HalfFloatToFloatInteger_exact_witness :
  exists f, HalfFloatToFloatInteger 11 0x0001 = Some f
    /\ FloatValue f = HalfValue 0x0001 * 2 ^ 125.
Proof.
  destruct (HalfFloatToFloatInteger_exact 11 0x0001) as (f & Hf & _ & _ & _ & Hv).
  - lia.
  - vm_compute. discriminate.
  - lia.
  - exists f. split; assumption.
Defined.

(** X2: a half whose exponent field is all ones (an infinity or a NaN)
    becomes, with any fuel, a [float] pattern whose exponent field is all
    ones too, with the same sign bit and the half's mantissa moved to the top
    of the mantissa field: an infinity stays an infinity and a NaN stays a
    NaN. *)
Theorem HalfFloatToFloatInteger_inf_nan (fuel : nat) (h : Z) :
  0 <= h < 2 ^ 16 ->
  Z.land (Z.shiftr h 10) 0x1f = 31 ->
  exists f, HalfFloatToFloatInteger fuel h = Some f
    /\ 0 <= f < 2 ^ 32
    /\ Z.testbit f 31 = Z.testbit h 15
    /\ Z.land (Z.shiftr f 23) 0xff = 255
    /\ Z.land f 0x7fffff = Z.land h 0x3ff * 2 ^ 13
    /\ (Z.land f 0x7fffff = 0 <-> Z.land h 0x3ff = 0).
Proof.
  intros Hh Hexp.
  destruct (HalfFloatToFloatInteger_facts h Hh)
    as (f & Hf & Hrange & Hsign & Hspecial & _).
  destruct (Hspecial Hexp) as [He Hman]. exists f. split_and!.
  - rewrite (HalfFloatToFloatInteger_no_loop fuel 11 h); [exact Hf|].
    rewrite Hexp. discriminate.
  - lia.
  - lia.
  - exact Hsign.
  - exact He.
  - exact Hman.
  - rewrite Hman. lia.
Qed.

Lemma HalfFloatToFloatInteger_inf_nan_witness :
  exists f, HalfFloatToFloatInteger 0 0xfc00 = Some f
    /\ Z.land (Z.shiftr f 23) 0xff = 255 /\ Z.land f 0x7fffff = 0.
Proof.
  destruct (HalfFloatToFloatInteger_inf_nan 0 0xfc00)
    as (f & Hf & _ & _ & He & Hm & _).
  - lia.
  - reflexivity.
  - exists f. split_and!; [exact Hf | exact He | rewrite Hm; reflexivity].
Defined.

Lemma HalfFloatToFloatInteger_increasing_aux (fuel : nat) (h1 h2 f1 f2 : Z) :
  (11 <= fuel)%nat ->
  0 <= h1 -> h1 < h2 -> h2 < 2 ^ 15 ->
  HalfFloatToFloatInteger fuel h1 = Some f1 ->
  HalfFloatToFloatInteger fuel h2 = Some f2 ->
  f1 < f2.
Proof.
  intros Hfuel H0 Hlt Hhi Hf1 Hf2.
  assert (Hgen : forall n : nat, forall h f g,
            0 <= h -> h + Z.of_nat n + 1 < 2 ^ 15 ->
            HalfFloatToFloatInteger 11 h = Some f ->
            HalfFloatToFloatInteger 11 (h + Z.of_nat n + 1) = Some g ->
            f < g).
  { induction n as [|n IH]; intros h f g Hh Hn Hf Hg.
    - destruct (HalfFloatToFloatInteger_facts h ltac:(lia))
        as (a & Ha & _ & _ & _ & _ & _ & Hnext).
      destruct (Hnext ltac:(lia)) as (b & Hb & Hab).
      replace (h + Z.of_nat 0 + 1) with (h + 1) in Hg by lia. congruence.
    - destruct (HalfFloatToFloatInteger_facts (h + Z.of_nat n + 1) ltac:(lia))
        as (a & Ha & _ & _ & _ & _ & _ & Hnext).
      destruct (Hnext ltac:(lia)) as (b & Hb & Hab).
      replace (h + Z.of_nat (S n) + 1) with (h + Z.of_nat n + 1 + 1) in Hg by lia.
      specialize (IH h f a Hh ltac:(lia) Hf Ha). rewrite Hb in Hg.
      injection Hg as <-. lia. }
  destruct (HalfFloatToFloatInteger_facts h1 ltac:(lia)) as (a & Ha & _).
  destruct (HalfFloatToFloatInteger_facts h2 ltac:(lia)) as (b & Hb & _).
  pose proof (HalfFloatToFloatInteger_more_fuel 11 fuel h1 a Hfuel Ha) as Ha'.
  pose proof (HalfFloatToFloatInteger_more_fuel 11 fuel h2 b Hfuel Hb) as Hb'.
  rewrite Hf1 in Ha'. rewrite Hf2 in Hb'. injection Ha' as ->. injection Hb' as ->.
  apply (Hgen (Z.to_nat (h2 - h1 - 1)) h1 a b); [lia | lia | exact Ha |].
  replace (h1 + Z.of_nat (Z.to_nat (h2 - h1 - 1)) + 1) with h2 by lia. exact Hb.
Qed.

(** X3: on the halves with a clear sign bit the conversion is strictly
    increasing: a larger half pattern (a larger magnitude, with the
    infinity above every finite number) gives a larger [float] pattern. *)
Theorem HalfFloatToFloatInteger_increasing (fuel : nat) (h1 h2 f1 f2 : Z) :
  (11 <= fuel)%nat ->
  0 <= h1 -> h1 < h2 -> h2 < 2 ^ 15 ->
  HalfFloatToFloatInteger fuel h1 = Some f1 ->
  HalfFloatToFloatInteger fuel h2 = Some f2 ->
  f1 < f2.
Proof. apply HalfFloatToFloatInteger_increasing_aux. Qed.

Lemma HalfFloatToFloatInteger_increasing_witness :
  0x3f000000 < 0x3f800000.
Proof.
  apply (HalfFloatToFloatInteger_increasing 11 0x3800 0x3c00 0x3f000000 0x3f800000).
  - lia.
  - lia.
  - lia.
  - lia.
  - reflexivity.
  - reflexivity.
Defined.

(** X4: the conversion loses nothing: two halves that convert to the same
    [float] pattern are the same half. *)
Theorem HalfFloatToFloatInteger_injective (fuel : nat) (h1 h2 f : Z) :
  (11 <= fuel)%nat ->
  0 <= h1 < 2 ^ 16 -> 0 <= h2 < 2 ^ 16 ->
  HalfFloatToFloatInteger fuel h1 = Some f ->
  HalfFloatToFloatInteger fuel h2 = Some f ->
  h1 = h2.
Proof.
  intros Hfuel Hh1 Hh2 Hf1 Hf2.
  (* the sign bit travels unchanged, and the rest is the conversion of the
     half without its sign *)
  assert (Hsplit : forall h, 0 <= h < 2 ^ 16 ->
            HalfFloatToFloatInteger fuel h = Some f ->
            exists g, HalfFloatToFloatInteger fuel (h mod 2 ^ 15) = Some g
              /\ f = g + (h / 2 ^ 15) * 2 ^ 31 /\ 0 <= g < 2 ^ 31).
  { intros h Hh Hf.
    destruct (HalfFloatToFloatInteger_facts h Hh)
      as (a & Ha & _ & _ & _ & _ & (g & Hg & Hag & Hgr) & _).
    apply (HalfFloatToFloatInteger_more_fuel 11 fuel _ _ Hfuel) in Ha, Hg.
    rewrite Hf in Ha. injection Ha as <-.
    exists g. split; [exact Hg|]. lia. }
  destruct (Hsplit h1 Hh1 Hf1) as (g1 & Hg1 & He1 & Hr1).
  destruct (Hsplit h2 Hh2 Hf2) as (g2 & Hg2 & He2 & Hr2).
  assert (Hd1 : 0 <= h1 / 2 ^ 15 < 2)
    by (split; [apply Z.div_pos; lia | apply Z.div_lt_upper_bound; lia]).
  assert (Hd2 : 0 <= h2 / 2 ^ 15 < 2)
    by (split; [apply Z.div_pos; lia | apply Z.div_lt_upper_bound; lia]).
  assert (Hsign : h1 / 2 ^ 15 = h2 / 2 ^ 15) by lia.
  assert (Hg : g1 = g2) by lia. subst g2.
  assert (Hm1 : 0 <= h1 mod 2 ^ 15 < 2 ^ 15) by (apply Z.mod_pos_bound; lia).
  assert (Hm2 : 0 <= h2 mod 2 ^ 15 < 2 ^ 15) by (apply Z.mod_pos_bound; lia).
  assert (Hmod : h1 mod 2 ^ 15 = h2 mod 2 ^ 15).
  { destruct (Z.lt_trichotomy (h1 mod 2 ^ 15) (h2 mod 2 ^ 15)) as [Hlt|[Heq|Hgt]].
    - pose proof (HalfFloatToFloatInteger_increasing_aux fuel _ _ g1 g1 Hfuel
                    (proj1 Hm1) Hlt (proj2 Hm2) Hg1 Hg2). lia.
    - exact Heq.
    - pose proof (HalfFloatToFloatInteger_increasing_aux fuel _ _ g1 g1 Hfuel
                    (proj1 Hm2) Hgt (proj2 Hm1) Hg2 Hg1). lia. }
  rewrite (Z.div_mod h1 (2 ^ 15)), (Z.div_mod h2 (2 ^ 15)) by lia. lia.
Qed.

Lemma HalfFloatToFloatInteger_injective_witness : 0x3c00 = 0x3c00.
Proof.
  apply (HalfFloatToFloatInteger_injective 11 0x3c00 0x3c00 0x3f800000).
  - lia.
  - lia.
  - lia.
  - reflexivity.
  - reflexivity.
Defined.

(* ===================================================================== *)
(** ** The byte size of a mip                                              *)
(* ===================================================================== *)

Lemma BlocksAcross_pos (Size Block : Z) :
  0 <= Size -> 0 < Block -> 1 <= BlocksAcross Size Block.
Proof.
  intros HS HB. unfold BlocksAcross.
  apply Z.div_le_lower_bound; lia.
Qed.

Lemma BlocksAcross_mono (Size Size' Block : Z) :
  0 < Block -> Size' <= Size -> BlocksAcross Size' Block <= BlocksAcross Size Block.
Proof.
  intros HB Hle. unfold BlocksAcross. apply Z.div_le_mono; lia.
Qed.

Lemma shiftr_le (Size : Z) (m m' : nat) :
  0 <= Size -> (m <= m')%nat ->
  0 <= Z.shiftr Size (Z.of_nat m') <= Z.shiftr Size (Z.of_nat m).
Proof.
  intros HS Hle. rewrite !Z.shiftr_div_pow2 by lia. split.
  - apply Z.div_pos; lia.
  - replace (Z.of_nat m') with (Z.of_nat m + Z.of_nat (m' - m)) by lia.
    rewrite Z.pow_add_r by lia.
    rewrite <- Z.div_div by lia.
    apply Z.div_le_upper_bound; [lia|].
    assert (0 <= Size / 2 ^ Z.of_nat m) by (apply Z.div_pos; lia).
    assert (1 <= 2 ^ Z.of_nat (m' - m)) by lia. nia.
Qed.

Lemma shiftr_le_self (Size : Z) (m : nat) :
  0 <= Size -> 0 <= Z.shiftr Size (Z.of_nat m) <= Size.
Proof.
  intros HS. pose proof (shiftr_le Size 0 m HS ltac:(lia)) as H.
  change (Z.of_nat 0) with 0 in H. rewrite Z.shiftr_0_r in H. exact H.
Qed.

(** The block count along one axis, as [GetLockSize] computes it in
    [uint32]. *)
Lemma GetLockSize_blocks (Size Block : Z) (m : nat) :
  0 <= Size < 2 ^ 31 -> 0 < Block < 2 ^ 31 ->
  wrap_uint32 (Z.max (Z.shiftr Size (Z.of_nat m)) Block + Block - 1) / Block
  = BlocksAcross (Z.shiftr Size (Z.of_nat m)) Block.
Proof.
  intros HS HB. pose proof (shiftr_le_self Size m ltac:(lia)) as Hs.
  unfold BlocksAcross. rewrite wrap_uint32_small by lia. reflexivity.
Qed.

(** [GetLockSize] without wrap-around. *)
Lemma GetLockSize_fits (t : FOpenGLTexture) (m : nat) :
  LockSizeFits t ->
  let F := PixelFormat t in
  let nx := BlocksAcross (Z.shiftr (SizeX t) (Z.of_nat m)) (BlockSizeX F) in
  let ny := BlocksAcross (Z.shiftr (SizeY t) (Z.of_nat m)) (BlockSizeY F) in
  GetLockSize t m = (nx * ny * BlockBytes F, nx * BlockBytes F)
  /\ 1 <= nx <= BlocksAcross (SizeX t) (BlockSizeX F)
  /\ 1 <= ny <= BlocksAcross (SizeY t) (BlockSizeY F)
  /\ nx * ny * BlockBytes F < 2 ^ 32.
Proof.
  intros (HX & HY & HBX & HBY & HBB & Hfit) F nx ny. fold F in HBX, HBY, HBB, Hfit.
  pose proof (shiftr_le_self (SizeX t) m ltac:(lia)) as HsX.
  pose proof (shiftr_le_self (SizeY t) m ltac:(lia)) as HsY.
  assert (Hnx : 1 <= nx <= BlocksAcross (SizeX t) (BlockSizeX F))
    by (split; [apply BlocksAcross_pos | apply BlocksAcross_mono]; lia).
  assert (Hny : 1 <= ny <= BlocksAcross (SizeY t) (BlockSizeY F))
    by (split; [apply BlocksAcross_pos | apply BlocksAcross_mono]; lia).
  assert (Hprod : nx * ny * BlockBytes F < 2 ^ 32).
  { assert (nx * ny <= BlocksAcross (SizeX t) (BlockSizeX F)
                       * BlocksAcross (SizeY t) (BlockSizeY F))
      by (apply Z.mul_le_mono_nonneg; lia).
    assert (nx * ny * BlockBytes F
            <= BlocksAcross (SizeX t) (BlockSizeX F)
               * BlocksAcross (SizeY t) (BlockSizeY F) * BlockBytes F)
      by (apply Z.mul_le_mono_nonneg_r; lia).
    lia. }
  split_and!; try lia.
  unfold GetLockSize. fold F.
  rewrite (GetLockSize_blocks (SizeX t) (BlockSizeX F) m) by lia.
  rewrite (GetLockSize_blocks (SizeY t) (BlockSizeY F) m) by lia.
  fold nx ny.
  assert (0 <= nx * ny * BlockBytes F) by nia.
  assert (nx * BlockBytes F <= nx * ny * BlockBytes F) by nia.
  rewrite !wrap_uint32_small by nia. reflexivity.
Qed.

(** A width of [2^32 - 1] is outside [LockSizeFits]: rounding it up to whole
    blocks wraps around, and the lock size of mip 0 is zero bytes. *)
Lemma GetLockSize_wraps_for_widest_texture :
  GetLockSize WidestTexture 0 = (0, 0) /\ ~ LockSizeFits WidestTexture.
Proof.
  split; [vm_compute; reflexivity|].
  intros ([_ H] & _). vm_compute in H. discriminate H.
Qed.

(** X5: a lock size is at least one block. Let the texture's width and
    height be at least 0 and below [2^31], the block width and block height
    of its format positive and below [2^31], the block byte count positive,
    and the byte size of mip 0 (blocks across times blocks down times block
    bytes, each block count at least one) below [2^32]; this is
    [LockSizeFits]. Then for every mip index below 32 the stride is a
    positive number of whole blocks, the byte size is a positive number of
    whole rows of that stride, and both are below [2^32]. A mip index past
    the end of the chain still addresses one block. *)
Theorem GetLockSize_at_least_one_block (t : FOpenGLTexture) (InMipIndex : nat) :
  LockSizeFits t ->
  (InMipIndex < 32)%nat ->
  let MipBytes := fst (GetLockSize t InMipIndex) in
  let DestStride := snd (GetLockSize t InMipIndex) in
  BlockBytes (PixelFormat t) <= DestStride
  /\ DestStride <= MipBytes < 2 ^ 32
  /\ (BlockBytes (PixelFormat t) | DestStride)
  /\ (DestStride | MipBytes).
Proof.
  intros Hfit _ MipBytes DestStride. subst MipBytes DestStride.
  pose proof Hfit as (_ & _ & _ & _ & HBB & _).
  destruct (GetLockSize_fits t InMipIndex Hfit) as (-> & Hnx & Hny & Hprod).
  cbn [fst snd].
  set (nx := BlocksAcross _ (BlockSizeX _)) in *.
  set (ny := BlocksAcross _ (BlockSizeY _)) in *.
  split_and!.
  - nia.
  - nia.
  - exact Hprod.
  - exists nx. reflexivity.
  - exists ny. lia.
Qed.

Lemma GetLockSize_at_least_one_block_witness :
  8 <= snd (GetLockSize BlockTexture 4) /\ snd (GetLockSize BlockTexture 4) = 8
  /\ fst (GetLockSize BlockTexture 4) = 8.
Proof.
  assert (Hfit : LockSizeFits BlockTexture) by (vm_compute; intuition congruence).
  destruct (GetLockSize_at_least_one_block BlockTexture 4 Hfit ltac:(lia))
    as (H & _).
  split; [exact H|]. split; reflexivity.
Defined.

Lemma GetLockSize_mono (t : FOpenGLTexture) (m m' : nat) :
  LockSizeFits t -> (m <= m')%nat ->
  fst (GetLockSize t m') <= fst (GetLockSize t m)
  /\ snd (GetLockSize t m') <= snd (GetLockSize t m).
Proof.
  intros Hfit Hle.
  pose proof Hfit as (HX & HY & HBX & HBY & HBB & _).
  destruct (GetLockSize_fits t m Hfit) as (-> & Hnx & Hny & _).
  destruct (GetLockSize_fits t m' Hfit) as (-> & Hnx' & Hny' & _).
  cbn [fst snd].
  pose proof (shiftr_le (SizeX t) m m' ltac:(lia) Hle) as HsX.
  pose proof (shiftr_le (SizeY t) m m' ltac:(lia) Hle) as HsY.
  pose proof (BlocksAcross_mono _ _ (BlockSizeX (PixelFormat t))
                ltac:(lia) (proj2 HsX)) as HmX.
  pose proof (BlocksAcross_mono _ _ (BlockSizeY (PixelFormat t))
                ltac:(lia) (proj2 HsY)) as HmY.
  set (nx := BlocksAcross (Z.shiftr (SizeX t) (Z.of_nat m)) _) in *.
  set (ny := BlocksAcross (Z.shiftr (SizeY t) (Z.of_nat m)) _) in *.
  set (nx' := BlocksAcross (Z.shiftr (SizeX t) (Z.of_nat m')) _) in *.
  set (ny' := BlocksAcross (Z.shiftr (SizeY t) (Z.of_nat m')) _) in *.
  split.
  - assert (nx' * ny' <= nx * ny) by (apply Z.mul_le_mono_nonneg; lia).
    apply Z.mul_le_mono_nonneg_r; lia.
  - apply Z.mul_le_mono_nonneg_r; lia.
Qed.

(** X6: a smaller mip never needs a larger buffer. Let the texture's width
    and height be at least 0 and below [2^31], the block width and block
    height of its format positive and below [2^31], the block byte count
    positive, and the byte size of mip 0 below [2^32] ([LockSizeFits]). Then
    for mip indices [m <= m' < 32] neither the byte size nor the stride of
    mip [m'] exceeds that of mip [m]. *)
Theorem GetLockSize_never_grows (t : FOpenGLTexture) (m m' : nat) :
  LockSizeFits t -> (m <= m')%nat -> (m' < 32)%nat ->
  fst (GetLockSize t m') <= fst (GetLockSize t m)
  /\ snd (GetLockSize t m') <= snd (GetLockSize t m).
Proof. intros Hfit Hle _. apply GetLockSize_mono; assumption. Qed.

Lemma GetLockSize_never_grows_witness :
  fst (GetLockSize BlockTexture 3) <= fst (GetLockSize BlockTexture 1).
Proof.
  assert (Hfit : LockSizeFits BlockTexture) by (vm_compute; intuition congruence).
  apply (GetLockSize_never_grows BlockTexture 1 3 Hfit); lia.
Defined.

Lemma AlignArbitrary_blocks (Size Block : Z) :
  0 <= Size < 2 ^ 31 -> 0 < Block < 2 ^ 31 ->
  AlignArbitrary (Z.max 1 Size) Block / Block = BlocksAcross Size Block.
Proof.
  intros HS HB. unfold AlignArbitrary, BlocksAcross.
  rewrite (wrap_uint32_small (Z.max 1 Size + Block - 1)) by lia.
  set (q := (Z.max 1 Size + Block - 1) / Block).
  assert (Hq : 0 <= q * Block <= Z.max 1 Size + Block - 1).
  { subst q. split.
    - apply Z.mul_nonneg_nonneg; [apply Z.div_pos|]; lia.
    - rewrite Z.mul_comm. apply Z.mul_div_le. lia. }
  rewrite wrap_uint32_small by lia. rewrite Z.div_mul by lia. subst q.
  destruct (Z.le_gt_cases Block Size) as [Hge|Hlt].
  - rewrite (Z.max_r 1 Size), (Z.max_l Size Block) by lia. reflexivity.
  - rewrite (Z.max_r Size Block) by lia.
    assert (H1 : (Z.max 1 Size + Block - 1) / Block = 1).
    { symmetry. apply (Z.div_unique _ _ 1 (Z.max 1 Size - 1)); lia. }
    assert (H2 : (Block + Block - 1) / Block = 1).
    { symmetry. apply (Z.div_unique _ _ 1 (Block - 1)); lia. }
    rewrite H1, H2. reflexivity.
Qed.

Lemma BulkMipDataSize_GetLockSize (t : FOpenGLTexture) (ArraySize : Z) (m : nat) :
  LockSizeFits t -> ArraySize <= 1 ->
  BulkMipDataSize t ArraySize m = fst (GetLockSize t m).
Proof.
  intros Hfit HA.
  pose proof Hfit as (HX & HY & HBX & HBY & HBB & _).
  destruct (GetLockSize_fits t m Hfit) as (-> & Hnx & Hny & Hprod).
  cbn [fst]. unfold BulkMipDataSize.
  pose proof (shiftr_le_self (SizeX t) m ltac:(lia)) as HsX.
  pose proof (shiftr_le_self (SizeY t) m ltac:(lia)) as HsY.
  rewrite !AlignArbitrary_blocks by lia.
  rewrite (Z.max_l 1 ArraySize) by lia.
  rewrite Z.mul_1_r. apply wrap_uint32_small. nia.
Qed.

(** X7: the byte size that [InitializeGLTexture] gives a mip of the bulk
    data of a texture that is not an array equals the lock size of that mip,
    whenever the sizes fit: the two functions round the mip's dimensions to
    blocks in different ways and agree. A shadow mip stored at creation
    therefore passes the size check of a later restore. *)
Theorem BulkMipDataSize_is_lock_size (t : FOpenGLTexture) (ArraySize : Z)
    (MipIndex : nat) :
  LockSizeFits t -> ArraySize <= 1 -> (MipIndex < 32)%nat ->
  BulkMipDataSize t ArraySize MipIndex = fst (GetLockSize t MipIndex).
Proof. intros Hfit HA _. apply BulkMipDataSize_GetLockSize; assumption. Qed.

Lemma BulkMipDataSize_is_lock_size_witness :
  BulkMipDataSize BlockTexture 1 3 = fst (GetLockSize BlockTexture 3).
Proof.
  assert (Hfit : LockSizeFits BlockTexture) by (vm_compute; intuition congruence).
  apply (BulkMipDataSize_is_lock_size BlockTexture 1 3 Hfit); lia.
Defined.

(* ===================================================================== *)
(** ** Staging buffers of a texture that has GPU storage                   *)
(* ===================================================================== *)

Lemma BufferIndexOf_set_PixelBuffers (t : FOpenGLTexture) pbs (m a : nat) :
  BufferIndexOf (set_PixelBuffers t pbs) m a = BufferIndexOf t m a.
Proof. reflexivity. Qed.

Lemma GetLockSize_set_PixelBuffers (t : FOpenGLTexture) pbs (m : nat) :
  GetLockSize (set_PixelBuffers t pbs) m = GetLockSize t m.
Proof. reflexivity. Qed.

Lemma IsEvicted_Core (t t' : FOpenGLTexture) :
  Core t' = Core t -> GetLockSize t' = GetLockSize t
  /\ BufferIndexOf t' = BufferIndexOf t /\ IsEvicted t' = IsEvicted t.
Proof.
  intros H. split_and!.
  - change (GetLockSize t') with (GetLockSize (Core t')). rewrite H. reflexivity.
  - change (BufferIndexOf t') with (BufferIndexOf (Core t')). rewrite H. reflexivity.
  - apply (Core_IsEvicted _ _ H).
Qed.

(** What [Resolve] does to the staging buffer of the slice. *)
Lemma Resolve_inv (t t' : FOpenGLTexture) (MipIndex ArrayIndex : nat) :
  Resolve t MipIndex ArrayIndex = Ok t' ->
  let idx := Z.to_nat (BufferIndexOf t MipIndex ArrayIndex) in
  exists slot filled,
    0 <= BufferIndexOf t MipIndex ArrayIndex
    /\ PixelBuffers t !! idx = Some slot
    /\ t' = set_PixelBuffers t (<[idx := Some filled]> (PixelBuffers t))
    /\ PBOSize filled = fst (GetLockSize t MipIndex)
    /\ bIsLocked filled = false
    /\ (forall pb, slot = Some pb ->
          PBOSize pb = PBOSize filled /\ bIsLocked pb = false).
Proof.
  intros H idx. unfold Resolve in H.
  apply rbind_Ok in H as (slot & Hslot & H). apply indexZ_Ok in Hslot as [H0 Hslot].
  apply rbind_Ok in H as (u1 & Hsize & H). apply check_Ok, Z.eqb_eq in Hsize.
  apply rbind_Ok in H as (u2 & Hlock & H). apply check_Ok, negb_true_iff in Hlock.
  apply rbind_Ok in H as (u3 & _ & H). injection H as <-.
  eexists slot, _. split_and!; [exact H0 | exact Hslot | reflexivity | exact Hsize
                                | exact Hlock |].
  intros pb ->. cbn [PBOSize]. split; [reflexivity | exact Hlock].
Qed.

(** What a successful [Lock] does to a texture that is not evicted: the
    staging buffer of the slice exists afterwards, has the lock size of the
    mip and is mapped in the requested mode; nothing else changes. *)
Lemma Lock_restored_inv (E : FEnv) (t t' : FOpenGLTexture)
    (InMipIndex ArrayIndex : nat) (LockMode : EResourceLockMode)
    (p : LockedPtr) (DestStride : Z) :
  IsEvicted t = false ->
  Lock E t InMipIndex ArrayIndex LockMode = Ok (t', p, DestStride) ->
  let idx := Z.to_nat (BufferIndexOf t InMipIndex ArrayIndex) in
  0 <= BufferIndexOf t InMipIndex ArrayIndex
  /\ (idx < length (PixelBuffers t))%nat
  /\ p = PixelBufferPtr idx
  /\ DestStride = snd (GetLockSize t InMipIndex)
  /\ (forall old, PixelBuffers t !! idx = Some (Some old) -> bIsLocked old = false)
  /\ exists pb,
       t' = set_PixelBuffers t (<[idx := Some pb]> (PixelBuffers t))
       /\ bIsLocked pb = true
       /\ bIsLockReadOnly pb = LockMode_eqb LockMode RLM_ReadOnly
       /\ PBOSize pb = fst (GetLockSize t InMipIndex).
Proof.
  intros Hev H idx. unfold Lock in H.
  destruct (GetLockSize t InMipIndex) as [MipBytes Stride] eqn:HG.
  rewrite Hev in H. cbn [negb orb check rbind] in H.
  apply rbind_Ok in H as (slot & Hslot & H). apply indexZ_Ok in Hslot as [H0 Hslot].
  fold idx in Hslot. pose proof (lookup_lt_Some _ _ _ Hslot) as Hlt.
  apply rbind_Ok in H as (u1 & Hsize & H). apply check_Ok, Z.eqb_eq in Hsize.
  apply rbind_Ok in H as (u2 & Hlock & H). apply check_Ok, negb_true_iff in Hlock.
  apply rbind_Ok in H as (t2 & Ht2 & H).
  apply rbind_Ok in H as (slot2 & Hslot2 & H). apply indexZ_Ok in Hslot2 as [_ Hslot2].
  apply rbind_Ok in H as (pb2 & Hpb2 & H). apply deref_Ok in Hpb2. subst slot2.
  injection H as <- <- <-. fold idx. fold idx in Hslot2.
  cbn [fst snd].
  split_and!; [exact H0 | exact Hlt | reflexivity | reflexivity | |].
  { intros old Hold. rewrite Hold in Hslot. injection Hslot as <-. exact Hlock. }
  set (PixelBuffer := match slot with
                      | Some pb => pb
                      | None => NewPixelBuffer MipBytes
                      end) in *.
  set (t1 := set_PixelBuffers t (<[idx := Some PixelBuffer]> (PixelBuffers t))) in *.
  assert (Hcase : exists pb2', PixelBuffers t2 = <[idx := Some pb2']> (PixelBuffers t)
                    /\ t2 = set_PixelBuffers t (PixelBuffers t2)
                    /\ PBOSize pb2' = MipBytes).
  { destruct (negb (LockMode_eqb LockMode RLM_WriteOnly) && negb _).
    - apply Resolve_inv in Ht2 as (slot' & filled & _ & _ & -> & Hsz & _ & _).
      rewrite BufferIndexOf_set_PixelBuffers. fold idx.
      rewrite GetLockSize_set_PixelBuffers, HG in Hsz. cbn [fst] in Hsz.
      exists filled. subst t1. cbn [PixelBuffers set_PixelBuffers].
      rewrite list_insert_insert_eq. split_and!; [reflexivity | reflexivity | exact Hsz].
    - injection Ht2 as <-. exists PixelBuffer. subst t1.
      cbn [PixelBuffers set_PixelBuffers]. split_and!; [reflexivity | reflexivity | exact Hsize]. }
  destruct Hcase as (pb2' & Hpbs & Ht2' & Hsz).
  rewrite Hpbs, list_lookup_insert_eq in Hslot2 by exact Hlt.
  injection Hslot2 as ->.
  eexists. split_and!.
  - rewrite Ht2'. cbn [PixelBuffers set_PixelBuffers]. rewrite Hpbs.
    rewrite list_insert_insert_eq. reflexivity.
  - reflexivity.
  - reflexivity.
  - exact Hsz.
Qed.

(** X8: a mip slice that is locked cannot be locked again: after a
    successful [Lock] on a texture that is not evicted, a second [Lock] of
    the same mip and slice, in any mode, stops at
    [check(!PixelBuffer->IsLocked())]. *)
Theorem Lock_twice_faults (E : FEnv) (t t' : FOpenGLTexture)
    (InMipIndex ArrayIndex : nat) (LockMode LockMode' : EResourceLockMode)
    (p : LockedPtr) (DestStride : Z) :
  IsEvicted t = false ->
  Lock E t InMipIndex ArrayIndex LockMode = Ok (t', p, DestStride) ->
  Lock E t' InMipIndex ArrayIndex LockMode' = Err CheckFailed.
Proof.
  intros Hev HL.
  destruct (Lock_restored_inv _ _ _ _ _ _ _ _ Hev HL)
    as (H0 & Hlt & _ & _ & _ & pb & -> & Hlocked & _ & Hsize).
  unfold Lock. rewrite GetLockSize_set_PixelBuffers.
  destruct (GetLockSize t InMipIndex) as [MipBytes Stride] eqn:HG.
  change (IsEvicted (set_PixelBuffers t ?x)) with (IsEvicted t). rewrite Hev.
  cbn [negb orb check rbind]. rewrite BufferIndexOf_set_PixelBuffers.
  unfold indexZ. destruct (Z.ltb_spec (BufferIndexOf t InMipIndex ArrayIndex) 0);
    [lia|].
  cbn [PixelBuffers set_PixelBuffers]. unfold index.
  rewrite list_lookup_insert_eq by exact Hlt. cbn [rbind].
  cbn [fst] in Hsize. rewrite Hsize, Z.eqb_refl. cbn [check rbind].
  rewrite Hlocked. reflexivity.
Qed.

Lemma Lock_twice_faults_witness :
  exists t' p s,
    Lock DeferringEnv RegisteredTexture 0 0 RLM_WriteOnly = Ok (t', p, s)
    /\ Lock DeferringEnv t' 0 0 RLM_ReadOnly = Err CheckFailed.
Proof.
  destruct (Lock DeferringEnv RegisteredTexture 0 0 RLM_WriteOnly)
    as [[[t' p] s]|f] eqn:HL; [|vm_compute in HL; discriminate].
  exists t', p, s. split; [reflexivity|].
  apply (Lock_twice_faults DeferringEnv RegisteredTexture t' 0 0
           RLM_WriteOnly RLM_ReadOnly p s); [reflexivity | exact HL].
Defined.

(** What a successful [Unlock] does to a texture that is not evicted and
    whose data needs no conversion: the slice had a staging buffer, which is
    released; unless the buffer was mapped read-only its bytes become the
    image of the slice. *)
Lemma Unlock_restored_inv (E : FEnv) (t t' : FOpenGLTexture)
    (MipIndex ArrayIndex : nat) :
  IsEvicted t = false ->
  NeedsFloatRGBAConversion E t = false ->
  Unlock E t MipIndex ArrayIndex = Ok t' ->
  let idx := Z.to_nat (BufferIndexOf t MipIndex ArrayIndex) in
  0 <= BufferIndexOf t MipIndex ArrayIndex
  /\ exists pb,
       PixelBuffers t !! idx = Some (Some pb)
       /\ PixelBuffers t' = <[idx := None]> (PixelBuffers t)
       /\ Core t' = Core t
       /\ (bIsLockReadOnly pb = true -> GLStorage t' = GLStorage t)
       /\ (bIsLockReadOnly pb = false -> forall images,
             GLStorage t = Some images ->
             GLStorage t' = Some (<[idx := PBOData pb]> images)).
Proof.
  intros Hev Hconv H idx. unfold Unlock in H. rewrite Hev, Hconv in H.
  apply rbind_Ok in H as (slot & Hslot & H). apply indexZ_Ok in Hslot as [H0 Hslot].
  fold idx in Hslot.
  apply rbind_Ok in H as (u & _ & H).
  apply rbind_Ok in H as (pb & Hpb & H). apply deref_Ok in Hpb. subst slot.
  apply rbind_Ok in H as (t1 & Ht1 & H). injection H as <-. fold idx.
  split; [exact H0|]. exists pb.
  cbn [PixelBuffer_Unlock bIsLockReadOnly PBOData] in Ht1.
  destruct (bIsLockReadOnly pb) eqn:Hro; cbn [negb] in Ht1.
  - injection Ht1 as <-. split_and!; [exact Hslot | reflexivity | reflexivity
                                      | reflexivity | discriminate].
  - pose proof (UploadImage_frame _ _ _ _ _ Ht1) as (Hc & Hpbs & _).
    split_and!.
    + exact Hslot.
    + cbn [PixelBuffers set_PixelBuffers]. rewrite Hpbs. reflexivity.
    + rewrite Core_set_PixelBuffers. exact Hc.
    + discriminate.
    + intros _ images Hsto. unfold UploadImage in Ht1. rewrite Hsto in Ht1.
      destruct (negb (SizeZ t =? 0)).
      * apply rbind_Ok in Ht1 as (u1 & _ & Ht1). injection Ht1 as <-. reflexivity.
      * destruct (bCompressed (PixelFormat t)); injection Ht1 as <-; reflexivity.
Qed.

(** What a successful [Unlock] does on the Android conversion path: the
    slice had a staging buffer, which stays in place, unlocked. *)
Lemma Unlock_conversion_inv (E : FEnv) (t t' : FOpenGLTexture)
    (MipIndex ArrayIndex : nat) :
  IsEvicted t = false ->
  NeedsFloatRGBAConversion E t = true ->
  Unlock E t MipIndex ArrayIndex = Ok t' ->
  let idx := Z.to_nat (BufferIndexOf t MipIndex ArrayIndex) in
  exists pb images rgbaData,
    PixelBuffers t !! idx = Some (Some pb)
    /\ GLStorage t = Some images
    /\ PixelBuffers t' = <[idx := Some (PixelBuffer_Unlock pb)]> (PixelBuffers t)
    /\ GLStorage t' = Some (<[idx := rgbaData]> images)
    /\ Core t' = Core t.
Proof.
  intros Hev Hconv H idx. unfold Unlock in H. rewrite Hev, Hconv in H.
  apply rbind_Ok in H as (slot & Hslot & H). apply indexZ_Ok in Hslot as [H0 Hslot].
  fold idx in Hslot.
  apply rbind_Ok in H as (u & _ & H).
  apply rbind_Ok in H as (pb & Hpb & H). apply deref_Ok in Hpb. subst slot.
  apply rbind_Ok in H as (u1 & _ & H).
  apply rbind_Ok in H as (rgbaData & _ & H).
  apply rbind_Ok in H as (images & Himg & H).
  destruct (GLStorage t) as [images'|] eqn:Hsto; [|discriminate].
  injection Himg as ->. injection H as <-. fold idx.
  exists pb, images, rgbaData. split_and!; reflexivity || exact Hslot.
Qed.

(** X9: [Unlock] needs the staging buffer that [Lock] created. On a texture
    that is not evicted, unlocking a slice that has no staging buffer stops
    at [check(IsValidRef(PixelBuffer))]. Where the data needs no conversion,
    a successful [Unlock] releases the staging buffer, so unlocking the same
    slice once more stops at that check too. On the Android conversion path
    ([PF_FloatRGBA] uploaded as unsigned bytes) a successful [Unlock] returns
    before the release: the staging buffer stays in place, unlocked. *)
Theorem Unlock_needs_staging_buffer (E : FEnv) (t : FOpenGLTexture)
    (MipIndex ArrayIndex : nat) :
  IsEvicted t = false ->
  let idx := Z.to_nat (BufferIndexOf t MipIndex ArrayIndex) in
  (0 <= BufferIndexOf t MipIndex ArrayIndex ->
   PixelBuffers t !! idx = Some None ->
   Unlock E t MipIndex ArrayIndex = Err CheckFailed)
  /\ (NeedsFloatRGBAConversion E t = false ->
      forall t', Unlock E t MipIndex ArrayIndex = Ok t' ->
        PixelBuffers t' !! idx = Some None
        /\ Unlock E t' MipIndex ArrayIndex = Err CheckFailed)
  /\ (NeedsFloatRGBAConversion E t = true ->
      forall t', Unlock E t MipIndex ArrayIndex = Ok t' ->
        exists pb, PixelBuffers t !! idx = Some (Some pb)
                   /\ PixelBuffers t' !! idx = Some (Some (PixelBuffer_Unlock pb))).
Proof.
  intros Hev idx.
  assert (Hnone : forall u : FOpenGLTexture,
            IsEvicted u = false -> 0 <= BufferIndexOf u MipIndex ArrayIndex ->
            PixelBuffers u !! Z.to_nat (BufferIndexOf u MipIndex ArrayIndex) = Some None ->
            Unlock E u MipIndex ArrayIndex = Err CheckFailed).
  { intros u Hu H0 Hslot. unfold Unlock. rewrite Hu. unfold indexZ.
    destruct (Z.ltb_spec (BufferIndexOf u MipIndex ArrayIndex) 0); [lia|].
    rewrite (index_Some _ _ _ Hslot). cbn [rbind].
    rewrite bool_decide_false by (apply is_Some_None). reflexivity. }
  split_and!.
  - intros H0 Hslot. apply (Hnone t Hev H0 Hslot).
  - intros Hconv t' HU.
    destruct (Unlock_restored_inv E t t' MipIndex ArrayIndex Hev Hconv HU)
      as (H0 & pb & Hslot & Hpbs & Hc & _).
    fold idx in Hslot, Hpbs.
    pose proof (lookup_lt_Some _ _ _ Hslot) as Hlt.
    destruct (IsEvicted_Core t t' Hc) as (_ & HB & Hev').
    assert (Hslot' : PixelBuffers t' !! idx = Some None)
      by (rewrite Hpbs; apply list_lookup_insert_eq, Hlt).
    split; [exact Hslot'|].
    apply Hnone; rewrite ?HB; [congruence | exact H0 | exact Hslot'].
  - intros Hconv t' HU.
    destruct (Unlock_conversion_inv E t t' MipIndex ArrayIndex Hev Hconv HU)
      as (pb & images & rgbaData & Hslot & _ & Hpbs & _).
    fold idx in Hslot, Hpbs. exists pb. split; [exact Hslot|].
    rewrite Hpbs. apply list_lookup_insert_eq. eapply lookup_lt_Some, Hslot.
Qed.

Lemma Unlock_needs_staging_buffer_witness :
  Unlock DeferringEnv RegisteredTexture 1 0 = Err CheckFailed.
Proof.
  destruct (Unlock_needs_staging_buffer DeferringEnv RegisteredTexture 1 0)
    as [H _].
  - reflexivity.
  - apply H; [vm_compute; discriminate | reflexivity].
Defined.

(** X10: a read-only lock never changes the image, where the data needs no
    conversion. On a texture that is not evicted and is not on the Android
    conversion path ([PF_FloatRGBA] uploaded as unsigned bytes), [Lock] in
    [RLM_ReadOnly] mode followed by [Unlock] of the same slice leaves the
    GPU storage and every other field as they were and releases the staging
    buffer of the slice. *)
Theorem ReadOnly_Lock_Unlock_keeps_image (E : FEnv) (t t1 t2 : FOpenGLTexture)
    (MipIndex ArrayIndex : nat) (p : LockedPtr) (DestStride : Z) :
  IsEvicted t = false ->
  NeedsFloatRGBAConversion E t = false ->
  Lock E t MipIndex ArrayIndex RLM_ReadOnly = Ok (t1, p, DestStride) ->
  Unlock E t1 MipIndex ArrayIndex = Ok t2 ->
  GLStorage t2 = GLStorage t
  /\ Core t2 = Core t
  /\ PixelBuffers t2
     = <[Z.to_nat (BufferIndexOf t MipIndex ArrayIndex) := None]> (PixelBuffers t).
Proof.
  intros Hev Hconv HL HU.
  destruct (Lock_restored_inv _ _ _ _ _ _ _ _ Hev HL)
    as (H0 & Hlt & _ & _ & _ & pb & -> & _ & Hro & _).
  cbn [LockMode_eqb] in Hro.
  apply Unlock_restored_inv in HU as (_ & pb' & Hslot & Hpbs & Hc & Hkeep & _);
    [|exact Hev|exact Hconv].
  rewrite BufferIndexOf_set_PixelBuffers in Hslot, Hpbs.
  cbn [PixelBuffers set_PixelBuffers] in Hslot, Hpbs.
  rewrite list_lookup_insert_eq in Hslot by exact Hlt. injection Hslot as <-.
  split_and!.
  - rewrite (Hkeep Hro). reflexivity.
  - rewrite Hc. apply Core_set_PixelBuffers.
  - rewrite Hpbs. apply list_insert_insert_eq.
Qed.

Lemma ReadOnly_Lock_Unlock_keeps_image_witness :
  exists t1 p s t2,
    Lock DeferringEnv RegisteredTexture 1 0 RLM_ReadOnly = Ok (t1, p, s)
    /\ Unlock DeferringEnv t1 1 0 = Ok t2
    /\ GLStorage t2 = GLStorage RegisteredTexture.
Proof.
  destruct (Lock DeferringEnv RegisteredTexture 1 0 RLM_ReadOnly)
    as [[[t1 p] s]|f] eqn:HL; [|vm_compute in HL; discriminate].
  destruct (Unlock DeferringEnv t1 1 0) as [t2|f] eqn:HU.
  - exists t1, p, s, t2. split_and!; [reflexivity | exact HU |].
    apply (ReadOnly_Lock_Unlock_keeps_image DeferringEnv RegisteredTexture t1 t2
             1 0 p s); [reflexivity | reflexivity | exact HL | exact HU].
  - vm_compute in HL. injection HL as <- _ _. vm_compute in HU. discriminate.
Defined.

(** A write-only lock of a slice without a staging buffer, on a texture that
    is neither a cube map nor an array. *)
Lemma Lock_WriteOnly_fresh (E : FEnv) (t : FOpenGLTexture) (i : nat) :
  IsEvicted t = false ->
  bCubemap t = false -> EffectiveSizeZ t = 1 -> Z.of_nat i < 2 ^ 31 ->
  PixelBuffers t !! i = Some None ->
  Lock E t i 0 RLM_WriteOnly
  = Ok (set_PixelBuffers t
          (<[i := Some (PixelBuffer_Lock (NewPixelBuffer (fst (GetLockSize t i)))
                          false true)]> (PixelBuffers t)),
        PixelBufferPtr i, snd (GetLockSize t i)).
Proof.
  intros Hev Hc Hz Hi Hpb.
  pose proof (lookup_lt_Some _ _ _ Hpb) as Hlt.
  unfold Lock. rewrite (BufferIndexOf_2D t i Hc Hz Hi).
  destruct (GetLockSize t i) as [MipBytes DestStride] eqn:HG.
  cbn [fst snd]. rewrite Hev. cbn [negb orb check rbind].
  unfold indexZ. destruct (Z.ltb_spec (Z.of_nat i) 0) as [Hneg|_]; [lia|].
  rewrite Nat2Z.id. rewrite (index_Some _ _ _ Hpb). cbn [rbind].
  cbn [NewPixelBuffer PBOSize bIsLocked]. rewrite Z.eqb_refl.
  cbn [check rbind negb LockMode_eqb andb].
  cbn [PixelBuffers set_PixelBuffers].
  unfold index. rewrite list_lookup_insert_eq by exact Hlt. cbn [rbind deref].
  rewrite list_insert_insert_eq. reflexivity.
Qed.

(** A read-only lock of a slice without a staging buffer: the image is
    resolved into a fresh staging buffer, which the pointer addresses. *)
Lemma Lock_ReadOnly_fresh (E : FEnv) (t : FOpenGLTexture) (images : list Buffer)
    (i : nat) (mip : Buffer) :
  IsEvicted t = false ->
  bCubemap t = false -> EffectiveSizeZ t = 1 -> SizeZ t = 0 ->
  Z.of_nat i < 2 ^ 31 ->
  PixelBuffers t !! i = Some None ->
  GLStorage t = Some images -> images !! i = Some mip ->
  Z.of_nat (length mip) = fst (GetLockSize t i) ->
  exists t4,
    Lock E t i 0 RLM_ReadOnly = Ok (t4, PixelBufferPtr i, snd (GetLockSize t i))
    /\ ReadLocked t4 (PixelBufferPtr i) = Some mip.
Proof.
  intros Hev Hc Hz Hsz Hi Hpb Hsto Hmip Hsize.
  pose proof (lookup_lt_Some _ _ _ Hpb) as Hlt.
  assert (HB : forall pbs, BufferIndexOf (set_PixelBuffers t pbs) i 0 = Z.of_nat i).
  { intros pbs. apply BufferIndexOf_2D; [exact Hc | exact Hz | lia]. }
  unfold Lock.
  destruct (GetLockSize t i) as [MipBytes DestStride] eqn:HG.
  cbn [fst snd] in *.
  rewrite Hev. cbn [negb orb check rbind].
  rewrite (BufferIndexOf_2D t i Hc Hz) by lia.
  unfold indexZ. destruct (Z.ltb_spec (Z.of_nat i) 0) as [Hneg|_]; [lia|].
  rewrite Nat2Z.id, (index_Some _ _ _ Hpb). cbn [rbind].
  cbn [NewPixelBuffer PBOSize bIsLocked]. rewrite Z.eqb_refl.
  cbn [check rbind negb LockMode_eqb].
  rewrite bool_decide_false by (apply is_Some_None). cbn [andb negb].
  unfold Resolve. rewrite HB. unfold indexZ.
  destruct (Z.ltb_spec (Z.of_nat i) 0) as [Hneg|_]; [lia|].
  rewrite Nat2Z.id. cbn [PixelBuffers set_PixelBuffers].
  unfold index. rewrite list_lookup_insert_eq by exact Hlt. cbn [rbind].
  rewrite GetLockSize_set_PixelBuffers.
  rewrite HG. cbn [fst PBOSize bIsLocked]. rewrite Z.eqb_refl.
  cbn [check rbind negb].
  change (SizeZ (set_PixelBuffers t ?x)) with (SizeZ t). rewrite Hsz.
  cbn [Z.eqb check rbind].
  cbn [GLStorage set_PixelBuffers]. rewrite Hsto.
  cbn [NewPixelBuffer PBOSize bIsLocked bIsLockReadOnly PBOData negb check rbind].
  cbn beta iota. rewrite Hmip. cbn [default].
  rewrite list_insert_insert_eq.
  cbn [PixelBuffers set_PixelBuffers]. unfold index.
  rewrite list_lookup_insert_eq by exact Hlt. cbn [rbind deref].
  rewrite list_insert_insert_eq.
  eexists. split; [reflexivity|].
  cbn [ReadLocked PixelBuffers set_PixelBuffers].
  rewrite list_lookup_insert_eq by exact Hlt.
  cbn [mjoin option_join mbind option_bind PixelBuffer_Lock PBOData].
  unfold id. rewrite OverwritePrefix_whole by lia. reflexivity.
Qed.

(** X11: what is written through a write-only lock is what a later read-only
    lock reads, where the data needs no conversion. Take a texture that is
    not evicted and not on the Android conversion path ([PF_FloatRGBA]
    uploaded as unsigned bytes), that is 2D (no cube map, no depth, one
    slice), whose GPU storage has an image for mip [i] (an index below
    [2^31]) and that has no staging buffer for the mip, and [data] of
    exactly the mip's lock size. Then [Lock] for writing, a [Memcpy] of
    [data] through the returned pointer and [Unlock] succeed, make [data]
    the image of mip [i], leave the other images and fields alone and
    release the staging buffer; a read-only [Lock] of the mip then returns
    a pointer to the same bytes. *)
Theorem Lock_write_Unlock_read_back (E : FEnv) (t : FOpenGLTexture)
    (images : list Buffer) (i : nat) (data : Buffer) :
  IsEvicted t = false ->
  NeedsFloatRGBAConversion E t = false ->
  bCubemap t = false -> EffectiveSizeZ t = 1 -> SizeZ t = 0 ->
  Z.of_nat i < 2 ^ 31 ->
  PixelBuffers t !! i = Some None ->
  GLStorage t = Some images -> (i < length images)%nat ->
  Z.of_nat (length data) = fst (GetLockSize t i) ->
  exists t1 p s t2 t3 t4 p' s',
    Lock E t i 0 RLM_WriteOnly = Ok (t1, p, s)
    /\ WriteLocked t1 p data (length data) = Ok t2
    /\ Unlock E t2 i 0 = Ok t3
    /\ t3 = set_GLStorage t (Some (<[i := data]> images))
    /\ Lock E t3 i 0 RLM_ReadOnly = Ok (t4, p', s')
    /\ ReadLocked t4 p' = Some data.
Proof.
  intros Hev Hconv Hc Hz Hsz Hi Hpb Hsto Himg Hsize.
  pose proof (lookup_lt_Some _ _ _ Hpb) as Hlt.
  set (t3 := set_GLStorage t (Some (<[i := data]> images))).
  destruct (Lock_ReadOnly_fresh E t3 (<[i := data]> images) i data)
    as (t4 & HL4 & HR4);
    [exact Hev | exact Hc | exact Hz | exact Hsz | exact Hi | exact Hpb
    | reflexivity | apply list_lookup_insert_eq, Himg | exact Hsize |].
  eexists _, _, _, _, t3, t4, _, _. split_and!.
  - apply (Lock_WriteOnly_fresh E t i Hev Hc Hz Hi Hpb).
  - unfold WriteLocked. cbn [PixelBuffers set_PixelBuffers].
    unfold index. rewrite list_lookup_insert_eq by exact Hlt. cbn [rbind deref].
    cbn [NewPixelBuffer PixelBuffer_Lock PBOData PBOSize bIsLocked bIsLockReadOnly
         negb LockMode_eqb].
    rewrite Memcpy_whole by lia. cbn [rbind].
    rewrite list_insert_insert_eq. reflexivity.
  - unfold Unlock.
    match goal with
    | |- context [IsEvicted ?x] => change (IsEvicted x) with (IsEvicted t)
    end.
    rewrite Hev.
    match goal with
    | |- context [BufferIndexOf ?x i 0] =>
        change (BufferIndexOf x i 0) with (BufferIndexOf t i 0)
    end.
    rewrite (BufferIndexOf_2D t i Hc Hz Hi).
    unfold indexZ. destruct (Z.ltb_spec (Z.of_nat i) 0) as [Hneg|_]; [lia|].
    rewrite Nat2Z.id. cbn [PixelBuffers set_PixelBuffers].
    unfold index. rewrite list_lookup_insert_eq by exact Hlt. cbn [rbind deref].
    rewrite bool_decide_true by eauto. cbn [check rbind deref].
    match goal with
    | |- context [NeedsFloatRGBAConversion E ?x] =>
        change (NeedsFloatRGBAConversion E x) with (NeedsFloatRGBAConversion E t)
    end.
    rewrite Hconv.
    cbn [PixelBuffer_Unlock bIsLockReadOnly PBOData negb].
    unfold UploadImage. cbn [GLStorage SizeZ PixelFormat set_PixelBuffers].
    rewrite Hsto, Hsz. cbn [Z.eqb negb].
    destruct (bCompressed (PixelFormat t)); cbn [rbind];
      cbn [PixelBuffers set_GLStorage set_PixelBuffers];
      rewrite list_insert_insert_eq, (list_insert_id _ _ _ Hpb);
      subst t3; clear; destruct t; reflexivity.
  - reflexivity.
  - exact HL4.
  - exact HR4.
Qed.

Lemma Lock_write_Unlock_read_back_witness :
  exists t1 p s t2 t3 t4 p' s',
    Lock DeferringEnv RegisteredTexture 1 0 RLM_WriteOnly = Ok (t1, p, s)
    /\ WriteLocked t1 p [Init x09] 1 = Ok t2
    /\ Unlock DeferringEnv t2 1 0 = Ok t3
    /\ Lock DeferringEnv t3 1 0 RLM_ReadOnly = Ok (t4, p', s')
    /\ ReadLocked t4 p' = Some [Init x09].
Proof.
  destruct (Lock_write_Unlock_read_back DeferringEnv RegisteredTexture
              [[Init x01; Init x02; Init x03; Init x04]; [Init x05]] 1 [Init x09])
    as (t1 & p & s & t2 & t3 & t4 & p' & s' & H1 & H2 & H3 & _ & H4 & H5);
    [reflexivity | reflexivity | reflexivity | reflexivity | reflexivity
    | vm_compute; reflexivity
    | reflexivity | reflexivity | simpl; lia | reflexivity |].
  exists t1, p, s, t2, t3, t4, p', s'. split_and!; assumption.
Defined.

(* ===================================================================== *)
(** ** The index of a staging buffer                                       *)
(* ===================================================================== *)

(** X12: [Lock], [Unlock] and [Resolve] address the staging buffer of a
    slice at [MipIndex * (bCubemap ? 6 : 1) * GetEffectiveSizeZ() + ArrayIndex].
    For array indices below the number of slices of a mip, and as long as
    the product fits an [int32], the index is not negative, lies below
    [NumMips * slices] for a mip of the texture, and two different
    (mip, slice) pairs never share a staging buffer. *)
Theorem BufferIndexOf_injective (t : FOpenGLTexture) (m1 a1 m2 a2 : nat) :
  let slices := (if bCubemap t then 6 else 1) * EffectiveSizeZ t in
  0 < EffectiveSizeZ t ->
  Z.of_nat (NumMips t) * slices < 2 ^ 31 ->
  (m1 < NumMips t)%nat -> (m2 < NumMips t)%nat ->
  Z.of_nat a1 < slices -> Z.of_nat a2 < slices ->
  0 <= BufferIndexOf t m1 a1 < Z.of_nat (NumMips t) * slices
  /\ (BufferIndexOf t m1 a1 = BufferIndexOf t m2 a2 -> m1 = m2 /\ a1 = a2).
Proof.
  intros slices HZ Hfit Hm1 Hm2 Ha1 Ha2.
  assert (Hs : 0 < slices) by (subst slices; destruct (bCubemap t); lia).
  assert (Hidx : forall m a : nat, (m < NumMips t)%nat -> Z.of_nat a < slices ->
            BufferIndexOf t m a = Z.of_nat m * slices + Z.of_nat a
            /\ 0 <= Z.of_nat m * slices + Z.of_nat a < Z.of_nat (NumMips t) * slices).
  { intros m a Hm Ha.
    assert (Hb : 0 <= Z.of_nat m * slices + Z.of_nat a
                 < Z.of_nat (NumMips t) * slices) by nia.
    split; [|exact Hb].
    unfold BufferIndexOf. rewrite wrap_int32_uint32.
    rewrite <- Z.mul_assoc. fold slices. apply wrap_int32_small. lia. }
  destruct (Hidx m1 a1 Hm1 Ha1) as [-> Hb1].
  destruct (Hidx m2 a2 Hm2 Ha2) as [-> Hb2].
  split; [exact Hb1|]. intros Heq.
  assert (Z.of_nat m1 = Z.of_nat m2) by nia. split; [lia | nia].
Qed.

Lemma BufferIndexOf_injective_witness :
  0 <= BufferIndexOf BlockTexture 2 0 < 5 * 1.
Proof.
  destruct (BufferIndexOf_injective BlockTexture 2 0 3 0) as [H _];
    try (simpl; lia).
  exact H.
Defined.

(* ===================================================================== *)
(** ** The shadow store: CloneMipData                                      *)
(* ===================================================================== *)

Lemma CloneMipData_loop_spec (src : list Buffer) (SrcOffset DstOffset : Z) (n : nat) :
  forall (k : Z) (dst : list Buffer),
  0 <= k -> 0 <= SrcOffset -> 0 <= DstOffset ->
  k + Z.of_nat n + SrcOffset <= Z.of_nat (length src) ->
  k + Z.of_nat n + DstOffset <= Z.of_nat (length dst) ->
  (forall j : nat, k + DstOffset <= Z.of_nat j < k + Z.of_nat n + DstOffset ->
     dst !! j = Some []) ->
  exists dst',
    CloneMipData_loop n k src dst SrcOffset DstOffset = Ok dst'
    /\ length dst' = length dst
    /\ forall j : nat,
         (k + DstOffset <= Z.of_nat j < k + Z.of_nat n + DstOffset ->
          dst' !! j = src !! Z.to_nat (Z.of_nat j - DstOffset + SrcOffset))
         /\ (~ (k + DstOffset <= Z.of_nat j < k + Z.of_nat n + DstOffset) ->
             dst' !! j = dst !! j).
Proof.
  induction n as [|n IH]; intros k dst Hk HS HD Hsrc Hdst Hempty.
  - exists dst. cbn [CloneMipData_loop]. split_and!; [reflexivity | reflexivity |].
    intros j. split; [lia | reflexivity].
  - cbn [CloneMipData_loop]. unfold indexZ.
    destruct (Z.ltb_spec (k + DstOffset) 0) as [Hneg|_]; [lia|].
    rewrite (index_Some _ _ [])
      by (apply Hempty; rewrite Z2Nat.id by lia; lia).
    cbn [rbind length Nat.eqb negb].
    destruct (Z.ltb_spec (k + SrcOffset) 0) as [Hneg|_]; [lia|].
    destruct (lookup_lt_is_Some_2 src (Z.to_nat (k + SrcOffset))) as [from Hfrom];
      [lia|].
    rewrite (index_Some _ _ _ Hfrom). cbn [rbind].
    destruct (IH (k + 1) (<[Z.to_nat (k + DstOffset) := from]> dst))
      as (dst' & Hloop & Hlen & Hslots).
    + lia.
    + exact HS.
    + exact HD.
    + lia.
    + rewrite length_insert. lia.
    + intros j Hj. rewrite list_lookup_insert_ne by lia. apply Hempty. lia.
    + exists dst'. rewrite length_insert in Hlen.
      split_and!; [exact Hloop | exact Hlen |].
      intros j. destruct (Hslots j) as [Hin Hout]. split.
      * intros Hj. destruct (Z.eq_dec (Z.of_nat j) (k + DstOffset)) as [He|Hne].
        -- rewrite Hout by lia.
           replace j with (Z.to_nat (k + DstOffset)) at 1 by lia.
           rewrite list_lookup_insert_eq by lia.
           rewrite <- Hfrom. f_equal. lia.
        -- apply Hin. lia.
      * intros Hj. rewrite Hout by lia.
        apply list_lookup_insert_ne. lia.
Qed.

(** X13: [CloneMipData] copies [min(InNumMips, Src.Num() - SrcOffset)]
    slots. Let [InNumMips] be at least 0 and below [2^31] (the function
    reads the count as an [int32]), the two offsets not negative, and the
    destination range [DstOffset .. DstOffset + MaxMip) within the
    destination store. If every slot of the destination range is empty the
    call succeeds; afterwards slot [DstOffset + i] holds the data of the
    source's slot [SrcOffset + i] for every [i] of the range, every other
    slot and the other fields are as before. If the range is not empty and
    its first destination slot already holds data the call stops at
    [checkNoEntry]. *)
Theorem CloneMipData_copies_range (P Src : FTextureEvictionParams)
    (InNumMips SrcOffset DstOffset : Z) :
  let MaxMip := Z.min InNumMips (Z.of_nat (length (MipImageData Src)) - SrcOffset) in
  0 <= InNumMips < 2 ^ 31 -> 0 <= SrcOffset -> 0 <= DstOffset ->
  DstOffset + MaxMip <= Z.of_nat (length (MipImageData P)) ->
  ((forall j : nat, DstOffset <= Z.of_nat j < DstOffset + MaxMip ->
      MipImageData P !! j = Some []) ->
   exists P',
     CloneMipData P Src InNumMips SrcOffset DstOffset = Ok P'
     /\ bHasRestored P' = bHasRestored P
     /\ LRUNode P' = LRUNode P
     /\ FrameLastRendered P' = FrameLastRendered P
     /\ length (MipImageData P') = length (MipImageData P)
     /\ forall j : nat,
          (DstOffset <= Z.of_nat j < DstOffset + MaxMip ->
           MipImageData P' !! j
           = MipImageData Src !! Z.to_nat (Z.of_nat j - DstOffset + SrcOffset))
          /\ (~ (DstOffset <= Z.of_nat j < DstOffset + MaxMip) ->
              MipImageData P' !! j = MipImageData P !! j))
  /\ (forall slot, 0 < MaxMip ->
        MipImageData P !! Z.to_nat DstOffset = Some slot -> slot <> [] ->
        CloneMipData P Src InNumMips SrcOffset DstOffset = Err NoEntry).
Proof.
  intros MaxMip HN HS HD Hdst. split.
  - intros Hempty. unfold CloneMipData. rewrite wrap_int32_small by lia.
    fold MaxMip.
    assert (Hspec : exists dst',
              CloneMipData_loop (Z.to_nat MaxMip) 0 (MipImageData Src)
                (MipImageData P) SrcOffset DstOffset = Ok dst'
              /\ length dst' = length (MipImageData P)
              /\ forall j : nat,
                   (0 + DstOffset <= Z.of_nat j
                      < 0 + Z.of_nat (Z.to_nat MaxMip) + DstOffset ->
                    dst' !! j = MipImageData Src
                                  !! Z.to_nat (Z.of_nat j - DstOffset + SrcOffset))
                   /\ (~ (0 + DstOffset <= Z.of_nat j
                            < 0 + Z.of_nat (Z.to_nat MaxMip) + DstOffset) ->
                       dst' !! j = MipImageData P !! j)).
    { destruct (Z.le_gt_cases MaxMip 0) as [Hle|Hgt].
      - replace (Z.to_nat MaxMip) with 0%nat by lia.
        exists (MipImageData P). cbn [CloneMipData_loop].
        split_and!; [reflexivity | reflexivity |].
        intros j. split; [lia | reflexivity].
      - apply CloneMipData_loop_spec; try lia.
        intros j Hj. apply Hempty. lia. }
    destruct Hspec as (dst' & Hloop & Hlen & Hslots).
    rewrite Hloop. cbn [rbind]. eexists. split; [reflexivity|].
    cbn [MipImageData set_MipImageData bHasRestored LRUNode FrameLastRendered].
    split_and!; try reflexivity; [exact Hlen|].
    intros j. destruct (Hslots j) as [Hin Hout]. split.
    + intros Hj. apply Hin. lia.
    + intros Hj. apply Hout. lia.
  - intros slot Hpos Hslot Hne. unfold CloneMipData.
    rewrite wrap_int32_small by lia. fold MaxMip.
    destruct (Z.to_nat MaxMip) as [|n] eqn:Hn; [lia|].
    cbn [CloneMipData_loop]. rewrite Z.add_0_l. unfold indexZ.
    destruct (Z.ltb_spec DstOffset 0) as [Hneg|_]; [lia|].
    rewrite (index_Some _ _ _ Hslot). cbn [rbind].
    destruct slot as [|b slot]; [contradiction|]. reflexivity.
Qed.

Lemma CloneMipData_copies_range_witness :
  exists P', CloneMipData (NewEvictionParams 3) FourMipParams 2 2 1 = Ok P'
    /\ MipImageData P' = [[]; [Init x03]; [Init x04]].
Proof.
  destruct (CloneMipData_copies_range (NewEvictionParams 3) FourMipParams 2 2 1)
    as [Hcopy _]; [lia | lia | lia | simpl; lia |].
  destruct Hcopy as (P' & HP' & _).
  - intros j Hj. simpl in Hj.
    destruct j as [|[|[|j]]]; try lia; reflexivity.
  - exists P'. split; [exact HP'|].
    vm_compute in HP'. injection HP' as <-. reflexivity.
Defined.

(* ===================================================================== *)
(** ** Evicting and restoring, once                                        *)
(* ===================================================================== *)

(** X14: [TryEvictGLResource] destroys GPU storage only when nothing is
    lost. Either it returns the texture as it was, or the texture was
    restored, may be created as evicted, is not aliased, and its shadow store
    has exactly [NumMips] slots, all holding data; then the result is the
    same texture without GPU storage, with the restored flag cleared and
    under a newly generated name, the shadow store untouched, and the
    texture counts as evicted. A second attempt on the result changes
    nothing. *)
Theorem TryEvictGLResource_evicts_only_backed (E : FEnv) (t t' : FOpenGLTexture) :
  TryEvictGLResource E t = Ok t' ->
  (t' = t
   \/ exists P,
        EvictionParamsPtr t = Some P
        /\ bHasRestored P = true
        /\ CanCreateAsEvicted E t = true
        /\ bIsAliased t = false
        /\ length (MipImageData P) = NumMips t
        /\ Forall (fun mip => mip <> []) (MipImageData P)
        /\ t' = set_Resource
                  (set_EvictionParamsPtr (set_GLStorage t None)
                     (Some (set_bHasRestored P false)))
                  (GenTextures E)
        /\ IsEvicted t' = true)
  /\ TryEvictGLResource E t' = Ok t'.
Proof.
  intros H. pose proof H as H0. unfold TryEvictGLResource in H.
  destruct (CanCreateAsEvicted E t) eqn:Hcreate;
    [|injection H as <-; split; [left; reflexivity | exact H0]].
  apply rbind_Ok in H as (P & HP & H). apply deref_Ok in HP.
  destruct (bHasRestored P) eqn:Hres;
    [|injection H as <-; split; [left; reflexivity | exact H0]].
  apply rbind_Ok in H as (bCan & Hcan & H).
  destruct bCan; [|injection H as <-; split; [left; reflexivity | exact H0]].
  apply CanBeEvicted_true_inv in Hcan as (_ & (P0 & HP0 & Hlen & Hall) & Hal).
  rewrite HP in HP0. injection HP0 as <-.
  unfold InitializeGLTexture in H. cbn in H. injection H as <-.
  split.
  - right. exists P. split_and!; try assumption; reflexivity.
  - unfold TryEvictGLResource.
    match goal with
    | |- context [CanCreateAsEvicted E ?x] =>
        change (CanCreateAsEvicted E x) with (CanCreateAsEvicted E t)
    end.
    rewrite Hcreate. reflexivity.
Qed.

Lemma TryEvictGLResource_evicts_only_backed_witness :
  exists t', TryEvictGLResource DeferringEnv RegisteredTexture = Ok t'
    /\ IsEvicted t' = true /\ GLStorage t' = None.
Proof.
  destruct (TryEvictGLResource DeferringEnv RegisteredTexture) as [t'|f] eqn:H;
    [|vm_compute in H; discriminate].
  exists t'.
  destruct (TryEvictGLResource_evicts_only_backed DeferringEnv RegisteredTexture t' H)
    as [[->|(P & _ & _ & _ & _ & _ & _ & -> & Hev)] _].
  - vm_compute in H. discriminate.
  - split_and!; [reflexivity | exact Hev | reflexivity].
Defined.

(** X15: a texture is restored once per eviction. [RestoreEvictedGLResource]
    on a texture whose restored flag is set stops at
    [check(!EvictionParamsPtr->bHasRestored)]. A successful restore leaves
    the texture with GPU storage and not evicted, leaves every other texture
    and the frame counter as they were, and changes the registry at most by
    appending the texture at the most-recent end; restoring the same texture
    again stops at the same check. *)
Theorem RestoreEvictedGLResource_once (E : FEnv) (w : FWorld) (k : positive)
    (b : bool) :
  (forall t P, Textures w !! k = Some t -> EvictionParamsPtr t = Some P ->
     bHasRestored P = true ->
     RestoreEvictedGLResource E w k b = Err CheckFailed)
  /\ (forall w', RestoreEvictedGLResource E w k b = Ok w' ->
        (exists t', Textures w' !! k = Some t'
                    /\ IsEvicted t' = false /\ is_Some (GLStorage t'))
        /\ (forall j, j <> k -> Textures w' !! j = Textures w !! j)
        /\ GFrameNumberRenderThread w' = GFrameNumberRenderThread w
        /\ (TextureLRU w' = TextureLRU w \/ TextureLRU w' = TextureLRU w ++ [k])
        /\ forall b', RestoreEvictedGLResource E w' k b' = Err CheckFailed).
Proof.
  assert (Hfault : forall (w0 : FWorld) (b0 : bool) t P,
            Textures w0 !! k = Some t -> EvictionParamsPtr t = Some P ->
            bHasRestored P = true ->
            RestoreEvictedGLResource E w0 k b0 = Err CheckFailed).
  { intros w0 b0 t P Ht HP Hres. unfold RestoreEvictedGLResource.
    rewrite Ht. cbn [deref rbind]. rewrite HP. cbn [deref rbind].
    rewrite Hres. reflexivity. }
  split; [apply Hfault|].
  intros w' HR.
  apply RestoreEvictedGLResource_inv in HR as
    (t & P & t3 & Px & P5 & bCan & Ht & HP & Hres & Hlen & Hloop & Hcore & Hsto
     & Hcan & Hframe & Htex & Hres5 & _ & _ & Hcases).
  assert (Hk : Textures w' !! k = Some (set_EvictionParamsPtr t3 (Some P5)))
    by (rewrite Htex; apply lookup_insert_eq).
  split_and!.
  - eexists. split; [exact Hk|]. split.
    + unfold IsEvicted. cbn [EvictionParamsPtr set_EvictionParamsPtr].
      rewrite Hres5. reflexivity.
    + exact Hsto.
  - intros j Hj. rewrite Htex. apply lookup_insert_ne. congruence.
  - exact Hframe.
  - destruct Hcases as [(_ & _ & _ & _ & Hlru & _)
                       |[(_ & _ & _ & Hlru & _)|(_ & Hlru & _)]]; auto.
  - intros b'. apply (Hfault w' b' _ P5 Hk); [reflexivity | exact Hres5].
Qed.

Lemma RestoreEvictedGLResource_once_witness :
  exists w', RestoreEvictedGLResource KeepOneEnv CreatedWorld 1 true = Ok w'
    /\ RestoreEvictedGLResource KeepOneEnv w' 1 true = Err CheckFailed.
Proof.
  destruct (RestoreEvictedGLResource KeepOneEnv CreatedWorld 1 true)
    as [w'|f] eqn:HR; [|vm_compute in HR; discriminate].
  exists w'. split; [reflexivity|].
  destruct (RestoreEvictedGLResource_once KeepOneEnv CreatedWorld 1 true)
    as [_ Hok].
  destruct (Hok w' HR) as (_ & _ & _ & _ & Hagain). apply Hagain.
Defined.

(* ===================================================================== *)
(** ** What every operation keeps of the registry                          *)
(* ===================================================================== *)

Lemma RegistrySound_update (E : FEnv) (w : FWorld) (k : positive)
    (t t' : FOpenGLTexture) :
  Textures w !! k = Some t ->
  RegView t' = RegView t -> bIsAliased t' = bIsAliased t ->
  RegistrySound E w ->
  RegistrySound E (set_Textures w (<[k := t']> (Textures w))).
Proof.
  intros Ht Hv Hal (Hnd & Hcap & Hmem & Hna).
  unfold RegistrySound. cbn [Textures TextureLRU set_Textures].
  split_and!; [exact Hnd | exact Hcap | |].
  - intros j Hj. destruct (Hmem j Hj) as (tj & Pj & Htj & HPj & Hn & Hr).
    destruct (decide (j = k)) as [->|Hne].
    + rewrite Ht in Htj. injection Htj as <-.
      rewrite (RegView_Some _ _ HPj) in Hv. unfold RegView in Hv.
      destruct (EvictionParamsPtr t') as [P'|] eqn:HP'; [|discriminate].
      cbn in Hv. injection Hv as Hb Hn'.
      exists t', P'. rewrite lookup_insert_eq. split_and!; congruence.
    + exists tj, Pj. rewrite lookup_insert_ne by congruence. auto.
  - intros j tj Hj HPj. destruct (decide (j = k)) as [->|Hne].
    + rewrite lookup_insert_eq in Hj. injection Hj as <-.
      rewrite Hal. apply (Hna k t Ht). apply (RegView_is_Some t t' Hv HPj).
    + rewrite lookup_insert_ne in Hj by congruence. apply (Hna j tj Hj HPj).
Qed.

Lemma InitializeGLTexture_bIsAliased (E : FEnv) (t t' : FOpenGLTexture)
    (ArraySize : Z) (BulkData : option Buffer) :
  InitializeGLTexture E t ArraySize BulkData = Ok t' ->
  bIsAliased t' = bIsAliased t.
Proof. intros H. apply InitializeGLTexture_frame in H as (_ & H & _). exact H. Qed.

Lemma RHICreateTexture2D_bIsAliased (E : FEnv) (InSizeX InSizeY : Z)
    (Format : FPixelFormatInfo) (InNumMips : nat) (InFlags : Z)
    (BulkData : option Buffer) (t : FOpenGLTexture) :
  RHICreateTexture2D E InSizeX InSizeY Format InNumMips InFlags BulkData = Ok t ->
  bIsAliased t = false.
Proof.
  unfold RHICreateTexture2D. intros H.
  apply rbind_Ok in H as (u & _ & H).
  apply InitializeGLTexture_bIsAliased in H. rewrite H.
  destruct (CanCreateAsEvicted E _); reflexivity.
Qed.

Lemma Lock_bIsAliased (E : FEnv) (t t' : FOpenGLTexture) (InMipIndex ArrayIndex : nat)
    (LockMode : EResourceLockMode) (p : LockedPtr) (DestStride : Z) :
  Lock E t InMipIndex ArrayIndex LockMode = Ok (t', p, DestStride) ->
  bIsAliased t' = bIsAliased t.
Proof.
  intros H. destruct (IsEvicted t) eqn:Hev.
  - destruct (IsEvicted_params t Hev) as (P & HP & _).
    rewrite (Lock_evicted E t P _ _ _ Hev HP) in H.
    apply rbind_Ok in H as (u & _ & H).
    apply rbind_Ok in H as (P' & _ & H).
    apply rbind_Ok in H as (x & _ & H). injection H as <- _ _. reflexivity.
  - apply Lock_restored_frame in H as (Hc & _); [|exact Hev].
    apply (Core_bIsAliased _ _ Hc).
Qed.

Lemma WriteLocked_bIsAliased (t t' : FOpenGLTexture) (p : LockedPtr) (Src : Buffer)
    (Count : nat) :
  WriteLocked t p Src Count = Ok t' -> bIsAliased t' = bIsAliased t.
Proof.
  destruct p as [i|i]; intros H.
  - unfold WriteLocked in H.
    apply rbind_Ok in H as (P & _ & H).
    apply rbind_Ok in H as (d & _ & H).
    apply rbind_Ok in H as (wr & _ & H). injection H as <-. reflexivity.
  - apply WriteLocked_pbo_frame in H as [Hc _]. apply (Core_bIsAliased _ _ Hc).
Qed.

Lemma Unlock_bIsAliased (E : FEnv) (t t' : FOpenGLTexture) (MipIndex ArrayIndex : nat) :
  Unlock E t MipIndex ArrayIndex = Ok t' -> bIsAliased t' = bIsAliased t.
Proof.
  intros H. destruct (IsEvicted t) eqn:Hev.
  - unfold Unlock in H. rewrite Hev in H.
    apply rbind_Ok in H as (u & _ & H). injection H as <-. reflexivity.
  - apply Unlock_restored_frame in H as [Hc _]; [|exact Hev].
    apply (Core_bIsAliased _ _ Hc).
Qed.

Lemma TryEvictGLResource_bIsAliased (E : FEnv) (t t' : FOpenGLTexture) :
  TryEvictGLResource E t = Ok t' -> bIsAliased t' = bIsAliased t.
Proof.
  unfold TryEvictGLResource. intros H.
  destruct (CanCreateAsEvicted E t); [|injection H as <-; reflexivity].
  apply rbind_Ok in H as (P & HP & H).
  destruct (bHasRestored P); [|injection H as <-; reflexivity].
  apply rbind_Ok in H as (bCan & _ & H).
  destruct bCan; [|injection H as <-; reflexivity].
  unfold InitializeGLTexture in H. simpl in H. injection H as <-. reflexivity.
Qed.

Lemma filter_ne_length (k : positive) (l : list positive) :
  k ∈ l -> (length (filter (λ j, j ≠ k) l) < length l)%nat.
Proof.
  induction l as [|x l IH]; intros Hin.
  - apply elem_of_nil in Hin. contradiction.
  - pose proof (length_filter (λ j, j ≠ k) l) as Hle.
    destruct (decide (x = k)) as [->|Hne].
    + rewrite filter_cons_False by (intros H; apply H; reflexivity).
      simpl. lia.
    + rewrite filter_cons_True by exact Hne.
      apply elem_of_cons in Hin as [->|Hin]; [contradiction|].
      specialize (IH Hin). simpl. lia.
Qed.

Lemma filter_ne_notin (k : positive) (l : list positive) :
  k ∉ l -> filter (λ j, j ≠ k) l = l.
Proof.
  induction l as [|x l IH]; intros Hnin; [reflexivity|].
  apply not_elem_of_cons in Hnin as [Hne Hnin].
  rewrite filter_cons_True by congruence. rewrite IH by exact Hnin. reflexivity.
Qed.

(** The loop of [TickEviction] keeps the registry sound. *)
Lemma TickEviction_loop_sound (E : FEnv) (frame : Z) (lru : list positive) :
  forall (textures : gmap positive FOpenGLTexture) (EvictCount : Z)
         (rest : list positive) (textures' : gmap positive FOpenGLTexture),
  TickEviction_loop E frame lru textures EvictCount = Ok (rest, textures') ->
  NoDup lru ->
  (forall k, k ∈ lru ->
     exists t P, textures !! k = Some t /\ EvictionParamsPtr t = Some P
                 /\ LRUNode P = Some k /\ bHasRestored P = true) ->
  (forall k t, textures !! k = Some t -> is_Some (EvictionParamsPtr t) ->
               bIsAliased t = false) ->
  NoDup rest /\ (length rest <= length lru)%nat
  /\ (forall k, k ∈ rest ->
        exists t P, textures' !! k = Some t /\ EvictionParamsPtr t = Some P
                    /\ LRUNode P = Some k /\ bHasRestored P = true)
  /\ (forall k t, textures' !! k = Some t -> is_Some (EvictionParamsPtr t) ->
                  bIsAliased t = false).
Proof.
  induction lru as [|k lru IH]; intros textures EvictCount rest textures' H Hnd Hmem Hna.
  - injection H as <- <-. split_and!; [exact Hnd | lia | exact Hmem | exact Hna].
  - cbn [TickEviction_loop] in H.
    apply rbind_Ok in H as (t & Ht & H). apply deref_Ok in Ht.
    apply rbind_Ok in H as (P & HP & H). apply deref_Ok in HP.
    destruct (EvictionDue E frame P && (EvictCount <? GOGLTexturesToEvictPerFrame E)).
    + apply rbind_Ok in H as (tx1 & Hev & H).
      apply NoDup_cons in Hnd as [Hk Hnd].
      unfold EvictRemoved in Hev. rewrite Ht in Hev. cbn [deref rbind] in Hev.
      rewrite HP in Hev. cbn [deref rbind] in Hev.
      apply rbind_Ok in Hev as (t2 & Htry & Hev). injection Hev as <-.
      apply IH in H as (Hnd' & Hlen & Hmem' & Hna').
      * split_and!; [exact Hnd' | simpl; lia | exact Hmem' | exact Hna'].
      * exact Hnd.
      * intros j Hj. destruct (Hmem j) as (tj & Pj & Htj & Hrest);
          [apply elem_of_cons; auto|].
        exists tj, Pj. rewrite lookup_insert_ne by (intros ->; contradiction).
        auto.
      * intros j tj Hj HPj. destruct (decide (j = k)) as [->|Hne].
        -- rewrite lookup_insert_eq in Hj. injection Hj as <-.
           rewrite (TryEvictGLResource_bIsAliased _ _ _ Htry).
           apply (Hna k t Ht). eauto.
        -- rewrite lookup_insert_ne in Hj by congruence. apply (Hna j tj Hj HPj).
    + injection H as <- <-. split_and!; [exact Hnd | lia | exact Hmem | exact Hna].
Qed.

(** [Touch] keeps a well-formed registry well formed. *)
Lemma LRU_Touch_well_formed (E : FEnv) (w w' : FWorld) (k : positive) :
  LRU_Touch w k = Ok w' -> RegistryWellFormed E w -> RegistryWellFormed E w'.
Proof.
  intros HT (Hnd & Hcap & Hmem & Hna).
  unfold LRU_Touch in HT.
  apply rbind_Ok in HT as (t & Ht & HT). apply deref_Ok in Ht.
  apply rbind_Ok in HT as (u1 & _ & HT).
  apply rbind_Ok in HT as (P & HP & HT). apply deref_Ok in HP.
  apply rbind_Ok in HT as (u2 & Hvalid & HT).
  apply rbind_Ok in HT as (u3 & Hin & HT). apply check_Ok in Hin.
  apply rbind_Ok in HT as (node & Hnode & HT). apply deref_Ok in Hnode.
  injection HT as <-.
  unfold LRU_Contains in Hin. apply bool_decide_eq_true in Hin.
  destruct (Hmem k Hin) as (t0 & P0 & Ht0 & HP0 & Hn0 & Hr0).
  rewrite Ht in Ht0. injection Ht0 as <-. rewrite HP in HP0. injection HP0 as <-.
  rewrite Hn0 in Hnode. injection Hnode as <-.
  unfold RegistryWellFormed, LRU_MarkAsRecent. cbn [Textures TextureLRU].
  split_and!.
  - apply NoDup_app. split_and!; [apply NoDup_filter, Hnd | | apply NoDup_singleton].
    intros j Hj Hj'. apply list_elem_of_singleton in Hj' as ->.
    apply list_elem_of_filter in Hj as [Hne _]. contradiction.
  - rewrite length_app. simpl. pose proof (filter_ne_length k _ Hin). lia.
  - intros j Hj. apply elem_of_app in Hj as [Hj|Hj].
    + apply list_elem_of_filter in Hj as [Hne Hj].
      destruct (Hmem j Hj) as (tj & Pj & Htj & Hrest).
      exists tj, Pj. rewrite lookup_insert_ne by congruence. auto.
    + apply list_elem_of_singleton in Hj as ->.
      eexists _, _. rewrite lookup_insert_eq.
      split_and!; [reflexivity | reflexivity | exact Hn0 | exact Hr0].
  - intros j tj Hj. destruct (decide (j = k)) as [->|Hne].
    + rewrite lookup_insert_eq in Hj. injection Hj as <-. apply (Hna k t Ht).
    + rewrite lookup_insert_ne in Hj by congruence. apply (Hna j tj Hj).
Qed.

(** Every step keeps the registry sound. *)
Lemma Step_sound (E : FEnv) (w w' : FWorld) :
  Step E w w' -> RegistrySound E w -> RegistrySound E w'.
Proof.
  intros HS Hwf. destruct HS as
    [k sx sy fmt n fl bulk t Hfresh Hcreate
    |k fmt sx sy n sto res fl Hfresh
    |k t t' mip arr mode p s Ht HL
    |k t t' p src cnt Ht HW
    |k t t' mip arr Ht HU
    |k b w' HR
    |w' HT
    |k w' HT
    |k w' HRm
    |].
  - destruct Hwf as (Hnd & Hcap & Hmem & Hna).
    unfold RegistrySound. cbn [Textures TextureLRU set_Textures].
    split_and!; [exact Hnd | exact Hcap | |].
    + intros j Hj. destruct (Hmem j Hj) as (tj & Pj & Htj & Hrest).
      exists tj, Pj. rewrite lookup_insert_ne by congruence. auto.
    + intros j tj Hj HPj. destruct (decide (j = k)) as [->|Hne].
      * rewrite lookup_insert_eq in Hj. injection Hj as <-.
        apply (RHICreateTexture2D_bIsAliased _ _ _ _ _ _ _ _ Hcreate).
      * rewrite lookup_insert_ne in Hj by congruence. apply (Hna j tj Hj HPj).
  - destruct Hwf as (Hnd & Hcap & Hmem & Hna).
    unfold RegistrySound. cbn [Textures TextureLRU set_Textures].
    split_and!; [exact Hnd | exact Hcap | |].
    + intros j Hj. destruct (Hmem j Hj) as (tj & Pj & Htj & Hrest).
      exists tj, Pj. rewrite lookup_insert_ne by congruence. auto.
    + intros j tj Hj HPj. destruct (decide (j = k)) as [->|Hne].
      * rewrite lookup_insert_eq in Hj. injection Hj as <-.
        destruct HPj as [P HP]. discriminate HP.
      * rewrite lookup_insert_ne in Hj by congruence. apply (Hna j tj Hj HPj).
  - apply (RegistrySound_update E w k t t' Ht); [| |exact Hwf].
    + apply (Lock_RegView _ _ _ _ _ _ _ _ HL).
    + apply (Lock_bIsAliased _ _ _ _ _ _ _ _ HL).
  - apply (RegistrySound_update E w k t t' Ht); [| |exact Hwf].
    + apply (WriteLocked_RegView _ _ _ _ _ HW).
    + apply (WriteLocked_bIsAliased _ _ _ _ _ HW).
  - apply (RegistrySound_update E w k t t' Ht); [| |exact Hwf].
    + apply (Unlock_RegView _ _ _ _ _ HU).
    + apply (Unlock_bIsAliased _ _ _ _ _ HU).
  - destruct Hwf as (Hnd & Hcap & Hmem & Hna).
    apply RestoreEvictedGLResource_inv in HR as
      (t & P & t3 & Px & P5 & bCan & Ht & HP & Hres & _ & _ & Hcore & _ & _ & _
       & Htex & Hb5 & Hn5 & _ & Hcase).
    assert (Hkout : k ∉ TextureLRU w).
    { intros Hin. destruct (Hmem k Hin) as (t0 & P0 & Ht0 & HP0 & _ & Hr0).
      congruence. }
    assert (Hal : forall j tj, Textures w' !! j = Some tj ->
              is_Some (EvictionParamsPtr tj) -> bIsAliased tj = false).
    { intros j tj Hj HPj. rewrite Htex in Hj. destruct (decide (j = k)) as [->|Hne].
      - rewrite lookup_insert_eq in Hj. injection Hj as <-.
        cbn [bIsAliased set_EvictionParamsPtr].
        rewrite (Core_bIsAliased _ _ Hcore). apply (Hna k t Ht). eauto.
      - rewrite lookup_insert_ne in Hj by congruence. apply (Hna j tj Hj HPj). }
    assert (Hold : forall j, j ∈ TextureLRU w ->
              exists tj Pj, Textures w' !! j = Some tj
                /\ EvictionParamsPtr tj = Some Pj
                /\ LRUNode Pj = Some j /\ bHasRestored Pj = true).
    { intros j Hj. destruct (Hmem j Hj) as (tj & Pj & Htj & Hrest).
      exists tj, Pj. rewrite Htex.
      rewrite lookup_insert_ne by (intros ->; contradiction). auto. }
    unfold RegistrySound.
    destruct Hcase as [(_ & Hroom & _ & _ & Hlru & HPx & _)
                      |[(_ & _ & _ & Hlru & _)|(_ & Hlru & _)]];
      rewrite Hlru.
    + split_and!.
      * apply NoDup_app. split_and!; [exact Hnd | | apply NoDup_singleton].
        intros j Hj Hj'. apply list_elem_of_singleton in Hj' as ->. contradiction.
      * rewrite length_app. simpl. lia.
      * intros j Hj. apply elem_of_app in Hj as [Hj|Hj]; [apply Hold, Hj|].
        apply list_elem_of_singleton in Hj as ->.
        eexists _, P5. rewrite Htex, lookup_insert_eq.
        split_and!; [reflexivity | reflexivity | | exact Hb5].
        rewrite Hn5, HPx. reflexivity.
      * exact Hal.
    + split_and!; [exact Hnd | exact Hcap | exact Hold | exact Hal].
    + split_and!; [exact Hnd | exact Hcap | exact Hold | exact Hal].
  - destruct Hwf as (Hnd & Hcap & Hmem & Hna).
    unfold TickEviction in HT.
    apply rbind_Ok in HT as ([rest tx] & Hloop & HT). injection HT as <-.
    destruct (TickEviction_loop_sound _ _ _ _ _ _ _ Hloop Hnd Hmem Hna)
      as (Hnd' & Hlen & Hmem' & Hna').
    unfold RegistrySound. cbn [Textures TextureLRU fst snd].
    split_and!; [exact Hnd' | lia | exact Hmem' | exact Hna'].
  - destruct Hwf as (Hnd & Hcap & Hmem & Hna).
    unfold LRU_Touch in HT.
    apply rbind_Ok in HT as (t & Ht & HT). apply deref_Ok in Ht.
    apply rbind_Ok in HT as (u1 & _ & HT).
    apply rbind_Ok in HT as (P & HP & HT). apply deref_Ok in HP.
    apply rbind_Ok in HT as (u2 & Hvalid & HT).
    apply rbind_Ok in HT as (u3 & Hin & HT). apply check_Ok in Hin.
    apply rbind_Ok in HT as (node & Hnode & HT). apply deref_Ok in Hnode.
    injection HT as <-.
    unfold LRU_Contains in Hin. apply bool_decide_eq_true in Hin.
    destruct (Hmem k Hin) as (t0 & P0 & Ht0 & HP0 & Hn0 & Hr0).
    rewrite Ht in Ht0. injection Ht0 as <-. rewrite HP in HP0. injection HP0 as <-.
    rewrite Hn0 in Hnode. injection Hnode as <-.
    unfold RegistrySound, LRU_MarkAsRecent. cbn [Textures TextureLRU].
    split_and!.
    + apply NoDup_app. split_and!; [apply NoDup_filter, Hnd | | apply NoDup_singleton].
      intros j Hj Hj'. apply list_elem_of_singleton in Hj' as ->.
      apply list_elem_of_filter in Hj as [Hne _]. contradiction.
    + rewrite length_app. simpl. pose proof (filter_ne_length k _ Hin). lia.
    + intros j Hj. apply elem_of_app in Hj as [Hj|Hj].
      * apply list_elem_of_filter in Hj as [Hne Hj].
        destruct (Hmem j Hj) as (tj & Pj & Htj & Hrest).
        exists tj, Pj. rewrite lookup_insert_ne by congruence. auto.
      * apply list_elem_of_singleton in Hj as ->.
        eexists _, _. rewrite lookup_insert_eq.
        split_and!; [reflexivity | reflexivity | exact Hn0 | exact Hr0].
    + intros j tj Hj HPj. destruct (decide (j = k)) as [->|Hne].
      * rewrite lookup_insert_eq in Hj. injection Hj as <-. apply (Hna k t Ht). eauto.
      * rewrite lookup_insert_ne in Hj by congruence. apply (Hna j tj Hj HPj).
  - destruct Hwf as (Hnd & Hcap & Hmem & Hna).
    unfold LRU_Remove in HRm.
    apply rbind_Ok in HRm as (t & Ht & HRm). apply deref_Ok in Ht.
    destruct (EvictionParamsPtr t) as [P|] eqn:HP;
      [|injection HRm as <-; split_and!; assumption].
    apply rbind_Ok in HRm as (u1 & _ & HRm).
    apply rbind_Ok in HRm as (u2 & _ & HRm).
    destruct (IsValidId (LRUNode P)); [|injection HRm as <-; split_and!; assumption].
    injection HRm as <-.
    unfold RegistrySound, LRU_ContainerRemove. cbn [Textures TextureLRU].
    split_and!.
    + apply NoDup_filter, Hnd.
    + pose proof (length_filter (λ j, j ≠ k) (TextureLRU w)). lia.
    + intros j Hj. apply list_elem_of_filter in Hj as [Hne Hj].
      destruct (Hmem j Hj) as (tj & Pj & Htj & Hrest).
      exists tj, Pj. rewrite lookup_insert_ne by congruence. auto.
    + intros j tj Hj HPj. destruct (decide (j = k)) as [->|Hne].
      * rewrite lookup_insert_eq in Hj. injection Hj as <-. apply (Hna k t Ht). eauto.
      * rewrite lookup_insert_ne in Hj by congruence. apply (Hna j tj Hj HPj).
  - exact Hwf.
Qed.

(** In every reachable state the registry is sound. *)
Lemma Reachable_sound (E : FEnv) (w : FWorld) :
  Reachable E w -> RegistrySound E w.
Proof.
  induction 1 as [|w w' _ IH HS].
  - unfold RegistrySound, InitialWorld. cbn [Textures TextureLRU].
    split_and!.
    + apply NoDup_nil_2.
    + simpl. lia.
    + intros k Hk. apply elem_of_nil in Hk. contradiction.
    + intros k t Hk. rewrite lookup_empty in Hk. discriminate.
  - apply (Step_sound E w w' HS IH).
Qed.

(** Aliased textures are reachable: wrapping the GL name 7 after a texture
    was created and restored gives a state with an aliased texture next to
    the registered one. *)
Lemma Reachable_with_aliased_texture :
  exists w t,
    Reachable KeepOneEnv w
    /\ Textures w !! 2%positive = Some t /\ bIsAliased t = true
    /\ TextureLRU w = [1%positive].
Proof.
  eexists _, _. split_and!.
  - apply (Reachable_step _ RestoredKeepOneWorld).
    + apply (Reachable_step _ CreatedWorld).
      * apply (Reachable_step _ InitialWorld); [constructor|].
        apply (Step_Create KeepOneEnv InitialWorld 1 2 2 G8 2 ShaderResourceStreamable
                 (Some BulkFiveBytes) PopulatedTexture).
        -- reflexivity.
        -- vm_compute. reflexivity.
      * apply (Step_Restore KeepOneEnv CreatedWorld 1 true). vm_compute. reflexivity.
    + apply (Step_CreateFromResource KeepOneEnv RestoredKeepOneWorld 2 G8 2 2 2
               None 7 0).
      reflexivity.
  - cbn [Textures set_Textures]. apply lookup_insert_eq.
  - reflexivity.
  - reflexivity.
Qed.

(** X16: in every reachable state the registry holds no texture twice and
    never more than its capacity [LRUMax], and each member is a live texture
    with eviction parameters that is restored, not aliased, and holds its own
    handle. *)
Theorem registry_bounded_and_duplicate_free (E : FEnv) (w : FWorld) :
  Reachable E w ->
  NoDup (TextureLRU w)
  /\ (length (TextureLRU w) <= LRUMax E)%nat
  /\ forall k, k ∈ TextureLRU w ->
       exists t P, Textures w !! k = Some t
                   /\ EvictionParamsPtr t = Some P
                   /\ LRUNode P = Some k
                   /\ bHasRestored P = true
                   /\ IsEvicted t = false
                   /\ bIsAliased t = false.
Proof.
  intros Hreach.
  destruct (Reachable_sound E w Hreach) as (Hnd & Hcap & Hmem & Hna).
  split_and!; [exact Hnd | exact Hcap |].
  intros k Hk. destruct (Hmem k Hk) as (t & P & Ht & HP & Hn & Hr).
  exists t, P. split_and!; try assumption.
  - unfold IsEvicted. rewrite HP, Hr. reflexivity.
  - apply (Hna k t Ht). eauto.
Qed.

Lemma registry_bounded_and_duplicate_free_witness :
  NoDup (TextureLRU RestoredKeepOneWorld)
  /\ (length (TextureLRU RestoredKeepOneWorld) <= LRUMax KeepOneEnv)%nat.
Proof.
  destruct (registry_bounded_and_duplicate_free KeepOneEnv RestoredKeepOneWorld)
    as (Hnd & Hcap & _).
  - apply (Reachable_step _ CreatedWorld).
    + apply (Reachable_step _ InitialWorld); [constructor|].
      apply (Step_Create KeepOneEnv InitialWorld 1 2 2 G8 2 ShaderResourceStreamable
               (Some BulkFiveBytes) PopulatedTexture).
      * reflexivity.
      * vm_compute. reflexivity.
    + apply (Step_Restore KeepOneEnv CreatedWorld 1 true). vm_compute. reflexivity.
  - split; assumption.
Defined.

(** X17: the eviction tick succeeds unless it meets an aliased member.
    Whenever every member of the registry is a live texture with eviction
    parameters that is not aliased, [TickEviction] succeeds, leaves the frame
    counter alone and removes only a prefix (the least recently used end) of
    the registry. When the least recently used member is due, the budget is
    positive, and that member is deferrable, restored and aliased with a
    shadow store that is not empty, the tick stops at the aliasing check of
    [CanBeEvicted]. *)
Theorem TickEviction_succeeds_unless_aliased (E : FEnv) (w : FWorld) :
  ((forall k, k ∈ TextureLRU w -> MemberOk (Textures w) k) ->
   exists w', TickEviction E w = Ok w'
     /\ GFrameNumberRenderThread w' = GFrameNumberRenderThread w
     /\ exists evicted, TextureLRU w = evicted ++ TextureLRU w')
  /\ (forall k rest t P,
        TextureLRU w = k :: rest ->
        Textures w !! k = Some t -> EvictionParamsPtr t = Some P ->
        wrap_uint32 (FrameLastRendered P + GOGLTextureEvictFramesToLive E)
          < GFrameNumberRenderThread w ->
        0 < GOGLTexturesToEvictPerFrame E ->
        CanCreateAsEvicted E t = true -> bHasRestored P = true ->
        bIsAliased t = true -> MipImageData P <> [] ->
        TickEviction E w = Err CheckFailed).
Proof.
  split.
  - intros Hmem.
    destruct (TickEviction_loop_spec E (GFrameNumberRenderThread w) (TextureLRU w)
                (Textures w) 0 Hmem) as (ev & rs & tx & Hloop & Happ & _).
    unfold TickEviction. rewrite Hloop. cbn [rbind fst snd].
    eexists. split; [reflexivity|]. cbn [GFrameNumberRenderThread TextureLRU].
    split; [reflexivity|]. exists ev. exact Happ.
  - intros k rest t P Hlru Ht HP Hdue Hbudget Hcreate Hres Hal Hdata.
    unfold TickEviction. rewrite Hlru. cbn [TickEviction_loop].
    rewrite Ht. cbn [deref rbind]. rewrite HP. cbn [deref rbind].
    unfold EvictionDue.
    destruct (Z.ltb_spec (wrap_uint32 (FrameLastRendered P
                                       + GOGLTextureEvictFramesToLive E))
                (GFrameNumberRenderThread w)) as [_|Hge]; [|lia].
    destruct (Z.ltb_spec 0 (GOGLTexturesToEvictPerFrame E)) as [_|Hge]; [|lia].
    cbn [andb]. unfold EvictRemoved. rewrite Ht. cbn [deref rbind].
    rewrite HP. cbn [deref rbind].
    unfold TryEvictGLResource, CanBeEvicted.
    match goal with
    | |- context [CanCreateAsEvicted E ?x] =>
        change (CanCreateAsEvicted E x) with (CanCreateAsEvicted E t)
    end.
    rewrite Hcreate.
    cbn [EvictionParamsPtr set_EvictionParamsPtr deref rbind bHasRestored
         set_LRUNode bIsAliased MipImageData].
    rewrite Hres, Hal. rewrite bool_decide_true by eauto.
    cbn [negb orb andb check rbind deref].
    destruct (MipImageData P) as [|mip mips]; [contradiction|]. reflexivity.
Qed.

Lemma TickEviction_succeeds_unless_aliased_witness :
  exists w', TickEviction KeepOneEnv RestoredKeepOneWorld = Ok w'.
Proof.
  destruct (TickEviction_succeeds_unless_aliased KeepOneEnv RestoredKeepOneWorld)
    as [Hok _].
  destruct Hok as (w' & Hw' & _).
  - intros k Hk. apply list_elem_of_singleton in Hk as ->.
    eexists _, _. split_and!; reflexivity.
  - exists w'. exact Hw'.
Defined.

(* ===================================================================== *)
(** ** Registering, touching and removing                                  *)
(* ===================================================================== *)

(** X18: [FTextureEvictionLRU::Add] followed by [Remove] is a round trip.
    When [Add] registers a texture, the texture is appended at the
    most-recent end with its own handle and the current frame as its stamp;
    [Remove] then succeeds, gives back the registry as it was before [Add],
    and resets the handle. When the registry is at capacity [Add] returns
    false and changes nothing. *)
Theorem LRU_Add_Remove_round_trip (E : FEnv) (w w1 : FWorld) (k : positive)
    (bAdded : bool) :
  LRU_Add E w k = Ok (bAdded, w1) ->
  (bAdded = false -> length (TextureLRU w) = LRUMax E /\ w1 = w)
  /\ (bAdded = true ->
      length (TextureLRU w) <> LRUMax E
      /\ TextureLRU w1 = TextureLRU w ++ [k]
      /\ HandleOf (Textures w1) k = Some (Some k)
      /\ LastTouched (Textures w1) k = Some (GFrameNumberRenderThread w)
      /\ exists w2, LRU_Remove w1 k = Ok w2
           /\ TextureLRU w2 = TextureLRU w
           /\ HandleOf (Textures w2) k = Some None
           /\ forall j, j <> k -> Textures w2 !! j = Textures w !! j).
Proof.
  unfold LRU_Add. intros H.
  apply rbind_Ok in H as (t & Ht & H). apply deref_Ok in Ht.
  apply rbind_Ok in H as (u1 & _ & H).
  apply rbind_Ok in H as (P & HP & H). apply deref_Ok in HP.
  apply rbind_Ok in H as (u2 & Hnode & H). apply check_Ok in Hnode.
  apply rbind_Ok in H as (u3 & Hnot & H). apply check_Ok in Hnot.
  unfold LRU_Contains in Hnot. apply negb_true_iff in Hnot.
  apply bool_decide_eq_false in Hnot.
  destruct (Nat.eqb_spec (length (TextureLRU w)) (LRUMax E)) as [Hfull|Hroom];
    cbn [negb] in H; injection H as <- <-.
  - split; [auto | discriminate].
  - split; [discriminate|]. intros _.
    cbn [Textures TextureLRU GFrameNumberRenderThread].
    split_and!.
    + exact Hroom.
    + reflexivity.
    + unfold HandleOf. rewrite lookup_insert_eq. reflexivity.
    + unfold LastTouched. rewrite lookup_insert_eq. reflexivity.
    + unfold LRU_Remove. cbn [Textures TextureLRU GFrameNumberRenderThread].
      rewrite lookup_insert_eq. cbn [deref rbind].
      cbn [EvictionParamsPtr set_EvictionParamsPtr LRUNode set_FrameLastRendered
           set_LRUNode IsValidId negb orb andb].
      unfold LRU_Contains, LRU_ContainerAdd.
      rewrite bool_decide_true
        by (apply elem_of_app; right; apply list_elem_of_singleton; reflexivity).
      cbn [check rbind orb negb].
      eexists. split; [reflexivity|].
      cbn [Textures TextureLRU]. split_and!.
      * unfold LRU_ContainerRemove. rewrite filter_app.
        rewrite (filter_ne_notin k _ Hnot).
        rewrite filter_cons_False by (intros Hne; apply Hne; reflexivity).
        rewrite filter_nil. apply app_nil_r.
      * unfold HandleOf. rewrite lookup_insert_eq. reflexivity.
      * intros j Hj. rewrite !lookup_insert_ne by congruence. reflexivity.
Qed.

Lemma LRU_Add_Remove_round_trip_witness :
  exists w1 w2,
    LRU_Add DeferringEnv CreatedWorld 1 = Ok (true, w1)
    /\ LRU_Remove w1 1 = Ok w2 /\ TextureLRU w2 = [].
Proof.
  destruct (LRU_Add DeferringEnv CreatedWorld 1) as [[b w1]|f] eqn:HA;
    [|vm_compute in HA; discriminate].
  destruct (LRU_Add_Remove_round_trip DeferringEnv CreatedWorld w1 1 b HA)
    as [_ Htrue].
  assert (Hb : b = true) by (vm_compute in HA; congruence). subst b.
  destruct (Htrue eq_refl) as (_ & _ & _ & _ & w2 & HR & Hlru & _).
  exists w1, w2. split_and!; [reflexivity | exact HR | exact Hlru].
Defined.

(** [Touch] on a member of a well-formed registry. *)
Lemma LRU_Touch_moves_to_most_recent_aux (E : FEnv) (w : FWorld) (k : positive) :
  RegistryWellFormed E w -> k ∈ TextureLRU w ->
  exists w', LRU_Touch w k = Ok w'
    /\ TextureLRU w' = filter (λ j, j ≠ k) (TextureLRU w) ++ [k]
    /\ LastTouched (Textures w') k = Some (GFrameNumberRenderThread w)
    /\ RegistryWellFormed E w'.
Proof.
  intros Hwf Hin. pose proof Hwf as (Hnd & Hcap & Hmem & Hna).
  destruct (Hmem k Hin) as (t & P & Ht & HP & Hn & Hr).
  assert (HT : LRU_Touch w k
               = Ok {| Textures := <[k := set_EvictionParamsPtr t
                         (Some (set_FrameLastRendered P (GFrameNumberRenderThread w)))]>
                         (Textures w);
                       TextureLRU := LRU_MarkAsRecent (TextureLRU w) k;
                       GFrameNumberRenderThread := GFrameNumberRenderThread w |}).
  { unfold LRU_Touch. rewrite Ht. cbn [deref rbind]. rewrite HP.
    rewrite bool_decide_true by eauto. cbn [check deref rbind]. rewrite Hn.
    cbn [IsValidId check rbind]. unfold LRU_Contains.
    rewrite bool_decide_true by exact Hin. reflexivity. }
  eexists. split; [exact HT|]. cbn [Textures TextureLRU]. split_and!.
  - reflexivity.
  - unfold LastTouched. rewrite lookup_insert_eq. reflexivity.
  - apply (LRU_Touch_well_formed E w _ k HT Hwf).
Qed.

(** X19: [FTextureEvictionLRU::Touch] makes a member the most recently used
    one and keeps the others in their order: on a well-formed registry the
    new registry is the old one without the texture, followed by the
    texture; its length and members are unchanged, the texture's frame stamp
    is the current frame, and no other texture changes. A texture that is
    not registered cannot be touched: the call stops at a [check]. *)
Theorem LRU_Touch_moves_to_most_recent (E : FEnv) (w : FWorld) (k : positive) :
  RegistryWellFormed E w ->
  (k ∈ TextureLRU w ->
   exists w', LRU_Touch w k = Ok w'
     /\ TextureLRU w' = filter (λ j, j ≠ k) (TextureLRU w) ++ [k]
     /\ TextureLRU w' ≡ₚ TextureLRU w
     /\ LastTouched (Textures w') k = Some (GFrameNumberRenderThread w)
     /\ HandleOf (Textures w') k = Some (Some k)
     /\ GFrameNumberRenderThread w' = GFrameNumberRenderThread w
     /\ (forall j, j <> k -> Textures w' !! j = Textures w !! j)
     /\ RegistryWellFormed E w')
  /\ (k ∉ TextureLRU w -> forall t, Textures w !! k = Some t ->
      LRU_Touch w k = Err CheckFailed).
Proof.
  intros Hwf. pose proof Hwf as (Hnd & Hcap & Hmem & Hna). split.
  - intros Hin. destruct (Hmem k Hin) as (t & P & Ht & HP & Hn & Hr).
    assert (HT : LRU_Touch w k
                 = Ok {| Textures := <[k := set_EvictionParamsPtr t
                           (Some (set_FrameLastRendered P (GFrameNumberRenderThread w)))]>
                           (Textures w);
                         TextureLRU := LRU_MarkAsRecent (TextureLRU w) k;
                         GFrameNumberRenderThread := GFrameNumberRenderThread w |}).
    { unfold LRU_Touch. rewrite Ht. cbn [deref rbind]. rewrite HP.
      rewrite bool_decide_true by eauto. cbn [check deref rbind]. rewrite Hn.
      cbn [IsValidId check rbind]. unfold LRU_Contains.
      rewrite bool_decide_true by exact Hin. reflexivity. }
    eexists. split; [exact HT|].
    cbn [Textures TextureLRU GFrameNumberRenderThread]. unfold LRU_MarkAsRecent.
    split_and!.
    + reflexivity.
    + apply NoDup_Permutation.
      * apply NoDup_app. split_and!; [apply NoDup_filter, Hnd | | apply NoDup_singleton].
        intros j Hj Hj'. apply list_elem_of_singleton in Hj' as ->.
        apply list_elem_of_filter in Hj as [Hne _]. contradiction.
      * exact Hnd.
      * intros j. rewrite elem_of_app, list_elem_of_filter, list_elem_of_singleton.
        split.
        -- intros [[_ Hj]| ->]; assumption.
        -- intros Hj. destruct (decide (j = k)) as [->|Hne]; auto.
    + unfold LastTouched. rewrite lookup_insert_eq. reflexivity.
    + unfold HandleOf. rewrite lookup_insert_eq. cbn. rewrite Hn. reflexivity.
    + reflexivity.
    + intros j Hj. apply lookup_insert_ne. congruence.
    + apply (LRU_Touch_well_formed E w _ k HT Hwf).
  - intros Hnin t Ht. unfold LRU_Touch. rewrite Ht. cbn [deref rbind].
    destruct (EvictionParamsPtr t) as [P|] eqn:HP;
      [|rewrite bool_decide_false by (apply is_Some_None); reflexivity].
    rewrite bool_decide_true by eauto. cbn [check deref rbind].
    destruct (IsValidId (LRUNode P)); [|reflexivity]. cbn [check rbind].
    unfold LRU_Contains. rewrite bool_decide_false by exact Hnin. reflexivity.
Qed.

Lemma LRU_Touch_moves_to_most_recent_witness :
  exists w', LRU_Touch PastThresholdWorld 1 = Ok w'
    /\ LastTouched (Textures w') 1 = Some 501.
Proof.
  destruct (LRU_Touch_moves_to_most_recent DeferringEnv PastThresholdWorld 1)
    as [Hin _].
  - unfold RegistryWellFormed, PastThresholdWorld. cbn [Textures TextureLRU].
    split_and!.
    + apply NoDup_singleton.
    + vm_compute. lia.
    + intros k Hk. apply list_elem_of_singleton in Hk as ->.
      eexists _, _. split_and!; reflexivity.
    + intros k t Hk. apply lookup_singleton_Some in Hk as [_ <-]. reflexivity.
  - destruct Hin as (w' & HT & _ & _ & Hlast & _).
    + apply list_elem_of_singleton. reflexivity.
    + exists w'. split; [exact HT | exact Hlast].
Defined.

(** X20: a touched texture survives the ticks of the next
    [GOGLTextureEvictFramesToLive] frames, as long as the frame counter does
    not come near its wrap-around. Let the registry be well formed
    ([RegistryWellFormed]: no duplicates, within capacity, every member a
    restored texture that holds its own handle, no texture aliased), the
    frame number [f] and the threshold [GOGLTextureEvictFramesToLive] not
    negative, and [f + GOGLTextureEvictFramesToLive < 2^32]. After a [Touch]
    that succeeds in frame [f], an eviction tick in any frame up to
    [f + GOGLTextureEvictFramesToLive] succeeds, keeps the texture in the
    registry and leaves it unchanged. *)
Theorem touched_texture_survives_ticks (E : FEnv) (w w1 : FWorld) (k : positive)
    (frame' : Z) :
  RegistryWellFormed E w ->
  0 <= GFrameNumberRenderThread w ->
  0 <= GOGLTextureEvictFramesToLive E ->
  GFrameNumberRenderThread w + GOGLTextureEvictFramesToLive E < 2 ^ 32 ->
  LRU_Touch w k = Ok w1 ->
  frame' <= GFrameNumberRenderThread w + GOGLTextureEvictFramesToLive E ->
  exists w2, TickEviction E (AtFrame w1 frame') = Ok w2
    /\ k ∈ TextureLRU w2
    /\ Textures w2 !! k = Textures w1 !! k.
Proof.
  intros Hwf Hf Hlive Hfit HT Hframe.
  assert (Hin : k ∈ TextureLRU w).
  { destruct (decide (k ∈ TextureLRU w)) as [Hin|Hnin]; [exact Hin|].
    unfold LRU_Touch in HT.
    apply rbind_Ok in HT as (t & Ht & HT).
    apply rbind_Ok in HT as (u1 & _ & HT).
    apply rbind_Ok in HT as (P & _ & HT).
    apply rbind_Ok in HT as (u2 & _ & HT).
    apply rbind_Ok in HT as (u3 & Hc & HT). apply check_Ok in Hc.
    unfold LRU_Contains in Hc. apply bool_decide_eq_true in Hc. contradiction. }
  destruct (LRU_Touch_moves_to_most_recent_aux E w k Hwf Hin)
    as (w1' & HT' & Hlru & Hlast & Hwf1).
  rewrite HT in HT'. injection HT' as <-.
  destruct Hwf1 as (Hnd & Hcap & Hmem & Hna).
  destruct (TickEviction_loop_spec E frame' (TextureLRU w1) (Textures w1) 0)
    as (ev & rs & tx & Hloop & Happ & _ & Hdues & _ & Hsame & _).
  { intros j Hj. destruct (Hmem j Hj) as (t & P & Ht & HP & _).
    exists t, P. split_and!; [exact Ht | exact HP | apply (Hna j t Ht)]. }
  assert (Hk : k ∉ ev).
  { intros Hev. destruct (Hdues k Hev) as (last & Hl & Hd).
    rewrite Hlast in Hl. injection Hl as <-.
    rewrite wrap_uint32_small in Hd by lia. lia. }
  unfold TickEviction, AtFrame. cbn [Textures TextureLRU GFrameNumberRenderThread].
  rewrite Hloop. cbn [rbind fst snd]. eexists. split; [reflexivity|].
  cbn [Textures TextureLRU]. split.
  - assert (Hk1 : k ∈ TextureLRU w1).
    { rewrite Hlru. apply elem_of_app. right. apply list_elem_of_singleton.
      reflexivity. }
    rewrite Happ in Hk1. apply elem_of_app in Hk1 as [Hk1|Hk1];
      [contradiction | exact Hk1].
  - apply Hsame, Hk.
Qed.

Lemma touched_texture_survives_ticks_witness :
  exists w1 w2, LRU_Touch PastThresholdWorld 1 = Ok w1
    /\ TickEviction DeferringEnv (AtFrame w1 1001) = Ok w2
    /\ 1%positive ∈ TextureLRU w2.
Proof.
  destruct (LRU_Touch PastThresholdWorld 1) as [w1|f] eqn:HT;
    [|vm_compute in HT; discriminate].
  destruct (touched_texture_survives_ticks DeferringEnv PastThresholdWorld w1 1 1001)
    as (w2 & Htick & Hin & _).
  - unfold RegistryWellFormed, PastThresholdWorld. cbn [Textures TextureLRU].
    split_and!.
    + apply NoDup_singleton.
    + vm_compute. lia.
    + intros k Hk. apply list_elem_of_singleton in Hk as ->.
      eexists _, _. split_and!; reflexivity.
    + intros k t Hk. apply lookup_singleton_Some in Hk as [_ <-]. reflexivity.
  - vm_compute. discriminate.
  - vm_compute. discriminate.
  - vm_compute. reflexivity.
  - exact HT.
  - vm_compute. discriminate.
  - exists w1, w2. split_and!; [reflexivity | exact Htick | exact Hin].
Defined.

(* ===================================================================== *)
(** ** The tick evicts an idle texture                                     *)
(* ===================================================================== *)

(** X21: the eviction tick frees the GPU storage of an idle texture. When
    the least recently used member of a well-formed registry is due, the
    budget allows one eviction, and the texture may be created as evicted
    and has all its mips in the shadow store, then the tick succeeds, the
    texture leaves the registry, loses its handle and its GPU storage, gets
    a newly generated name, counts as evicted and keeps its shadow store and
    every other field. *)
Theorem TickEviction_evicts_idle_head (E : FEnv) (w : FWorld) (k : positive)
    (rest : list positive) (t : FOpenGLTexture) (P : FTextureEvictionParams) :
  RegistryWellFormed E w ->
  TextureLRU w = k :: rest ->
  Textures w !! k = Some t -> EvictionParamsPtr t = Some P ->
  CanCreateAsEvicted E t = true ->
  length (MipImageData P) = NumMips t ->
  Forall (fun mip => mip <> []) (MipImageData P) ->
  wrap_uint32 (FrameLastRendered P + GOGLTextureEvictFramesToLive E)
    < GFrameNumberRenderThread w ->
  0 < GOGLTexturesToEvictPerFrame E ->
  exists w' t',
    TickEviction E w = Ok w'
    /\ (k ∉ TextureLRU w')
    /\ Textures w' !! k = Some t'
    /\ t' = set_Resource
              (set_EvictionParamsPtr (set_GLStorage t None)
                 (Some (set_bHasRestored (set_LRUNode P None) false)))
              (GenTextures E)
    /\ IsEvicted t' = true.
Proof.
  intros (Hnd & Hcap & Hmem & Hna) Hlru Ht HP Hcreate Hlen Hall Hdue Hbudget.
  rewrite Hlru in Hnd, Hmem. apply NoDup_cons in Hnd as [Hk Hnd].
  destruct (Hmem k) as (t0 & P0 & Ht0 & HP0 & _ & Hr); [apply elem_of_cons; auto|].
  rewrite Ht in Ht0. injection Ht0 as <-. rewrite HP in HP0. injection HP0 as <-.
  set (t' := set_Resource
               (set_EvictionParamsPtr (set_GLStorage t None)
                  (Some (set_bHasRestored (set_LRUNode P None) false)))
               (GenTextures E)).
  assert (Hev : EvictRemoved E (Textures w) k = Ok (<[k := t']> (Textures w))).
  { unfold EvictRemoved. rewrite Ht. cbn [deref rbind]. rewrite HP.
    cbn [deref rbind].
    rewrite (TryEvictGLResource_not_aliased E _ (set_LRUNode P None));
      [|reflexivity | apply (Hna k t Ht)].
    cbn [rbind].
    change (CanCreateAsEvicted E (set_EvictionParamsPtr t ?x))
      with (CanCreateAsEvicted E t).
    rewrite Hcreate. cbn [bHasRestored set_LRUNode MipImageData NumMips
                          set_EvictionParamsPtr]. rewrite Hr, Hlen, Nat.eqb_refl.
    rewrite AreAllMipsPresent_populated.
    - reflexivity.
    - cbn [MipImageData set_LRUNode]. intros i mip Hi.
      apply (proj1 (Forall_lookup _ _) Hall i mip Hi). }
  destruct (TickEviction_loop_spec E (GFrameNumberRenderThread w) rest
              (<[k := t']> (Textures w)) 1)
    as (ev & rs & tx & Hloop & Happ & _ & _ & _ & Hsame & _).
  { intros j Hj. destruct (Hmem j) as (tj & Pj & Htj & HPj & _);
      [apply elem_of_cons; auto|].
    exists tj, Pj. rewrite lookup_insert_ne by (intros ->; contradiction).
    split_and!; [exact Htj | exact HPj | apply (Hna j tj Htj)]. }
  assert (Hkev : k ∉ ev).
  { intros Hin. apply Hk. rewrite Happ. apply elem_of_app. auto. }
  exists {| Textures := tx; TextureLRU := rs;
            GFrameNumberRenderThread := GFrameNumberRenderThread w |}, t'.
  split_and!.
  - unfold TickEviction. rewrite Hlru. cbn [TickEviction_loop].
    rewrite Ht. cbn [deref rbind]. rewrite HP. cbn [deref rbind].
    unfold EvictionDue.
    destruct (Z.ltb_spec (wrap_uint32 (FrameLastRendered P
                                       + GOGLTextureEvictFramesToLive E))
                (GFrameNumberRenderThread w)) as [_|Hge]; [|lia].
    destruct (Z.ltb_spec 0 (GOGLTexturesToEvictPerFrame E)) as [_|Hge]; [|lia].
    cbn [andb]. rewrite Hev. cbn [rbind]. rewrite Z.add_0_l, Hloop. reflexivity.
  - cbn [TextureLRU]. intros Hin. apply Hk. rewrite Happ. apply elem_of_app. auto.
  - cbn [Textures]. rewrite (Hsame k Hkev). apply lookup_insert_eq.
  - reflexivity.
  - reflexivity.
Qed.

Lemma TickEviction_evicts_idle_head_witness :
  exists w' t', TickEviction DeferringEnv PastThresholdWorld = Ok w'
    /\ Textures w' !! 1%positive = Some t' /\ IsEvicted t' = true
    /\ GLStorage t' = None.
Proof.
  destruct (TickEviction_evicts_idle_head DeferringEnv PastThresholdWorld 1 []
              RegisteredTexture
              {| MipImageData := [[Init x01; Init x02; Init x03; Init x04]; [Init x05]];
                 bHasRestored := true; FrameLastRendered := 0;
                 LRUNode := Some 1%positive |})
    as (w' & t' & Htick & _ & Hk & Ht' & Hev).
  - unfold RegistryWellFormed, PastThresholdWorld. cbn [Textures TextureLRU].
    split_and!.
    + apply NoDup_singleton.
    + vm_compute. lia.
    + intros k Hk. apply list_elem_of_singleton in Hk as ->.
      eexists _, _. split_and!; reflexivity.
    + intros k t Hk. apply lookup_singleton_Some in Hk as [_ <-]. reflexivity.
  - reflexivity.
  - reflexivity.
  - reflexivity.
  - vm_compute. reflexivity.
  - reflexivity.
  - repeat constructor; discriminate.
  - vm_compute. reflexivity.
  - vm_compute. reflexivity.
  - exists w', t'. split_and!; [exact Htick | exact Hk | exact Hev |].
    rewrite Ht'. reflexivity.
Defined.

(* ===================================================================== *)
(** ** Creating a texture from bulk data                                   *)
(* ===================================================================== *)

Lemma GetLockSize_pos (t : FOpenGLTexture) (m : nat) :
  LockSizeFits t ->
  0 < fst (GetLockSize t m) < 2 ^ 32 /\ 0 < snd (GetLockSize t m).
Proof.
  intros Hfit. pose proof Hfit as (_ & _ & _ & _ & HBB & _).
  destruct (GetLockSize_fits t m Hfit) as (-> & Hnx & Hny & Hprod).
  cbn [fst snd]. split_and!; [nia | lia | nia].
Qed.

Lemma BulkOffset_mono (t : FOpenGLTexture) (m n : nat) :
  LockSizeFits t -> 0 <= BulkOffset t m <= BulkOffset t (m + n).
Proof.
  intros Hfit.
  assert (H0 : forall i, 0 <= BulkOffset t i).
  { induction i as [|i IH]; cbn [BulkOffset]; [lia|].
    pose proof (GetLockSize_pos t i Hfit). lia. }
  split; [apply H0|].
  induction n as [|n IH].
  - rewrite Nat.add_0_r. lia.
  - rewrite Nat.add_succ_r. cbn [BulkOffset].
    pose proof (GetLockSize_pos t (m + n) Hfit). lia.
Qed.

Lemma BulkSlice_length (t : FOpenGLTexture) (Data : Buffer) (m : nat) :
  LockSizeFits t -> BulkOffset t (S m) <= Z.of_nat (length Data) ->
  Z.of_nat (length (BulkSlice t Data m)) = fst (GetLockSize t m).
Proof.
  intros Hfit Hlen. unfold BulkSlice. cbn [BulkOffset] in Hlen.
  pose proof (GetLockSize_pos t m Hfit) as [Hp _].
  pose proof (BulkOffset_mono t m 0 Hfit) as [H0 _].
  rewrite length_take, length_drop. lia.
Qed.

(** The loop of [InitializeGLTexture] that fills the shadow store. *)
Lemma BulkToShadow_loop_spec (t : FOpenGLTexture) (Data : Buffer) :
  LockSizeFits t ->
  forall (n MipIndex : nat) (P : FTextureEvictionParams),
  (MipIndex + n <= length (MipImageData P))%nat ->
  (forall j, (MipIndex <= j < MipIndex + n)%nat -> MipImageData P !! j = Some []) ->
  BulkOffset t (MipIndex + n) <= Z.of_nat (length Data) ->
  BulkOffset t (MipIndex + n) < 2 ^ 32 ->
  exists P',
    BulkToShadow_loop n MipIndex t 1 Data (BulkOffset t MipIndex) P = Ok P'
    /\ bHasRestored P' = bHasRestored P
    /\ LRUNode P' = LRUNode P
    /\ FrameLastRendered P' = FrameLastRendered P
    /\ length (MipImageData P') = length (MipImageData P)
    /\ forall j,
         ((MipIndex <= j < MipIndex + n)%nat ->
          MipImageData P' !! j = Some (BulkSlice t Data j))
         /\ (~ (MipIndex <= j < MipIndex + n)%nat ->
             MipImageData P' !! j = MipImageData P !! j).
Proof.
  intros Hfit.
  induction n as [|n IH]; intros MipIndex P Hlen Hempty Hdata Hwrap.
  - exists P. cbn [BulkToShadow_loop]. split_and!; try reflexivity.
    intros j. split; [lia | reflexivity].
  - cbn [BulkToShadow_loop].
    rewrite (BulkMipDataSize_GetLockSize t 1 MipIndex Hfit) by lia.
    pose proof (GetLockSize_pos t MipIndex Hfit) as [Hsize _].
    pose proof (BulkOffset_mono t MipIndex 0 Hfit) as [Hoff _].
    pose proof (BulkOffset_mono t (S MipIndex) n Hfit) as [_ Hnext].
    replace (S MipIndex + n)%nat with (MipIndex + S n)%nat in Hnext by lia.
    cbn [BulkOffset] in Hnext.
    rewrite SetMipData_empty_copy.
    + cbn [rbind].
      rewrite wrap_uint32_small by lia.
      change (BulkOffset t MipIndex + fst (GetLockSize t MipIndex))
        with (BulkOffset t (S MipIndex)).
      destruct (IH (S MipIndex)
                  (set_MipImageData P
                     (<[MipIndex := take (Z.to_nat (fst (GetLockSize t MipIndex)))
                                      (drop (Z.to_nat (BulkOffset t MipIndex)) Data)]>
                        (MipImageData P))))
        as (P' & Hloop & Hb & Hn & Hf & Hl & Hslots).
      * cbn [MipImageData set_MipImageData]. rewrite length_insert. lia.
      * intros j Hj. cbn [MipImageData set_MipImageData].
        rewrite list_lookup_insert_ne by lia. apply Hempty. lia.
      * replace (S MipIndex + n)%nat with (MipIndex + S n)%nat by lia. exact Hdata.
      * replace (S MipIndex + n)%nat with (MipIndex + S n)%nat by lia. exact Hwrap.
      * exists P'. cbn [MipImageData set_MipImageData bHasRestored LRUNode
                        FrameLastRendered] in *.
        rewrite length_insert in Hl.
        split_and!; try assumption.
        intros j. destruct (Hslots j) as [Hin Hout]. split.
        -- intros Hj. destruct (decide (j = MipIndex)) as [->|Hne].
           ++ rewrite Hout by lia. rewrite list_lookup_insert_eq by lia. reflexivity.
           ++ apply Hin. lia.
        -- intros Hj. rewrite Hout by lia. apply list_lookup_insert_ne. lia.
    + apply Hempty. lia.
    + lia.
    + rewrite length_drop. lia.
Qed.

(** The upload loop of [InitializeGLTextureInternal]. *)
Lemma BulkToStorage_loop_spec (t : FOpenGLTexture) (Data : Buffer) :
  LockSizeFits t ->
  forall (n MipIndex : nat) (images : list Buffer),
  (MipIndex + n <= length images)%nat ->
  BulkOffset t (MipIndex + n) < 2 ^ 32 ->
  let images' := BulkToStorage_loop n MipIndex t 1 Data (BulkOffset t MipIndex) images in
  length images' = length images
  /\ forall j,
       ((MipIndex <= j < MipIndex + n)%nat -> images' !! j = Some (BulkSlice t Data j))
       /\ (~ (MipIndex <= j < MipIndex + n)%nat -> images' !! j = images !! j).
Proof.
  intros Hfit.
  induction n as [|n IH]; intros MipIndex images Hlen Hwrap.
  - cbn [BulkToStorage_loop]. split; [reflexivity|].
    intros j. split; [lia | reflexivity].
  - cbn [BulkToStorage_loop].
    rewrite (BulkMipDataSize_GetLockSize t 1 MipIndex Hfit) by lia.
    pose proof (GetLockSize_pos t MipIndex Hfit) as [Hsize _].
    pose proof (BulkOffset_mono t MipIndex 0 Hfit) as [Hoff _].
    pose proof (BulkOffset_mono t (S MipIndex) n Hfit) as [_ Hnext].
    replace (S MipIndex + n)%nat with (MipIndex + S n)%nat in Hnext by lia.
    cbn [BulkOffset] in Hnext.
    rewrite wrap_uint32_small by lia.
    change (BulkOffset t MipIndex + fst (GetLockSize t MipIndex))
      with (BulkOffset t (S MipIndex)).
    destruct (IH (S MipIndex)
                (<[MipIndex := take (Z.to_nat (fst (GetLockSize t MipIndex)))
                                 (drop (Z.to_nat (BulkOffset t MipIndex)) Data)]> images))
      as (Hl & Hslots).
    + rewrite length_insert. lia.
    + replace (S MipIndex + n)%nat with (MipIndex + S n)%nat by lia. exact Hwrap.
    + rewrite length_insert in Hl. split; [exact Hl|].
      intros j. destruct (Hslots j) as [Hin Hout]. split.
      * intros Hj. destruct (decide (j = MipIndex)) as [->|Hne].
        -- rewrite Hout by lia. rewrite list_lookup_insert_eq by lia. reflexivity.
        -- apply Hin. lia.
      * intros Hj. rewrite Hout by lia. apply list_lookup_insert_ne. lia.
Qed.

Lemma BulkSlices_lookup (t : FOpenGLTexture) (Data : Buffer) (j : nat) :
  (j < NumMips t)%nat -> BulkSlices t Data !! j = Some (BulkSlice t Data j).
Proof.
  intros Hj. unfold BulkSlices. rewrite list_lookup_fmap.
  rewrite lookup_seq_lt by exact Hj. reflexivity.
Qed.

Lemma BulkSlices_eq (t : FOpenGLTexture) (Data : Buffer) (l : list Buffer) :
  length l = NumMips t ->
  (forall j, (j < NumMips t)%nat -> l !! j = Some (BulkSlice t Data j)) ->
  l = BulkSlices t Data.
Proof.
  intros Hlen Hslots. apply list_eq. intros j.
  destruct (Nat.lt_ge_cases j (NumMips t)) as [Hlt|Hge].
  - rewrite (Hslots j Hlt), (BulkSlices_lookup t Data j Hlt). reflexivity.
  - rewrite !lookup_ge_None_2; [reflexivity | | lia].
    unfold BulkSlices. rewrite length_map, length_seq. lia.
Qed.

Lemma BulkToShadow_loop_set_EvictionParamsPtr (t : FOpenGLTexture) x
    (ArraySize : Z) (Data : Buffer) (n : nat) :
  forall (MipIndex : nat) (MipOffset : Z) (P : FTextureEvictionParams),
  BulkToShadow_loop n MipIndex (set_EvictionParamsPtr t x) ArraySize Data MipOffset P
  = BulkToShadow_loop n MipIndex t ArraySize Data MipOffset P.
Proof.
  induction n as [|n IH]; intros MipIndex MipOffset P; [reflexivity|].
  cbn [BulkToShadow_loop].
  change (BulkMipDataSize (set_EvictionParamsPtr t x) ArraySize MipIndex)
    with (BulkMipDataSize t ArraySize MipIndex).
  destruct (SetMipData P MipIndex _ _) as [P1|f]; [|reflexivity].
  cbn [rbind]. apply IH.
Qed.

(** Creation of a deferrable 2D texture from bulk data. *)
Lemma RHICreateTexture2D_deferred (E : FEnv) (InSizeX InSizeY : Z)
    (Format : FPixelFormatInfo) (InNumMips : nat) (InFlags : Z) (Data : Buffer) :
  let t0 := NewTexture2D InSizeX InSizeY Format InNumMips InFlags in
  InNumMips <> 0%nat ->
  CanCreateAsEvicted E t0 = true ->
  bCompressed Format = false ->
  LockSizeFits t0 ->
  BulkOffset t0 InNumMips <= Z.of_nat (length Data) ->
  BulkOffset t0 InNumMips < 2 ^ 32 ->
  RHICreateTexture2D E InSizeX InSizeY Format InNumMips InFlags (Some Data)
  = Ok (set_Resource
          (set_EvictionParamsPtr t0
             (Some {| MipImageData := BulkSlices t0 Data; bHasRestored := false;
                      FrameLastRendered := 0; LRUNode := None |}))
          (GenTextures E)).
Proof.
  intros t0 Hn Hcreate Hunc Hfit Hdata Hwrap.
  unfold RHICreateTexture2D.
  destruct (Nat.eqb_spec InNumMips 0) as [H0|_]; [contradiction|].
  fold t0. cbn [check rbind negb bool_decide EvictionParamsPtr].
  rewrite bool_decide_false by (subst t0; cbn; apply is_Some_None).
  cbn [negb check rbind]. rewrite Hcreate.
  unfold InitializeGLTexture.
  cbn [IsEvicted EvictionParamsPtr set_EvictionParamsPtr NewEvictionParams
       bHasRestored negb PixelFormat].
  change (PixelFormat t0) with Format. rewrite Hunc. cbn [negb check rbind deref].
  change (NumMips (set_EvictionParamsPtr t0 ?x)) with InNumMips.
  destruct (BulkToShadow_loop_spec t0 Data Hfit InNumMips 0 (NewEvictionParams InNumMips))
    as (P' & Hloop & Hb & Hnode & Hf & Hl & Hslots).
  - cbn [MipImageData NewEvictionParams]. rewrite length_replicate. lia.
  - intros j Hj. cbn [MipImageData NewEvictionParams].
    apply lookup_replicate_2. lia.
  - exact Hdata.
  - exact Hwrap.
  - cbn [BulkOffset] in Hloop.
    rewrite BulkToShadow_loop_set_EvictionParamsPtr, Hloop. cbn [rbind]. do 3 f_equal.
    cbn [MipImageData NewEvictionParams bHasRestored LRUNode FrameLastRendered] in *.
    rewrite length_replicate in Hl.
    assert (HM : MipImageData P' = BulkSlices t0 Data).
    { apply BulkSlices_eq; [exact Hl|].
      intros j Hj. apply (Hslots j). change (NumMips t0) with InNumMips in Hj. lia. }
    destruct P' as [m b f nd].
    cbn [MipImageData bHasRestored LRUNode FrameLastRendered] in HM, Hb, Hnode, Hf.
    rewrite HM, Hb, Hnode, Hf. reflexivity.
Qed.

(** X22: a deferrable 2D texture created from bulk data gets no GPU storage.
    [RHICreateTexture2D] returns it evicted, with the mips of the bulk data
    in its shadow store, mip after mip in the layout of [GetLockSize], and
    with no handle; with a compressed format the creation stops at
    [check(!GLFormat.bCompressed)]. *)
Theorem deferred_creation_fills_shadow_store (E : FEnv) (InSizeX InSizeY : Z)
    (Format : FPixelFormatInfo) (InNumMips : nat) (InFlags : Z) (Data : Buffer) :
  let t0 := NewTexture2D InSizeX InSizeY Format InNumMips InFlags in
  InNumMips <> 0%nat -> (InNumMips <= 32)%nat ->
  CanCreateAsEvicted E t0 = true ->
  (bCompressed Format = true ->
   RHICreateTexture2D E InSizeX InSizeY Format InNumMips InFlags (Some Data)
   = Err CheckFailed)
  /\ (bCompressed Format = false ->
      LockSizeFits t0 ->
      BulkOffset t0 InNumMips <= Z.of_nat (length Data) ->
      BulkOffset t0 InNumMips < 2 ^ 32 ->
      exists t P,
        RHICreateTexture2D E InSizeX InSizeY Format InNumMips InFlags (Some Data)
        = Ok t
        /\ IsEvicted t = true
        /\ GLStorage t = None
        /\ EvictionParamsPtr t = Some P
        /\ LRUNode P = None
        /\ MipImageData P = BulkSlices t0 Data
        /\ length (MipImageData P) = InNumMips
        /\ (forall i, (i < InNumMips)%nat ->
              MipImageData P !! i = Some (BulkSlice t0 Data i)
              /\ Z.of_nat (length (BulkSlice t0 Data i)) = fst (GetLockSize t i))
        /\ CanBeEvicted E t = Ok true).
Proof.
  intros t0 Hn H32 Hcreate. split.
  - intros Hcomp. unfold RHICreateTexture2D.
    destruct (Nat.eqb_spec InNumMips 0) as [H0|_]; [contradiction|].
    fold t0. rewrite bool_decide_false by (subst t0; cbn; apply is_Some_None).
    cbn [negb check rbind]. rewrite Hcreate.
    unfold InitializeGLTexture.
    cbn [IsEvicted EvictionParamsPtr set_EvictionParamsPtr NewEvictionParams
         bHasRestored negb PixelFormat].
    change (PixelFormat t0) with Format. rewrite Hcomp. reflexivity.
  - intros Hunc Hfit Hdata Hwrap.
    eexists _, _. split; [apply RHICreateTexture2D_deferred; assumption|].
    cbn [EvictionParamsPtr set_EvictionParamsPtr MipImageData LRUNode GLStorage].
    assert (Hlen : length (BulkSlices t0 Data) = InNumMips)
      by (unfold BulkSlices; rewrite length_map, length_seq; reflexivity).
    assert (Hall : forall i mip, BulkSlices t0 Data !! i = Some mip -> mip <> []).
    { intros i mip Hi. pose proof (lookup_lt_Some _ _ _ Hi) as Hlt.
      rewrite Hlen in Hlt. rewrite BulkSlices_lookup in Hi by exact Hlt.
      injection Hi as <-. intros Hnil.
      pose proof (BulkSlice_length t0 Data i Hfit) as Hsl.
      pose proof (BulkOffset_mono t0 (S i) (InNumMips - S i) Hfit) as [_ Hm].
      replace (S i + (InNumMips - S i))%nat with InNumMips in Hm by lia.
      rewrite Hnil in Hsl. cbn [length] in Hsl.
      pose proof (GetLockSize_pos t0 i Hfit). lia. }
    split_and!; try reflexivity; [exact Hlen | |].
    + intros i Hi. split; [apply BulkSlices_lookup, Hi|].
      rewrite (BulkSlice_length t0 Data i Hfit); [reflexivity|].
      pose proof (BulkOffset_mono t0 (S i) (InNumMips - S i) Hfit) as [_ Hm].
      replace (S i + (InNumMips - S i))%nat with InNumMips in Hm by lia. lia.
    + erewrite CanBeEvicted_not_aliased; [|reflexivity|reflexivity].
      match goal with
      | |- context [CanCreateAsEvicted E ?x] =>
          change (CanCreateAsEvicted E x) with (CanCreateAsEvicted E t0)
      end.
      rewrite Hcreate. cbn [MipImageData NumMips set_EvictionParamsPtr NewTexture2D].
      fold t0. rewrite Hlen, Nat.eqb_refl.
      rewrite AreAllMipsPresent_populated by exact Hall. reflexivity.
Qed.

Lemma deferred_creation_fills_shadow_store_witness :
  exists t P,
    RHICreateTexture2D DeferringEnv 2 2 G8 2 ShaderResourceStreamable
      (Some BulkFiveBytes) = Ok t
    /\ EvictionParamsPtr t = Some P
    /\ MipImageData P = [[Init x01; Init x02; Init x03; Init x04]; [Init x05]].
Proof.
  destruct (deferred_creation_fills_shadow_store DeferringEnv 2 2 G8 2
              ShaderResourceStreamable BulkFiveBytes) as [_ H];
    [lia | lia | vm_compute; reflexivity |].
  destruct H as (t & P & Ht & _ & _ & HP & _ & HM & _).
  - reflexivity.
  - vm_compute. intuition congruence.
  - vm_compute. discriminate.
  - vm_compute. reflexivity.
  - exists t, P. split_and!; [exact Ht | exact HP |]. rewrite HM. reflexivity.
Defined.

(* ===================================================================== *)
(** ** A restore uploads the shadow store                                  *)
(* ===================================================================== *)

Lemma ReleaseMipData_Ok (P : FTextureEvictionParams) (R : Z) :
  0 <= R < 2 ^ 31 -> Z.of_nat (length (MipImageData P)) < 2 ^ 31 ->
  exists P', ReleaseMipData P R = Ok P'.
Proof.
  intros HR Hlen. unfold ReleaseMipData.
  rewrite wrap_int32_uint32, wrap_int32_small by lia.
  rewrite ReleaseMipData_loop_spec by lia. cbn [rbind]. eauto.
Qed.

Lemma RetainMipsOf_range (E : FEnv) (t : FOpenGLTexture) (b : bool) :
  0 <= DeferTextureCreationKeepLowerMipCount E < 2 ^ 31 ->
  0 <= RetainMipsOf E t b < 2 ^ 31.
Proof.
  intros H. unfold RetainMipsOf.
  destruct (b && _ && _ && _); lia.
Qed.

Lemma restore_uploads_shadow_store_aux (E : FEnv) (w : FWorld) (k : positive)
    (b : bool) (t : FOpenGLTexture) (data : list Buffer) :
  Textures w !! k = Some t ->
  EvictedWithAllMips E t data ->
  FormatSupported E t ->
  NeedsFloatRGBAConversion E t = false ->
  k ∉ TextureLRU w ->
  0 <= DeferTextureCreationKeepLowerMipCount E < 2 ^ 31 ->
  exists w' t',
    RestoreEvictedGLResource E w k b = Ok w'
    /\ Textures w' !! k = Some t'
    /\ GLStorage t' = Some data
    /\ IsEvicted t' = false
    /\ PixelBuffers t' = replicate (NumMips t) None
    /\ Core t' = Core (set_EvictionParamsPtr t (EvictionParamsPtr t')).
Proof.
  intros Ht (Hcreate & Hal & Hc & Hsz & Hz & Hpbs & HN & Hlen
             & (P & HP & HM & Hres & Hnode) & Hsizes & Hname) Hfmt Hconv Hk Hkeep.
  unfold RestoreEvictedGLResource.
  rewrite Ht. cbn [deref rbind]. rewrite HP. cbn [deref rbind].
  rewrite Hres. cbn [negb check rbind].
  set (t1 := set_EvictionParamsPtr t (Some (set_bHasRestored P true))).
  rewrite (InitializeGLTextureInternal_Ok E (Resource t1) t1 0 None)
    by (assumption || exact Hfmt).
  cbn [rbind].
  rewrite HM, Hlen, Nat.eqb_refl. cbn [check rbind].
  change (set_Resource (set_GLStorage t1 ?s) (Resource t1))
    with (set_GLStorage (set_Resource t1 (Resource t)) s).
  assert (Ht1 : set_Resource t1 (Resource t) = t1)
    by (subst t1; clear; destruct t; reflexivity).
  rewrite Ht1.
  rewrite (RestoreMips_loop_upload E t1 (set_bHasRestored P true) data);
    try assumption; try reflexivity; try lia.
  2: { rewrite length_replicate. subst t1. cbn [PixelBuffers set_EvictionParamsPtr].
       rewrite Hpbs, length_replicate. lia. }
  cbn [rbind].
  rewrite (take_ge data) by lia.
  rewrite drop_ge
    by (rewrite length_replicate; subst t1; cbn [PixelBuffers set_EvictionParamsPtr];
        rewrite Hpbs, length_replicate; lia).
  rewrite app_nil_r.
  set (t3 := set_GLStorage t1 (Some data)).
  assert (Hcan : CanBeEvicted E t3 = Ok true).
  { rewrite (CanBeEvicted_not_aliased E t3 (set_bHasRestored P true));
      [|reflexivity|exact Hal].
    change (CanCreateAsEvicted E t3) with (CanCreateAsEvicted E t).
    rewrite Hcreate. cbn [MipImageData set_bHasRestored]. rewrite HM.
    change (NumMips t3) with (NumMips t). rewrite Hlen, Nat.eqb_refl.
    rewrite AreAllMipsPresent_populated; [reflexivity|].
    cbn [MipImageData set_bHasRestored]. rewrite HM.
    intros i mip Hi. apply (Hsizes i mip Hi). }
  rewrite Hcan. cbn [rbind].
  unfold LRU_Add. cbn [Textures set_Textures TextureLRU GFrameNumberRenderThread].
  rewrite lookup_insert_eq. cbn [deref rbind].
  change (EvictionParamsPtr t3) with (Some (set_bHasRestored P true)).
  rewrite bool_decide_true by eauto. cbn [check deref rbind].
  cbn [LRUNode set_bHasRestored]. rewrite Hnode. cbn [IsValidId negb check rbind].
  unfold LRU_Contains. rewrite bool_decide_false by exact Hk.
  cbn [negb check rbind].
  pose proof (RetainMipsOf_range E t3 b Hkeep) as HR.
  destruct (Nat.eqb_spec (length (TextureLRU w)) (LRUMax E)) as [Hfull|Hroom];
    cbn [negb rbind Textures set_Textures TextureLRU GFrameNumberRenderThread];
    rewrite lookup_insert_eq; cbn [deref rbind EvictionParamsPtr set_EvictionParamsPtr].
  - change (EvictionParamsPtr t3) with (Some (set_bHasRestored P true)).
    cbn [deref rbind].
    destruct (ReleaseMipData_Ok (set_bHasRestored P true) 0) as [P5 HP5];
      [lia | cbn [MipImageData set_bHasRestored]; rewrite HM; lia |].
    rewrite HP5. cbn [rbind]. eexists _, _. split; [reflexivity|].
    cbn [Textures set_Textures]. rewrite lookup_insert_eq.
    split; [reflexivity|].
    apply ReleaseMipData_frame in HP5 as (Hb5 & _).
    split_and!.
    + reflexivity.
    + unfold IsEvicted. cbn [EvictionParamsPtr set_EvictionParamsPtr].
      rewrite Hb5. reflexivity.
    + exact Hpbs.
    + reflexivity.
  - destruct (ReleaseMipData_Ok
                (set_FrameLastRendered
                   (set_LRUNode (set_bHasRestored P true) (Some k))
                   (GFrameNumberRenderThread w))
                (RetainMipsOf E t3 b)) as [P5 HP5];
      [exact HR
      | cbn [MipImageData set_bHasRestored set_LRUNode set_FrameLastRendered];
        rewrite HM; lia |].
    rewrite HP5. cbn [rbind]. eexists _, _. split; [reflexivity|].
    cbn [Textures set_Textures]. rewrite lookup_insert_eq.
    split; [reflexivity|].
    apply ReleaseMipData_frame in HP5 as (Hb5 & _).
    split_and!.
    + reflexivity.
    + unfold IsEvicted. cbn [EvictionParamsPtr set_EvictionParamsPtr].
      rewrite Hb5. reflexivity.
    + exact Hpbs.
    + reflexivity.
Qed.


(** X23: a restore uploads every shadow mip. Take a 2D texture that is
    evicted with all its mips in the shadow store ([EvictedWithAllMips]:
    deferrable, not aliased, named, fewer than [2^31] mips, no staging
    buffer outstanding, not registered, each shadow slot holding exactly the
    mip's lock size, which is not zero) and is not in the registry, whose
    format the driver supports ([FormatSupported]: an internal format other
    than [GL_NONE], sample limits of at least one) and whose data needs no
    conversion at unlock (it is not [PF_FloatRGBA] uploaded as unsigned
    bytes on Android), and a keep-lower-mip count below [2^31]. Then
    [RestoreEvictedGLResource] succeeds, with either value of
    [bAttemptToRetainMips] and whether or not the registry has room; after
    it the texture is not evicted, its GPU storage holds exactly the shadow
    data, mip by mip, no staging buffer is left, and the fields other than
    the eviction parameters are as before. *)
Theorem restore_uploads_shadow_store (E : FEnv) (w : FWorld) (k : positive)
    (b : bool) (t : FOpenGLTexture) (data : list Buffer) :
  Textures w !! k = Some t ->
  EvictedWithAllMips E t data ->
  FormatSupported E t ->
  NeedsFloatRGBAConversion E t = false ->
  k ∉ TextureLRU w ->
  0 <= DeferTextureCreationKeepLowerMipCount E < 2 ^ 31 ->
  exists w' t',
    RestoreEvictedGLResource E w k b = Ok w'
    /\ Textures w' !! k = Some t'
    /\ GLStorage t' = Some data
    /\ IsEvicted t' = false
    /\ PixelBuffers t' = replicate (NumMips t) None
    /\ Core t' = Core (set_EvictionParamsPtr t (EvictionParamsPtr t')).
Proof. apply restore_uploads_shadow_store_aux. Qed.

Lemma restore_uploads_shadow_store_witness :
  exists w' t',
    RestoreEvictedGLResource KeepOneEnv CreatedWorld 1 false = Ok w'
    /\ Textures w' !! 1%positive = Some t'
    /\ GLStorage t' = Some TwoMips.
Proof.
  destruct (restore_uploads_shadow_store KeepOneEnv CreatedWorld 1 false
              PopulatedTexture TwoMips) as (w' & t' & HR & Ht' & Hsto & _).
  - reflexivity.
  - unfold EvictedWithAllMips. split_and!; try reflexivity.
    + eexists. split_and!; reflexivity.
    + intros i mip Hi. destruct i as [|[|i]]; simpl in Hi; simplify_eq;
        split_and!; try discriminate; reflexivity.
    + discriminate.
  - unfold FormatSupported. split_and!; vm_compute; discriminate.
  - reflexivity.
  - apply not_elem_of_nil.
  - vm_compute. split; [discriminate | reflexivity].
  - exists w', t'. split_and!; assumption.
Defined.

Lemma RHICreateTexture2D_immediate (E : FEnv) (InSizeX InSizeY : Z)
    (Format : FPixelFormatInfo) (InNumMips : nat) (InFlags : Z) (Data : Buffer) :
  let t0 := NewTexture2D InSizeX InSizeY Format InNumMips InFlags in
  InNumMips <> 0%nat ->
  CanCreateAsEvicted E t0 = false ->
  FormatSupported E t0 ->
  GenTextures E <> 0 ->
  LockSizeFits t0 ->
  BulkOffset t0 InNumMips < 2 ^ 32 ->
  RHICreateTexture2D E InSizeX InSizeY Format InNumMips InFlags (Some Data)
  = Ok (set_Resource (set_GLStorage t0 (Some (BulkSlices t0 Data)))
          (GenTextures E)).
Proof.
  intros t0 Hn Hcreate Hfmt Hgen Hfit Hwrap.
  unfold RHICreateTexture2D.
  destruct (Nat.eqb_spec InNumMips 0) as [H0|_]; [contradiction|].
  fold t0. rewrite bool_decide_false by (subst t0; cbn; apply is_Some_None).
  cbn [negb check rbind]. rewrite Hcreate.
  unfold InitializeGLTexture.
  change (IsEvicted t0) with false. cbn [negb].
  rewrite (InitializeGLTextureInternal_Ok E (GenTextures E) t0 1 (Some Data))
    by assumption.
  do 4 f_equal.
  change (NumMips t0) with InNumMips.
  change (PixelBuffers t0) with (replicate InNumMips (@None FOpenGLPixelBuffer)).
  rewrite length_replicate.
  destruct (BulkToStorage_loop_spec t0 Data Hfit InNumMips 0 (replicate InNumMips []))
    as (Hl & Hslots).
  - rewrite length_replicate. lia.
  - exact Hwrap.
  - cbn [BulkOffset] in Hl, Hslots. rewrite length_replicate in Hl.
    apply BulkSlices_eq; [exact Hl|].
    intros j Hj. apply (Hslots j). change (NumMips t0) with InNumMips in Hj. lia.
Qed.

(** X24: deferring the creation of a texture does not change what ends up on
    the GPU. Take a 2D texture with between 1 and 32 mips, of an
    uncompressed format with single-texel blocks, whose sizes fit
    ([LockSizeFits]: width and height below [2^31], a positive block byte
    count, a mip 0 of less than [2^32] bytes), and bulk data that holds at
    least the bytes of all its mips, which together are fewer than [2^32].
    Take a configuration [E] that defers the texture ([CanCreateAsEvicted]
    holds) and a configuration [E'] that does not; under both the driver
    supports the format ([FormatSupported]) and hands out names other than
    [0]; under [E] the data needs no conversion at unlock (the texture is
    not [PF_FloatRGBA] uploaded as unsigned bytes on Android) and the
    keep-lower-mip count is below [2^31]. Created from the bulk data under
    [E] the texture has no GPU storage; put into a world under a key that
    is free and not in the registry and restored there, it has exactly the
    GPU images of the same texture created under [E']: the bulk data cut
    mip after mip. *)
Theorem deferred_creation_is_transparent (E E' : FEnv) (InSizeX InSizeY : Z)
    (Format : FPixelFormatInfo) (InNumMips : nat) (InFlags : Z) (Data : Buffer)
    (w : FWorld) (k : positive) (b : bool) :
  let t0 := NewTexture2D InSizeX InSizeY Format InNumMips InFlags in
  InNumMips <> 0%nat -> (InNumMips <= 32)%nat ->
  CanCreateAsEvicted E t0 = true ->
  CanCreateAsEvicted E' t0 = false ->
  bCompressed Format = false ->
  BlockSizeX Format = 1 -> BlockSizeY Format = 1 ->
  FormatSupported E t0 -> FormatSupported E' t0 ->
  NeedsFloatRGBAConversion E t0 = false ->
  GenTextures E <> 0 -> GenTextures E' <> 0 ->
  LockSizeFits t0 ->
  BulkOffset t0 InNumMips <= Z.of_nat (length Data) ->
  BulkOffset t0 InNumMips < 2 ^ 32 ->
  Textures w !! k = None -> (k ∉ TextureLRU w) ->
  0 <= DeferTextureCreationKeepLowerMipCount E < 2 ^ 31 ->
  exists deferred immediate w' restored,
    RHICreateTexture2D E InSizeX InSizeY Format InNumMips InFlags (Some Data)
    = Ok deferred
    /\ GLStorage deferred = None
    /\ RestoreEvictedGLResource E
         (set_Textures w (<[k := deferred]> (Textures w))) k b = Ok w'
    /\ Textures w' !! k = Some restored
    /\ RHICreateTexture2D E' InSizeX InSizeY Format InNumMips InFlags (Some Data)
       = Ok immediate
    /\ GLStorage restored = GLStorage immediate
    /\ GLStorage immediate = Some (BulkSlices t0 Data).
Proof.
  intros t0 Hn H32 Hcreate Hcreate' Hunc _ _ Hfmt Hfmt' Hconv Hgen Hgen'
         Hfit Hdata Hwrap Hfresh Hk Hkeep.
  set (deferred := set_Resource
          (set_EvictionParamsPtr t0
             (Some {| MipImageData := BulkSlices t0 Data; bHasRestored := false;
                      FrameLastRendered := 0; LRUNode := None |}))
          (GenTextures E)).
  assert (Hlen : length (BulkSlices t0 Data) = InNumMips)
    by (unfold BulkSlices; rewrite length_map, length_seq; reflexivity).
  assert (Hev : EvictedWithAllMips E deferred (BulkSlices t0 Data)).
  { unfold EvictedWithAllMips. split_and!; try reflexivity.
    - exact Hcreate.
    - change (NumMips deferred) with InNumMips. lia.
    - exact Hlen.
    - eexists. split_and!; reflexivity.
    - intros i mip Hi. pose proof (lookup_lt_Some _ _ _ Hi) as Hlt.
      rewrite Hlen in Hlt. rewrite BulkSlices_lookup in Hi by exact Hlt.
      injection Hi as <-.
      change (GetLockSize deferred i) with (GetLockSize t0 i).
      pose proof (BulkOffset_mono t0 (S i) (InNumMips - S i) Hfit) as [_ Hm].
      replace (S i + (InNumMips - S i))%nat with InNumMips in Hm by lia.
      pose proof (BulkSlice_length t0 Data i Hfit ltac:(lia)) as Hsl.
      pose proof (GetLockSize_pos t0 i Hfit) as [Hp Hs].
      split_and!; [|exact Hsl|lia].
      intros Hnil. rewrite Hnil in Hsl. cbn [length] in Hsl. lia.
    - exact Hgen. }
  destruct (restore_uploads_shadow_store_aux E
              (set_Textures w (<[k := deferred]> (Textures w))) k b deferred
              (BulkSlices t0 Data)) as (w' & restored & HR & Hres & Hsto & _).
  - cbn [Textures set_Textures]. apply lookup_insert_eq.
  - exact Hev.
  - exact Hfmt.
  - exact Hconv.
  - exact Hk.
  - exact Hkeep.
  - exists deferred,
      (set_Resource (set_GLStorage t0 (Some (BulkSlices t0 Data))) (GenTextures E')),
      w', restored.
    split_and!.
    + apply RHICreateTexture2D_deferred; assumption.
    + reflexivity.
    + exact HR.
    + exact Hres.
    + apply RHICreateTexture2D_immediate; assumption.
    + rewrite Hsto. reflexivity.
    + reflexivity.
Qed.

Lemma deferred_creation_is_transparent_witness :
  exists deferred immediate w' restored,
    RHICreateTexture2D DeferringEnv 2 2 G8 2 ShaderResourceStreamable
      (Some BulkFiveBytes) = Ok deferred
    /\ RestoreEvictedGLResource DeferringEnv
         (set_Textures InitialWorld (<[1%positive := deferred]> (Textures InitialWorld)))
         1 true = Ok w'
    /\ Textures w' !! 1%positive = Some restored
    /\ RHICreateTexture2D ImmediateEnv 2 2 G8 2 ShaderResourceStreamable
         (Some BulkFiveBytes) = Ok immediate
    /\ GLStorage restored = GLStorage immediate.
Proof.
  destruct (deferred_creation_is_transparent DeferringEnv ImmediateEnv 2 2 G8 2
              ShaderResourceStreamable BulkFiveBytes InitialWorld 1 true)
    as (d & i & w' & r & H1 & _ & H2 & H3 & H4 & H5 & _).
  - lia.
  - lia.
  - vm_compute. reflexivity.
  - vm_compute. reflexivity.
  - reflexivity.
  - reflexivity.
  - reflexivity.
  - unfold FormatSupported. split_and!; vm_compute; discriminate.
  - unfold FormatSupported. split_and!; vm_compute; discriminate.
  - reflexivity.
  - vm_compute. discriminate.
  - vm_compute. discriminate.
  - vm_compute. intuition congruence.
  - vm_compute. discriminate.
  - vm_compute. reflexivity.
  - reflexivity.
  - apply not_elem_of_nil.
  - vm_compute. split; [discriminate | reflexivity].
  - exists d, i, w', r. split_and!; assumption.
Defined.

(* ===================================================================== *)
(** ** Invalidating a resource in the cached GL state                      *)
(* ===================================================================== *)

Lemma StagesWithout_length (Resource : Z) (n : nat) (stages : list Cache.FTextureStage) :
  length (StagesWithout Resource n stages) = length stages.
Proof. unfold StagesWithout. apply length_imap. Qed.

Lemma StagesWithout_lookup (Resource : Z) (n j : nat)
    (stages : list Cache.FTextureStage) :
  StagesWithout Resource n stages !! j
  = (fun stage => if bool_decide (j < n)%nat && (Cache.Resource stage =? Resource)
                  then {| Cache.Target := GL_NONE; Cache.Resource := 0 |}
                  else stage) <$> stages !! j.
Proof. unfold StagesWithout. apply list_lookup_imap. Qed.

Lemma StagesWithout_0 (Resource : Z) (stages : list Cache.FTextureStage) :
  StagesWithout Resource 0 stages = stages.
Proof.
  apply list_eq. intros j. rewrite StagesWithout_lookup.
  destruct (stages !! j) as [stage|]; [|reflexivity]. cbn.
  rewrite bool_decide_false by lia. reflexivity.
Qed.

(** One [if] statement of the loop body moves a context from "invalidated
    below [i]" to "invalidated below [i + 1]". *)
Lemma InvalidateTextureStage_step (Resource : Z) (i : nat)
    (Textures0 : option (list Cache.FTextureStage)) (U : list Cache.FUAVStage) :
  (forall stages, Textures0 = Some stages -> (i < length stages)%nat) ->
  InvalidateTextureStage Resource i
    {| Cache.Textures := StagesWithout Resource i <$> Textures0; Cache.UAVs := U |}
  = Ok {| Cache.Textures := StagesWithout Resource (S i) <$> Textures0;
          Cache.UAVs := U |}.
Proof.
  intros Hlen. unfold InvalidateTextureStage. cbn [Cache.Textures Cache.UAVs].
  destruct Textures0 as [stages|]; [|reflexivity]. cbn [fmap option_fmap option_map].
  specialize (Hlen stages eq_refl).
  destruct (lookup_lt_is_Some_2 stages i Hlen) as [stage Hstage].
  assert (Hcur : StagesWithout Resource i stages !! i = Some stage).
  { rewrite StagesWithout_lookup, Hstage. cbn.
    rewrite bool_decide_false by lia. reflexivity. }
  rewrite (index_Some _ _ _ Hcur). cbn [rbind].
  assert (Hnext : (if Cache.Resource stage =? Resource
                   then <[i := {| Cache.Target := GL_NONE; Cache.Resource := 0 |}]>
                          (StagesWithout Resource i stages)
                   else StagesWithout Resource i stages)
                  = StagesWithout Resource (S i) stages).
  { apply list_eq. intros j. rewrite StagesWithout_lookup.
    destruct (decide (j = i)) as [->|Hne].
    - rewrite Hstage. cbn. rewrite bool_decide_true by lia. cbn [andb].
      destruct (Cache.Resource stage =? Resource).
      + apply list_lookup_insert_eq. rewrite StagesWithout_length. exact Hlen.
      + exact Hcur.
    - assert (Hsame : StagesWithout Resource i stages !! j
                      = (fun stage0 =>
                           if bool_decide (j < S i)%nat
                              && (Cache.Resource stage0 =? Resource)
                           then {| Cache.Target := GL_NONE; Cache.Resource := 0 |}
                           else stage0) <$> stages !! j).
      { rewrite StagesWithout_lookup. destruct (stages !! j) as [sj|]; [|reflexivity].
        cbn. destruct (decide (j < i)%nat).
        - rewrite !bool_decide_true by lia. reflexivity.
        - rewrite !bool_decide_false by lia. reflexivity. }
      destruct (Cache.Resource stage =? Resource).
      + rewrite list_lookup_insert_ne by congruence. exact Hsame.
      + exact Hsame. }
  destruct (Cache.Resource stage =? Resource); rewrite <- Hnext; reflexivity.
Qed.

Lemma InvalidateTextures_loop_spec (Resource : Z)
    (TS TR TP : option (list Cache.FTextureStage)) (US UR UP : list Cache.FUAVStage)
    (n : nat) :
  forall i : nat,
  (forall stages, TS = Some stages -> (i + n <= length stages)%nat) ->
  (forall stages, TR = Some stages -> (i + n <= length stages)%nat) ->
  (forall stages, TP = Some stages -> (i + n <= length stages)%nat) ->
  InvalidateTextures_loop n i Resource
    {| Cache.Textures := StagesWithout Resource i <$> TS; Cache.UAVs := US |}
    {| Cache.Textures := StagesWithout Resource i <$> TR; Cache.UAVs := UR |}
    {| Cache.Textures := StagesWithout Resource i <$> TP; Cache.UAVs := UP |}
  = Ok ({| Cache.Textures := StagesWithout Resource (i + n) <$> TS; Cache.UAVs := US |},
        {| Cache.Textures := StagesWithout Resource (i + n) <$> TR; Cache.UAVs := UR |},
        {| Cache.Textures := StagesWithout Resource (i + n) <$> TP; Cache.UAVs := UP |}).
Proof.
  induction n as [|n IH]; intros i HS HR HP.
  - rewrite Nat.add_0_r. reflexivity.
  - cbn [InvalidateTextures_loop].
    rewrite !InvalidateTextureStage_step
      by (intros stages Hst; first [specialize (HS stages Hst)
                                   | specialize (HR stages Hst)
                                   | specialize (HP stages Hst)]; lia).
    cbn [rbind]. rewrite IH by (intros stages Hst;
      first [specialize (HS stages Hst) | specialize (HR stages Hst)
            | specialize (HP stages Hst)]; lia).
    replace (S i + n)%nat with (i + S n)%nat by lia. reflexivity.
Qed.

Lemma StagesWithout_0_fmap (Resource : Z) (T : option (list Cache.FTextureStage)) :
  StagesWithout Resource 0 <$> T = T.
Proof. destruct T as [stages|]; [|reflexivity]. cbn. rewrite StagesWithout_0. reflexivity. Qed.

(** X25: after [InvalidateTextureResourceInCache] nothing in the cached
    state refers to the resource. When every context that has a stage array
    has a stage for each of the [GetMaxCombinedTextureImageUnits()] samplers,
    the call succeeds; in each of the three contexts every stage below the
    limit that was bound to the resource is reset to [GL_NONE] and resource
    0 and every other stage is untouched, so for a resource other than 0 no
    stage below the limit is bound to it any more; the resource has no
    entry in [TextureMipLimits], the other entries are kept; and the pending
    depth-stencil target is cleared exactly when it was the resource. *)
Theorem InvalidateTextureResourceInCache_clears (RHI : FOpenGLDynamicRHI)
    (Resource : Z) :
  let n := Z.to_nat (MaxCombinedTextureImageUnits RHI) in
  HasStages n (SharedContextState RHI) ->
  HasStages n (RenderingContextState RHI) ->
  HasStages n (PendingState RHI) ->
  exists RHI',
    InvalidateTextureResourceInCache RHI Resource = Ok RHI'
    /\ Cache.Textures (SharedContextState RHI')
       = StagesWithout Resource n <$> Cache.Textures (SharedContextState RHI)
    /\ Cache.Textures (RenderingContextState RHI')
       = StagesWithout Resource n <$> Cache.Textures (RenderingContextState RHI)
    /\ Cache.Textures (PendingState RHI')
       = StagesWithout Resource n <$> Cache.Textures (PendingState RHI)
    /\ (Resource <> 0 ->
        forall State stages j stage,
          State ∈ [SharedContextState RHI'; RenderingContextState RHI';
                   PendingState RHI'] ->
          Cache.Textures State = Some stages -> (j < n)%nat ->
          stages !! j = Some stage -> Cache.Resource stage <> Resource)
    /\ TextureMipLimits RHI' !! Resource = None
    /\ (forall r, r <> Resource ->
          TextureMipLimits RHI' !! r = TextureMipLimits RHI !! r)
    /\ DepthStencil RHI' <> Some Resource
    /\ (DepthStencil RHI <> Some Resource -> DepthStencil RHI' = DepthStencil RHI).
Proof.
  intros n HS HR HP.
  assert (Hloop : InvalidateTextures_loop n 0 Resource (SharedContextState RHI)
                    (RenderingContextState RHI) (PendingState RHI)
                  = Ok ({| Cache.Textures := StagesWithout Resource n
                                               <$> Cache.Textures (SharedContextState RHI);
                           Cache.UAVs := Cache.UAVs (SharedContextState RHI) |},
                        {| Cache.Textures := StagesWithout Resource n
                                               <$> Cache.Textures (RenderingContextState RHI);
                           Cache.UAVs := Cache.UAVs (RenderingContextState RHI) |},
                        {| Cache.Textures := StagesWithout Resource n
                                               <$> Cache.Textures (PendingState RHI);
                           Cache.UAVs := Cache.UAVs (PendingState RHI) |})).
  { pose proof (InvalidateTextures_loop_spec Resource
                  (Cache.Textures (SharedContextState RHI))
                  (Cache.Textures (RenderingContextState RHI))
                  (Cache.Textures (PendingState RHI))
                  (Cache.UAVs (SharedContextState RHI))
                  (Cache.UAVs (RenderingContextState RHI))
                  (Cache.UAVs (PendingState RHI)) n 0 HS HR HP) as H.
    rewrite !StagesWithout_0_fmap in H. cbn [Nat.add] in H.
    destruct (SharedContextState RHI), (RenderingContextState RHI), (PendingState RHI).
    exact H. }
  assert (Hstates : exists S' R' P',
            (if bool_decide (is_Some (Cache.Textures (SharedContextState RHI)))
                || bool_decide (is_Some (Cache.Textures (RenderingContextState RHI)))
                || bool_decide (is_Some (Cache.Textures (PendingState RHI)))
             then InvalidateTextures_loop n 0 Resource (SharedContextState RHI)
                    (RenderingContextState RHI) (PendingState RHI)
             else Ok (SharedContextState RHI, RenderingContextState RHI,
                      PendingState RHI)) = Ok (S', R', P')
            /\ Cache.Textures S' = StagesWithout Resource n
                                     <$> Cache.Textures (SharedContextState RHI)
            /\ Cache.Textures R' = StagesWithout Resource n
                                     <$> Cache.Textures (RenderingContextState RHI)
            /\ Cache.Textures P' = StagesWithout Resource n
                                     <$> Cache.Textures (PendingState RHI)).
  { destruct (Cache.Textures (SharedContextState RHI)) as [ss|] eqn:HTS;
    destruct (Cache.Textures (RenderingContextState RHI)) as [rs|] eqn:HTR;
    destruct (Cache.Textures (PendingState RHI)) as [ps|] eqn:HTP;
      try (rewrite ?bool_decide_true by eauto;
           rewrite ?bool_decide_false by (apply is_Some_None);
           cbn [orb]; rewrite Hloop; eexists _, _, _;
           split_and!; reflexivity).
    rewrite !bool_decide_false by (apply is_Some_None). cbn [orb].
    eexists _, _, _. split_and!; [reflexivity | | |]; cbn; assumption. }
  destruct Hstates as (S' & R' & P' & Hst & HS' & HR' & HP').
  unfold InvalidateTextureResourceInCache. fold n. rewrite Hst. cbn [rbind].
  eexists. split; [reflexivity|].
  cbn [SharedContextState RenderingContextState PendingState DepthStencil
       TextureMipLimits].
  split_and!.
  - exact HS'.
  - exact HR'.
  - exact HP'.
  - intros HR0 State stages j stage Hin Hstages Hj Hlook.
    assert (Horig : exists T0, Cache.Textures State = StagesWithout Resource n <$> T0).
    { rewrite !elem_of_cons in Hin. destruct Hin as [->|[->|[->|Hin]]]; eauto.
      apply elem_of_nil in Hin. contradiction. }
    destruct Horig as (T0 & HT0). rewrite Hstages in HT0.
    destruct T0 as [stages0|]; [|discriminate]. cbn in HT0. injection HT0 as ->.
    rewrite StagesWithout_lookup in Hlook.
    destruct (stages0 !! j) as [stage0|]; [|discriminate]. cbn in Hlook.
    injection Hlook as <-. rewrite bool_decide_true by exact Hj. cbn [andb].
    destruct (Z.eqb_spec (Cache.Resource stage0) Resource) as [_|Hne];
      [cbn; congruence | exact Hne].
  - apply lookup_delete_eq.
  - intros r Hr. apply lookup_delete_ne. congruence.
  - destruct (DepthStencil RHI) as [r|]; [|discriminate].
    destruct (Z.eqb_spec r Resource); [discriminate | congruence].
  - intros Hne. destruct (DepthStencil RHI) as [r|]; [|reflexivity].
    destruct (Z.eqb_spec r Resource); [congruence | reflexivity].
Qed.

Lemma InvalidateTextureResourceInCache_clears_witness :
  exists RHI', InvalidateTextureResourceInCache SmallRHI 7 = Ok RHI'
    /\ Cache.Textures (SharedContextState RHI')
       = Some [ {| Cache.Target := GL_NONE; Cache.Resource := 0 |};
                {| Cache.Target := GL_TEXTURE_2D; Cache.Resource := 9 |} ]
    /\ DepthStencil RHI' <> Some 7.
Proof.
  destruct (InvalidateTextureResourceInCache_clears SmallRHI 7)
    as (RHI' & H & HS & _ & _ & _ & _ & _ & HD & _).
  - intros stages Hst. injection Hst as <-. simpl. lia.
  - intros stages Hst. discriminate.
  - intros stages Hst. injection Hst as <-. simpl. lia.
  - exists RHI'. split_and!; [exact H | rewrite HS; reflexivity | exact HD].
Defined.

Lemma UAVsWithout_lookup (Resource : Z) (n j : nat) (stages : list Cache.FUAVStage) :
  UAVsWithout Resource n stages !! j
  = (fun stage => if bool_decide (j < n)%nat && (Cache.UAVResource stage =? Resource)
                  then {| Cache.Format := GL_NONE; Cache.UAVResource := 0 |}
                  else stage) <$> stages !! j.
Proof. unfold UAVsWithout. apply list_lookup_imap. Qed.

Lemma UAVsWithout_0 (Resource : Z) (stages : list Cache.FUAVStage) :
  UAVsWithout Resource 0 stages = stages.
Proof.
  apply list_eq. intros j. rewrite UAVsWithout_lookup.
  destruct (stages !! j) as [stage|]; [|reflexivity]. cbn.
  rewrite bool_decide_false by lia. reflexivity.
Qed.

Lemma InvalidateUAVStage_step (Resource : Z) (i : nat)
    (T : option (list Cache.FTextureStage)) (U : list Cache.FUAVStage) :
  (i < length U)%nat ->
  InvalidateUAVStage Resource i
    {| Cache.Textures := T; Cache.UAVs := UAVsWithout Resource i U |}
  = Ok {| Cache.Textures := T; Cache.UAVs := UAVsWithout Resource (S i) U |}.
Proof.
  intros Hlen. unfold InvalidateUAVStage. cbn [Cache.Textures Cache.UAVs].
  destruct (lookup_lt_is_Some_2 U i Hlen) as [stage Hstage].
  assert (Hcur : UAVsWithout Resource i U !! i = Some stage).
  { rewrite UAVsWithout_lookup, Hstage. cbn.
    rewrite bool_decide_false by lia. reflexivity. }
  rewrite (index_Some _ _ _ Hcur). cbn [rbind].
  assert (Hnext : (if Cache.UAVResource stage =? Resource
                   then <[i := {| Cache.Format := GL_NONE; Cache.UAVResource := 0 |}]>
                          (UAVsWithout Resource i U)
                   else UAVsWithout Resource i U)
                  = UAVsWithout Resource (S i) U).
  { apply list_eq. intros j. rewrite UAVsWithout_lookup.
    destruct (decide (j = i)) as [->|Hne].
    - rewrite Hstage. cbn. rewrite bool_decide_true by lia. cbn [andb].
      destruct (Cache.UAVResource stage =? Resource).
      + apply list_lookup_insert_eq. unfold UAVsWithout. rewrite length_imap.
        exact Hlen.
      + exact Hcur.
    - assert (Hsame : UAVsWithout Resource i U !! j
                      = (fun stage0 =>
                           if bool_decide (j < S i)%nat
                              && (Cache.UAVResource stage0 =? Resource)
                           then {| Cache.Format := GL_NONE; Cache.UAVResource := 0 |}
                           else stage0) <$> U !! j).
      { rewrite UAVsWithout_lookup. destruct (U !! j) as [sj|]; [|reflexivity].
        cbn. destruct (decide (j < i)%nat).
        - rewrite !bool_decide_true by lia. reflexivity.
        - rewrite !bool_decide_false by lia. reflexivity. }
      destruct (Cache.UAVResource stage =? Resource).
      + rewrite list_lookup_insert_ne by congruence. exact Hsame.
      + exact Hsame. }
  destruct (Cache.UAVResource stage =? Resource); rewrite <- Hnext; reflexivity.
Qed.

Lemma InvalidateUAVs_loop_spec (Resource : Z)
    (TS TR TP : option (list Cache.FTextureStage)) (US UR UP : list Cache.FUAVStage)
    (n : nat) :
  forall i : nat,
  (i + n <= length US)%nat -> (i + n <= length UR)%nat -> (i + n <= length UP)%nat ->
  InvalidateUAVs_loop n i Resource
    {| Cache.Textures := TS; Cache.UAVs := UAVsWithout Resource i US |}
    {| Cache.Textures := TR; Cache.UAVs := UAVsWithout Resource i UR |}
    {| Cache.Textures := TP; Cache.UAVs := UAVsWithout Resource i UP |}
  = Ok ({| Cache.Textures := TS; Cache.UAVs := UAVsWithout Resource (i + n) US |},
        {| Cache.Textures := TR; Cache.UAVs := UAVsWithout Resource (i + n) UR |},
        {| Cache.Textures := TP; Cache.UAVs := UAVsWithout Resource (i + n) UP |}).
Proof.
  induction n as [|n IH]; intros i HS HR HP.
  - rewrite Nat.add_0_r. reflexivity.
  - cbn [InvalidateUAVs_loop].
    rewrite !InvalidateUAVStage_step by lia. cbn [rbind].
    rewrite IH by lia.
    replace (S i + n)%nat with (i + S n)%nat by lia. reflexivity.
Qed.

(** X26: after [InvalidateUAVResourceInCache] no image unit refers to the
    resource. When each of the three contexts has a UAV stage for every unit
    below [GetMaxCombinedUAVUnits()], the call succeeds; in each context
    every stage below the limit that was bound to the resource is reset to
    [GL_NONE] and resource 0, every other stage and everything else in the
    state is untouched, and for a resource other than 0 no stage below the
    limit is bound to it any more. *)
Theorem InvalidateUAVResourceInCache_clears (RHI : FOpenGLDynamicRHI)
    (Resource : Z) :
  let n := Z.to_nat (MaxCombinedUAVUnits RHI) in
  (n <= length (Cache.UAVs (SharedContextState RHI)))%nat ->
  (n <= length (Cache.UAVs (RenderingContextState RHI)))%nat ->
  (n <= length (Cache.UAVs (PendingState RHI)))%nat ->
  exists RHI',
    InvalidateUAVResourceInCache RHI Resource = Ok RHI'
    /\ Cache.UAVs (SharedContextState RHI')
       = UAVsWithout Resource n (Cache.UAVs (SharedContextState RHI))
    /\ Cache.UAVs (RenderingContextState RHI')
       = UAVsWithout Resource n (Cache.UAVs (RenderingContextState RHI))
    /\ Cache.UAVs (PendingState RHI')
       = UAVsWithout Resource n (Cache.UAVs (PendingState RHI))
    /\ Cache.Textures (SharedContextState RHI')
       = Cache.Textures (SharedContextState RHI)
    /\ Cache.Textures (RenderingContextState RHI')
       = Cache.Textures (RenderingContextState RHI)
    /\ Cache.Textures (PendingState RHI') = Cache.Textures (PendingState RHI)
    /\ DepthStencil RHI' = DepthStencil RHI
    /\ TextureMipLimits RHI' = TextureMipLimits RHI
    /\ (Resource <> 0 ->
        forall State j stage,
          State ∈ [SharedContextState RHI'; RenderingContextState RHI';
                   PendingState RHI'] ->
          (j < n)%nat -> Cache.UAVs State !! j = Some stage ->
          Cache.UAVResource stage <> Resource).
Proof.
  intros n HS HR HP.
  pose proof (InvalidateUAVs_loop_spec Resource
                (Cache.Textures (SharedContextState RHI))
                (Cache.Textures (RenderingContextState RHI))
                (Cache.Textures (PendingState RHI))
                (Cache.UAVs (SharedContextState RHI))
                (Cache.UAVs (RenderingContextState RHI))
                (Cache.UAVs (PendingState RHI)) n 0 HS HR HP) as Hloop.
  rewrite !UAVsWithout_0 in Hloop. cbn [Nat.add] in Hloop.
  unfold InvalidateUAVResourceInCache. fold n.
  destruct (SharedContextState RHI) as [TS US] eqn:ES.
  destruct (RenderingContextState RHI) as [TR UR] eqn:ER.
  destruct (PendingState RHI) as [TP UP] eqn:EP.
  cbn [Cache.Textures Cache.UAVs] in *.
  rewrite Hloop. cbn [rbind]. eexists. split; [reflexivity|].
  cbn [SharedContextState RenderingContextState PendingState DepthStencil
       TextureMipLimits Cache.Textures Cache.UAVs].
  split_and!; try reflexivity.
  intros HR0 State j stage Hin Hj Hlook.
  assert (Horig : exists U0, Cache.UAVs State = UAVsWithout Resource n U0).
  { rewrite !elem_of_cons in Hin. destruct Hin as [->|[->|[->|Hin]]]; cbn; eauto.
    apply elem_of_nil in Hin. contradiction. }
  destruct Horig as (U0 & HU0). rewrite HU0, UAVsWithout_lookup in Hlook.
  destruct (U0 !! j) as [stage0|]; [|discriminate]. cbn in Hlook.
  injection Hlook as <-. rewrite bool_decide_true by exact Hj. cbn [andb].
  destruct (Z.eqb_spec (Cache.UAVResource stage0) Resource) as [_|Hne];
    [cbn; congruence | exact Hne].
Qed.

Lemma InvalidateUAVResourceInCache_clears_witness :
  exists RHI', InvalidateUAVResourceInCache SmallRHI 7 = Ok RHI'
    /\ Cache.UAVs (SharedContextState RHI')
       = [ {| Cache.Format := GL_NONE; Cache.UAVResource := 0 |} ]
    /\ Cache.UAVs (RenderingContextState RHI')
       = [ {| Cache.Format := 0x8058; Cache.UAVResource := 3 |} ].
Proof.
  destruct (InvalidateUAVResourceInCache_clears SmallRHI 7)
    as (RHI' & H & HS & HR & _); [simpl; lia | simpl; lia | simpl; lia |].
  exists RHI'. split_and!; [exact H | rewrite HS; reflexivity | rewrite HR; reflexivity].
Defined.
